(** * Widelands default computer player: a shallow embedding

    The decision engine lives in [DefaultAI] (the second document of
    [src/src/economy/transport.h], originally [ai/defaultai.cc]).  This
    development embeds the parts of it that the specification makes
    statements about and proves or refutes those statements.

    Conventions.
    - C++ integers are modelled as [Z]; [/] and [%] of C++ are [Z.quot]
      and [Z.rem].  The observer structs are declared in a header that is
      not part of the sources, so field widths are not known and no
      wrap-around is modelled for them.
    - Pointers to host objects (buildings, flags, roads, economies) are
      modelled as serial numbers; what the host answers about them is a
      field of the record [Game].
    - [std::list]/[std::vector]/[std::deque] are Rocq lists, front first.
    - Commands sent to the host are collected in a list, oldest first. *)

From Stdlib Require Import ZArith Lia Bool Uint63.
From Corelib Require Import PrimFloat FloatOps SpecFloat.
From stdpp Require Import base list strings.

Local Open Scope Z_scope.

(** ** Host data *)

Definition Coords : Type := Z * Z.
Abbreviation PlayerNumber := Z (only parsing).
Abbreviation WareIndex := nat (only parsing).
(** The identity of a host object (the address behind a pointer). *)
Abbreviation Serial := nat (only parsing).

Definition coords_eqb (a b : Coords) : bool :=
  (fst a =? fst b) && (snd a =? snd b).

(** Modelled from the spec: the build-capability bit mask of a tile
    (NONE / FLAG / SMALL / MEDIUM / BIG / MINE); the enumeration itself is
    declared in a header outside the sources. *)
Definition BUILDCAPS_SIZEMASK : Z := 3.
Definition BUILDCAPS_SMALL : Z := 1.
Definition BUILDCAPS_MEDIUM : Z := 2.
Definition BUILDCAPS_BIG : Z := 3.
Definition BUILDCAPS_FLAG : Z := 4.
Definition BUILDCAPS_MINE : Z := 8.

(** The static class of a building descriptor, as tested with [typeid]
    and [dynamic_cast] in the sources. *)
Inductive DescrClass :=
  | ProductionSiteDescr
  | MilitarySiteDescr
  | WarehouseDescr
  | TrainingSiteDescr
  | ConstructionSiteDescr
  | OtherDescr.

Record BuildingDescr := {
  descr_name : string;
  descr_class : DescrClass;
  get_ismine : bool;
  get_size : Z;
  enhancement : option Z;          (* [None] is INVALID_INDEX *)
  get_conquers : Z;
  get_max_number_of_soldiers : Z
}.

(** The dynamic class of a building on the map. *)
Inductive BuildingClass :=
  | ConstructionSite (target : BuildingDescr)
  | ProductionSite
  | TrainingSite
  | MilitarySite (max_soldier_capacity stationed_soldiers : Z)
  | Warehouse
  | PlainBuilding.

Record Building := {
  b_serial : Serial;
  b_descr : BuildingDescr;
  b_class : BuildingClass;
  b_position : Coords
}.

Inductive ImmovableKind :=
  | IsBuilding (b : Building)
  | IsFlag (f : Serial)
  | IsRoad (r : Serial)
  | IsOther.

(** [imm_owner] is [Some pn] for a [PlayerImmovable]; trees, stones and
    the like have no owner. *)
Record BaseImmovable := {
  imm_owner : option PlayerNumber;
  imm_kind : ImmovableKind;
  attr_tree : bool;
  attr_granite : bool
}.

Record ImmovableFound := {
  object : BaseImmovable;
  found_coords : Coords
}.

Definition as_building (imm : BaseImmovable) : option Building :=
  match imm_kind imm with IsBuilding b => Some b | _ => None end.

Definition is_Flag (imm : BaseImmovable) : bool :=
  match imm_kind imm with IsFlag _ => true | _ => false end.

Definition is_Road (imm : BaseImmovable) : bool :=
  match imm_kind imm with IsRoad _ => true | _ => false end.

(** What the engine reads from the running game.  Every field stands for
    one accessor of the map, the player, an economy, a flag or a road. *)
Record Game := {
  get_gametime : Z;
  player_number : PlayerNumber;
  is_hostile : PlayerNumber -> bool;
  (* map *)
  calc_distance : Coords -> Coords -> Z;
  get_brn : Coords -> Coords;
  get_immovable : Coords -> option BaseImmovable;
  nodecaps : Coords -> Z;
  get_buildcaps : Coords -> Z;
  get_owned_by : Coords -> PlayerNumber;
  get_resources : Coords -> Z;
  get_resources_amount : Coords -> Z;
  find_immovables : Coords -> Z -> list ImmovableFound;
  find_unowned : Coords -> Z -> Z;
  find_unowned_mines_pots : Coords -> Z -> Z;
  find_water : Coords -> Z -> list Coords;
  find_fish : Coords -> Z -> list Coords;
  find_critters : Coords -> Z -> Z;
  map_region : Coords -> Z -> list Coords;
  (* economies *)
  warehouses_empty : Serial -> bool;
  stock_ware : Serial -> Z -> Z;
  needs_ware : Serial -> Z -> bool;
  (* flags *)
  flag_economy : Serial -> Serial;
  flag_building : Serial -> option Building;
  flag_is_dead_end : Serial -> bool;
  flag_current_wares : Serial -> Z;
  flag_nr_of_roads : Serial -> Z;
  (* roads *)
  road_coords : Serial -> list Coords;
  (* players and statistics: [get_player p] tells whether slot [p] is in
     use, [get_general_statistics] holds the [miltary_strength] series of
     every slot, oldest sample first *)
  get_nrplayers : Z;
  get_player : PlayerNumber -> bool;
  get_general_statistics : list (list Z)
}.

Definition size {A} (l : list A) : Z := Z.of_nat (length l).

(** ** Observer structs *)

Inductive ObserverType :=
  | BORING
  | CONSTRUCTIONSITE
  | PRODUCTIONSITE
  | MILITARYSITE
  | WAREHOUSE
  | TRAININGSITE
  | MINE.

Definition ObserverType_eqb (a b : ObserverType) : bool :=
  match a, b with
  | BORING, BORING | CONSTRUCTIONSITE, CONSTRUCTIONSITE
  | PRODUCTIONSITE, PRODUCTIONSITE | MILITARYSITE, MILITARYSITE
  | WAREHOUSE, WAREHOUSE | TRAININGSITE, TRAININGSITE | MINE, MINE => true
  | _, _ => false
  end.

(** One observer per building type of the tribe.  [buildable] stands for
    [bo.buildable(player)] and [desc] for the descriptor behind [bo.desc];
    the struct and its helpers are declared in a header outside the sources. *)
Record BuildingObserver := {
  bo_name : string;
  bo_id : Z;
  desc : BuildingDescr;
  bo_type : ObserverType;
  buildable : bool;
  need_trees_ : bool;
  need_stones_ : bool;
  need_water_ : bool;
  mines_water_ : bool;
  recruitment_ : bool;
  space_consumer_ : bool;
  expansion_type_ : bool;
  fighting_type_ : bool;
  mountain_conqueror_ : bool;
  plants_trees_ : bool;
  is_hunter_ : bool;
  is_fisher_ : bool;
  prohibited_till_ : Z;
  forced_after_ : Z;
  production_hint_ : Z;
  bo_mines_ : Z;
  cnt_built_ : Z;
  cnt_under_construction_ : Z;
  cnt_target_ : Z;
  stocklevel_ : Z;
  stocklevel_time : Z;
  construction_decision_time_ : Z;
  current_stats_ : Z;
  unoccupied_ : bool;
  inputs_ : list WareIndex;
  outputs_ : list WareIndex
}.

(** Modelled from the spec: [total_count()] of a building observer, buildings
    built plus buildings under construction (the helper is declared in the
    header outside the sources). *)
Definition total_count (bo : BuildingObserver) : Z :=
  cnt_built_ bo + cnt_under_construction_ bo.

Definition set_cnt_built_ (v : Z) (bo : BuildingObserver) : BuildingObserver :=
  {| bo_name := bo_name bo; bo_id := bo_id bo; desc := desc bo; bo_type := bo_type bo;
     buildable := buildable bo; need_trees_ := need_trees_ bo; need_stones_ := need_stones_
     bo; need_water_ := need_water_ bo; mines_water_ := mines_water_ bo; recruitment_ :=
     recruitment_ bo; space_consumer_ := space_consumer_ bo; expansion_type_ :=
     expansion_type_ bo; fighting_type_ := fighting_type_ bo; mountain_conqueror_ :=
     mountain_conqueror_ bo; plants_trees_ := plants_trees_ bo; is_hunter_ := is_hunter_ bo;
     is_fisher_ := is_fisher_ bo; prohibited_till_ := prohibited_till_ bo; forced_after_ :=
     forced_after_ bo; production_hint_ := production_hint_ bo; bo_mines_ := bo_mines_ bo;
     cnt_built_ := v; cnt_under_construction_ := cnt_under_construction_ bo; cnt_target_ :=
     cnt_target_ bo; stocklevel_ := stocklevel_ bo; stocklevel_time := stocklevel_time bo;
     construction_decision_time_ := construction_decision_time_ bo; current_stats_ :=
     current_stats_ bo; unoccupied_ := unoccupied_ bo; inputs_ := inputs_ bo; outputs_ :=
     outputs_ bo |}.

Definition set_cnt_under_construction_ (v : Z) (bo : BuildingObserver) : BuildingObserver :=
  {| bo_name := bo_name bo; bo_id := bo_id bo; desc := desc bo; bo_type := bo_type bo;
     buildable := buildable bo; need_trees_ := need_trees_ bo; need_stones_ := need_stones_
     bo; need_water_ := need_water_ bo; mines_water_ := mines_water_ bo; recruitment_ :=
     recruitment_ bo; space_consumer_ := space_consumer_ bo; expansion_type_ :=
     expansion_type_ bo; fighting_type_ := fighting_type_ bo; mountain_conqueror_ :=
     mountain_conqueror_ bo; plants_trees_ := plants_trees_ bo; is_hunter_ := is_hunter_ bo;
     is_fisher_ := is_fisher_ bo; prohibited_till_ := prohibited_till_ bo; forced_after_ :=
     forced_after_ bo; production_hint_ := production_hint_ bo; bo_mines_ := bo_mines_ bo;
     cnt_built_ := cnt_built_ bo; cnt_under_construction_ := v; cnt_target_ := cnt_target_
     bo; stocklevel_ := stocklevel_ bo; stocklevel_time := stocklevel_time bo;
     construction_decision_time_ := construction_decision_time_ bo; current_stats_ :=
     current_stats_ bo; unoccupied_ := unoccupied_ bo; inputs_ := inputs_ bo; outputs_ :=
     outputs_ bo |}.

Definition set_cnt_target_ (v : Z) (bo : BuildingObserver) : BuildingObserver :=
  {| bo_name := bo_name bo; bo_id := bo_id bo; desc := desc bo; bo_type := bo_type bo;
     buildable := buildable bo; need_trees_ := need_trees_ bo; need_stones_ := need_stones_
     bo; need_water_ := need_water_ bo; mines_water_ := mines_water_ bo; recruitment_ :=
     recruitment_ bo; space_consumer_ := space_consumer_ bo; expansion_type_ :=
     expansion_type_ bo; fighting_type_ := fighting_type_ bo; mountain_conqueror_ :=
     mountain_conqueror_ bo; plants_trees_ := plants_trees_ bo; is_hunter_ := is_hunter_ bo;
     is_fisher_ := is_fisher_ bo; prohibited_till_ := prohibited_till_ bo; forced_after_ :=
     forced_after_ bo; production_hint_ := production_hint_ bo; bo_mines_ := bo_mines_ bo;
     cnt_built_ := cnt_built_ bo; cnt_under_construction_ := cnt_under_construction_ bo;
     cnt_target_ := v; stocklevel_ := stocklevel_ bo; stocklevel_time := stocklevel_time bo;
     construction_decision_time_ := construction_decision_time_ bo; current_stats_ :=
     current_stats_ bo; unoccupied_ := unoccupied_ bo; inputs_ := inputs_ bo; outputs_ :=
     outputs_ bo |}.

Definition set_stocklevel_ (v : Z) (bo : BuildingObserver) : BuildingObserver :=
  {| bo_name := bo_name bo; bo_id := bo_id bo; desc := desc bo; bo_type := bo_type bo;
     buildable := buildable bo; need_trees_ := need_trees_ bo; need_stones_ := need_stones_
     bo; need_water_ := need_water_ bo; mines_water_ := mines_water_ bo; recruitment_ :=
     recruitment_ bo; space_consumer_ := space_consumer_ bo; expansion_type_ :=
     expansion_type_ bo; fighting_type_ := fighting_type_ bo; mountain_conqueror_ :=
     mountain_conqueror_ bo; plants_trees_ := plants_trees_ bo; is_hunter_ := is_hunter_ bo;
     is_fisher_ := is_fisher_ bo; prohibited_till_ := prohibited_till_ bo; forced_after_ :=
     forced_after_ bo; production_hint_ := production_hint_ bo; bo_mines_ := bo_mines_ bo;
     cnt_built_ := cnt_built_ bo; cnt_under_construction_ := cnt_under_construction_ bo;
     cnt_target_ := cnt_target_ bo; stocklevel_ := v; stocklevel_time := stocklevel_time bo;
     construction_decision_time_ := construction_decision_time_ bo; current_stats_ :=
     current_stats_ bo; unoccupied_ := unoccupied_ bo; inputs_ := inputs_ bo; outputs_ :=
     outputs_ bo |}.

Definition set_stocklevel_time (v : Z) (bo : BuildingObserver) : BuildingObserver :=
  {| bo_name := bo_name bo; bo_id := bo_id bo; desc := desc bo; bo_type := bo_type bo;
     buildable := buildable bo; need_trees_ := need_trees_ bo; need_stones_ := need_stones_
     bo; need_water_ := need_water_ bo; mines_water_ := mines_water_ bo; recruitment_ :=
     recruitment_ bo; space_consumer_ := space_consumer_ bo; expansion_type_ :=
     expansion_type_ bo; fighting_type_ := fighting_type_ bo; mountain_conqueror_ :=
     mountain_conqueror_ bo; plants_trees_ := plants_trees_ bo; is_hunter_ := is_hunter_ bo;
     is_fisher_ := is_fisher_ bo; prohibited_till_ := prohibited_till_ bo; forced_after_ :=
     forced_after_ bo; production_hint_ := production_hint_ bo; bo_mines_ := bo_mines_ bo;
     cnt_built_ := cnt_built_ bo; cnt_under_construction_ := cnt_under_construction_ bo;
     cnt_target_ := cnt_target_ bo; stocklevel_ := stocklevel_ bo; stocklevel_time := v;
     construction_decision_time_ := construction_decision_time_ bo; current_stats_ :=
     current_stats_ bo; unoccupied_ := unoccupied_ bo; inputs_ := inputs_ bo; outputs_ :=
     outputs_ bo |}.

Definition set_construction_decision_time_ (v : Z) (bo : BuildingObserver) : BuildingObserver :=
  {| bo_name := bo_name bo; bo_id := bo_id bo; desc := desc bo; bo_type := bo_type bo;
     buildable := buildable bo; need_trees_ := need_trees_ bo; need_stones_ := need_stones_
     bo; need_water_ := need_water_ bo; mines_water_ := mines_water_ bo; recruitment_ :=
     recruitment_ bo; space_consumer_ := space_consumer_ bo; expansion_type_ :=
     expansion_type_ bo; fighting_type_ := fighting_type_ bo; mountain_conqueror_ :=
     mountain_conqueror_ bo; plants_trees_ := plants_trees_ bo; is_hunter_ := is_hunter_ bo;
     is_fisher_ := is_fisher_ bo; prohibited_till_ := prohibited_till_ bo; forced_after_ :=
     forced_after_ bo; production_hint_ := production_hint_ bo; bo_mines_ := bo_mines_ bo;
     cnt_built_ := cnt_built_ bo; cnt_under_construction_ := cnt_under_construction_ bo;
     cnt_target_ := cnt_target_ bo; stocklevel_ := stocklevel_ bo; stocklevel_time :=
     stocklevel_time bo; construction_decision_time_ := v; current_stats_ := current_stats_
     bo; unoccupied_ := unoccupied_ bo; inputs_ := inputs_ bo; outputs_ := outputs_ bo |}.

Record WareObserver := {
  producers_ : Z;
  consumers_ : Z;
  preciousness_ : Z
}.

Record BuildableField := {
  bf_coords : Coords;
  bf_next_update_due_ : Z;
  bf_preferred_ : bool;
  enemy_nearby_ : bool;
  unowned_land_nearby_ : Z;
  near_border_ : bool;
  unowned_mines_pots_nearby_ : Z;
  trees_nearby_ : Z;
  stones_nearby_ : Z;
  water_nearby_ : Z;
  distant_water_ : Z;
  fish_nearby_ : Z;
  critters_nearby_ : Z;
  ground_water_ : Z;
  space_consumers_nearby_ : Z;
  producers_nearby_ : list Z;
  consumers_nearby_ : list Z;
  military_capacity_ : Z;
  military_loneliness_ : Z;
  military_in_constr_nearby_ : Z;
  military_presence_ : Z;
  military_stationed_ : Z
}.

Definition set_bf_preferred_ (v : bool) (field : BuildableField) : BuildableField :=
  {| bf_coords := bf_coords field; bf_next_update_due_ := bf_next_update_due_ field;
     bf_preferred_ := v; enemy_nearby_ := enemy_nearby_ field; unowned_land_nearby_ :=
     unowned_land_nearby_ field; near_border_ := near_border_ field;
     unowned_mines_pots_nearby_ := unowned_mines_pots_nearby_ field; trees_nearby_ :=
     trees_nearby_ field; stones_nearby_ := stones_nearby_ field; water_nearby_ :=
     water_nearby_ field; distant_water_ := distant_water_ field; fish_nearby_ :=
     fish_nearby_ field; critters_nearby_ := critters_nearby_ field; ground_water_ :=
     ground_water_ field; space_consumers_nearby_ := space_consumers_nearby_ field;
     producers_nearby_ := producers_nearby_ field; consumers_nearby_ := consumers_nearby_
     field; military_capacity_ := military_capacity_ field; military_loneliness_ :=
     military_loneliness_ field; military_in_constr_nearby_ := military_in_constr_nearby_
     field; military_presence_ := military_presence_ field; military_stationed_ :=
     military_stationed_ field |}.

Definition set_enemy_nearby_ (v : bool) (field : BuildableField) : BuildableField :=
  {| bf_coords := bf_coords field; bf_next_update_due_ := bf_next_update_due_ field;
     bf_preferred_ := bf_preferred_ field; enemy_nearby_ := v; unowned_land_nearby_ :=
     unowned_land_nearby_ field; near_border_ := near_border_ field;
     unowned_mines_pots_nearby_ := unowned_mines_pots_nearby_ field; trees_nearby_ :=
     trees_nearby_ field; stones_nearby_ := stones_nearby_ field; water_nearby_ :=
     water_nearby_ field; distant_water_ := distant_water_ field; fish_nearby_ :=
     fish_nearby_ field; critters_nearby_ := critters_nearby_ field; ground_water_ :=
     ground_water_ field; space_consumers_nearby_ := space_consumers_nearby_ field;
     producers_nearby_ := producers_nearby_ field; consumers_nearby_ := consumers_nearby_
     field; military_capacity_ := military_capacity_ field; military_loneliness_ :=
     military_loneliness_ field; military_in_constr_nearby_ := military_in_constr_nearby_
     field; military_presence_ := military_presence_ field; military_stationed_ :=
     military_stationed_ field |}.

Definition set_unowned_land_nearby_ (v : Z) (field : BuildableField) : BuildableField :=
  {| bf_coords := bf_coords field; bf_next_update_due_ := bf_next_update_due_ field;
     bf_preferred_ := bf_preferred_ field; enemy_nearby_ := enemy_nearby_ field;
     unowned_land_nearby_ := v; near_border_ := near_border_ field;
     unowned_mines_pots_nearby_ := unowned_mines_pots_nearby_ field; trees_nearby_ :=
     trees_nearby_ field; stones_nearby_ := stones_nearby_ field; water_nearby_ :=
     water_nearby_ field; distant_water_ := distant_water_ field; fish_nearby_ :=
     fish_nearby_ field; critters_nearby_ := critters_nearby_ field; ground_water_ :=
     ground_water_ field; space_consumers_nearby_ := space_consumers_nearby_ field;
     producers_nearby_ := producers_nearby_ field; consumers_nearby_ := consumers_nearby_
     field; military_capacity_ := military_capacity_ field; military_loneliness_ :=
     military_loneliness_ field; military_in_constr_nearby_ := military_in_constr_nearby_
     field; military_presence_ := military_presence_ field; military_stationed_ :=
     military_stationed_ field |}.

Definition set_near_border_ (v : bool) (field : BuildableField) : BuildableField :=
  {| bf_coords := bf_coords field; bf_next_update_due_ := bf_next_update_due_ field;
     bf_preferred_ := bf_preferred_ field; enemy_nearby_ := enemy_nearby_ field;
     unowned_land_nearby_ := unowned_land_nearby_ field; near_border_ := v;
     unowned_mines_pots_nearby_ := unowned_mines_pots_nearby_ field; trees_nearby_ :=
     trees_nearby_ field; stones_nearby_ := stones_nearby_ field; water_nearby_ :=
     water_nearby_ field; distant_water_ := distant_water_ field; fish_nearby_ :=
     fish_nearby_ field; critters_nearby_ := critters_nearby_ field; ground_water_ :=
     ground_water_ field; space_consumers_nearby_ := space_consumers_nearby_ field;
     producers_nearby_ := producers_nearby_ field; consumers_nearby_ := consumers_nearby_
     field; military_capacity_ := military_capacity_ field; military_loneliness_ :=
     military_loneliness_ field; military_in_constr_nearby_ := military_in_constr_nearby_
     field; military_presence_ := military_presence_ field; military_stationed_ :=
     military_stationed_ field |}.

Definition set_unowned_mines_pots_nearby_ (v : Z) (field : BuildableField) : BuildableField :=
  {| bf_coords := bf_coords field; bf_next_update_due_ := bf_next_update_due_ field;
     bf_preferred_ := bf_preferred_ field; enemy_nearby_ := enemy_nearby_ field;
     unowned_land_nearby_ := unowned_land_nearby_ field; near_border_ := near_border_ field;
     unowned_mines_pots_nearby_ := v; trees_nearby_ := trees_nearby_ field; stones_nearby_
     := stones_nearby_ field; water_nearby_ := water_nearby_ field; distant_water_ :=
     distant_water_ field; fish_nearby_ := fish_nearby_ field; critters_nearby_ :=
     critters_nearby_ field; ground_water_ := ground_water_ field; space_consumers_nearby_
     := space_consumers_nearby_ field; producers_nearby_ := producers_nearby_ field;
     consumers_nearby_ := consumers_nearby_ field; military_capacity_ := military_capacity_
     field; military_loneliness_ := military_loneliness_ field; military_in_constr_nearby_
     := military_in_constr_nearby_ field; military_presence_ := military_presence_ field;
     military_stationed_ := military_stationed_ field |}.

Definition set_trees_nearby_ (v : Z) (field : BuildableField) : BuildableField :=
  {| bf_coords := bf_coords field; bf_next_update_due_ := bf_next_update_due_ field;
     bf_preferred_ := bf_preferred_ field; enemy_nearby_ := enemy_nearby_ field;
     unowned_land_nearby_ := unowned_land_nearby_ field; near_border_ := near_border_ field;
     unowned_mines_pots_nearby_ := unowned_mines_pots_nearby_ field; trees_nearby_ := v;
     stones_nearby_ := stones_nearby_ field; water_nearby_ := water_nearby_ field;
     distant_water_ := distant_water_ field; fish_nearby_ := fish_nearby_ field;
     critters_nearby_ := critters_nearby_ field; ground_water_ := ground_water_ field;
     space_consumers_nearby_ := space_consumers_nearby_ field; producers_nearby_ :=
     producers_nearby_ field; consumers_nearby_ := consumers_nearby_ field;
     military_capacity_ := military_capacity_ field; military_loneliness_ :=
     military_loneliness_ field; military_in_constr_nearby_ := military_in_constr_nearby_
     field; military_presence_ := military_presence_ field; military_stationed_ :=
     military_stationed_ field |}.

Definition set_stones_nearby_ (v : Z) (field : BuildableField) : BuildableField :=
  {| bf_coords := bf_coords field; bf_next_update_due_ := bf_next_update_due_ field;
     bf_preferred_ := bf_preferred_ field; enemy_nearby_ := enemy_nearby_ field;
     unowned_land_nearby_ := unowned_land_nearby_ field; near_border_ := near_border_ field;
     unowned_mines_pots_nearby_ := unowned_mines_pots_nearby_ field; trees_nearby_ :=
     trees_nearby_ field; stones_nearby_ := v; water_nearby_ := water_nearby_ field;
     distant_water_ := distant_water_ field; fish_nearby_ := fish_nearby_ field;
     critters_nearby_ := critters_nearby_ field; ground_water_ := ground_water_ field;
     space_consumers_nearby_ := space_consumers_nearby_ field; producers_nearby_ :=
     producers_nearby_ field; consumers_nearby_ := consumers_nearby_ field;
     military_capacity_ := military_capacity_ field; military_loneliness_ :=
     military_loneliness_ field; military_in_constr_nearby_ := military_in_constr_nearby_
     field; military_presence_ := military_presence_ field; military_stationed_ :=
     military_stationed_ field |}.

Definition set_water_nearby_ (v : Z) (field : BuildableField) : BuildableField :=
  {| bf_coords := bf_coords field; bf_next_update_due_ := bf_next_update_due_ field;
     bf_preferred_ := bf_preferred_ field; enemy_nearby_ := enemy_nearby_ field;
     unowned_land_nearby_ := unowned_land_nearby_ field; near_border_ := near_border_ field;
     unowned_mines_pots_nearby_ := unowned_mines_pots_nearby_ field; trees_nearby_ :=
     trees_nearby_ field; stones_nearby_ := stones_nearby_ field; water_nearby_ := v;
     distant_water_ := distant_water_ field; fish_nearby_ := fish_nearby_ field;
     critters_nearby_ := critters_nearby_ field; ground_water_ := ground_water_ field;
     space_consumers_nearby_ := space_consumers_nearby_ field; producers_nearby_ :=
     producers_nearby_ field; consumers_nearby_ := consumers_nearby_ field;
     military_capacity_ := military_capacity_ field; military_loneliness_ :=
     military_loneliness_ field; military_in_constr_nearby_ := military_in_constr_nearby_
     field; military_presence_ := military_presence_ field; military_stationed_ :=
     military_stationed_ field |}.

Definition set_distant_water_ (v : Z) (field : BuildableField) : BuildableField :=
  {| bf_coords := bf_coords field; bf_next_update_due_ := bf_next_update_due_ field;
     bf_preferred_ := bf_preferred_ field; enemy_nearby_ := enemy_nearby_ field;
     unowned_land_nearby_ := unowned_land_nearby_ field; near_border_ := near_border_ field;
     unowned_mines_pots_nearby_ := unowned_mines_pots_nearby_ field; trees_nearby_ :=
     trees_nearby_ field; stones_nearby_ := stones_nearby_ field; water_nearby_ :=
     water_nearby_ field; distant_water_ := v; fish_nearby_ := fish_nearby_ field;
     critters_nearby_ := critters_nearby_ field; ground_water_ := ground_water_ field;
     space_consumers_nearby_ := space_consumers_nearby_ field; producers_nearby_ :=
     producers_nearby_ field; consumers_nearby_ := consumers_nearby_ field;
     military_capacity_ := military_capacity_ field; military_loneliness_ :=
     military_loneliness_ field; military_in_constr_nearby_ := military_in_constr_nearby_
     field; military_presence_ := military_presence_ field; military_stationed_ :=
     military_stationed_ field |}.

Definition set_fish_nearby_ (v : Z) (field : BuildableField) : BuildableField :=
  {| bf_coords := bf_coords field; bf_next_update_due_ := bf_next_update_due_ field;
     bf_preferred_ := bf_preferred_ field; enemy_nearby_ := enemy_nearby_ field;
     unowned_land_nearby_ := unowned_land_nearby_ field; near_border_ := near_border_ field;
     unowned_mines_pots_nearby_ := unowned_mines_pots_nearby_ field; trees_nearby_ :=
     trees_nearby_ field; stones_nearby_ := stones_nearby_ field; water_nearby_ :=
     water_nearby_ field; distant_water_ := distant_water_ field; fish_nearby_ := v;
     critters_nearby_ := critters_nearby_ field; ground_water_ := ground_water_ field;
     space_consumers_nearby_ := space_consumers_nearby_ field; producers_nearby_ :=
     producers_nearby_ field; consumers_nearby_ := consumers_nearby_ field;
     military_capacity_ := military_capacity_ field; military_loneliness_ :=
     military_loneliness_ field; military_in_constr_nearby_ := military_in_constr_nearby_
     field; military_presence_ := military_presence_ field; military_stationed_ :=
     military_stationed_ field |}.

Definition set_critters_nearby_ (v : Z) (field : BuildableField) : BuildableField :=
  {| bf_coords := bf_coords field; bf_next_update_due_ := bf_next_update_due_ field;
     bf_preferred_ := bf_preferred_ field; enemy_nearby_ := enemy_nearby_ field;
     unowned_land_nearby_ := unowned_land_nearby_ field; near_border_ := near_border_ field;
     unowned_mines_pots_nearby_ := unowned_mines_pots_nearby_ field; trees_nearby_ :=
     trees_nearby_ field; stones_nearby_ := stones_nearby_ field; water_nearby_ :=
     water_nearby_ field; distant_water_ := distant_water_ field; fish_nearby_ :=
     fish_nearby_ field; critters_nearby_ := v; ground_water_ := ground_water_ field;
     space_consumers_nearby_ := space_consumers_nearby_ field; producers_nearby_ :=
     producers_nearby_ field; consumers_nearby_ := consumers_nearby_ field;
     military_capacity_ := military_capacity_ field; military_loneliness_ :=
     military_loneliness_ field; military_in_constr_nearby_ := military_in_constr_nearby_
     field; military_presence_ := military_presence_ field; military_stationed_ :=
     military_stationed_ field |}.

Definition set_ground_water_ (v : Z) (field : BuildableField) : BuildableField :=
  {| bf_coords := bf_coords field; bf_next_update_due_ := bf_next_update_due_ field;
     bf_preferred_ := bf_preferred_ field; enemy_nearby_ := enemy_nearby_ field;
     unowned_land_nearby_ := unowned_land_nearby_ field; near_border_ := near_border_ field;
     unowned_mines_pots_nearby_ := unowned_mines_pots_nearby_ field; trees_nearby_ :=
     trees_nearby_ field; stones_nearby_ := stones_nearby_ field; water_nearby_ :=
     water_nearby_ field; distant_water_ := distant_water_ field; fish_nearby_ :=
     fish_nearby_ field; critters_nearby_ := critters_nearby_ field; ground_water_ := v;
     space_consumers_nearby_ := space_consumers_nearby_ field; producers_nearby_ :=
     producers_nearby_ field; consumers_nearby_ := consumers_nearby_ field;
     military_capacity_ := military_capacity_ field; military_loneliness_ :=
     military_loneliness_ field; military_in_constr_nearby_ := military_in_constr_nearby_
     field; military_presence_ := military_presence_ field; military_stationed_ :=
     military_stationed_ field |}.

Definition set_space_consumers_nearby_ (v : Z) (field : BuildableField) : BuildableField :=
  {| bf_coords := bf_coords field; bf_next_update_due_ := bf_next_update_due_ field;
     bf_preferred_ := bf_preferred_ field; enemy_nearby_ := enemy_nearby_ field;
     unowned_land_nearby_ := unowned_land_nearby_ field; near_border_ := near_border_ field;
     unowned_mines_pots_nearby_ := unowned_mines_pots_nearby_ field; trees_nearby_ :=
     trees_nearby_ field; stones_nearby_ := stones_nearby_ field; water_nearby_ :=
     water_nearby_ field; distant_water_ := distant_water_ field; fish_nearby_ :=
     fish_nearby_ field; critters_nearby_ := critters_nearby_ field; ground_water_ :=
     ground_water_ field; space_consumers_nearby_ := v; producers_nearby_ :=
     producers_nearby_ field; consumers_nearby_ := consumers_nearby_ field;
     military_capacity_ := military_capacity_ field; military_loneliness_ :=
     military_loneliness_ field; military_in_constr_nearby_ := military_in_constr_nearby_
     field; military_presence_ := military_presence_ field; military_stationed_ :=
     military_stationed_ field |}.

Definition set_producers_nearby_ (v : list Z) (field : BuildableField) : BuildableField :=
  {| bf_coords := bf_coords field; bf_next_update_due_ := bf_next_update_due_ field;
     bf_preferred_ := bf_preferred_ field; enemy_nearby_ := enemy_nearby_ field;
     unowned_land_nearby_ := unowned_land_nearby_ field; near_border_ := near_border_ field;
     unowned_mines_pots_nearby_ := unowned_mines_pots_nearby_ field; trees_nearby_ :=
     trees_nearby_ field; stones_nearby_ := stones_nearby_ field; water_nearby_ :=
     water_nearby_ field; distant_water_ := distant_water_ field; fish_nearby_ :=
     fish_nearby_ field; critters_nearby_ := critters_nearby_ field; ground_water_ :=
     ground_water_ field; space_consumers_nearby_ := space_consumers_nearby_ field;
     producers_nearby_ := v; consumers_nearby_ := consumers_nearby_ field;
     military_capacity_ := military_capacity_ field; military_loneliness_ :=
     military_loneliness_ field; military_in_constr_nearby_ := military_in_constr_nearby_
     field; military_presence_ := military_presence_ field; military_stationed_ :=
     military_stationed_ field |}.

Definition set_consumers_nearby_ (v : list Z) (field : BuildableField) : BuildableField :=
  {| bf_coords := bf_coords field; bf_next_update_due_ := bf_next_update_due_ field;
     bf_preferred_ := bf_preferred_ field; enemy_nearby_ := enemy_nearby_ field;
     unowned_land_nearby_ := unowned_land_nearby_ field; near_border_ := near_border_ field;
     unowned_mines_pots_nearby_ := unowned_mines_pots_nearby_ field; trees_nearby_ :=
     trees_nearby_ field; stones_nearby_ := stones_nearby_ field; water_nearby_ :=
     water_nearby_ field; distant_water_ := distant_water_ field; fish_nearby_ :=
     fish_nearby_ field; critters_nearby_ := critters_nearby_ field; ground_water_ :=
     ground_water_ field; space_consumers_nearby_ := space_consumers_nearby_ field;
     producers_nearby_ := producers_nearby_ field; consumers_nearby_ := v;
     military_capacity_ := military_capacity_ field; military_loneliness_ :=
     military_loneliness_ field; military_in_constr_nearby_ := military_in_constr_nearby_
     field; military_presence_ := military_presence_ field; military_stationed_ :=
     military_stationed_ field |}.

Definition set_military_capacity_ (v : Z) (field : BuildableField) : BuildableField :=
  {| bf_coords := bf_coords field; bf_next_update_due_ := bf_next_update_due_ field;
     bf_preferred_ := bf_preferred_ field; enemy_nearby_ := enemy_nearby_ field;
     unowned_land_nearby_ := unowned_land_nearby_ field; near_border_ := near_border_ field;
     unowned_mines_pots_nearby_ := unowned_mines_pots_nearby_ field; trees_nearby_ :=
     trees_nearby_ field; stones_nearby_ := stones_nearby_ field; water_nearby_ :=
     water_nearby_ field; distant_water_ := distant_water_ field; fish_nearby_ :=
     fish_nearby_ field; critters_nearby_ := critters_nearby_ field; ground_water_ :=
     ground_water_ field; space_consumers_nearby_ := space_consumers_nearby_ field;
     producers_nearby_ := producers_nearby_ field; consumers_nearby_ := consumers_nearby_
     field; military_capacity_ := v; military_loneliness_ := military_loneliness_ field;
     military_in_constr_nearby_ := military_in_constr_nearby_ field; military_presence_ :=
     military_presence_ field; military_stationed_ := military_stationed_ field |}.

Definition set_military_loneliness_ (v : Z) (field : BuildableField) : BuildableField :=
  {| bf_coords := bf_coords field; bf_next_update_due_ := bf_next_update_due_ field;
     bf_preferred_ := bf_preferred_ field; enemy_nearby_ := enemy_nearby_ field;
     unowned_land_nearby_ := unowned_land_nearby_ field; near_border_ := near_border_ field;
     unowned_mines_pots_nearby_ := unowned_mines_pots_nearby_ field; trees_nearby_ :=
     trees_nearby_ field; stones_nearby_ := stones_nearby_ field; water_nearby_ :=
     water_nearby_ field; distant_water_ := distant_water_ field; fish_nearby_ :=
     fish_nearby_ field; critters_nearby_ := critters_nearby_ field; ground_water_ :=
     ground_water_ field; space_consumers_nearby_ := space_consumers_nearby_ field;
     producers_nearby_ := producers_nearby_ field; consumers_nearby_ := consumers_nearby_
     field; military_capacity_ := military_capacity_ field; military_loneliness_ := v;
     military_in_constr_nearby_ := military_in_constr_nearby_ field; military_presence_ :=
     military_presence_ field; military_stationed_ := military_stationed_ field |}.

Definition set_military_in_constr_nearby_ (v : Z) (field : BuildableField) : BuildableField :=
  {| bf_coords := bf_coords field; bf_next_update_due_ := bf_next_update_due_ field;
     bf_preferred_ := bf_preferred_ field; enemy_nearby_ := enemy_nearby_ field;
     unowned_land_nearby_ := unowned_land_nearby_ field; near_border_ := near_border_ field;
     unowned_mines_pots_nearby_ := unowned_mines_pots_nearby_ field; trees_nearby_ :=
     trees_nearby_ field; stones_nearby_ := stones_nearby_ field; water_nearby_ :=
     water_nearby_ field; distant_water_ := distant_water_ field; fish_nearby_ :=
     fish_nearby_ field; critters_nearby_ := critters_nearby_ field; ground_water_ :=
     ground_water_ field; space_consumers_nearby_ := space_consumers_nearby_ field;
     producers_nearby_ := producers_nearby_ field; consumers_nearby_ := consumers_nearby_
     field; military_capacity_ := military_capacity_ field; military_loneliness_ :=
     military_loneliness_ field; military_in_constr_nearby_ := v; military_presence_ :=
     military_presence_ field; military_stationed_ := military_stationed_ field |}.

Definition set_military_presence_ (v : Z) (field : BuildableField) : BuildableField :=
  {| bf_coords := bf_coords field; bf_next_update_due_ := bf_next_update_due_ field;
     bf_preferred_ := bf_preferred_ field; enemy_nearby_ := enemy_nearby_ field;
     unowned_land_nearby_ := unowned_land_nearby_ field; near_border_ := near_border_ field;
     unowned_mines_pots_nearby_ := unowned_mines_pots_nearby_ field; trees_nearby_ :=
     trees_nearby_ field; stones_nearby_ := stones_nearby_ field; water_nearby_ :=
     water_nearby_ field; distant_water_ := distant_water_ field; fish_nearby_ :=
     fish_nearby_ field; critters_nearby_ := critters_nearby_ field; ground_water_ :=
     ground_water_ field; space_consumers_nearby_ := space_consumers_nearby_ field;
     producers_nearby_ := producers_nearby_ field; consumers_nearby_ := consumers_nearby_
     field; military_capacity_ := military_capacity_ field; military_loneliness_ :=
     military_loneliness_ field; military_in_constr_nearby_ := military_in_constr_nearby_
     field; military_presence_ := v; military_stationed_ := military_stationed_ field |}.

Definition set_military_stationed_ (v : Z) (field : BuildableField) : BuildableField :=
  {| bf_coords := bf_coords field; bf_next_update_due_ := bf_next_update_due_ field;
     bf_preferred_ := bf_preferred_ field; enemy_nearby_ := enemy_nearby_ field;
     unowned_land_nearby_ := unowned_land_nearby_ field; near_border_ := near_border_ field;
     unowned_mines_pots_nearby_ := unowned_mines_pots_nearby_ field; trees_nearby_ :=
     trees_nearby_ field; stones_nearby_ := stones_nearby_ field; water_nearby_ :=
     water_nearby_ field; distant_water_ := distant_water_ field; fish_nearby_ :=
     fish_nearby_ field; critters_nearby_ := critters_nearby_ field; ground_water_ :=
     ground_water_ field; space_consumers_nearby_ := space_consumers_nearby_ field;
     producers_nearby_ := producers_nearby_ field; consumers_nearby_ := consumers_nearby_
     field; military_capacity_ := military_capacity_ field; military_loneliness_ :=
     military_loneliness_ field; military_in_constr_nearby_ := military_in_constr_nearby_
     field; military_presence_ := military_presence_ field; military_stationed_ := v |}.

Record MineableField := {
  mf_coords : Coords;
  mf_next_update_due_ : Z;
  mf_preferred_ : bool;
  mines_nearby_ : Z
}.

Record BlockedField := {
  blocked_coords : Coords;
  blocked_until_ : Z
}.

Record EconomyObserver := {
  economy : Serial;
  flags : list Serial;
  failed_connection_tries : Z
}.

(** [ps_site] is the pointer to the site, [ps_bo] the position in [buildings_]
    of the observer the [bo] pointer refers to. *)
Record ProductionSiteObserver := {
  ps_site : Serial;
  ps_bo : nat;
  built_time_ : Z;
  unoccupied_till_ : Z;
  stats_zero_ : Z;
  no_resources_count : Z
}.

Record MilitarySiteObserver := {
  ms_site : Serial;
  ms_bo : nat;
  checks : Z;
  enemies_nearby : bool
}.

(** The members of [DefaultAI] that the embedded functions read or write. *)
Record DefaultAI := {
  type_ : Z;
  m_buildable_changed : bool;
  m_mineable_changed : bool;
  buildings_ : list BuildingObserver;
  wares : list WareObserver;
  buildable_fields : list BuildableField;
  mineable_fields : list MineableField;
  unusable_fields : list Coords;
  blocked_fields : list BlockedField;
  economies : list EconomyObserver;
  new_flags : list Serial;
  roads : list Serial;
  productionsites : list ProductionSiteObserver;
  mines_ : list ProductionSiteObserver;
  militarysites : list MilitarySiteObserver;
  num_constructionsites_ : Z;
  num_milit_constructionsites : Z;
  num_prod_constructionsites : Z;
  next_road_due_ : Z;
  next_mine_construction_due_ : Z;
  next_attack_consideration_due_ : Z;
  inhibit_road_building_ : Z;
  enemy_last_seen_ : Z;
  numof_warehouses_ : Z;
  new_buildings_stop_ : bool;
  resource_necessity_territory_ : Z;
  resource_necessity_mines_ : Z;
  resource_necessity_water_ : Z;
  resource_necessity_water_needed_ : bool;
  unstationed_milit_buildings_ : Z;
  military_last_build_ : Z;
  spots_ : Z
}.

Definition set_m_buildable_changed (v : bool) (ai : DefaultAI) : DefaultAI :=
  {| type_ := type_ ai; m_buildable_changed := v; m_mineable_changed := m_mineable_changed
     ai; buildings_ := buildings_ ai; wares := wares ai; buildable_fields :=
     buildable_fields ai; mineable_fields := mineable_fields ai; unusable_fields :=
     unusable_fields ai; blocked_fields := blocked_fields ai; economies := economies ai;
     new_flags := new_flags ai; roads := roads ai; productionsites := productionsites ai;
     mines_ := mines_ ai; militarysites := militarysites ai; num_constructionsites_ :=
     num_constructionsites_ ai; num_milit_constructionsites := num_milit_constructionsites
     ai; num_prod_constructionsites := num_prod_constructionsites ai; next_road_due_ :=
     next_road_due_ ai; next_mine_construction_due_ := next_mine_construction_due_ ai;
     next_attack_consideration_due_ := next_attack_consideration_due_ ai;
     inhibit_road_building_ := inhibit_road_building_ ai; enemy_last_seen_ :=
     enemy_last_seen_ ai; numof_warehouses_ := numof_warehouses_ ai; new_buildings_stop_ :=
     new_buildings_stop_ ai; resource_necessity_territory_ := resource_necessity_territory_
     ai; resource_necessity_mines_ := resource_necessity_mines_ ai;
     resource_necessity_water_ := resource_necessity_water_ ai;
     resource_necessity_water_needed_ := resource_necessity_water_needed_ ai;
     unstationed_milit_buildings_ := unstationed_milit_buildings_ ai; military_last_build_
     := military_last_build_ ai; spots_ := spots_ ai |}.

Definition set_m_mineable_changed (v : bool) (ai : DefaultAI) : DefaultAI :=
  {| type_ := type_ ai; m_buildable_changed := m_buildable_changed ai; m_mineable_changed :=
     v; buildings_ := buildings_ ai; wares := wares ai; buildable_fields := buildable_fields
     ai; mineable_fields := mineable_fields ai; unusable_fields := unusable_fields ai;
     blocked_fields := blocked_fields ai; economies := economies ai; new_flags := new_flags
     ai; roads := roads ai; productionsites := productionsites ai; mines_ := mines_ ai;
     militarysites := militarysites ai; num_constructionsites_ := num_constructionsites_ ai;
     num_milit_constructionsites := num_milit_constructionsites ai;
     num_prod_constructionsites := num_prod_constructionsites ai; next_road_due_ :=
     next_road_due_ ai; next_mine_construction_due_ := next_mine_construction_due_ ai;
     next_attack_consideration_due_ := next_attack_consideration_due_ ai;
     inhibit_road_building_ := inhibit_road_building_ ai; enemy_last_seen_ :=
     enemy_last_seen_ ai; numof_warehouses_ := numof_warehouses_ ai; new_buildings_stop_ :=
     new_buildings_stop_ ai; resource_necessity_territory_ := resource_necessity_territory_
     ai; resource_necessity_mines_ := resource_necessity_mines_ ai;
     resource_necessity_water_ := resource_necessity_water_ ai;
     resource_necessity_water_needed_ := resource_necessity_water_needed_ ai;
     unstationed_milit_buildings_ := unstationed_milit_buildings_ ai; military_last_build_
     := military_last_build_ ai; spots_ := spots_ ai |}.

Definition set_buildings_ (v : list BuildingObserver) (ai : DefaultAI) : DefaultAI :=
  {| type_ := type_ ai; m_buildable_changed := m_buildable_changed ai; m_mineable_changed :=
     m_mineable_changed ai; buildings_ := v; wares := wares ai; buildable_fields :=
     buildable_fields ai; mineable_fields := mineable_fields ai; unusable_fields :=
     unusable_fields ai; blocked_fields := blocked_fields ai; economies := economies ai;
     new_flags := new_flags ai; roads := roads ai; productionsites := productionsites ai;
     mines_ := mines_ ai; militarysites := militarysites ai; num_constructionsites_ :=
     num_constructionsites_ ai; num_milit_constructionsites := num_milit_constructionsites
     ai; num_prod_constructionsites := num_prod_constructionsites ai; next_road_due_ :=
     next_road_due_ ai; next_mine_construction_due_ := next_mine_construction_due_ ai;
     next_attack_consideration_due_ := next_attack_consideration_due_ ai;
     inhibit_road_building_ := inhibit_road_building_ ai; enemy_last_seen_ :=
     enemy_last_seen_ ai; numof_warehouses_ := numof_warehouses_ ai; new_buildings_stop_ :=
     new_buildings_stop_ ai; resource_necessity_territory_ := resource_necessity_territory_
     ai; resource_necessity_mines_ := resource_necessity_mines_ ai;
     resource_necessity_water_ := resource_necessity_water_ ai;
     resource_necessity_water_needed_ := resource_necessity_water_needed_ ai;
     unstationed_milit_buildings_ := unstationed_milit_buildings_ ai; military_last_build_
     := military_last_build_ ai; spots_ := spots_ ai |}.

Definition set_wares (v : list WareObserver) (ai : DefaultAI) : DefaultAI :=
  {| type_ := type_ ai; m_buildable_changed := m_buildable_changed ai; m_mineable_changed :=
     m_mineable_changed ai; buildings_ := buildings_ ai; wares := v; buildable_fields :=
     buildable_fields ai; mineable_fields := mineable_fields ai; unusable_fields :=
     unusable_fields ai; blocked_fields := blocked_fields ai; economies := economies ai;
     new_flags := new_flags ai; roads := roads ai; productionsites := productionsites ai;
     mines_ := mines_ ai; militarysites := militarysites ai; num_constructionsites_ :=
     num_constructionsites_ ai; num_milit_constructionsites := num_milit_constructionsites
     ai; num_prod_constructionsites := num_prod_constructionsites ai; next_road_due_ :=
     next_road_due_ ai; next_mine_construction_due_ := next_mine_construction_due_ ai;
     next_attack_consideration_due_ := next_attack_consideration_due_ ai;
     inhibit_road_building_ := inhibit_road_building_ ai; enemy_last_seen_ :=
     enemy_last_seen_ ai; numof_warehouses_ := numof_warehouses_ ai; new_buildings_stop_ :=
     new_buildings_stop_ ai; resource_necessity_territory_ := resource_necessity_territory_
     ai; resource_necessity_mines_ := resource_necessity_mines_ ai;
     resource_necessity_water_ := resource_necessity_water_ ai;
     resource_necessity_water_needed_ := resource_necessity_water_needed_ ai;
     unstationed_milit_buildings_ := unstationed_milit_buildings_ ai; military_last_build_
     := military_last_build_ ai; spots_ := spots_ ai |}.

Definition set_buildable_fields (v : list BuildableField) (ai : DefaultAI) : DefaultAI :=
  {| type_ := type_ ai; m_buildable_changed := m_buildable_changed ai; m_mineable_changed :=
     m_mineable_changed ai; buildings_ := buildings_ ai; wares := wares ai; buildable_fields
     := v; mineable_fields := mineable_fields ai; unusable_fields := unusable_fields ai;
     blocked_fields := blocked_fields ai; economies := economies ai; new_flags := new_flags
     ai; roads := roads ai; productionsites := productionsites ai; mines_ := mines_ ai;
     militarysites := militarysites ai; num_constructionsites_ := num_constructionsites_ ai;
     num_milit_constructionsites := num_milit_constructionsites ai;
     num_prod_constructionsites := num_prod_constructionsites ai; next_road_due_ :=
     next_road_due_ ai; next_mine_construction_due_ := next_mine_construction_due_ ai;
     next_attack_consideration_due_ := next_attack_consideration_due_ ai;
     inhibit_road_building_ := inhibit_road_building_ ai; enemy_last_seen_ :=
     enemy_last_seen_ ai; numof_warehouses_ := numof_warehouses_ ai; new_buildings_stop_ :=
     new_buildings_stop_ ai; resource_necessity_territory_ := resource_necessity_territory_
     ai; resource_necessity_mines_ := resource_necessity_mines_ ai;
     resource_necessity_water_ := resource_necessity_water_ ai;
     resource_necessity_water_needed_ := resource_necessity_water_needed_ ai;
     unstationed_milit_buildings_ := unstationed_milit_buildings_ ai; military_last_build_
     := military_last_build_ ai; spots_ := spots_ ai |}.

Definition set_mineable_fields (v : list MineableField) (ai : DefaultAI) : DefaultAI :=
  {| type_ := type_ ai; m_buildable_changed := m_buildable_changed ai; m_mineable_changed :=
     m_mineable_changed ai; buildings_ := buildings_ ai; wares := wares ai; buildable_fields
     := buildable_fields ai; mineable_fields := v; unusable_fields := unusable_fields ai;
     blocked_fields := blocked_fields ai; economies := economies ai; new_flags := new_flags
     ai; roads := roads ai; productionsites := productionsites ai; mines_ := mines_ ai;
     militarysites := militarysites ai; num_constructionsites_ := num_constructionsites_ ai;
     num_milit_constructionsites := num_milit_constructionsites ai;
     num_prod_constructionsites := num_prod_constructionsites ai; next_road_due_ :=
     next_road_due_ ai; next_mine_construction_due_ := next_mine_construction_due_ ai;
     next_attack_consideration_due_ := next_attack_consideration_due_ ai;
     inhibit_road_building_ := inhibit_road_building_ ai; enemy_last_seen_ :=
     enemy_last_seen_ ai; numof_warehouses_ := numof_warehouses_ ai; new_buildings_stop_ :=
     new_buildings_stop_ ai; resource_necessity_territory_ := resource_necessity_territory_
     ai; resource_necessity_mines_ := resource_necessity_mines_ ai;
     resource_necessity_water_ := resource_necessity_water_ ai;
     resource_necessity_water_needed_ := resource_necessity_water_needed_ ai;
     unstationed_milit_buildings_ := unstationed_milit_buildings_ ai; military_last_build_
     := military_last_build_ ai; spots_ := spots_ ai |}.

Definition set_unusable_fields (v : list Coords) (ai : DefaultAI) : DefaultAI :=
  {| type_ := type_ ai; m_buildable_changed := m_buildable_changed ai; m_mineable_changed :=
     m_mineable_changed ai; buildings_ := buildings_ ai; wares := wares ai; buildable_fields
     := buildable_fields ai; mineable_fields := mineable_fields ai; unusable_fields := v;
     blocked_fields := blocked_fields ai; economies := economies ai; new_flags := new_flags
     ai; roads := roads ai; productionsites := productionsites ai; mines_ := mines_ ai;
     militarysites := militarysites ai; num_constructionsites_ := num_constructionsites_ ai;
     num_milit_constructionsites := num_milit_constructionsites ai;
     num_prod_constructionsites := num_prod_constructionsites ai; next_road_due_ :=
     next_road_due_ ai; next_mine_construction_due_ := next_mine_construction_due_ ai;
     next_attack_consideration_due_ := next_attack_consideration_due_ ai;
     inhibit_road_building_ := inhibit_road_building_ ai; enemy_last_seen_ :=
     enemy_last_seen_ ai; numof_warehouses_ := numof_warehouses_ ai; new_buildings_stop_ :=
     new_buildings_stop_ ai; resource_necessity_territory_ := resource_necessity_territory_
     ai; resource_necessity_mines_ := resource_necessity_mines_ ai;
     resource_necessity_water_ := resource_necessity_water_ ai;
     resource_necessity_water_needed_ := resource_necessity_water_needed_ ai;
     unstationed_milit_buildings_ := unstationed_milit_buildings_ ai; military_last_build_
     := military_last_build_ ai; spots_ := spots_ ai |}.

Definition set_blocked_fields (v : list BlockedField) (ai : DefaultAI) : DefaultAI :=
  {| type_ := type_ ai; m_buildable_changed := m_buildable_changed ai; m_mineable_changed :=
     m_mineable_changed ai; buildings_ := buildings_ ai; wares := wares ai; buildable_fields
     := buildable_fields ai; mineable_fields := mineable_fields ai; unusable_fields :=
     unusable_fields ai; blocked_fields := v; economies := economies ai; new_flags :=
     new_flags ai; roads := roads ai; productionsites := productionsites ai; mines_ :=
     mines_ ai; militarysites := militarysites ai; num_constructionsites_ :=
     num_constructionsites_ ai; num_milit_constructionsites := num_milit_constructionsites
     ai; num_prod_constructionsites := num_prod_constructionsites ai; next_road_due_ :=
     next_road_due_ ai; next_mine_construction_due_ := next_mine_construction_due_ ai;
     next_attack_consideration_due_ := next_attack_consideration_due_ ai;
     inhibit_road_building_ := inhibit_road_building_ ai; enemy_last_seen_ :=
     enemy_last_seen_ ai; numof_warehouses_ := numof_warehouses_ ai; new_buildings_stop_ :=
     new_buildings_stop_ ai; resource_necessity_territory_ := resource_necessity_territory_
     ai; resource_necessity_mines_ := resource_necessity_mines_ ai;
     resource_necessity_water_ := resource_necessity_water_ ai;
     resource_necessity_water_needed_ := resource_necessity_water_needed_ ai;
     unstationed_milit_buildings_ := unstationed_milit_buildings_ ai; military_last_build_
     := military_last_build_ ai; spots_ := spots_ ai |}.

Definition set_economies (v : list EconomyObserver) (ai : DefaultAI) : DefaultAI :=
  {| type_ := type_ ai; m_buildable_changed := m_buildable_changed ai; m_mineable_changed :=
     m_mineable_changed ai; buildings_ := buildings_ ai; wares := wares ai; buildable_fields
     := buildable_fields ai; mineable_fields := mineable_fields ai; unusable_fields :=
     unusable_fields ai; blocked_fields := blocked_fields ai; economies := v; new_flags :=
     new_flags ai; roads := roads ai; productionsites := productionsites ai; mines_ :=
     mines_ ai; militarysites := militarysites ai; num_constructionsites_ :=
     num_constructionsites_ ai; num_milit_constructionsites := num_milit_constructionsites
     ai; num_prod_constructionsites := num_prod_constructionsites ai; next_road_due_ :=
     next_road_due_ ai; next_mine_construction_due_ := next_mine_construction_due_ ai;
     next_attack_consideration_due_ := next_attack_consideration_due_ ai;
     inhibit_road_building_ := inhibit_road_building_ ai; enemy_last_seen_ :=
     enemy_last_seen_ ai; numof_warehouses_ := numof_warehouses_ ai; new_buildings_stop_ :=
     new_buildings_stop_ ai; resource_necessity_territory_ := resource_necessity_territory_
     ai; resource_necessity_mines_ := resource_necessity_mines_ ai;
     resource_necessity_water_ := resource_necessity_water_ ai;
     resource_necessity_water_needed_ := resource_necessity_water_needed_ ai;
     unstationed_milit_buildings_ := unstationed_milit_buildings_ ai; military_last_build_
     := military_last_build_ ai; spots_ := spots_ ai |}.

Definition set_new_flags (v : list Serial) (ai : DefaultAI) : DefaultAI :=
  {| type_ := type_ ai; m_buildable_changed := m_buildable_changed ai; m_mineable_changed :=
     m_mineable_changed ai; buildings_ := buildings_ ai; wares := wares ai; buildable_fields
     := buildable_fields ai; mineable_fields := mineable_fields ai; unusable_fields :=
     unusable_fields ai; blocked_fields := blocked_fields ai; economies := economies ai;
     new_flags := v; roads := roads ai; productionsites := productionsites ai; mines_ :=
     mines_ ai; militarysites := militarysites ai; num_constructionsites_ :=
     num_constructionsites_ ai; num_milit_constructionsites := num_milit_constructionsites
     ai; num_prod_constructionsites := num_prod_constructionsites ai; next_road_due_ :=
     next_road_due_ ai; next_mine_construction_due_ := next_mine_construction_due_ ai;
     next_attack_consideration_due_ := next_attack_consideration_due_ ai;
     inhibit_road_building_ := inhibit_road_building_ ai; enemy_last_seen_ :=
     enemy_last_seen_ ai; numof_warehouses_ := numof_warehouses_ ai; new_buildings_stop_ :=
     new_buildings_stop_ ai; resource_necessity_territory_ := resource_necessity_territory_
     ai; resource_necessity_mines_ := resource_necessity_mines_ ai;
     resource_necessity_water_ := resource_necessity_water_ ai;
     resource_necessity_water_needed_ := resource_necessity_water_needed_ ai;
     unstationed_milit_buildings_ := unstationed_milit_buildings_ ai; military_last_build_
     := military_last_build_ ai; spots_ := spots_ ai |}.

Definition set_roads (v : list Serial) (ai : DefaultAI) : DefaultAI :=
  {| type_ := type_ ai; m_buildable_changed := m_buildable_changed ai; m_mineable_changed :=
     m_mineable_changed ai; buildings_ := buildings_ ai; wares := wares ai; buildable_fields
     := buildable_fields ai; mineable_fields := mineable_fields ai; unusable_fields :=
     unusable_fields ai; blocked_fields := blocked_fields ai; economies := economies ai;
     new_flags := new_flags ai; roads := v; productionsites := productionsites ai; mines_ :=
     mines_ ai; militarysites := militarysites ai; num_constructionsites_ :=
     num_constructionsites_ ai; num_milit_constructionsites := num_milit_constructionsites
     ai; num_prod_constructionsites := num_prod_constructionsites ai; next_road_due_ :=
     next_road_due_ ai; next_mine_construction_due_ := next_mine_construction_due_ ai;
     next_attack_consideration_due_ := next_attack_consideration_due_ ai;
     inhibit_road_building_ := inhibit_road_building_ ai; enemy_last_seen_ :=
     enemy_last_seen_ ai; numof_warehouses_ := numof_warehouses_ ai; new_buildings_stop_ :=
     new_buildings_stop_ ai; resource_necessity_territory_ := resource_necessity_territory_
     ai; resource_necessity_mines_ := resource_necessity_mines_ ai;
     resource_necessity_water_ := resource_necessity_water_ ai;
     resource_necessity_water_needed_ := resource_necessity_water_needed_ ai;
     unstationed_milit_buildings_ := unstationed_milit_buildings_ ai; military_last_build_
     := military_last_build_ ai; spots_ := spots_ ai |}.

Definition set_productionsites (v : list ProductionSiteObserver) (ai : DefaultAI) : DefaultAI :=
  {| type_ := type_ ai; m_buildable_changed := m_buildable_changed ai; m_mineable_changed :=
     m_mineable_changed ai; buildings_ := buildings_ ai; wares := wares ai; buildable_fields
     := buildable_fields ai; mineable_fields := mineable_fields ai; unusable_fields :=
     unusable_fields ai; blocked_fields := blocked_fields ai; economies := economies ai;
     new_flags := new_flags ai; roads := roads ai; productionsites := v; mines_ := mines_
     ai; militarysites := militarysites ai; num_constructionsites_ := num_constructionsites_
     ai; num_milit_constructionsites := num_milit_constructionsites ai;
     num_prod_constructionsites := num_prod_constructionsites ai; next_road_due_ :=
     next_road_due_ ai; next_mine_construction_due_ := next_mine_construction_due_ ai;
     next_attack_consideration_due_ := next_attack_consideration_due_ ai;
     inhibit_road_building_ := inhibit_road_building_ ai; enemy_last_seen_ :=
     enemy_last_seen_ ai; numof_warehouses_ := numof_warehouses_ ai; new_buildings_stop_ :=
     new_buildings_stop_ ai; resource_necessity_territory_ := resource_necessity_territory_
     ai; resource_necessity_mines_ := resource_necessity_mines_ ai;
     resource_necessity_water_ := resource_necessity_water_ ai;
     resource_necessity_water_needed_ := resource_necessity_water_needed_ ai;
     unstationed_milit_buildings_ := unstationed_milit_buildings_ ai; military_last_build_
     := military_last_build_ ai; spots_ := spots_ ai |}.

Definition set_mines_ (v : list ProductionSiteObserver) (ai : DefaultAI) : DefaultAI :=
  {| type_ := type_ ai; m_buildable_changed := m_buildable_changed ai; m_mineable_changed :=
     m_mineable_changed ai; buildings_ := buildings_ ai; wares := wares ai; buildable_fields
     := buildable_fields ai; mineable_fields := mineable_fields ai; unusable_fields :=
     unusable_fields ai; blocked_fields := blocked_fields ai; economies := economies ai;
     new_flags := new_flags ai; roads := roads ai; productionsites := productionsites ai;
     mines_ := v; militarysites := militarysites ai; num_constructionsites_ :=
     num_constructionsites_ ai; num_milit_constructionsites := num_milit_constructionsites
     ai; num_prod_constructionsites := num_prod_constructionsites ai; next_road_due_ :=
     next_road_due_ ai; next_mine_construction_due_ := next_mine_construction_due_ ai;
     next_attack_consideration_due_ := next_attack_consideration_due_ ai;
     inhibit_road_building_ := inhibit_road_building_ ai; enemy_last_seen_ :=
     enemy_last_seen_ ai; numof_warehouses_ := numof_warehouses_ ai; new_buildings_stop_ :=
     new_buildings_stop_ ai; resource_necessity_territory_ := resource_necessity_territory_
     ai; resource_necessity_mines_ := resource_necessity_mines_ ai;
     resource_necessity_water_ := resource_necessity_water_ ai;
     resource_necessity_water_needed_ := resource_necessity_water_needed_ ai;
     unstationed_milit_buildings_ := unstationed_milit_buildings_ ai; military_last_build_
     := military_last_build_ ai; spots_ := spots_ ai |}.

Definition set_militarysites (v : list MilitarySiteObserver) (ai : DefaultAI) : DefaultAI :=
  {| type_ := type_ ai; m_buildable_changed := m_buildable_changed ai; m_mineable_changed :=
     m_mineable_changed ai; buildings_ := buildings_ ai; wares := wares ai; buildable_fields
     := buildable_fields ai; mineable_fields := mineable_fields ai; unusable_fields :=
     unusable_fields ai; blocked_fields := blocked_fields ai; economies := economies ai;
     new_flags := new_flags ai; roads := roads ai; productionsites := productionsites ai;
     mines_ := mines_ ai; militarysites := v; num_constructionsites_ :=
     num_constructionsites_ ai; num_milit_constructionsites := num_milit_constructionsites
     ai; num_prod_constructionsites := num_prod_constructionsites ai; next_road_due_ :=
     next_road_due_ ai; next_mine_construction_due_ := next_mine_construction_due_ ai;
     next_attack_consideration_due_ := next_attack_consideration_due_ ai;
     inhibit_road_building_ := inhibit_road_building_ ai; enemy_last_seen_ :=
     enemy_last_seen_ ai; numof_warehouses_ := numof_warehouses_ ai; new_buildings_stop_ :=
     new_buildings_stop_ ai; resource_necessity_territory_ := resource_necessity_territory_
     ai; resource_necessity_mines_ := resource_necessity_mines_ ai;
     resource_necessity_water_ := resource_necessity_water_ ai;
     resource_necessity_water_needed_ := resource_necessity_water_needed_ ai;
     unstationed_milit_buildings_ := unstationed_milit_buildings_ ai; military_last_build_
     := military_last_build_ ai; spots_ := spots_ ai |}.

Definition set_num_constructionsites_ (v : Z) (ai : DefaultAI) : DefaultAI :=
  {| type_ := type_ ai; m_buildable_changed := m_buildable_changed ai; m_mineable_changed :=
     m_mineable_changed ai; buildings_ := buildings_ ai; wares := wares ai; buildable_fields
     := buildable_fields ai; mineable_fields := mineable_fields ai; unusable_fields :=
     unusable_fields ai; blocked_fields := blocked_fields ai; economies := economies ai;
     new_flags := new_flags ai; roads := roads ai; productionsites := productionsites ai;
     mines_ := mines_ ai; militarysites := militarysites ai; num_constructionsites_ := v;
     num_milit_constructionsites := num_milit_constructionsites ai;
     num_prod_constructionsites := num_prod_constructionsites ai; next_road_due_ :=
     next_road_due_ ai; next_mine_construction_due_ := next_mine_construction_due_ ai;
     next_attack_consideration_due_ := next_attack_consideration_due_ ai;
     inhibit_road_building_ := inhibit_road_building_ ai; enemy_last_seen_ :=
     enemy_last_seen_ ai; numof_warehouses_ := numof_warehouses_ ai; new_buildings_stop_ :=
     new_buildings_stop_ ai; resource_necessity_territory_ := resource_necessity_territory_
     ai; resource_necessity_mines_ := resource_necessity_mines_ ai;
     resource_necessity_water_ := resource_necessity_water_ ai;
     resource_necessity_water_needed_ := resource_necessity_water_needed_ ai;
     unstationed_milit_buildings_ := unstationed_milit_buildings_ ai; military_last_build_
     := military_last_build_ ai; spots_ := spots_ ai |}.

Definition set_num_milit_constructionsites (v : Z) (ai : DefaultAI) : DefaultAI :=
  {| type_ := type_ ai; m_buildable_changed := m_buildable_changed ai; m_mineable_changed :=
     m_mineable_changed ai; buildings_ := buildings_ ai; wares := wares ai; buildable_fields
     := buildable_fields ai; mineable_fields := mineable_fields ai; unusable_fields :=
     unusable_fields ai; blocked_fields := blocked_fields ai; economies := economies ai;
     new_flags := new_flags ai; roads := roads ai; productionsites := productionsites ai;
     mines_ := mines_ ai; militarysites := militarysites ai; num_constructionsites_ :=
     num_constructionsites_ ai; num_milit_constructionsites := v; num_prod_constructionsites
     := num_prod_constructionsites ai; next_road_due_ := next_road_due_ ai;
     next_mine_construction_due_ := next_mine_construction_due_ ai;
     next_attack_consideration_due_ := next_attack_consideration_due_ ai;
     inhibit_road_building_ := inhibit_road_building_ ai; enemy_last_seen_ :=
     enemy_last_seen_ ai; numof_warehouses_ := numof_warehouses_ ai; new_buildings_stop_ :=
     new_buildings_stop_ ai; resource_necessity_territory_ := resource_necessity_territory_
     ai; resource_necessity_mines_ := resource_necessity_mines_ ai;
     resource_necessity_water_ := resource_necessity_water_ ai;
     resource_necessity_water_needed_ := resource_necessity_water_needed_ ai;
     unstationed_milit_buildings_ := unstationed_milit_buildings_ ai; military_last_build_
     := military_last_build_ ai; spots_ := spots_ ai |}.

Definition set_num_prod_constructionsites (v : Z) (ai : DefaultAI) : DefaultAI :=
  {| type_ := type_ ai; m_buildable_changed := m_buildable_changed ai; m_mineable_changed :=
     m_mineable_changed ai; buildings_ := buildings_ ai; wares := wares ai; buildable_fields
     := buildable_fields ai; mineable_fields := mineable_fields ai; unusable_fields :=
     unusable_fields ai; blocked_fields := blocked_fields ai; economies := economies ai;
     new_flags := new_flags ai; roads := roads ai; productionsites := productionsites ai;
     mines_ := mines_ ai; militarysites := militarysites ai; num_constructionsites_ :=
     num_constructionsites_ ai; num_milit_constructionsites := num_milit_constructionsites
     ai; num_prod_constructionsites := v; next_road_due_ := next_road_due_ ai;
     next_mine_construction_due_ := next_mine_construction_due_ ai;
     next_attack_consideration_due_ := next_attack_consideration_due_ ai;
     inhibit_road_building_ := inhibit_road_building_ ai; enemy_last_seen_ :=
     enemy_last_seen_ ai; numof_warehouses_ := numof_warehouses_ ai; new_buildings_stop_ :=
     new_buildings_stop_ ai; resource_necessity_territory_ := resource_necessity_territory_
     ai; resource_necessity_mines_ := resource_necessity_mines_ ai;
     resource_necessity_water_ := resource_necessity_water_ ai;
     resource_necessity_water_needed_ := resource_necessity_water_needed_ ai;
     unstationed_milit_buildings_ := unstationed_milit_buildings_ ai; military_last_build_
     := military_last_build_ ai; spots_ := spots_ ai |}.

Definition set_next_road_due_ (v : Z) (ai : DefaultAI) : DefaultAI :=
  {| type_ := type_ ai; m_buildable_changed := m_buildable_changed ai; m_mineable_changed :=
     m_mineable_changed ai; buildings_ := buildings_ ai; wares := wares ai; buildable_fields
     := buildable_fields ai; mineable_fields := mineable_fields ai; unusable_fields :=
     unusable_fields ai; blocked_fields := blocked_fields ai; economies := economies ai;
     new_flags := new_flags ai; roads := roads ai; productionsites := productionsites ai;
     mines_ := mines_ ai; militarysites := militarysites ai; num_constructionsites_ :=
     num_constructionsites_ ai; num_milit_constructionsites := num_milit_constructionsites
     ai; num_prod_constructionsites := num_prod_constructionsites ai; next_road_due_ := v;
     next_mine_construction_due_ := next_mine_construction_due_ ai;
     next_attack_consideration_due_ := next_attack_consideration_due_ ai;
     inhibit_road_building_ := inhibit_road_building_ ai; enemy_last_seen_ :=
     enemy_last_seen_ ai; numof_warehouses_ := numof_warehouses_ ai; new_buildings_stop_ :=
     new_buildings_stop_ ai; resource_necessity_territory_ := resource_necessity_territory_
     ai; resource_necessity_mines_ := resource_necessity_mines_ ai;
     resource_necessity_water_ := resource_necessity_water_ ai;
     resource_necessity_water_needed_ := resource_necessity_water_needed_ ai;
     unstationed_milit_buildings_ := unstationed_milit_buildings_ ai; military_last_build_
     := military_last_build_ ai; spots_ := spots_ ai |}.

Definition set_next_mine_construction_due_ (v : Z) (ai : DefaultAI) : DefaultAI :=
  {| type_ := type_ ai; m_buildable_changed := m_buildable_changed ai; m_mineable_changed :=
     m_mineable_changed ai; buildings_ := buildings_ ai; wares := wares ai; buildable_fields
     := buildable_fields ai; mineable_fields := mineable_fields ai; unusable_fields :=
     unusable_fields ai; blocked_fields := blocked_fields ai; economies := economies ai;
     new_flags := new_flags ai; roads := roads ai; productionsites := productionsites ai;
     mines_ := mines_ ai; militarysites := militarysites ai; num_constructionsites_ :=
     num_constructionsites_ ai; num_milit_constructionsites := num_milit_constructionsites
     ai; num_prod_constructionsites := num_prod_constructionsites ai; next_road_due_ :=
     next_road_due_ ai; next_mine_construction_due_ := v; next_attack_consideration_due_ :=
     next_attack_consideration_due_ ai; inhibit_road_building_ := inhibit_road_building_ ai;
     enemy_last_seen_ := enemy_last_seen_ ai; numof_warehouses_ := numof_warehouses_ ai;
     new_buildings_stop_ := new_buildings_stop_ ai; resource_necessity_territory_ :=
     resource_necessity_territory_ ai; resource_necessity_mines_ :=
     resource_necessity_mines_ ai; resource_necessity_water_ := resource_necessity_water_
     ai; resource_necessity_water_needed_ := resource_necessity_water_needed_ ai;
     unstationed_milit_buildings_ := unstationed_milit_buildings_ ai; military_last_build_
     := military_last_build_ ai; spots_ := spots_ ai |}.

Definition set_inhibit_road_building_ (v : Z) (ai : DefaultAI) : DefaultAI :=
  {| type_ := type_ ai; m_buildable_changed := m_buildable_changed ai; m_mineable_changed :=
     m_mineable_changed ai; buildings_ := buildings_ ai; wares := wares ai; buildable_fields
     := buildable_fields ai; mineable_fields := mineable_fields ai; unusable_fields :=
     unusable_fields ai; blocked_fields := blocked_fields ai; economies := economies ai;
     new_flags := new_flags ai; roads := roads ai; productionsites := productionsites ai;
     mines_ := mines_ ai; militarysites := militarysites ai; num_constructionsites_ :=
     num_constructionsites_ ai; num_milit_constructionsites := num_milit_constructionsites
     ai; num_prod_constructionsites := num_prod_constructionsites ai; next_road_due_ :=
     next_road_due_ ai; next_mine_construction_due_ := next_mine_construction_due_ ai;
     next_attack_consideration_due_ := next_attack_consideration_due_ ai;
     inhibit_road_building_ := v; enemy_last_seen_ := enemy_last_seen_ ai; numof_warehouses_
     := numof_warehouses_ ai; new_buildings_stop_ := new_buildings_stop_ ai;
     resource_necessity_territory_ := resource_necessity_territory_ ai;
     resource_necessity_mines_ := resource_necessity_mines_ ai; resource_necessity_water_ :=
     resource_necessity_water_ ai; resource_necessity_water_needed_ :=
     resource_necessity_water_needed_ ai; unstationed_milit_buildings_ :=
     unstationed_milit_buildings_ ai; military_last_build_ := military_last_build_ ai;
     spots_ := spots_ ai |}.

Definition set_enemy_last_seen_ (v : Z) (ai : DefaultAI) : DefaultAI :=
  {| type_ := type_ ai; m_buildable_changed := m_buildable_changed ai; m_mineable_changed :=
     m_mineable_changed ai; buildings_ := buildings_ ai; wares := wares ai; buildable_fields
     := buildable_fields ai; mineable_fields := mineable_fields ai; unusable_fields :=
     unusable_fields ai; blocked_fields := blocked_fields ai; economies := economies ai;
     new_flags := new_flags ai; roads := roads ai; productionsites := productionsites ai;
     mines_ := mines_ ai; militarysites := militarysites ai; num_constructionsites_ :=
     num_constructionsites_ ai; num_milit_constructionsites := num_milit_constructionsites
     ai; num_prod_constructionsites := num_prod_constructionsites ai; next_road_due_ :=
     next_road_due_ ai; next_mine_construction_due_ := next_mine_construction_due_ ai;
     next_attack_consideration_due_ := next_attack_consideration_due_ ai;
     inhibit_road_building_ := inhibit_road_building_ ai; enemy_last_seen_ := v;
     numof_warehouses_ := numof_warehouses_ ai; new_buildings_stop_ := new_buildings_stop_
     ai; resource_necessity_territory_ := resource_necessity_territory_ ai;
     resource_necessity_mines_ := resource_necessity_mines_ ai; resource_necessity_water_ :=
     resource_necessity_water_ ai; resource_necessity_water_needed_ :=
     resource_necessity_water_needed_ ai; unstationed_milit_buildings_ :=
     unstationed_milit_buildings_ ai; military_last_build_ := military_last_build_ ai;
     spots_ := spots_ ai |}.

Definition set_numof_warehouses_ (v : Z) (ai : DefaultAI) : DefaultAI :=
  {| type_ := type_ ai; m_buildable_changed := m_buildable_changed ai; m_mineable_changed :=
     m_mineable_changed ai; buildings_ := buildings_ ai; wares := wares ai; buildable_fields
     := buildable_fields ai; mineable_fields := mineable_fields ai; unusable_fields :=
     unusable_fields ai; blocked_fields := blocked_fields ai; economies := economies ai;
     new_flags := new_flags ai; roads := roads ai; productionsites := productionsites ai;
     mines_ := mines_ ai; militarysites := militarysites ai; num_constructionsites_ :=
     num_constructionsites_ ai; num_milit_constructionsites := num_milit_constructionsites
     ai; num_prod_constructionsites := num_prod_constructionsites ai; next_road_due_ :=
     next_road_due_ ai; next_mine_construction_due_ := next_mine_construction_due_ ai;
     next_attack_consideration_due_ := next_attack_consideration_due_ ai;
     inhibit_road_building_ := inhibit_road_building_ ai; enemy_last_seen_ :=
     enemy_last_seen_ ai; numof_warehouses_ := v; new_buildings_stop_ := new_buildings_stop_
     ai; resource_necessity_territory_ := resource_necessity_territory_ ai;
     resource_necessity_mines_ := resource_necessity_mines_ ai; resource_necessity_water_ :=
     resource_necessity_water_ ai; resource_necessity_water_needed_ :=
     resource_necessity_water_needed_ ai; unstationed_milit_buildings_ :=
     unstationed_milit_buildings_ ai; military_last_build_ := military_last_build_ ai;
     spots_ := spots_ ai |}.

Definition set_new_buildings_stop_ (v : bool) (ai : DefaultAI) : DefaultAI :=
  {| type_ := type_ ai; m_buildable_changed := m_buildable_changed ai; m_mineable_changed :=
     m_mineable_changed ai; buildings_ := buildings_ ai; wares := wares ai; buildable_fields
     := buildable_fields ai; mineable_fields := mineable_fields ai; unusable_fields :=
     unusable_fields ai; blocked_fields := blocked_fields ai; economies := economies ai;
     new_flags := new_flags ai; roads := roads ai; productionsites := productionsites ai;
     mines_ := mines_ ai; militarysites := militarysites ai; num_constructionsites_ :=
     num_constructionsites_ ai; num_milit_constructionsites := num_milit_constructionsites
     ai; num_prod_constructionsites := num_prod_constructionsites ai; next_road_due_ :=
     next_road_due_ ai; next_mine_construction_due_ := next_mine_construction_due_ ai;
     next_attack_consideration_due_ := next_attack_consideration_due_ ai;
     inhibit_road_building_ := inhibit_road_building_ ai; enemy_last_seen_ :=
     enemy_last_seen_ ai; numof_warehouses_ := numof_warehouses_ ai; new_buildings_stop_ :=
     v; resource_necessity_territory_ := resource_necessity_territory_ ai;
     resource_necessity_mines_ := resource_necessity_mines_ ai; resource_necessity_water_ :=
     resource_necessity_water_ ai; resource_necessity_water_needed_ :=
     resource_necessity_water_needed_ ai; unstationed_milit_buildings_ :=
     unstationed_milit_buildings_ ai; military_last_build_ := military_last_build_ ai;
     spots_ := spots_ ai |}.

Definition set_resource_necessity_territory_ (v : Z) (ai : DefaultAI) : DefaultAI :=
  {| type_ := type_ ai; m_buildable_changed := m_buildable_changed ai; m_mineable_changed :=
     m_mineable_changed ai; buildings_ := buildings_ ai; wares := wares ai; buildable_fields
     := buildable_fields ai; mineable_fields := mineable_fields ai; unusable_fields :=
     unusable_fields ai; blocked_fields := blocked_fields ai; economies := economies ai;
     new_flags := new_flags ai; roads := roads ai; productionsites := productionsites ai;
     mines_ := mines_ ai; militarysites := militarysites ai; num_constructionsites_ :=
     num_constructionsites_ ai; num_milit_constructionsites := num_milit_constructionsites
     ai; num_prod_constructionsites := num_prod_constructionsites ai; next_road_due_ :=
     next_road_due_ ai; next_mine_construction_due_ := next_mine_construction_due_ ai;
     next_attack_consideration_due_ := next_attack_consideration_due_ ai;
     inhibit_road_building_ := inhibit_road_building_ ai; enemy_last_seen_ :=
     enemy_last_seen_ ai; numof_warehouses_ := numof_warehouses_ ai; new_buildings_stop_ :=
     new_buildings_stop_ ai; resource_necessity_territory_ := v; resource_necessity_mines_
     := resource_necessity_mines_ ai; resource_necessity_water_ := resource_necessity_water_
     ai; resource_necessity_water_needed_ := resource_necessity_water_needed_ ai;
     unstationed_milit_buildings_ := unstationed_milit_buildings_ ai; military_last_build_
     := military_last_build_ ai; spots_ := spots_ ai |}.

Definition set_resource_necessity_mines_ (v : Z) (ai : DefaultAI) : DefaultAI :=
  {| type_ := type_ ai; m_buildable_changed := m_buildable_changed ai; m_mineable_changed :=
     m_mineable_changed ai; buildings_ := buildings_ ai; wares := wares ai; buildable_fields
     := buildable_fields ai; mineable_fields := mineable_fields ai; unusable_fields :=
     unusable_fields ai; blocked_fields := blocked_fields ai; economies := economies ai;
     new_flags := new_flags ai; roads := roads ai; productionsites := productionsites ai;
     mines_ := mines_ ai; militarysites := militarysites ai; num_constructionsites_ :=
     num_constructionsites_ ai; num_milit_constructionsites := num_milit_constructionsites
     ai; num_prod_constructionsites := num_prod_constructionsites ai; next_road_due_ :=
     next_road_due_ ai; next_mine_construction_due_ := next_mine_construction_due_ ai;
     next_attack_consideration_due_ := next_attack_consideration_due_ ai;
     inhibit_road_building_ := inhibit_road_building_ ai; enemy_last_seen_ :=
     enemy_last_seen_ ai; numof_warehouses_ := numof_warehouses_ ai; new_buildings_stop_ :=
     new_buildings_stop_ ai; resource_necessity_territory_ := resource_necessity_territory_
     ai; resource_necessity_mines_ := v; resource_necessity_water_ :=
     resource_necessity_water_ ai; resource_necessity_water_needed_ :=
     resource_necessity_water_needed_ ai; unstationed_milit_buildings_ :=
     unstationed_milit_buildings_ ai; military_last_build_ := military_last_build_ ai;
     spots_ := spots_ ai |}.

Definition set_military_last_build_ (v : Z) (ai : DefaultAI) : DefaultAI :=
  {| type_ := type_ ai; m_buildable_changed := m_buildable_changed ai; m_mineable_changed :=
     m_mineable_changed ai; buildings_ := buildings_ ai; wares := wares ai; buildable_fields
     := buildable_fields ai; mineable_fields := mineable_fields ai; unusable_fields :=
     unusable_fields ai; blocked_fields := blocked_fields ai; economies := economies ai;
     new_flags := new_flags ai; roads := roads ai; productionsites := productionsites ai;
     mines_ := mines_ ai; militarysites := militarysites ai; num_constructionsites_ :=
     num_constructionsites_ ai; num_milit_constructionsites := num_milit_constructionsites
     ai; num_prod_constructionsites := num_prod_constructionsites ai; next_road_due_ :=
     next_road_due_ ai; next_mine_construction_due_ := next_mine_construction_due_ ai;
     next_attack_consideration_due_ := next_attack_consideration_due_ ai;
     inhibit_road_building_ := inhibit_road_building_ ai; enemy_last_seen_ :=
     enemy_last_seen_ ai; numof_warehouses_ := numof_warehouses_ ai; new_buildings_stop_ :=
     new_buildings_stop_ ai; resource_necessity_territory_ := resource_necessity_territory_
     ai; resource_necessity_mines_ := resource_necessity_mines_ ai;
     resource_necessity_water_ := resource_necessity_water_ ai;
     resource_necessity_water_needed_ := resource_necessity_water_needed_ ai;
     unstationed_milit_buildings_ := unstationed_milit_buildings_ ai; military_last_build_
     := v; spots_ := spots_ ai |}.

Definition set_spots_ (v : Z) (ai : DefaultAI) : DefaultAI :=
  {| type_ := type_ ai; m_buildable_changed := m_buildable_changed ai; m_mineable_changed :=
     m_mineable_changed ai; buildings_ := buildings_ ai; wares := wares ai; buildable_fields
     := buildable_fields ai; mineable_fields := mineable_fields ai; unusable_fields :=
     unusable_fields ai; blocked_fields := blocked_fields ai; economies := economies ai;
     new_flags := new_flags ai; roads := roads ai; productionsites := productionsites ai;
     mines_ := mines_ ai; militarysites := militarysites ai; num_constructionsites_ :=
     num_constructionsites_ ai; num_milit_constructionsites := num_milit_constructionsites
     ai; num_prod_constructionsites := num_prod_constructionsites ai; next_road_due_ :=
     next_road_due_ ai; next_mine_construction_due_ := next_mine_construction_due_ ai;
     next_attack_consideration_due_ := next_attack_consideration_due_ ai;
     inhibit_road_building_ := inhibit_road_building_ ai; enemy_last_seen_ :=
     enemy_last_seen_ ai; numof_warehouses_ := numof_warehouses_ ai; new_buildings_stop_ :=
     new_buildings_stop_ ai; resource_necessity_territory_ := resource_necessity_territory_
     ai; resource_necessity_mines_ := resource_necessity_mines_ ai;
     resource_necessity_water_ := resource_necessity_water_ ai;
     resource_necessity_water_needed_ := resource_necessity_water_needed_ ai;
     unstationed_milit_buildings_ := unstationed_milit_buildings_ ai; military_last_build_
     := military_last_build_ ai; spots_ := v |}.


(** ** [DefaultAI::update_mineable_field] *)

(** Is the south-east neighbour a flag, or a road on a tile that can take
    a flag?  (Shared by the buildable and the mineable update.) *)
Definition preferred_at (g : Game) (fse : Coords) : bool :=
  match get_immovable g fse with
  | Some imm =>
      is_Flag imm || (is_Road imm && negb (Z.land (nodecaps g fse) BUILDCAPS_FLAG =? 0))
  | None => false
  end.

(** One iteration of the loop over the immovables found around a mineable
    field: does this immovable bump [mines_nearby_]? *)
Definition counts_as_mine (imf : ImmovableFound) : bool :=
  match as_building (object imf) with
  | Some bld =>
      if get_ismine (b_descr bld) then true
      else match b_class bld with
           | ConstructionSite target => get_ismine target
           | _ => false
           end
  | None => false
  end.

Definition update_mineable_field (g : Game) (field : MineableField) : MineableField :=
  let immovables := find_immovables g (mf_coords field) 5 in
  let fse := get_brn g (mf_coords field) in
  {| mf_coords := mf_coords field;
     mf_next_update_due_ := mf_next_update_due_ field;
     mf_preferred_ := preferred_at g fse;
     mines_nearby_ :=
       fold_left (fun n imf => if counts_as_mine imf then n + 1 else n) immovables 1 |}.

(** ** [DefaultAI::get_building_observer] *)

(** The first observer of [buildings_] with the given name, and its position
    in the vector; [None] stands for the [wexception] thrown when no observer
    has that name.  (The engine is taken to be past [late_initialization].) *)
Fixpoint find_observer (name : string) (obs : list BuildingObserver) (i : nat)
  : option (nat * BuildingObserver) :=
  match obs with
  | [] => None
  | bo :: rest =>
      if String.eqb (bo_name bo) name then Some (i, bo)
      else find_observer name rest (S i)
  end.

Definition get_building_observer (ai : DefaultAI) (name : string)
  : option (nat * BuildingObserver) :=
  find_observer name (buildings_ ai) 0%nat.

(** ** Checked vector access *)

(** [++v.at(i)]: [None] stands for [std::out_of_range]. *)
Definition vector_incr (v : list Z) (i : nat) : option (list Z) :=
  match v !! i with
  | Some x => Some (<[i := x + 1]> v)
  | None => None
  end.

(** A loop whose body may throw. *)
Fixpoint foldM {A B : Type} (f : A -> B -> option A) (l : list B) (a : A) : option A :=
  match l with
  | [] => Some a
  | b :: rest =>
      match f a b with
      | Some a' => foldM f rest a'
      | None => None
      end
  end.

(** ** [DefaultAI::consider_productionsite_influence] *)

Definition consider_productionsite_influence (g : Game) (field : BuildableField)
    (coords : Coords) (bo : BuildingObserver) : option BuildableField :=
  let field :=
    if space_consumer_ bo && negb (plants_trees_ bo)
       && (calc_distance g coords (bf_coords field) <? 8)
    then set_space_consumers_nearby_ (space_consumers_nearby_ field + 1) field
    else field in
  cons ← foldM vector_incr (inputs_ bo) (consumers_nearby_ field);
  let field := set_consumers_nearby_ cons field in
  prods ← foldM vector_incr (outputs_ bo) (producers_nearby_ field);
  Some (set_producers_nearby_ prods field).

(** ** [DefaultAI::update_buildable_field] *)

(** [dynamic_cast<ProductionSiteDescr const*>] and
    [dynamic_cast<const ProductionSite*>]: training sites are production
    sites in the class hierarchy of the game. *)
Definition is_ProductionSiteDescr (d : BuildingDescr) : bool :=
  match descr_class d with
  | ProductionSiteDescr | TrainingSiteDescr => true
  | _ => false
  end.

Definition is_ProductionSite (b : Building) : bool :=
  match b_class b with
  | ProductionSite | TrainingSite => true
  | _ => false
  end.

Definition is_MilitarySiteDescr (d : BuildingDescr) : bool :=
  match descr_class d with
  | MilitarySiteDescr => true
  | _ => false
  end.

(** Is the immovable a [PlayerImmovable] of another player? *)
Definition foreign_owner (g : Game) (imm : BaseImmovable) : option PlayerNumber :=
  match imm_owner imm with
  | Some o => if o =? player_number g then None else Some o
  | None => None
  end.

(** Body of the loop over the immovables of the general update
    (the first [for] of the function). *)
Definition general_step (g : Game) (acc : BuildableField * DefaultAI)
    (imf : ImmovableFound) : option (BuildableField * DefaultAI) :=
  let '(field, ai) := acc in
  let imm := object imf in
  match foreign_owner g imm with
  | Some o =>
      let field := if is_hostile g o then set_enemy_nearby_ true field else field in
      Some (field, set_enemy_last_seen_ (get_gametime g) ai)
  | None =>
      field ←
        match as_building imm with
        | Some building =>
            field ←
              match b_class building with
              | ConstructionSite target_descr =>
                  if is_ProductionSiteDescr target_descr then
                    '(_, bo) ← get_building_observer ai (descr_name (b_descr building));
                    consider_productionsite_influence g field (found_coords imf) bo
                  else Some field
              | _ => Some field
              end;
            if is_ProductionSite building then
              '(_, bo) ← get_building_observer ai (descr_name (b_descr building));
              consider_productionsite_influence g field (found_coords imf) bo
            else Some field
        | None => Some field
        end;
      let field :=
        if attr_tree imm then set_trees_nearby_ (trees_nearby_ field + 1) field
        else field in
      Some (field, ai)
  end.

(** The steps of the part of the function guarded by [if (!military)], in
    the order of the source. *)

Definition reset_general_metrics (ai : DefaultAI) (field : BuildableField)
  : BuildableField :=
  let field := set_bf_preferred_ false field in
  let field := set_enemy_nearby_ false field in
  let field := set_military_capacity_ 0 field in
  let field := set_military_loneliness_ 1000 field in
  let field := set_military_presence_ 0 field in
  let field := set_military_stationed_ 0 field in
  let field := set_trees_nearby_ 0 field in
  let field := set_space_consumers_nearby_ 0 field in
  let field := set_producers_nearby_ (replicate (length (wares ai)) 0) field in
  set_consumers_nearby_ (replicate (length (wares ai)) 0) field.

(* -1 means "value has never been calculated" *)
Definition count_water (g : Game) (ai : DefaultAI) (field : BuildableField)
  : BuildableField :=
  if water_nearby_ field =? -1 then
    let water_list := find_water g (bf_coords field) 5 in
    let field := set_water_nearby_ (size water_list) field in
    if resource_necessity_water_needed_ ai then     (* for atlanteans *)
      let water_list := water_list ++ find_water g (bf_coords field) 14 in
      set_distant_water_ (size water_list - water_nearby_ field) field
    else field
  else field.

(** counting fields with fish.  The condition of the source is
    [water_nearby_ > 0 && (fish_nearby_ = -1 || gametime % 10 == 0)]: its
    right operand assigns the truth value of [-1 || gametime % 10 == 0] to
    [fish_nearby_] and is true when the assigned value is not 0. *)
Definition count_fish (g : Game) (field : BuildableField) : BuildableField :=
  let '(recount, field) :=
    if 0 <? water_nearby_ field then
      let field :=
        set_fish_nearby_
          (Z.b2z (negb (-1 =? 0) || (Z.rem (get_gametime g) 10 =? 0))) field in
      (negb (fish_nearby_ field =? 0), field)
    else (false, field) in
  if recount then set_fish_nearby_ (size (find_fish g (bf_coords field) 6)) field
  else field.

(* counting fields with critters (game)
   not doing this always, this does not change fast *)
Definition count_critters (g : Game) (field : BuildableField) : BuildableField :=
  if Z.rem (get_gametime g) 10 =? 0
  then set_critters_nearby_ (find_critters g (bf_coords field) 6) field
  else field.

Definition check_preferred (g : Game) (field : BuildableField) : BuildableField :=
  if preferred_at g (get_brn g (bf_coords field)) then set_bf_preferred_ true field
  else field.

(* stones are not renewable, we will count them only if previous state si nonzero *)
Definition count_stones (immovables : list ImmovableFound) (field : BuildableField)
  : BuildableField :=
  if 0 <? stones_nearby_ field then
    set_stones_nearby_
      (fold_left (fun n imf => if attr_granite (object imf) then n + 1 else n)
                 immovables 0) field
  else field.

(* ground water is not renewable and its amount can only fall *)
Definition check_ground_water (g : Game) (field : BuildableField) : BuildableField :=
  if 0 <? ground_water_ field
  then set_ground_water_ (get_resources_amount g (bf_coords field)) field
  else field.

Definition general_update (g : Game) (ai : DefaultAI) (field : BuildableField)
    (immovables : list ImmovableFound) : option (BuildableField * DefaultAI) :=
  let field := reset_general_metrics ai field in
  let field := count_water g ai field in
  let field := count_fish g field in
  let field := count_critters g field in
  let field := check_preferred g field in
  '(field, ai) ← foldM (general_step g) immovables (field, ai);
  let field := count_stones immovables field in
  let field := check_ground_water g field in
  Some (field, ai).

(** look if there is any unowned land nearby: the head of
    [update_buildable_field], up to the search of the immovables. *)
Definition count_unowned (g : Game) (ai : DefaultAI) (field : BuildableField)
    (range : Z) : BuildableField :=
  let coords := bf_coords field in
  let field := set_unowned_land_nearby_ (find_unowned g coords range) field in
  let field := set_near_border_ false field in
  let field :=
    if (0 <? unowned_land_nearby_ field) && (0 <? find_unowned g coords 4)
    then set_near_border_ true field
    else field in
  (* to save some CPU *)
  if ((8 <? size (mines_ ai)) && (0 <? Z.rem (get_gametime g) 3))
     || (unowned_land_nearby_ field =? 0)
  then set_unowned_mines_pots_nearby_ 0 field
  else
    let close_mines := find_unowned_mines_pots g coords 4 in
    let distant_mines :=
      find_unowned_mines_pots g coords (if range + 6 <? 12 then 12 else range + 6) in
    let distant_mines := distant_mines - close_mines in
    let field :=
      set_unowned_mines_pots_nearby_ (3 * close_mines + Z.quot distant_mines 2) field in
    if 0 <? distant_mines
    then set_unowned_mines_pots_nearby_ (unowned_mines_pots_nearby_ field + 15) field
    else field.

Section MilitaryMetrics.

(** [scale_by_double x dist radius] stands for the value that
    [x *= static_cast<double_t>(dist) / radius] leaves in the integer [x]:
    the quotient and the product are computed in double precision and the
    result is converted back to the integer type.  The development is
    parametric in it; [scale_exact] below is the instance that rounds
    nowhere but in the final conversion. *)
Variable scale_by_double : Z -> Z -> Z -> Z.

(** Body of the loop over the immovables of the larger radius
    (the second [for] of the function). *)
Definition military_step (g : Game) (field : BuildableField)
    (imf : ImmovableFound) : BuildableField :=
  let imm := object imf in
  match foreign_owner g imm with
  | Some o => if is_hostile g o then set_enemy_nearby_ true field else field
  | None =>
      match as_building imm with
      | Some building =>
          let field :=
            match b_class building with
            | ConstructionSite target_descr =>
                if is_MilitarySiteDescr target_descr then
                  let dist := calc_distance g (bf_coords field) (found_coords imf) in
                  let radius := get_conquers target_descr + 4 in
                  let v := radius - dist in
                  if 0 <? v then
                    let field :=
                      set_military_capacity_
                        (military_capacity_ field
                         + (Z.quot (get_max_number_of_soldiers target_descr) 2 + 1))
                        field in
                    let field :=
                      set_military_loneliness_
                        (scale_by_double (military_loneliness_ field) dist radius)
                        field in
                    set_military_in_constr_nearby_
                      (military_in_constr_nearby_ field + 1) field
                  else field
                else field
            | _ => field
            end in
          match b_class building with
          | MilitarySite max_soldier_capacity stationed_soldiers =>
              let dist := calc_distance g (bf_coords field) (found_coords imf) in
              let radius := get_conquers (b_descr building) + 4 in
              let v := radius - dist in
              if (0 <? v) && (0 <? dist) then
                let field :=
                  set_military_capacity_
                    (military_capacity_ field + max_soldier_capacity) field in
                let field :=
                  set_military_presence_
                    (military_presence_ field + stationed_soldiers) field in
                let field :=
                  if negb (stationed_soldiers =? 0)
                  then set_military_stationed_ (military_stationed_ field + 1) field
                  else set_military_in_constr_nearby_
                         (military_in_constr_nearby_ field + 1) field in
                set_military_loneliness_
                  (scale_by_double (military_loneliness_ field) dist radius) field
              else field
          | _ => field
          end
      | None => field
      end
  end.

(** The part of the function that is "done always (regardless of military
    or not)". *)
Definition military_update (g : Game) (field : BuildableField) (range : Z)
  : BuildableField :=
  let immovables :=
    find_immovables g (bf_coords field) (if range <? 10 then 10 else range) in
  let field := set_military_stationed_ 0 field in
  let field := set_military_in_constr_nearby_ 0 field in
  let field := set_military_capacity_ 0 field in
  let field := set_military_loneliness_ 1000 field in
  let field := set_military_presence_ 0 field in
  fold_left (military_step g) immovables field.

Definition update_buildable_field (g : Game) (ai : DefaultAI)
    (field : BuildableField) (range : Z) (military : bool)
  : option (BuildableField * DefaultAI) :=
  let field := count_unowned g ai field range in
  let immovables := find_immovables g (bf_coords field) range in
  '(field, ai) ←
    (if military then Some (field, ai) else general_update g ai field immovables);
  Some (military_update g field range, ai).

End MilitaryMetrics.

(** The instance of the double-precision scaling in which only the final
    conversion to the integer type rounds (towards zero). *)
Definition scale_exact (x dist radius : Z) : Z := Z.quot (x * dist) radius.

(** The instance that computes as the machine does, in IEEE 754 binary64:
    [static_cast<double_t>] of an integer, the division, the product with the
    converted field and the conversion of the product back to an integer,
    which truncates. *)
Definition double_of_Z (z : Z) : float := PrimFloat.of_uint63 (Uint63.of_Z z).

Definition Z_of_double (f : float) : Z :=
  match Prim2SF f with
  | S754_finite s m e =>
      let v := if 0 <=? e then Z.pos m * 2 ^ e else Z.pos m / 2 ^ (- e) in
      if s then - v else v
  | _ => 0
  end.

Definition scale_binary64 (x dist radius : Z) : Z :=
  Z_of_double
    (PrimFloat.mul (double_of_Z x) (PrimFloat.div (double_of_Z dist) (double_of_Z radius))).

(** Does a scaling keep every field value up to 1000 within [0, x], and push
    every positive one down, for every distance below every radius up to
    [R]?  (A check by enumeration, to be run on the machine instance.) *)
Definition scaling_sound (scale : Z -> Z -> Z -> Z) (R : Z) : bool :=
  forallb
    (fun x =>
       forallb
         (fun radius =>
            forallb
              (fun dist =>
                 let y := scale x dist radius in
                 (0 <=? y) && (y <=? x) && ((x =? 0) || (y <? x)))
              (seqZ 0 radius))
         (seqZ 1 R))
    (seqZ 0 1001).

(** ** Event hooks: [gain_immovable], [lose_immovable] *)

(** In the hooks below [None] means that the function does not return
    normally: [get_building_observer] throws for an unknown name,
    [wares.at] throws for an index outside the vector, [ref_cast] and
    [assert] fail. *)

(** [f(wares.at(k))] for an in-place update [f] of one ware observer. *)
Definition ware_alter (f : WareObserver -> WareObserver) (ws : list WareObserver)
    (k : WareIndex) : option (list WareObserver) :=
  match ws !! k with
  | Some w => Some (<[k := f w]> ws)
  | None => None
  end.

Definition add_producers (d : Z) (w : WareObserver) : WareObserver :=
  {| producers_ := producers_ w + d; consumers_ := consumers_ w;
     preciousness_ := preciousness_ w |}.

Definition add_consumers (d : Z) (w : WareObserver) : WareObserver :=
  {| producers_ := producers_ w; consumers_ := consumers_ w + d;
     preciousness_ := preciousness_ w |}.

(** The two loops over [bo.outputs_] and [bo.inputs_] that bump the ware
    observers up ([d = 1]) or down ([d = -1]). *)
Definition bump_wares (d : Z) (bo : BuildingObserver) (ws : list WareObserver)
  : option (list WareObserver) :=
  ws ← foldM (ware_alter (add_producers d)) (outputs_ bo) ws;
  foldM (ware_alter (add_consumers d)) (inputs_ bo) ws.

(** [ref_cast<ConstructionSite, Building>(b).building()] *)
Definition constructionsite_building (b : Building) : option BuildingDescr :=
  match b_class b with
  | ConstructionSite target => Some target
  | _ => None
  end.

Definition gain_building (g : Game) (ai : DefaultAI) (b : Building) : option DefaultAI :=
  '(i, bo) ← get_building_observer ai (descr_name (b_descr b));
  match bo_type bo with
  | CONSTRUCTIONSITE =>
      target ← constructionsite_building b;
      '(j, target_bo) ← get_building_observer ai (descr_name target);
      let ai :=
        set_buildings_
          (<[j := set_cnt_under_construction_ (cnt_under_construction_ target_bo + 1)
                    target_bo]> (buildings_ ai)) ai in
      let ai := set_num_constructionsites_ (num_constructionsites_ ai + 1) ai in
      let ai :=
        if ObserverType_eqb (bo_type target_bo) PRODUCTIONSITE
        then set_num_prod_constructionsites (num_prod_constructionsites ai + 1) ai
        else ai in
      let ai :=
        if ObserverType_eqb (bo_type target_bo) MILITARYSITE
        then set_num_milit_constructionsites (num_milit_constructionsites ai + 1) ai
        else ai in
      (* Let defaultAI try to directly connect the constructionsite *)
      Some (set_next_road_due_ (get_gametime g) ai)
  | ty =>
      let ai :=
        set_buildings_
          (<[i := set_cnt_built_ (cnt_built_ bo + 1) bo]> (buildings_ ai)) ai in
      match ty with
      | PRODUCTIONSITE =>
          let ai :=
            set_productionsites
              (productionsites ai ++
                 [{| ps_site := b_serial b; ps_bo := i;
                     built_time_ := get_gametime g;
                     unoccupied_till_ := get_gametime g;
                     stats_zero_ := 0; no_resources_count := 0 |}]) ai in
          ws ← bump_wares 1 bo (wares ai);
          Some (set_wares ws ai)
      | MINE =>
          let ai :=
            set_mines_
              (mines_ ai ++
                 [{| ps_site := b_serial b; ps_bo := i;
                     built_time_ := get_gametime g;
                     unoccupied_till_ := 0;
                     stats_zero_ := 0; no_resources_count := 0 |}]) ai in
          ws ← bump_wares 1 bo (wares ai);
          Some (set_wares ws ai)
      | MILITARYSITE =>
          Some (set_militarysites
                  (militarysites ai ++
                     [{| ms_site := b_serial b; ms_bo := i;
                         checks := get_size (desc bo);
                         enemies_nearby := true |}]) ai)
      | WAREHOUSE => Some (set_numof_warehouses_ (numof_warehouses_ ai + 1) ai)
      | _ => Some ai
      end
  end.

(** [list.erase] of the first element that satisfies [p], if any. *)
Fixpoint erase_first {A : Type} (p : A -> bool) (l : list A) : list A :=
  match l with
  | [] => []
  | x :: rest => if p x then rest else x :: erase_first p rest
  end.

Definition lose_building (ai : DefaultAI) (b : Building) : option DefaultAI :=
  '(i, bo) ← get_building_observer ai (descr_name (b_descr b));
  ai ←
    match bo_type bo with
    | CONSTRUCTIONSITE =>
        target ← constructionsite_building b;
        '(j, target_bo) ← get_building_observer ai (descr_name target);
        let ai :=
          set_buildings_
            (<[j := set_cnt_under_construction_ (cnt_under_construction_ target_bo - 1)
                      target_bo]> (buildings_ ai)) ai in
        let ai := set_num_constructionsites_ (num_constructionsites_ ai - 1) ai in
        let ai :=
          if ObserverType_eqb (bo_type target_bo) PRODUCTIONSITE
          then set_num_prod_constructionsites (num_prod_constructionsites ai - 1) ai
          else ai in
        let ai :=
          if ObserverType_eqb (bo_type target_bo) MILITARYSITE
          then set_num_milit_constructionsites (num_milit_constructionsites ai - 1) ai
          else ai in
        Some ai
    | ty =>
        let ai :=
          set_buildings_
            (<[i := set_cnt_built_ (cnt_built_ bo - 1) bo]> (buildings_ ai)) ai in
        match ty with
        | PRODUCTIONSITE =>
            let ai :=
              set_productionsites
                (erase_first (fun o => Nat.eqb (ps_site o) (b_serial b))
                             (productionsites ai)) ai in
            ws ← bump_wares (-1) bo (wares ai);
            Some (set_wares ws ai)
        | MINE =>
            let ai :=
              set_mines_
                (erase_first (fun o => Nat.eqb (ps_site o) (b_serial b)) (mines_ ai))
                ai in
            ws ← bump_wares (-1) bo (wares ai);
            Some (set_wares ws ai)
        | MILITARYSITE =>
            Some (set_militarysites
                    (erase_first (fun o => Nat.eqb (ms_site o) (b_serial b))
                                 (militarysites ai)) ai)
        | WAREHOUSE =>
            if 0 <? numof_warehouses_ ai   (* assert(numof_warehouses_ > 0) *)
            then Some (set_numof_warehouses_ (numof_warehouses_ ai - 1) ai)
            else None
        | _ => Some ai
        end
    end;
  Some (set_m_mineable_changed true (set_m_buildable_changed true ai)).

Definition gain_immovable (g : Game) (ai : DefaultAI) (pi : ImmovableKind)
  : option DefaultAI :=
  match pi with
  | IsBuilding building => gain_building g ai building
  | IsFlag flag => Some (set_new_flags (new_flags ai ++ [flag]) ai)
  | IsRoad road => Some (set_roads (road :: roads ai) ai)
  | IsOther => Some ai
  end.

Definition set_flags (v : list Serial) (eco : EconomyObserver) : EconomyObserver :=
  {| economy := economy eco; flags := v;
     failed_connection_tries := failed_connection_tries eco |}.

Definition set_failed_connection_tries (v : Z) (eco : EconomyObserver)
  : EconomyObserver :=
  {| economy := economy eco; flags := flags eco; failed_connection_tries := v |}.

(** The loop of [lose_immovable] over the economy observers: erase the flag
    from the first observer that lists it; [None] when no observer does. *)
Fixpoint erase_flag (flag : Serial) (ecos : list EconomyObserver)
  : option (list EconomyObserver) :=
  match ecos with
  | [] => None
  | eco_obs :: rest =>
      if existsb (Nat.eqb flag) (flags eco_obs)
      then Some (set_flags (erase_first (Nat.eqb flag) (flags eco_obs)) eco_obs :: rest)
      else option_map (cons eco_obs) (erase_flag flag rest)
  end.

Definition lose_immovable (ai : DefaultAI) (pi : ImmovableKind) : option DefaultAI :=
  match pi with
  | IsBuilding building => lose_building ai building
  | IsFlag flag =>
      match erase_flag flag (economies ai) with
      | Some ecos => Some (set_economies ecos ai)
      | None => Some (set_new_flags (erase_first (Nat.eqb flag) (new_flags ai)) ai)
      end
  | IsRoad road =>
      Some (set_roads (List.filter (fun r => negb (Nat.eqb r road)) (roads ai)) ai)
  | IsOther => Some ai
  end.

(** ** Attack planner: which players are attackable *)

Definition NORMAL : Z := 1.

(** [v.at(i)] and [v.at(i) = x] for a signed index; [None] stands for
    [std::out_of_range]. *)
Definition at_ {A : Type} (v : list A) (i : Z) : option A :=
  if i <? 0 then None else v !! Z.to_nat i.








(** ** Commands sent to the game *)

Inductive Command :=
  | send_player_build (pn : PlayerNumber) (c : Coords) (id : Z)
  | send_player_build_flag (pn : PlayerNumber) (c : Coords)
  | send_player_bulldoze (target : ImmovableKind)
  | send_player_build_road (pn : PlayerNumber) (path : list Coords).

(** ** Road optimizer *)

Fixpoint find_economy (e : Serial) (ecos : list EconomyObserver) (k : nat)
  : option (nat * EconomyObserver) :=
  match ecos with
  | [] => None
  | eco :: rest =>
      if Nat.eqb (economy eco) e then Some (k, eco)
      else find_economy e rest (S k)
  end.

(** [DefaultAI::get_economy_observer]: the observer of the economy, its
    position in [economies], and the engine, in which a fresh observer has
    been pushed to the front when there was none. *)
Definition get_economy_observer (ai : DefaultAI) (e : Serial)
  : nat * EconomyObserver * DefaultAI :=
  match find_economy e (economies ai) 0%nat with
  | Some (k, eco) => (k, eco, ai)
  | None =>
      let eco := {| economy := e; flags := []; failed_connection_tries := 0 |} in
      (0%nat, eco, set_economies (eco :: economies ai) ai)
  end.

Section RoadOptimizer.

(** The remainder of [create_shortcut_road] after the give-up test: it
    collects the reachable flags ([find_reachable_fields], [findpath]),
    walks the existing roads and may send [build_flag] and [build_road]
    commands.  It does not write to the engine. *)
Variable road_search : Game -> DefaultAI -> Serial -> Z -> Z -> list Command * bool.

(** [DefaultAI::dispensable_road_test] and [DefaultAI::check_economies]
    are not needed in detail here. *)
Variable dispensable_road_test : Game -> Serial -> bool.
Variable check_economies : Game -> DefaultAI -> DefaultAI * bool.

Definition create_shortcut_road (g : Game) (ai : DefaultAI) (flag : Serial)
    (checkradius minred : Z) : DefaultAI * list Command * bool :=
  (* Increasing the failed_connection_tries counter *)
  let '(k, eco, ai) := get_economy_observer ai (flag_economy g flag) in
  let eco :=
    if warehouses_empty g (flag_economy g flag)
    then set_failed_connection_tries (failed_connection_tries eco + 1) eco
    else set_failed_connection_tries 0 eco in
  let ai := set_economies (<[k := eco]> (economies ai)) ai in
  if 3 + size (flags eco) * size (flags eco) <? failed_connection_tries eco then
    match flag_building g flag with
    | Some bld =>
        (* first we block the field for 15 minutes *)
        let blocked :=
          {| blocked_coords := b_position bld;
             blocked_until_ := get_gametime g + 15 * 60 * 1000 |} in
        let ai := set_blocked_fields (blocked_fields ai ++ [blocked]) ai in
        let eco :=
          set_flags (List.filter (fun f => negb (Nat.eqb f flag)) (flags eco)) eco in
        let ai := set_economies (<[k := eco]> (economies ai)) ai in
        (ai, [send_player_bulldoze (IsFlag flag)], true)
    | None => (ai, [], true)
    end
  else
    let '(cmds, built) := road_search g ai flag checkradius minred in
    (ai, cmds, built).

(** The loop of [improve_roads] that looks for a place to split a road:
    [i] runs down from the far end, [j] up from the near end, and in each
    round the tile at [i] is tried before the tile at [j].  [fuel] bounds
    the number of rounds. *)
Fixpoint split_walk (g : Game) (coords : list Coords) (fuel i j : nat)
  : option Coords :=
  match fuel with
  | O => None
  | S fuel' =>
      if (i <? j)%nat then None
      else
        match coords !! i with
        | Some c =>
            if negb (Z.land (nodecaps g c) BUILDCAPS_FLAG =? 0) then Some c
            else
              match coords !! j with
              | Some c' =>
                  if negb (Z.land (nodecaps g c') BUILDCAPS_FLAG =? 0) then Some c'
                  else split_walk g coords fuel' (i - 1)%nat (j + 1)%nat
              | None => None
              end
        | None => None
        end
  end.

(** [Path::get_nsteps] of a road whose [CoordPath] has the coordinates
    [coords]: one step less than there are coordinates. *)
Definition get_nsteps (coords : list Coords) : nat := (length coords - 1)%nat.

(** [l.push_back(l.front()); l.pop_front()] *)
Definition rotate {A : Type} (l : list A) : list A :=
  match l with
  | [] => []
  | x :: rest => rest ++ [x]
  end.

(** [improve_roads] from the test of [inhibit_road_building_] to the end:
    pick one flag and try to connect it. *)
Definition connect_front_flag (g : Game) (ai : DefaultAI) (gametime : Z)
  : DefaultAI * list Command * bool :=
  if gametime <=? inhibit_road_building_ ai then (ai, [], false)
  else
    (* now we rotate economies and flags to get one flag to go on with *)
    let ai :=
      if 2 <=? size (economies ai) then set_economies (rotate (economies ai)) ai
      else ai in
    match economies ai with
    | [] => let '(ai, changed) := check_economies g ai in (ai, [], changed)
    | eco :: ecos =>
        let eco := if 1 <? size (flags eco) then set_flags (rotate (flags eco)) eco
                   else eco in
        match flags eco with
        | [] => let '(ai, changed) := check_economies g ai in (ai, [], changed)
        | flag :: other_flags =>
            let ai := set_economies (eco :: ecos) ai in
            (* now we test if it is dead end flag, if yes, destroying it *)
            if flag_is_dead_end g flag && (flag_current_wares g flag =? 0) then
              (set_economies (set_flags other_flags eco :: ecos) ai,
               [send_player_bulldoze (IsFlag flag)], true)
            (* if this is end flag (or sole building) or just randomly *)
            else if (flag_nr_of_roads g flag <=? 1) || (Z.rem gametime 200 =? 0) then
              let '(ai, cmds, _) := create_shortcut_road g ai flag 13 20 in
              (set_inhibit_road_building_ (gametime + 800) ai, cmds, false)
            (* this is when a flag is full *)
            else if (6 <? flag_current_wares g flag) && (Z.rem gametime 10 =? 0) then
              let '(ai, cmds, _) := create_shortcut_road g ai flag 9 0 in
              (set_inhibit_road_building_ (gametime + 400) ai, cmds, false)
            else (ai, [], false)
        end
    end.

Definition improve_roads (g : Game) (ai : DefaultAI) (gametime : Z)
  : DefaultAI * list Command * bool :=
  let pn := player_number g in
  (* first force a split on roads that are longer than 3 parts
     with exemption when there is too few building spots *)
  let continue_with (ai : DefaultAI) (sent : list Command) :=
    let '(ai, cmds, result) := connect_front_flag g ai gametime in
    (ai, sent ++ cmds, result) in
  match roads ai with
  | front :: other_roads =>
      if 20 <? spots_ ai then
        let cp := road_coords g front in
        let split :=
          if (3 <? get_nsteps cp)%nat
          then Some (split_walk g cp (get_nsteps cp) (get_nsteps cp - 1)%nat 1%nat)
          else None in
        match split with
        | Some (Some c) => (ai, [send_player_build_flag pn c], true)
        | _ =>
            (* Unable to set a flag - perhaps the road was build stupid *)
            let sent :=
              match split with
              | Some None => [send_player_bulldoze (IsRoad front)]
              | _ => []
              end in
            let ai := set_roads (other_roads ++ [front]) ai in
            (* occasionaly we test if the road can be dismounted *)
            let dismount :=
              if Z.rem gametime 25 =? 0 then
                match roads ai with
                | road :: _ =>
                    if dispensable_road_test g road then Some road else None
                | [] => None
                end
              else None in
            match dismount with
            | Some road => (ai, sent ++ [send_player_bulldoze (IsRoad road)], true)
            | None => continue_with ai sent
            end
        end
      else continue_with ai []
  | [] => continue_with ai []
  end.

End RoadOptimizer.

(** ** Construction planner *)

(* Building of new military buildings can be restricted *)
Definition kPushExpansion : Z := 1.
Definition kResourcesOrDefense : Z := 2.
Definition kDefenseOnly : Z := 3.
Definition kNoNewMilitary : Z := 4.

(* following is in miliseconds (widelands counts time in ms) *)
Definition kFieldUpdateInterval : Z := 2000.
Definition kIdleMineUpdateInterval : Z := 22000.
Definition kBusyMineUpdateInterval : Z := 2000.
(* building of the same building can be started after 25s at earliest *)
Definition kBuildingMinInterval : Z := 25 * 1000.
Definition kDefaultPrioBoost : Z := 12.

(** [DefaultAI::get_stocklevel_by_hint] *)
Definition get_stocklevel_by_hint (g : Game) (ai : DefaultAI) (hintoutput : Z) : Z :=
  fold_left
    (fun count observer =>
       (* Don't check if the economy has no warehouse. *)
       if warehouses_empty g (economy observer) then count
       else count + stock_ware g (economy observer) hintoutput)
    (economies ai) 0.

(** [DefaultAI::get_stocklevel]: the lowest stock of an output over the
    economies with a warehouse; [std::numeric_limits<uint32_t>::max()] when
    there is nothing to count. *)
Definition get_stocklevel (g : Game) (ai : DefaultAI) (bo : BuildingObserver) : Z :=
  fold_left
    (fun count observer =>
       if warehouses_empty g (economy observer) then count
       else
         fold_left
           (fun count wt =>
              if stock_ware g (economy observer) (Z.of_nat wt) <? count
              then stock_ware g (economy observer) (Z.of_nat wt)
              else count)
           (outputs_ bo) count)
    (economies ai) 4294967295.

(** [DefaultAI::check_ware_necessity]: [output_is_needed],
    [max_preciousness] and [max_needed_preciousness]; [None] when [wares.at]
    throws. *)
Definition check_ware_necessity (g : Game) (ai : DefaultAI) (bo : BuildingObserver)
  : option (bool * Z * Z) :=
  foldM
    (fun acc observer =>
       if warehouses_empty g (economy observer) then Some acc
       else
         foldM
           (fun '(output_is_needed, max_preciousness, max_needed_preciousness) wt =>
              w ← wares ai !! wt;
              let '(output_is_needed, max_needed_preciousness) :=
                if needs_ware g (economy observer) (Z.of_nat wt) then
                  (true,
                   if max_needed_preciousness <? preciousness_ w
                   then preciousness_ w else max_needed_preciousness)
                else (output_is_needed, max_needed_preciousness) in
              let max_preciousness :=
                if max_preciousness <? preciousness_ w
                then preciousness_ w else max_preciousness in
              Some (output_is_needed, max_preciousness, max_needed_preciousness))
           (outputs_ bo) acc)
    (economies ai) (false, 0, 0).

(** [DefaultAI::recalc_with_border_range] *)
Definition recalc_with_border_range (ai : DefaultAI) (bf : BuildableField) (prio : Z) : Z :=
  (* Prefer building space in the inner land. *)
  let prio :=
    if 15 <? unowned_land_nearby_ bf then prio - (unowned_land_nearby_ bf - 15)
    else prio in
  (* Especially places near the frontier to the enemies are unlikely *)
  if enemy_nearby_ bf && (0 <? prio) then Z.quot prio (3 + type_ ai) else prio.

(** The refresh of [bo.stocklevel_] that several branches of the scan do
    when the stored value is older than [max_age]. *)
Definition refresh_stocklevel (g : Game) (max_age level : Z) (bo : BuildingObserver)
  : BuildingObserver :=
  if stocklevel_time bo <? get_gametime g - max_age
  then set_stocklevel_time (get_gametime g) (set_stocklevel_ level bo)
  else bo.

(** The outcome of scoring one building on one field: the observer (the
    scan writes to it) and the priority, [None] where the source says
    [continue].  The outer [option] is [None] when a [vector::at] throws. *)
Definition Scored : Type := option (BuildingObserver * option Z).

Definition skip (bo : BuildingObserver) : Scored := Some (bo, None).
Definition scored (bo : BuildingObserver) (prio : Z) : Scored := Some (bo, Some prio).

(** [bf->producers_nearby_.at(bo.outputs_.at(0))] *)
Definition producers_of_first_output (bf : BuildableField) (bo : BuildingObserver)
  : option Z :=
  wt ← outputs_ bo !! 0%nat;
  producers_nearby_ bf !! wt.

Definition nb (b : bool) : Z := Z.b2z b.

Section ScoreCandidate.

(** The engine as the scan sees it (the regime of this attempt is already
    stored in it), the tick, the field and what fits on it. *)
Variables (g : Game) (ai : DefaultAI) (gametime : Z).
Variables (expansion_mode : Z) (bf : BuildableField) (maxsize : Z).
(** The values that [check_ware_necessity] has just stored for the
    building at hand. *)
Variables (output_is_needed : bool) (max_needed_preciousness : Z).

Let stop : bool := new_buildings_stop_ ai.
Let sites : Z := size (mines_ ai) + size (productionsites ai).

(* this can be only a well (as by now) *)
Definition score_well (bo : BuildingObserver) : Scored :=
  if ground_water_ bf <? 2 then skip bo
  else if 0 <? cnt_under_construction_ bo + nb (unoccupied_ bo) then skip bo
  else
    (* one well is forced *)
    let first := total_count bo =? 0 in
    if negb first && stop then skip bo
    else
      let prio := if first then 200 else 0 in
      let bo := set_cnt_target_ (1 + Z.quot (size (productionsites ai)) 50) bo in
      let bo := refresh_stocklevel g (30 * 1000) (get_stocklevel g ai bo) bo in
      if 40 <? stocklevel_ bo then skip bo
      else
        let prio := prio + (ground_water_ bf - 2) in
        scored bo (recalc_with_border_range ai bf prio).

(* LUMBERJACS *)
Definition score_lumberjack (bo : BuildingObserver) : Scored :=
  let bo := set_cnt_target_ (3 + Z.quot sites 15) bo in
  if total_count bo =? 0 then scored bo (500 + trees_nearby_ bf)
  else if total_count bo =? 1 then scored bo (400 + trees_nearby_ bf)
  else if trees_nearby_ bf <? 2 then skip bo
  else
    let prio := if total_count bo <? cnt_target_ bo then 75 else 0 in
    producers ← producers_of_first_output bf bo;
    if 1 <? producers then skip bo
    else
      let prio := prio + (2 * trees_nearby_ bf - 10 - producers * 5 - nb stop * 15) in
      scored bo (if near_border_ bf then Z.quot prio 2 else prio).

(* quaries are generally to be built everywhere where stones are *)
Definition score_quarry (bo : BuildingObserver) : Scored :=
  if 0 <? cnt_under_construction_ bo then skip bo
  else
    let prio := stones_nearby_ bf in
    if prio <=? 0 then skip bo
    else
      let prio := if total_count bo =? 0 then prio + 150 else prio in
      let bo :=
        refresh_stocklevel g (5 * 1000)
          (get_stocklevel_by_hint g ai (production_hint_ bo)) bo in
      let prio := if stocklevel_ bo =? 0 then prio * 2 else prio in
      (* to prevent to many quaries on one spot *)
      producers ← producers_of_first_output bf bo;
      let prio := prio - 50 * producers in
      scored bo (if near_border_ bf then Z.quot prio 2 else prio).

Definition score_hunter (bo : BuildingObserver) : Scored :=
  if critters_nearby_ bf <? 5 then skip bo
  else if stop then skip bo
  else
    producers ← producers_of_first_output bf bo;
    scored bo (0 + ((critters_nearby_ bf * 2) - 8 - 5 * producers)).

Definition score_fisher (bo : BuildingObserver) : Scored :=
  (* ~are fishes needed? *)
  if max_needed_preciousness =? 0 then skip bo
  else if 0 <? cnt_under_construction_ bo + nb (unoccupied_ bo) then skip bo
  else if water_nearby_ bf <? 2 then skip bo
  else if (max_needed_preciousness <? 4) && stop then skip bo
  else
    let bo :=
      refresh_stocklevel g (5 * 1000)
        (get_stocklevel_by_hint g ai (production_hint_ bo)) bo in
    if 50 <? stocklevel_ bo then skip bo
    else
      producers ← producers_of_first_output bf bo;
      if 1 <=? producers then skip bo
      else scored bo (fish_nearby_ bf - nb stop * 15 * total_count bo).

(* RANGERS, FISH BREEDERS and GAME KEEPERS *)
Definition score_supporter (bo : BuildingObserver) : Scored :=
  (* first setting targets (needed also for dismantling) *)
  let bo :=
    if plants_trees_ bo then set_cnt_target_ (2 + Z.quot sites 15) bo
    else set_cnt_target_ (1 + Z.quot sites 20) bo in
  if 1 <? cnt_under_construction_ bo + nb (unoccupied_ bo) then skip bo
  else if plants_trees_ bo then
    (* if there are too many trees nearby *)
    if (25 <? trees_nearby_ bf) && (1 <=? total_count bo) then skip bo
    (* sometimes all area is blocked by trees so this is to prevent this *)
    else if size (buildable_fields ai) <? 4 then skip bo
    else
      let bo :=
        refresh_stocklevel g (5 * 1000)
          (get_stocklevel_by_hint g ai (production_hint_ bo)) bo in
      let prio := if total_count bo =? 0 then 200 else 0 in
      if 2 * cnt_target_ bo <? total_count bo then skip bo
      (* we can go above target if there is shortage of logs on stock *)
      else if (cnt_target_ bo <=? total_count bo) && (40 <? stocklevel_ bo) then skip bo
      else
        producers ← at_ (producers_nearby_ bf) (production_hint_ bo);
        (* considering near trees and producers *)
        let prio := prio + ((30 - trees_nearby_ bf) * 2 + producers * 5 - nb stop * 15) in
        (* considering space consumers nearby *)
        scored bo (prio - space_consumers_nearby_ bf * 5)
  else
    if stop && (0 <? total_count bo) then skip bo
    (* especially for fish breeders *)
    else if need_water_ bo && (water_nearby_ bf <? 2) then skip bo
    else
      let prio := if need_water_ bo then Z.quot (water_nearby_ bf) 5 else 0 in
      if cnt_target_ bo <? total_count bo then skip bo
      else
        let bo :=
          refresh_stocklevel g (5 * 1000)
            (get_stocklevel_by_hint g ai (production_hint_ bo)) bo in
        if 50 <? stocklevel_ bo then skip bo
        else
          producers ← at_ (producers_nearby_ bf) (production_hint_ bo);
          if (total_count bo =? 0) && (45 * 1000 <? gametime) then
            let prio := prio + (100 + producers * 10) in
            scored bo (if enemy_nearby_ bf then prio - 10 else prio)
          else if producers =? 0 then skip bo
          else
            let prio := prio + producers * 10 in
            scored bo (if enemy_nearby_ bf then prio - 10 else prio).

Definition score_recruitment (bo : BuildingObserver) : Scored :=
  (* this will depend on number of mines_ and productionsites *)
  if (total_count bo <? Z.quot (size (productionsites ai) + size (mines_ ai)) 30)
     && (cnt_under_construction_ bo =? 0)
  then scored bo (4 + kDefaultPrioBoost)
  else scored bo 0.

(* finally normal productionsites *)
Definition score_normal (bo : BuildingObserver) : Scored :=
  if 0 <=? production_hint_ bo then skip bo
  else if 0 <? cnt_under_construction_ bo + nb (unoccupied_ bo) then skip bo
  else
    let late := 40 * 60 * 1000 <? get_gametime g in
    let first_step : option Z :=
      if (forced_after_ bo <? gametime) && (total_count bo =? 0) then Some 150
      else if (cnt_built_ bo =? 1) && late
              && match enhancement (desc bo) with Some _ => true | None => false end
              && negb (size (mines_ ai) =? 0) then Some 10
      else if negb output_is_needed then None
      else if (cnt_built_ bo =? 0) && late then Some kDefaultPrioBoost
      else if (1 <? cnt_built_ bo) && (97 <? current_stats_ bo)
      then Some (0 - kDefaultPrioBoost * nb stop)
      else if stop then None
      else Some 0 in
    match first_step with
    | None => skip bo
    | Some prio =>
        (* we check separatelly buildings with no inputs and some inputs *)
        prio ←
          match inputs_ bo with
          | [] =>
              let prio := prio + (max_needed_preciousness + kDefaultPrioBoost) in
              let sc := space_consumer_ bo in
              (* need to consider trees nearby *)
              let prio := if sc then prio + (20 - Z.quot (trees_nearby_ bf) 3) else prio in
              (* we attempt to cluster space consumers together *)
              let prio := if sc then prio + space_consumers_nearby_ bf * 2 else prio in
              (* not close to water *)
              let prio := if sc && (water_nearby_ bf =? 0) then prio + 1 else prio in
              (* not close to mountains *)
              let prio :=
                if sc && (unowned_mines_pots_nearby_ bf =? 0) then prio + 1 else prio in
              (* leave some free space between them *)
              prio ←
                (if negb sc then
                   producers ← producers_of_first_output bf bo;
                   Some (prio - producers * 20)
                 else Some prio);
              Some (prio - space_consumers_nearby_ bf * 3)
          | _ :: _ =>
              let prio :=
                if total_count bo =? 0
                then prio + (max_needed_preciousness + kDefaultPrioBoost) else prio in
              Some
                (if (0 <? cnt_built_ bo) && (70 <? current_stats_ bo)
                 then prio + (max_needed_preciousness + kDefaultPrioBoost - 3
                              + Z.quot (current_stats_ bo - 70) 5)
                 else prio)
          end;
        if prio <=? 0 then skip bo
        else
          (* +1 if any consumers_ are nearby *)
          consumers_nearby_count ←
            foldM (fun count wt => c ← consumers_nearby_ bf !! wt; Some (count + c))
                  (outputs_ bo) 0;
          scored bo (if 0 <? consumers_nearby_count then prio + 1 else prio)
    end.

Definition score_productionsite (bo : BuildingObserver) : Scored :=
  (* exclude spots on border *)
  if near_border_ bf && negb (need_trees_ bo) && negb (need_stones_ bo)
     && negb (is_fisher_ bo)
  then skip bo
  else if mines_water_ bo then score_well bo
  else if need_trees_ bo then score_lumberjack bo
  else if need_stones_ bo then score_quarry bo
  else if is_hunter_ bo then score_hunter bo
  else if is_fisher_ bo then score_fisher bo
  else if 0 <=? production_hint_ bo then score_supporter bo
  else if recruitment_ bo && negb stop then score_recruitment bo
  else score_normal bo.

End ScoreCandidate.

Section ScoreOtherKinds.

Variables (g : Game) (ai : DefaultAI) (gametime : Z).
Variables (expansion_mode : Z) (bf : BuildableField) (maxsize : Z).

Definition score_militarysite (bo : BuildingObserver) : Scored :=
  let unowned := negb (unowned_land_nearby_ bf =? 0) in
  if negb unowned then skip bo
  else if gametime - 10 * 1000 <? military_last_build_ ai then skip bo
  else if expansion_mode =? kNoNewMilitary then skip bo
  else if (expansion_mode =? kDefenseOnly) && negb (enemy_nearby_ bf) then skip bo
  else
    let suitable :=
      if enemy_nearby_ bf && fighting_type_ bo then true
      else if (2 <? unowned_mines_pots_nearby_ bf)
              && (mountain_conqueror_ bo || expansion_type_ bo) then true
      else if unowned && expansion_type_ bo && (num_milit_constructionsites ai <=? 1)
      then true                        (* we allow big buildings now *)
      else if unowned && expansion_type_ bo then
        (* decreasing probability for big buidlings *)
        if (get_size (desc bo) =? 2) && (1 <=? Z.rem gametime 15) then false
        else if (get_size (desc bo) =? 3) && (1 <=? Z.rem gametime 40) then false
        else true
      else false in                    (* the building is not suitable for situation *)
    if negb suitable then skip bo
    (* not to build so many military buildings nearby *)
    else if negb (enemy_nearby_ bf) && (0 <? military_in_constr_nearby_ bf) then skip bo
    else
      (* a boost to prevent an expansion halt *)
      let local_boost := if expansion_mode =? kPushExpansion then 200 else 0 in
      let prio :=
        Z.quot (unowned_land_nearby_ bf * 2 * resource_necessity_territory_ ai) 255
        + Z.quot (unowned_mines_pots_nearby_ bf * resource_necessity_mines_ ai) 255
        + Z.quot (stones_nearby_ bf) 2 + Z.quot (military_loneliness_ bf) 10 - 60
        + local_boost
        + Z.quot (water_nearby_ bf * resource_necessity_water_ ai) 255 in
      (* special bonus due to remote water for atlanteans *)
      let prio :=
        if resource_necessity_water_needed_ ai
        then prio + Z.quot (distant_water_ bf * resource_necessity_water_ ai) 255
        else prio in
      let prio := if get_size (desc bo) <? maxsize then prio - 5 else prio in
      (* we need to prefer military building near to borders with enemy *)
      scored bo
        (if enemy_nearby_ bf && (military_capacity_ bf <? 12)
         then prio + (50 + (12 - military_capacity_ bf) * 20) else prio).

(** Shared tail of the warehouse and the training site branch. *)
Definition care_about_borders (prio : Z) : Z :=
  let prio := if enemy_nearby_ bf then Z.quot prio 2 else prio in
  if negb (unowned_land_nearby_ bf =? 0) then Z.quot prio 2 else prio.

Definition score_warehouse (bo : BuildingObserver) : Scored :=
  (* exclude spots on border *)
  if near_border_ bf then skip bo
  else
    (* Build one warehouse for ~every 35 productionsites and mines_. *)
    let prio :=
      if (numof_warehouses_ ai
            <? Z.quot (size (productionsites ai) + size (mines_ ai) + 20) 35)
         && (cnt_under_construction_ bo =? 0)
      then 20 else 0 in
    scored bo (care_about_borders prio).

Definition score_trainingsite (bo : BuildingObserver) : Scored :=
  if near_border_ bf then skip bo
  else
    (* build after 20 production sites and then after each 50 production site *)
    let prio :=
      if (total_count bo <? Z.quot (size (productionsites ai) + 30) 50)
         && (cnt_under_construction_ bo =? 0)
      then 4 + kDefaultPrioBoost else 0 in
    scored bo (care_about_borders prio).

(** The gates that a building passes before it is scored on a field.
    [wallclock] is what [time(nullptr)] returns. *)
Definition passes_gates (wallclock : Z) (bo : BuildingObserver) : bool :=
  if negb (buildable bo) then false
  else if gametime <? prohibited_till_ bo then false
  (* if current field is not big enough *)
  else if maxsize <? get_size (desc bo) then false
  (* add randomnes and ease AI *)
  else if (Z.rem wallclock 3 =? 0) && (0 <? total_count bo) then false
  else if ObserverType_eqb (bo_type bo) MINE then false
  (* here we do an exemption for lumberjacks *)
  else if (gametime - construction_decision_time_ bo <? kBuildingMinInterval)
          && negb (need_trees_ bo) then false
  else if unoccupied_ bo then false
  else if negb (ObserverType_eqb (bo_type bo) MILITARYSITE)
          && (2 <=? cnt_under_construction_ bo) then false
  else true.

(** One round of the loop over [buildings_] for the field [bf]: the
    observer as the round leaves it and the final priority of the pair, if
    the round gets as far as comparing it with [proposed_priority]. *)
Definition evaluate_building (wallclock : Z) (bo : BuildingObserver) : Scored :=
  if negb (passes_gates wallclock bo) then skip bo
  else
    (* is its output needed at all? *)
    '(output_is_needed, _, max_needed_preciousness) ← check_ware_necessity g ai bo;
    '(bo, prio) ←
      match bo_type bo with
      | PRODUCTIONSITE =>
          score_productionsite g ai gametime bf output_is_needed
                               max_needed_preciousness bo
      | MILITARYSITE => score_militarysite bo
      | WAREHOUSE => score_warehouse bo
      | TRAININGSITE => score_trainingsite bo
      | _ => scored bo 0
      end;
    match prio with
    | None => skip bo
    | Some prio =>
        (* think of space consuming buildings nearby like farms or vineyards *)
        let prio := prio - space_consumers_nearby_ bf * 10 in
        (* Stop here, if priority is 0 or less. *)
        if prio <=? 0 then skip bo
        else
          (* Prefer road side fields *)
          let prio := prio + (if bf_preferred_ bf then 1 else 0) in
          (* don't waste good land for small huts *)
          scored bo (prio - (maxsize - get_size (desc bo)) * 5)
    end.

End ScoreOtherKinds.

(** ** [DefaultAI::update_all_mineable_fields] *)

Definition set_mf_next_update_due_ (v : Z) (mf : MineableField) : MineableField :=
  {| mf_coords := mf_coords mf; mf_next_update_due_ := v;
     mf_preferred_ := mf_preferred_ mf; mines_nearby_ := mines_nearby_ mf |}.

(** The [while] loop; [i] counts the checked fields.  Every round either
    drops the front field or adds one to [i], so [fuel] rounds are enough
    when [fuel] is the number of fields plus 40. *)
Fixpoint update_mineable_loop (g : Game) (gametime : Z) (fuel : nat) (i : Z)
    (mineable : list MineableField) (unusable : list Coords)
  : list MineableField * list Coords :=
  match fuel with
  | O => (mineable, unusable)
  | S fuel' =>
      match mineable with
      | [] => (mineable, unusable)
      | mf :: rest =>
          if (mf_next_update_due_ mf <=? gametime) && (i <? 40) then
            (* check whether we lost ownership of the node *)
            if negb (get_owned_by g (mf_coords mf) =? player_number g) then
              update_mineable_loop g gametime fuel' i rest unusable
            (* check whether we can still construct regular buildings on the node *)
            else if Z.land (get_buildcaps g (mf_coords mf)) BUILDCAPS_MINE =? 0 then
              update_mineable_loop g gametime fuel' i rest (unusable ++ [mf_coords mf])
            else
              let mf :=
                set_mf_next_update_due_ (gametime + kFieldUpdateInterval)
                                        (update_mineable_field g mf) in
              update_mineable_loop g gametime fuel' (i + 1) (rest ++ [mf]) unusable
          else (mineable, unusable)
      end
  end.

Definition update_all_mineable_fields (g : Game) (ai : DefaultAI) (gametime : Z)
  : DefaultAI :=
  let '(mineable, unusable) :=
    update_mineable_loop g gametime (length (mineable_fields ai) + 40) 0
                         (mineable_fields ai) (unusable_fields ai) in
  set_unusable_fields unusable (set_mineable_fields mineable ai).

(** ** [DefaultAI::construct_building] *)

(** The four reasons to stop building production sites. *)
(* 1. to not have too many constructionsites *)
Definition stop_constructionsites (ai : DefaultAI) : bool :=
  Z.quot (size (productionsites ai)) 7 + 2 <? num_prod_constructionsites ai.
(* 2. to not exhaust all free spots *)
Definition stop_free_spots (ai : DefaultAI) (spots : Z) : bool :=
  Z.quot (spots * 3) 2 + 5 <? size (productionsites ai).
(* 3. too keep some proportions production sites vs military sites *)
Definition stop_proportion (ai : DefaultAI) : bool :=
  (num_milit_constructionsites ai + size (militarysites ai)) * 3
  <? num_prod_constructionsites ai + size (productionsites ai).
(* 4. if we do not have 3 mines at least *)
Definition stop_mines (ai : DefaultAI) : bool := size (mines_ ai) <? 3.
(* BUT if enemy is nearby, we cancel above stop *)
Definition enemy_seen_lately (ai : DefaultAI) (gametime : Z) : bool :=
  gametime <? enemy_last_seen_ ai + 2 * 60 * 1000.

(** [spots_avail.at(k)]: the buildable fields whose node takes size [k]. *)
Definition spots_avail (g : Game) (ai : DefaultAI) (k : Z) : Z :=
  size (List.filter
          (fun bf => Z.land (nodecaps g (bf_coords bf)) BUILDCAPS_SIZEMASK =? k)
          (buildable_fields ai)).

(** here we possible stop building of new buildings: the value that the
    five tests leave in [new_buildings_stop_], given the free spots. *)
Definition decide_new_buildings_stop (ai : DefaultAI) (spots gametime : Z) : bool :=
  let stop := false in
  let stop := if stop_constructionsites ai then true else stop in
  let stop := if stop_free_spots ai spots then true else stop in
  let stop := if stop_proportion ai then true else stop in
  let stop := if stop_mines ai then true else stop in
  if stop && enemy_seen_lately ai gametime then false else stop.

(** sometimes there is too many military buildings in construction, so we
    must prevent initialization of further buildings start *)
Definition decide_expansion_mode (ai : DefaultAI) : Z :=
  let treshold := Z.quot (size (militarysites ai)) 40 + 2 in
  let pending := unstationed_milit_buildings_ ai + num_milit_constructionsites ai in
  if 3 * treshold <? pending then kNoNewMilitary
  else if 2 * treshold <? pending then kDefenseOnly
  else if 1 <=? pending then kResourcesOrDefense
  else kPushExpansion.

(** we use 'virtual mines', because also mine spots can be changed to mines *)
Definition virtual_mines (ai : DefaultAI) : Z :=
  size (mines_ ai) + Z.quot (size (mineable_fields ai)) 10.

Definition decide_necessity_mines (ai : DefaultAI) : Z :=
  if virtual_mines ai <=? 5 then 255
  else if 14 <? virtual_mines ai then 0
  else Z.quot ((16 - virtual_mines ai) * 255) 12.

(** First: virtual mines<=5 - stage of building the economics
    Second: virtual mines>5 - teritorial expansion *)
Definition decide_necessity_territory (g : Game) (ai : DefaultAI) (spots : Z) : Z :=
  if virtual_mines ai <=? 5 then
    if spots_avail g ai BUILDCAPS_BIG <=? 4 then 255 else 0
  else if spots =? 0 then 255
  else
    let tmp := Z.quot (255 * 4 * size (productionsites ai)) spots in
    if 255 <? tmp then 255 else tmp.

(** The head of the function: count the spots and set the regime of this
    attempt ([spots_], [new_buildings_stop_], the necessities); the second
    component is [expansion_mode]. *)
Definition set_regime (g : Game) (ai : DefaultAI) (gametime : Z) : DefaultAI * Z :=
  let spots :=
    spots_avail g ai BUILDCAPS_SMALL + spots_avail g ai BUILDCAPS_MEDIUM
    + spots_avail g ai BUILDCAPS_BIG in
  let stop := decide_new_buildings_stop ai spots gametime in
  let expansion_mode := decide_expansion_mode ai in
  let necessity_mines := decide_necessity_mines ai in
  let necessity_territory := decide_necessity_territory g ai spots in
  let ai := set_spots_ spots ai in
  let ai := set_new_buildings_stop_ stop ai in
  let ai := set_resource_necessity_mines_ necessity_mines ai in
  let ai := set_resource_necessity_territory_ necessity_territory ai in
  (ai, expansion_mode).

(** Remove outdated fields from blocker list *)
Definition remove_outdated (g : Game) (blocked : list BlockedField) : list BlockedField :=
  List.filter (fun b => negb (blocked_until_ b <? get_gametime g)) blocked.

(** Continue if field is blocked at the moment *)
Definition field_blocked (ai : DefaultAI) (c : Coords) : bool :=
  existsb (fun b => coords_eqb (blocked_coords b) c) (blocked_fields ai).

(** What the two scans carry along: the observers (the scan writes to
    them), the winner so far as a position in [buildings_] with the proposed
    coordinates, its priority, and whether it is a mine. *)
Record Scan := {
  scan_buildings : list BuildingObserver;
  best_building : option (nat * Coords);
  proposed_priority : Z;
  mine : bool
}.

Section Scans.

Variables (g : Game) (wallclock : Z) (ai : DefaultAI) (gametime : Z).
Variable expansion_mode : Z.

(** One round of the loop over [buildings_] for a field. *)
Definition scan_building (bf : BuildableField) (maxsize : Z) (st : Scan) (j : nat)
  : option Scan :=
  bo ← scan_buildings st !! j;
  '(bo, prio) ← evaluate_building g ai gametime expansion_mode bf maxsize wallclock bo;
  let buildings := <[j := bo]> (scan_buildings st) in
  match prio with
  | Some prio =>
      if proposed_priority st <? prio then
        Some {| scan_buildings := buildings;
                best_building := Some (j, bf_coords bf);
                proposed_priority := prio;
                mine := mine st |}
      else
        Some {| scan_buildings := buildings; best_building := best_building st;
                proposed_priority := proposed_priority st; mine := mine st |}
  | None =>
      Some {| scan_buildings := buildings; best_building := best_building st;
              proposed_priority := proposed_priority st; mine := mine st |}
  end.

(** One round of the loop over [buildable_fields]. *)
Definition scan_field (st : Scan) (bf : BuildableField) : option Scan :=
  (* if 'buildable field' update is overdue for more then 8 seconds
     skip the bf in evaluation *)
  if bf_next_update_due_ bf <? gametime - 8000 then Some st
  (* Continue if field is blocked at the moment *)
  else if field_blocked ai (bf_coords bf) then Some st
  else
    let maxsize := Z.land (get_buildcaps g (bf_coords bf)) BUILDCAPS_SIZEMASK in
    (* For every field test all buildings *)
    foldM (scan_building bf maxsize) (seq 0 (length (scan_buildings st))) st.

(** this is penalty if there are existing mines too close
    it is treated as multiplicator for count of near mines *)
Definition nearness_penalty (bo : BuildingObserver) : Z :=
  if cnt_built_ bo + cnt_under_construction_ bo =? 0 then 0 else 10.

(** The priority of a mineable field for a mine after the nearness
    penalty has been applied. *)
Definition mine_priority (bo : BuildingObserver) (mf : MineableField) : Z :=
  let prio := get_resources_amount g (mf_coords mf) in
  (* applying nearnes penalty *)
  prio - mines_nearby_ mf * nearness_penalty bo.

(** One round of the loop over [mineable_fields] for the mine [i]. *)
Definition scan_mineable_field (bo : BuildingObserver) (i : nat) (st : Scan)
    (mf : MineableField) : Scan :=
  if negb (get_resources g (mf_coords mf) =? bo_mines_ bo) then st
  else
    let prio := mine_priority bo mf in
    (* Only build mines_ on locations where some material can be mined *)
    if prio <? 2 then st
    (* Continue if field is blocked at the moment *)
    else if field_blocked ai (mf_coords mf) then st
    else
      (* Prefer road side fields *)
      let prio := prio + (if mf_preferred_ mf then 1 else 0) in
      if proposed_priority st <? prio then
        {| scan_buildings := scan_buildings st;
           best_building := Some (i, mf_coords mf);
           proposed_priority := prio;
           mine := true |}
      else st.

(** One round of the loop over [buildings_] of the mine section. *)
Definition scan_mine (st : Scan) (i : nat) : option Scan :=
  bo ← scan_buildings st !! i;
  if negb (buildable bo) || negb (ObserverType_eqb (bo_type bo) MINE) then Some st
  else if gametime <? prohibited_till_ bo then Some st
  else if gametime - construction_decision_time_ bo <? kBuildingMinInterval then Some st
  (* Don't build another building of this type, if there is already
     one that is unoccupied_ at the moment or under construction *)
  else if 0 <? cnt_under_construction_ bo + nb (unoccupied_ bo) then Some st
  else
    (* testing if building's output is needed *)
    '(output_is_needed, _, _) ← check_ware_necessity g ai bo;
    if negb output_is_needed && (0 <? total_count bo) then Some st
    (* if current one(s) are performing badly *)
    else if (1 <=? total_count bo) && (current_stats_ bo <? 50) then Some st
    else Some (fold_left (scan_mineable_field bo i) (mineable_fields ai) st).

End Scans.

(** we block also nearby fields
    if farms and so on, for quite a long time
    if military sites only for short time *)
Definition nearby_blocks (g : Game) (best : BuildingObserver) (proposed_coords : Coords)
  : list BlockedField :=
  if (space_consumer_ best && negb (plants_trees_ best))
     || ObserverType_eqb (bo_type best) MILITARYSITE
  then
    let '(block_time, block_area) :=
      if space_consumer_ best then (45 * 60 * 1000, 3)
      else (25 * 1000, 6) in    (* militray buildings for a very short time *)
    map (fun c => {| blocked_coords := c;
                     blocked_until_ := get_gametime g + block_time |})
        (map_region g proposed_coords block_area)
  else [].

(** [wallclock] is the value of [time(nullptr)] during the call; [None]
    means that a [vector::at] threw. *)
Definition construct_building (g : Game) (wallclock : Z) (ai : DefaultAI) (gametime : Z)
  : option (DefaultAI * list Command * bool) :=
  let '(ai, expansion_mode) := set_regime g ai gametime in
  (* Remove outdated fields from blocker list *)
  let ai := set_blocked_fields (remove_outdated g (blocked_fields ai)) ai in
  let st :=
    {| scan_buildings := buildings_ ai; best_building := None;
       proposed_priority := 0; mine := false |} in
  (* first scan all buildable fields for regular buildings *)
  st ← foldM (scan_field g wallclock ai gametime expansion_mode) (buildable_fields ai) st;
  (* then try all mines_ - as soon as basic economy is build up. *)
  '(ai, st) ←
    (if next_mine_construction_due_ ai <? gametime then
       let ai := update_all_mineable_fields g ai gametime in
       let ai := set_next_mine_construction_due_ (gametime + kIdleMineUpdateInterval) ai in
       if negb (size (mineable_fields ai) =? 0) && (8 <? size (productionsites ai)) then
         st ← foldM (scan_mine g ai gametime) (seq 0 (length (scan_buildings st))) st;
         Some (ai, st)
       else Some (ai, st)
     else Some (ai, st));
  let ai := set_buildings_ (scan_buildings st) ai in
  match best_building st with
  (* if there is no winner: *)
  | None => Some (ai, [], false)
  | Some (k, proposed_coords) =>
      best ← buildings_ ai !! k;
      (* send the command to construct a new building *)
      let cmd := send_player_build (player_number g) proposed_coords (bo_id best) in
      let blocked :=
        {| blocked_coords := proposed_coords;
           blocked_until_ := get_gametime g + 120000 |} in     (* two minutes *)
      let ai := set_blocked_fields (blocked_fields ai ++ [blocked]) ai in
      let ai :=
        set_blocked_fields (blocked_fields ai ++ nearby_blocks g best proposed_coords) ai in
      let ai :=
        if negb (ObserverType_eqb (bo_type best) MILITARYSITE) then
          set_buildings_
            (<[k := set_construction_decision_time_ gametime best]> (buildings_ ai)) ai
        else  (* very ugly hack here *)
          let ai := set_military_last_build_ gametime ai in
          set_buildings_
            (<[k := set_construction_decision_time_
                      (gametime - Z.quot kBuildingMinInterval 2) best]> (buildings_ ai))
            ai in
      (* set the type of update that is needed *)
      let ai :=
        if mine st
        then set_next_mine_construction_due_ (gametime + kBusyMineUpdateInterval) ai
        else set_m_buildable_changed true ai in
      Some (ai, [cmd], true)
  end.

(** ** Vocabulary of the statements *)


(** The free building spots that [construct_building] counts. *)
Definition free_spots (g : Game) (ai : DefaultAI) : Z :=
  spots_avail g ai BUILDCAPS_SMALL + spots_avail g ai BUILDCAPS_MEDIUM
  + spots_avail g ai BUILDCAPS_BIG.


(** The radius within which a friendly military site, or a construction
    site of one, crowds a field: what it conquers plus 4. *)
Definition crowding_radius (imf : ImmovableFound) : option Z :=
  match as_building (object imf) with
  | Some building =>
      match b_class building with
      | ConstructionSite target_descr =>
          if is_MilitarySiteDescr target_descr
          then Some (get_conquers target_descr + 4) else None
      | MilitarySite _ _ => Some (get_conquers (b_descr building) + 4)
      | _ => None
      end
  | None => None
  end.

(** Does the found immovable scale the loneliness of the field at [c]?  It
    must not belong to another player and must be closer than its crowding
    radius; a finished military site at distance 0 does not count. *)
Definition crowds (g : Game) (c : Coords) (imf : ImmovableFound) : bool :=
  match foreign_owner g (object imf), crowding_radius imf with
  | None, Some radius =>
      let dist := calc_distance g c (found_coords imf) in
      (dist <? radius)
      && match as_building (object imf) with
         | Some building =>
             match b_class building with
             | MilitarySite _ _ => 0 <? dist
             | _ => true
             end
         | None => true
         end
  | _, _ => false
  end.

(** The radius scanned for military sites: the larger of 10 and [range]. *)
Definition scanned (g : Game) (c : Coords) (range : Z) : list ImmovableFound :=
  find_immovables g c (if range <? 10 then 10 else range).

(** Can a flag be set on the tile? *)
Definition flag_capable (g : Game) (c : Coords) : bool :=
  negb (Z.land (nodecaps g c) BUILDCAPS_FLAG =? 0).

(** The positions on a path in the order in which the split loop tries
    them: from both ends inward, the far end first. *)
Fixpoint inward_order (fuel i j : nat) : list nat :=
  match fuel with
  | O => []
  | S fuel' => if (i <? j)%nat then [] else i :: j :: inward_order fuel' (i - 1) (j + 1)
  end.

(** The tiles of a road in that order: all but its two ends. *)
Definition tiles_inward (g : Game) (road : Serial) : list Coords :=
  let cp := road_coords g road in
  omap (fun k => cp !! k) (inward_order (get_nsteps cp) (get_nsteps cp - 1) 1).

(** Is the immovable already listed by the engine: a building among the
    site observers, a flag in an economy observer or among the new flags, a
    road among the roads? *)
Definition tracked (ai : DefaultAI) (pi : ImmovableKind) : bool :=
  match pi with
  | IsBuilding b =>
      existsb (fun o => Nat.eqb (ps_site o) (b_serial b)) (productionsites ai)
      || existsb (fun o => Nat.eqb (ps_site o) (b_serial b)) (mines_ ai)
      || existsb (fun o => Nat.eqb (ms_site o) (b_serial b)) (militarysites ai)
  | IsFlag flag =>
      existsb (fun eco => existsb (Nat.eqb flag) (flags eco)) (economies ai)
      || existsb (Nat.eqb flag) (new_flags ai)
  | IsRoad road => existsb (Nat.eqb road) (roads ai)
  | IsOther => false
  end.

(** The observer state that the event hooks maintain: the building
    observers (with [cnt_built_] and [cnt_under_construction_]), the ware
    observers (with [producers_] and [consumers_]), the site lists, the roads,
    the flags (new or in an economy observer) and the global counters. *)
Definition same_observers (a b : DefaultAI) : Prop :=
  buildings_ a = buildings_ b
  /\ wares a = wares b
  /\ productionsites a = productionsites b
  /\ mines_ a = mines_ b
  /\ militarysites a = militarysites b
  /\ roads a = roads b
  /\ new_flags a = new_flags b
  /\ economies a = economies b
  /\ num_constructionsites_ a = num_constructionsites_ b
  /\ num_prod_constructionsites a = num_prod_constructionsites b
  /\ num_milit_constructionsites a = num_milit_constructionsites b
  /\ numof_warehouses_ a = numof_warehouses_ b.

(** ** Fixtures: a small world to run the functions on *)

Definition origin : Coords := (0, 0).

(** An empty map for player 1 at tick 1001: nothing is found anywhere. *)
Definition quiet_game : Game :=
  {| get_gametime := 1001;
     player_number := 1;
     is_hostile := fun _ => false;
     calc_distance := fun a b => Z.abs (fst a - fst b) + Z.abs (snd a - snd b);
     get_brn := fun c => (fst c + 1, snd c + 1);
     get_immovable := fun _ => None;
     nodecaps := fun _ => 0;
     get_buildcaps := fun _ => 0;
     get_owned_by := fun _ => 1;
     get_resources := fun _ => 0;
     get_resources_amount := fun _ => 0;
     find_immovables := fun _ _ => [];
     find_unowned := fun _ _ => 0;
     find_unowned_mines_pots := fun _ _ => 0;
     find_water := fun _ _ => [];
     find_fish := fun _ _ => [];
     find_critters := fun _ _ => 0;
     map_region := fun c _ => [c];
     warehouses_empty := fun _ => true;
     stock_ware := fun _ _ => 0;
     needs_ware := fun _ _ => false;
     flag_economy := fun _ => 0%nat;
     flag_building := fun _ => None;
     flag_is_dead_end := fun _ => false;
     flag_current_wares := fun _ => 0;
     flag_nr_of_roads := fun _ => 2;
     road_coords := fun _ => [];
     get_nrplayers := 2;
     get_player := fun _ => true;
     get_general_statistics := [[10]; [10]] |}.

(** A freshly initialised engine of a normal computer player. *)
Definition fresh_ai : DefaultAI :=
  {| type_ := NORMAL;
     m_buildable_changed := true; m_mineable_changed := true;
     buildings_ := []; wares := [];
     buildable_fields := []; mineable_fields := []; unusable_fields := [];
     blocked_fields := []; economies := []; new_flags := []; roads := [];
     productionsites := []; mines_ := []; militarysites := [];
     num_constructionsites_ := 0; num_milit_constructionsites := 0;
     num_prod_constructionsites := 0;
     next_road_due_ := 1000; next_mine_construction_due_ := 0;
     next_attack_consideration_due_ := 300000;
     inhibit_road_building_ := 0; enemy_last_seen_ := -2 * 60 * 1000;
     numof_warehouses_ := 0; new_buildings_stop_ := false;
     resource_necessity_territory_ := 255; resource_necessity_mines_ := 255;
     resource_necessity_water_ := 0; resource_necessity_water_needed_ := false;
     unstationed_milit_buildings_ := 0; military_last_build_ := -60 * 1000;
     spots_ := 0 |}.

(** Variations of a game in one accessor. *)
Definition with_nodecaps (v : Coords -> Z) (g : Game) : Game :=
  {| get_gametime := get_gametime g; player_number := player_number g; is_hostile :=
     is_hostile g; calc_distance := calc_distance g; get_brn := get_brn g; get_immovable :=
     get_immovable g; nodecaps := v; get_buildcaps := get_buildcaps g; get_owned_by :=
     get_owned_by g; get_resources := get_resources g; get_resources_amount :=
     get_resources_amount g; find_immovables := find_immovables g; find_unowned :=
     find_unowned g; find_unowned_mines_pots := find_unowned_mines_pots g; find_water :=
     find_water g; find_fish := find_fish g; find_critters := find_critters g; map_region :=
     map_region g; warehouses_empty := warehouses_empty g; stock_ware := stock_ware g;
     needs_ware := needs_ware g; flag_economy := flag_economy g; flag_building :=
     flag_building g; flag_is_dead_end := flag_is_dead_end g; flag_current_wares :=
     flag_current_wares g; flag_nr_of_roads := flag_nr_of_roads g; road_coords :=
     road_coords g; get_nrplayers := get_nrplayers g; get_player := get_player g;
     get_general_statistics := get_general_statistics g |}.

Definition with_get_buildcaps (v : Coords -> Z) (g : Game) : Game :=
  {| get_gametime := get_gametime g; player_number := player_number g; is_hostile :=
     is_hostile g; calc_distance := calc_distance g; get_brn := get_brn g; get_immovable :=
     get_immovable g; nodecaps := nodecaps g; get_buildcaps := v; get_owned_by :=
     get_owned_by g; get_resources := get_resources g; get_resources_amount :=
     get_resources_amount g; find_immovables := find_immovables g; find_unowned :=
     find_unowned g; find_unowned_mines_pots := find_unowned_mines_pots g; find_water :=
     find_water g; find_fish := find_fish g; find_critters := find_critters g; map_region :=
     map_region g; warehouses_empty := warehouses_empty g; stock_ware := stock_ware g;
     needs_ware := needs_ware g; flag_economy := flag_economy g; flag_building :=
     flag_building g; flag_is_dead_end := flag_is_dead_end g; flag_current_wares :=
     flag_current_wares g; flag_nr_of_roads := flag_nr_of_roads g; road_coords :=
     road_coords g; get_nrplayers := get_nrplayers g; get_player := get_player g;
     get_general_statistics := get_general_statistics g |}.

Definition with_find_immovables (v : Coords -> Z -> list ImmovableFound) (g : Game) : Game :=
  {| get_gametime := get_gametime g; player_number := player_number g; is_hostile :=
     is_hostile g; calc_distance := calc_distance g; get_brn := get_brn g; get_immovable :=
     get_immovable g; nodecaps := nodecaps g; get_buildcaps := get_buildcaps g; get_owned_by
     := get_owned_by g; get_resources := get_resources g; get_resources_amount :=
     get_resources_amount g; find_immovables := v; find_unowned := find_unowned g;
     find_unowned_mines_pots := find_unowned_mines_pots g; find_water := find_water g;
     find_fish := find_fish g; find_critters := find_critters g; map_region := map_region g;
     warehouses_empty := warehouses_empty g; stock_ware := stock_ware g; needs_ware :=
     needs_ware g; flag_economy := flag_economy g; flag_building := flag_building g;
     flag_is_dead_end := flag_is_dead_end g; flag_current_wares := flag_current_wares g;
     flag_nr_of_roads := flag_nr_of_roads g; road_coords := road_coords g; get_nrplayers :=
     get_nrplayers g; get_player := get_player g; get_general_statistics :=
     get_general_statistics g |}.

Definition with_find_fish (v : Coords -> Z -> list Coords) (g : Game) : Game :=
  {| get_gametime := get_gametime g; player_number := player_number g; is_hostile :=
     is_hostile g; calc_distance := calc_distance g; get_brn := get_brn g; get_immovable :=
     get_immovable g; nodecaps := nodecaps g; get_buildcaps := get_buildcaps g; get_owned_by
     := get_owned_by g; get_resources := get_resources g; get_resources_amount :=
     get_resources_amount g; find_immovables := find_immovables g; find_unowned :=
     find_unowned g; find_unowned_mines_pots := find_unowned_mines_pots g; find_water :=
     find_water g; find_fish := v; find_critters := find_critters g; map_region :=
     map_region g; warehouses_empty := warehouses_empty g; stock_ware := stock_ware g;
     needs_ware := needs_ware g; flag_economy := flag_economy g; flag_building :=
     flag_building g; flag_is_dead_end := flag_is_dead_end g; flag_current_wares :=
     flag_current_wares g; flag_nr_of_roads := flag_nr_of_roads g; road_coords :=
     road_coords g; get_nrplayers := get_nrplayers g; get_player := get_player g;
     get_general_statistics := get_general_statistics g |}.

Definition with_flag_building (v : Serial -> option Building) (g : Game) : Game :=
  {| get_gametime := get_gametime g; player_number := player_number g; is_hostile :=
     is_hostile g; calc_distance := calc_distance g; get_brn := get_brn g; get_immovable :=
     get_immovable g; nodecaps := nodecaps g; get_buildcaps := get_buildcaps g; get_owned_by
     := get_owned_by g; get_resources := get_resources g; get_resources_amount :=
     get_resources_amount g; find_immovables := find_immovables g; find_unowned :=
     find_unowned g; find_unowned_mines_pots := find_unowned_mines_pots g; find_water :=
     find_water g; find_fish := find_fish g; find_critters := find_critters g; map_region :=
     map_region g; warehouses_empty := warehouses_empty g; stock_ware := stock_ware g;
     needs_ware := needs_ware g; flag_economy := flag_economy g; flag_building := v;
     flag_is_dead_end := flag_is_dead_end g; flag_current_wares := flag_current_wares g;
     flag_nr_of_roads := flag_nr_of_roads g; road_coords := road_coords g; get_nrplayers :=
     get_nrplayers g; get_player := get_player g; get_general_statistics :=
     get_general_statistics g |}.

Definition with_road_coords (v : Serial -> list Coords) (g : Game) : Game :=
  {| get_gametime := get_gametime g; player_number := player_number g; is_hostile :=
     is_hostile g; calc_distance := calc_distance g; get_brn := get_brn g; get_immovable :=
     get_immovable g; nodecaps := nodecaps g; get_buildcaps := get_buildcaps g; get_owned_by
     := get_owned_by g; get_resources := get_resources g; get_resources_amount :=
     get_resources_amount g; find_immovables := find_immovables g; find_unowned :=
     find_unowned g; find_unowned_mines_pots := find_unowned_mines_pots g; find_water :=
     find_water g; find_fish := find_fish g; find_critters := find_critters g; map_region :=
     map_region g; warehouses_empty := warehouses_empty g; stock_ware := stock_ware g;
     needs_ware := needs_ware g; flag_economy := flag_economy g; flag_building :=
     flag_building g; flag_is_dead_end := flag_is_dead_end g; flag_current_wares :=
     flag_current_wares g; flag_nr_of_roads := flag_nr_of_roads g; road_coords := v;
     get_nrplayers := get_nrplayers g; get_player := get_player g; get_general_statistics :=
     get_general_statistics g |}.



(** A buildable field as its constructor leaves it. *)
Definition plain_field (c : Coords) : BuildableField :=
  {| bf_coords := c; bf_next_update_due_ := 0; bf_preferred_ := false;
     enemy_nearby_ := false; unowned_land_nearby_ := 0; near_border_ := false;
     unowned_mines_pots_nearby_ := 0; trees_nearby_ := 0; stones_nearby_ := 1;
     water_nearby_ := -1; distant_water_ := 0; fish_nearby_ := -1;
     critters_nearby_ := -1; ground_water_ := 1; space_consumers_nearby_ := 0;
     producers_nearby_ := []; consumers_nearby_ := [];
     military_capacity_ := 0; military_loneliness_ := 1000;
     military_in_constr_nearby_ := 0; military_presence_ := 0;
     military_stationed_ := 0 |}.

Definition some_site (n : nat) : ProductionSiteObserver :=
  {| ps_site := n; ps_bo := 0%nat; built_time_ := 0; unoccupied_till_ := 0;
     stats_zero_ := 0; no_resources_count := 0 |}.

Definition some_militarysite (n : nat) : MilitarySiteObserver :=
  {| ms_site := n; ms_bo := 0%nat; checks := 1; enemies_nearby := false |}.

(** Scenario "stop on overbuild": 30 production sites, 3 mines, 13 military
    sites, 20 small free spots, and [cs] production sites under
    construction. *)
Definition small_spots_game : Game :=
  with_get_buildcaps (fun _ => BUILDCAPS_SMALL)
    (with_nodecaps (fun _ => BUILDCAPS_SMALL) quiet_game).

Definition overbuild_ai (cs : Z) : DefaultAI :=
  set_num_prod_constructionsites cs
    (set_buildable_fields (map (fun n => plain_field (Z.of_nat n, 0)) (seq 0 20))
       (set_militarysites (map some_militarysite (seq 100 13))
          (set_mines_ (map some_site (seq 50 3))
             (set_productionsites (map some_site (seq 0 30)) fresh_ai)))).

(** A lumberjack's hut, of which [built] are standing, and the log it
    produces. *)
Definition hut_descr : BuildingDescr :=
  {| descr_name := "lumberjacks_hut"; descr_class := ProductionSiteDescr;
     get_ismine := false; get_size := 1; enhancement := None;
     get_conquers := 0; get_max_number_of_soldiers := 0 |}.

Definition lumberjack (built : Z) : BuildingObserver :=
  {| bo_name := "lumberjacks_hut"; bo_id := 7; desc := hut_descr;
     bo_type := PRODUCTIONSITE; buildable := true;
     need_trees_ := true; need_stones_ := false; need_water_ := false;
     mines_water_ := false; recruitment_ := false; space_consumer_ := false;
     expansion_type_ := false; fighting_type_ := false;
     mountain_conqueror_ := false; plants_trees_ := false;
     is_hunter_ := false; is_fisher_ := false;
     prohibited_till_ := 0; forced_after_ := 0; production_hint_ := -1;
     bo_mines_ := 0;
     cnt_built_ := built; cnt_under_construction_ := 0; cnt_target_ := 1;
     stocklevel_ := 0; stocklevel_time := 0;
     construction_decision_time_ := -60 * 60 * 1000;
     current_stats_ := 0; unoccupied_ := false;
     inputs_ := []; outputs_ := [0%nat] |}.

Definition log_ware : WareObserver :=
  {| producers_ := 0; consumers_ := 0; preciousness_ := 2 |}.

(** One free small spot at the origin and the lumberjack's hut as the only
    building of the tribe. *)
Definition woodland_ai (built : Z) : DefaultAI :=
  set_buildable_fields [plain_field origin]
    (set_wares [log_ware] (set_buildings_ [lumberjack built] fresh_ai)).

Definition block (c : Coords) (until : Z) : BlockedField :=
  {| blocked_coords := c; blocked_until_ := until |}.


(** Our own sentry (conquers 2, so its crowding radius is 6) stands at the
    given distance east of the origin. *)
Definition sentry_descr : BuildingDescr :=
  {| descr_name := "sentry"; descr_class := MilitarySiteDescr;
     get_ismine := false; get_size := 1; enhancement := None;
     get_conquers := 2; get_max_number_of_soldiers := 2 |}.

Definition sentry_at (dist : Z) : ImmovableFound :=
  {| object :=
       {| imm_owner := Some 1;
          imm_kind :=
            IsBuilding {| b_serial := 40%nat; b_descr := sentry_descr;
                          b_class := MilitarySite 2 1; b_position := (dist, 0) |};
          attr_tree := false; attr_granite := false |};
     found_coords := (dist, 0) |}.

Definition sentry_game (dist : Z) : Game :=
  with_find_immovables (fun _ _ => [sentry_at dist]) quiet_game.

(** Two tiles with fish near the origin, at a tick that is not a multiple
    of 10; the field has water nearby and an old fish count of 7. *)
Definition fish_game : Game :=
  with_find_fish (fun _ _ => [(1, 0); (2, 0)]) quiet_game.

Definition lake_field : BuildableField :=
  set_fish_nearby_ 7 (set_water_nearby_ 3 (plain_field origin)).

(** A road search that finds nothing, to run [create_shortcut_road] and
    [improve_roads] with; a road test that keeps every road; an economy check
    that changes nothing. *)
Definition no_search (g : Game) (ai : DefaultAI) (flag : Serial) (checkradius minred : Z)
  : list Command * bool := ([], false).
Definition keep_roads (g : Game) (road : Serial) : bool := false.
Definition no_economy_change (g : Game) (ai : DefaultAI) : DefaultAI * bool := (ai, false).

(** A stranded economy: flag 5 is its only flag, it has no warehouse and
    four connection tries have failed. *)
Definition stranded_ai : DefaultAI :=
  set_economies [{| economy := 0%nat; flags := [5%nat]; failed_connection_tries := 4 |}]
                fresh_ai.

(** In [hut_game] flag 5 is the flag of a hut at (3, 4); in [quiet_game]
    it is a flag without a building. *)
Definition stranded_hut : Building :=
  {| b_serial := 9%nat; b_descr := hut_descr; b_class := ProductionSite;
     b_position := (3, 4) |}.

Definition hut_game : Game :=
  with_flag_building (fun f => if Nat.eqb f 5 then Some stranded_hut else None) quiet_game.

(** Road 1 runs five steps east from the origin over tiles that can all
    take a flag; road building is inhibited until tick 5000, so that
    [improve_roads] does nothing after the split. *)
Definition flaggable_game : Game :=
  with_road_coords (fun _ => [(0, 0); (1, 0); (2, 0); (3, 0); (4, 0); (5, 0)])
    (with_nodecaps (fun _ => BUILDCAPS_FLAG) quiet_game).

Definition long_road_ai (spots : Z) : DefaultAI :=
  set_spots_ spots (set_inhibit_road_building_ 5000 (set_roads [1%nat] fresh_ai)).

Definition set_bf_next_update_due_ (v : Z) (field : BuildableField) : BuildableField :=
  {| bf_coords := bf_coords field; bf_next_update_due_ := v; bf_preferred_ := bf_preferred_
     field; enemy_nearby_ := enemy_nearby_ field; unowned_land_nearby_ := unowned_land_nearby_
     field; near_border_ := near_border_ field; unowned_mines_pots_nearby_ :=
     unowned_mines_pots_nearby_ field; trees_nearby_ := trees_nearby_ field; stones_nearby_ :=
     stones_nearby_ field; water_nearby_ := water_nearby_ field; distant_water_ := distant_water_
     field; fish_nearby_ := fish_nearby_ field; critters_nearby_ := critters_nearby_ field;
     ground_water_ := ground_water_ field; space_consumers_nearby_ := space_consumers_nearby_
     field; producers_nearby_ := producers_nearby_ field; consumers_nearby_ := consumers_nearby_
     field; military_capacity_ := military_capacity_ field; military_loneliness_ :=
     military_loneliness_ field; military_in_constr_nearby_ := military_in_constr_nearby_ field;
     military_presence_ := military_presence_ field; military_stationed_ := military_stationed_
     field |}.

(** ** The sweeps over the three field queues *)

Section FieldSweeps.

Variable scale_by_double : Z -> Z -> Z -> Z.

(** The two sweeps below call [update_buildable_field(bf)] with the
    default arguments of its declaration, which is in the header outside
    the sources; [range] and [military] stand for them. *)
Variable range : Z.
Variable military : bool.

(** [new BuildableField(coords)] and [new MineableField(coords)]: the
    constructors are in the same header. *)
Variable new_BuildableField : Coords -> BuildableField.
Variable new_MineableField : Coords -> MineableField.

(** [DefaultAI::update_all_buildable_fields]: the [while] loop; [i] counts
    the updated fields.  Every round either drops the front field or adds
    one to [i], so the number of fields plus 25 rounds are enough.  [None]
    when [update_buildable_field] throws. *)
Fixpoint update_buildable_loop (g : Game) (gametime : Z) (fuel : nat) (i : Z)
    (ai : DefaultAI) : option DefaultAI :=
  match fuel with
  | O => Some ai
  | S fuel' =>
      match buildable_fields ai with
      | [] => Some ai
      | bf :: rest =>
          if (bf_next_update_due_ bf <=? gametime) && (i <? 25) then
            (*  check whether we lost ownership of the node *)
            if negb (get_owned_by g (bf_coords bf) =? player_number g) then
              update_buildable_loop g gametime fuel' i (set_buildable_fields rest ai)
            (*  check whether we can still construct regular buildings on the node *)
            else if Z.land (get_buildcaps g (bf_coords bf)) BUILDCAPS_SIZEMASK =? 0 then
              update_buildable_loop g gametime fuel' i
                (set_buildable_fields rest
                   (set_unusable_fields (unusable_fields ai ++ [bf_coords bf]) ai))
            else
              '(bf, ai) ← update_buildable_field scale_by_double g ai bf range military;
              let bf := set_bf_next_update_due_ (gametime + kFieldUpdateInterval) bf in
              update_buildable_loop g gametime fuel' (i + 1)
                (set_buildable_fields (rest ++ [bf]) ai)
          else Some ai
      end
  end.

Definition update_all_buildable_fields (g : Game) (ai : DefaultAI) (gametime : Z)
  : option DefaultAI :=
  update_buildable_loop g gametime (length (buildable_fields ai) + 25) 0 ai.

(** [DefaultAI::update_all_not_buildable_fields]: the [for] loop runs
    [maxchecks] times, and every round looks at the front of
    [unusable_fields], which is not empty then, because a round removes at
    most one field and [maxchecks] is at most the number of fields. *)
Fixpoint not_buildable_loop (g : Game) (maxchecks : nat) (ai : DefaultAI)
  : option DefaultAI :=
  match maxchecks with
  | O => Some ai
  | S checks =>
      match unusable_fields ai with
      | [] => Some ai
      | front :: rest =>
          (*  check whether we lost ownership of the node *)
          if negb (get_owned_by g front =? player_number g) then
            not_buildable_loop g checks (set_unusable_fields rest ai)
          (* check whether building capabilities have improved *)
          else if negb (Z.land (get_buildcaps g front) BUILDCAPS_SIZEMASK =? 0) then
            let ai :=
              set_buildable_fields (buildable_fields ai ++ [new_BuildableField front]) ai in
            let ai := set_unusable_fields rest ai in
            '(bf, ai) ←
              update_buildable_field scale_by_double g ai (new_BuildableField front)
                                     range military;
            not_buildable_loop g checks
              (set_buildable_fields
                 (removelast (buildable_fields ai) ++ [bf]) ai)
          else if negb (Z.land (get_buildcaps g front) BUILDCAPS_MINE =? 0) then
            let mf := update_mineable_field g (new_MineableField front) in
            not_buildable_loop g checks
              (set_unusable_fields rest
                 (set_mineable_fields (mineable_fields ai ++ [mf]) ai))
          else
            not_buildable_loop g checks (set_unusable_fields (rest ++ [front]) ai)
      end
  end.

Definition update_all_not_buildable_fields (g : Game) (ai : DefaultAI)
  : option DefaultAI :=
  let maxchecks := size (unusable_fields ai) in
  let maxchecks := if 50 <? maxchecks then 50 else maxchecks in
  not_buildable_loop g (Z.to_nat maxchecks) ai.

End FieldSweeps.

(** ** [DefaultAI::check_economies] *)

(** [get_economy_observer(economy)->flags.push_back(flag)] *)
Definition file_flag (g : Game) (ai : DefaultAI) (flag : Serial) : DefaultAI :=
  let '(k, eco, ai) := get_economy_observer ai (flag_economy g flag) in
  set_economies (<[k := set_flags (flags eco ++ [flag]) eco]> (economies ai)) ai.

(** The first loop: [new_flags] is emptied from the front, and every flag
    is filed under the observer of its economy. *)
Fixpoint file_new_flags (g : Game) (pending : list Serial) (ai : DefaultAI)
  : DefaultAI :=
  match pending with
  | [] => set_new_flags [] ai
  | flag :: rest => file_new_flags g rest (file_flag g (set_new_flags rest ai) flag)
  end.

Definition observer_known (ai : DefaultAI) (e : Serial) : bool :=
  match find_economy e (economies ai) 0%nat with
  | Some _ => true
  | None => false
  end.

(** The inner loop over the flags of the observer under the iterator
    [obs_iter], which is at position [k] of [economies]: [fl] are its flags
    from the iterator [j] on, [kept] those before [j].  A flag that has
    changed its economy is pushed to the observer of its economy and erased
    here.  A new observer goes to the front of [economies], which moves the
    observer under [obs_iter] one place back. *)
Fixpoint refile_flags (g : Game) (fl kept : list Serial) (k : nat) (ai : DefaultAI)
  : nat * DefaultAI :=
  match fl with
  | [] => (k, ai)
  | j :: fl' =>
      match economies ai !! k with
      | Some obs =>
          if negb (Nat.eqb (economy obs) (flag_economy g j)) then
            let k := if observer_known ai (flag_economy g j) then k else S k in
            let ai := file_flag g ai j in
            let ai := set_economies (alter (set_flags (kept ++ fl')) k (economies ai)) ai in
            refile_flags g fl' kept k ai
          else refile_flags g fl' (kept ++ [j]) k ai
      | None => (k, ai)
      end
  end.

(** The outer loop; [n] is the number of observers from [obs_iter] to the
    end of the list. *)
Fixpoint sweep_economies (g : Game) (n k : nat) (ai : DefaultAI) : DefaultAI * bool :=
  match n with
  | O => (ai, false)
  | S n' =>
      match economies ai !! k with
      | Some obs =>
          (* check if any flag has changed its economy *)
          let '(k, ai) := refile_flags g (flags obs) [] k ai in
          (* if there are no more flags in this economy,
             we no longer need it's observer *)
          match economies ai !! k with
          | Some obs =>
              match flags obs with
              | [] => (set_economies (delete k (economies ai)) ai, true)
              | _ :: _ => sweep_economies g n' (S k) ai
              end
          | None => (ai, false)
          end
      | None => (ai, false)
      end
  end.

Definition check_economies (g : Game) (ai : DefaultAI) : DefaultAI * bool :=
  let ai := file_new_flags g (new_flags ai) ai in
  sweep_economies g (length (economies ai)) 0%nat ai.

(** ** Upkeep of the standing buildings *)

(** [MilitarySite::kPrefersRookies] and [MilitarySite::kPrefersHeroes];
    [kOtherPreference] stands for every other value of the enumeration,
    which is declared outside the sources. *)
Inductive SoldierPreference :=
  | kPrefersRookies
  | kPrefersHeroes
  | kOtherPreference.

Definition SoldierPreference_eqb (a b : SoldierPreference) : bool :=
  match a, b with
  | kPrefersRookies, kPrefersRookies | kPrefersHeroes, kPrefersHeroes
  | kOtherPreference, kOtherPreference => true
  | _, _ => false
  end.

(** What the upkeep functions read from the site behind a site observer,
    from its descriptor, from the player and from the tribe.  Every field
    stands for one accessor; a site is named by its serial number. *)
Record Sites := {
  (* ProductionSite *)
  get_crude_statistics : Serial -> Z;
  get_statistics_percent : Serial -> Z;
  can_start_working : Serial -> bool;
  is_stopped : Serial -> bool;
  has_workers : Serial -> Z -> bool;
  (* Building: [descr()], [get_position()], [base_flag().get_position()],
     [get_playercaps() & PCap_Dismantle] *)
  site_descr : Serial -> BuildingDescr;
  site_position : Serial -> Coords;
  base_flag_position : Serial -> Coords;
  can_dismantle : Serial -> bool;
  (* the radii that are the keys of [m_workarea_info], in ascending order *)
  m_workarea_info : BuildingDescr -> list Z;
  (* Player and tribe *)
  is_building_type_allowed : Z -> bool;
  get_building_descr : Z -> BuildingDescr;
  (* MilitarySite: [stationed_soldiers().size()], [descr().vision_range()],
     [economy().warehouses().size()] *)
  stationed_soldiers_size : Serial -> Z;
  vision_range : Serial -> Z;
  soldier_capacity : Serial -> Z;
  max_soldier_capacity_of : Serial -> Z;
  get_soldier_preference : Serial -> SoldierPreference;
  warehouses_size : Serial -> Z;
  (* [map.find_fields(Area(f, radius), nullptr, FindNodeEnemiesBuilding)] *)
  find_enemies_building : Coords -> Z -> Z
}.

(** The commands that the upkeep functions send.  A site is named by its
    serial number; [send_player_bulldoze_site] is [send_player_bulldoze]
    applied to a military site. *)
Inductive UpkeepCommand :=
  | send_player_enhance_building (site : Serial) (id : Z)
  | send_player_dismantle (site : Serial)
  | send_player_start_stop_building (site : Serial)
  | send_player_militarysite_set_soldier_preference (site : Serial)
                                                    (preference : SoldierPreference)
  | send_player_change_soldier_capacity (site : Serial) (delta : Z)
  | send_player_bulldoze_site (site : Serial).

(** The engine together with the members that only the upkeep functions
    and [think] use.  [last_dismantle_time_] holds the member of that name of
    every building observer, by the position of the observer in
    [buildings_]. *)
Record Upkeep := {
  engine : DefaultAI;
  last_dismantle_time_ : list Z;
  flags_to_be_removed : list Coords;
  next_stats_update_due_ : Z;
  next_construction_due_ : Z;
  next_productionsite_check_due_ : Z;
  next_mine_check_due_ : Z;
  next_militarysite_check_due_ : Z;
  next_bf_check_due_ : Z;
  time_of_last_construction_ : Z;
  military_last_dismantle_ : Z
}.

Definition set_engine (v : DefaultAI) (up : Upkeep) : Upkeep :=
  {| engine := v; last_dismantle_time_ := last_dismantle_time_ up; flags_to_be_removed :=
     flags_to_be_removed up; next_stats_update_due_ := next_stats_update_due_ up;
     next_construction_due_ := next_construction_due_ up; next_productionsite_check_due_ :=
     next_productionsite_check_due_ up; next_mine_check_due_ := next_mine_check_due_ up;
     next_militarysite_check_due_ := next_militarysite_check_due_ up; next_bf_check_due_ :=
     next_bf_check_due_ up; time_of_last_construction_ := time_of_last_construction_ up;
     military_last_dismantle_ := military_last_dismantle_ up |}.


Definition set_flags_to_be_removed (v : list Coords) (up : Upkeep) : Upkeep :=
  {| engine := engine up; last_dismantle_time_ := last_dismantle_time_ up; flags_to_be_removed
     := v; next_stats_update_due_ := next_stats_update_due_ up; next_construction_due_ :=
     next_construction_due_ up; next_productionsite_check_due_ := next_productionsite_check_due_
     up; next_mine_check_due_ := next_mine_check_due_ up; next_militarysite_check_due_ :=
     next_militarysite_check_due_ up; next_bf_check_due_ := next_bf_check_due_ up;
     time_of_last_construction_ := time_of_last_construction_ up; military_last_dismantle_ :=
     military_last_dismantle_ up |}.

Definition set_next_stats_update_due_ (v : Z) (up : Upkeep) : Upkeep :=
  {| engine := engine up; last_dismantle_time_ := last_dismantle_time_ up; flags_to_be_removed
     := flags_to_be_removed up; next_stats_update_due_ := v; next_construction_due_ :=
     next_construction_due_ up; next_productionsite_check_due_ := next_productionsite_check_due_
     up; next_mine_check_due_ := next_mine_check_due_ up; next_militarysite_check_due_ :=
     next_militarysite_check_due_ up; next_bf_check_due_ := next_bf_check_due_ up;
     time_of_last_construction_ := time_of_last_construction_ up; military_last_dismantle_ :=
     military_last_dismantle_ up |}.




Definition set_next_militarysite_check_due_ (v : Z) (up : Upkeep) : Upkeep :=
  {| engine := engine up; last_dismantle_time_ := last_dismantle_time_ up; flags_to_be_removed
     := flags_to_be_removed up; next_stats_update_due_ := next_stats_update_due_ up;
     next_construction_due_ := next_construction_due_ up; next_productionsite_check_due_ :=
     next_productionsite_check_due_ up; next_mine_check_due_ := next_mine_check_due_ up;
     next_militarysite_check_due_ := v; next_bf_check_due_ := next_bf_check_due_ up;
     time_of_last_construction_ := time_of_last_construction_ up; military_last_dismantle_ :=
     military_last_dismantle_ up |}.



Definition set_military_last_dismantle_ (v : Z) (up : Upkeep) : Upkeep :=
  {| engine := engine up; last_dismantle_time_ := last_dismantle_time_ up; flags_to_be_removed
     := flags_to_be_removed up; next_stats_update_due_ := next_stats_update_due_ up;
     next_construction_due_ := next_construction_due_ up; next_productionsite_check_due_ :=
     next_productionsite_check_due_ up; next_mine_check_due_ := next_mine_check_due_ up;
     next_militarysite_check_due_ := next_militarysite_check_due_ up; next_bf_check_due_ :=
     next_bf_check_due_ up; time_of_last_construction_ := time_of_last_construction_ up;
     military_last_dismantle_ := v |}.

Definition set_current_stats_ (v : Z) (bo : BuildingObserver) : BuildingObserver :=
  {| bo_name := bo_name bo; bo_id := bo_id bo; desc := desc bo; bo_type := bo_type bo;
     buildable := buildable bo; need_trees_ := need_trees_ bo; need_stones_ := need_stones_ bo;
     need_water_ := need_water_ bo; mines_water_ := mines_water_ bo; recruitment_ := recruitment_
     bo; space_consumer_ := space_consumer_ bo; expansion_type_ := expansion_type_ bo;
     fighting_type_ := fighting_type_ bo; mountain_conqueror_ := mountain_conqueror_ bo;
     plants_trees_ := plants_trees_ bo; is_hunter_ := is_hunter_ bo; is_fisher_ := is_fisher_ bo;
     prohibited_till_ := prohibited_till_ bo; forced_after_ := forced_after_ bo; production_hint_
     := production_hint_ bo; bo_mines_ := bo_mines_ bo; cnt_built_ := cnt_built_ bo;
     cnt_under_construction_ := cnt_under_construction_ bo; cnt_target_ := cnt_target_ bo;
     stocklevel_ := stocklevel_ bo; stocklevel_time := stocklevel_time bo;
     construction_decision_time_ := construction_decision_time_ bo; current_stats_ := v;
     unoccupied_ := unoccupied_ bo; inputs_ := inputs_ bo; outputs_ := outputs_ bo |}.

Definition set_unoccupied_ (v : bool) (bo : BuildingObserver) : BuildingObserver :=
  {| bo_name := bo_name bo; bo_id := bo_id bo; desc := desc bo; bo_type := bo_type bo;
     buildable := buildable bo; need_trees_ := need_trees_ bo; need_stones_ := need_stones_ bo;
     need_water_ := need_water_ bo; mines_water_ := mines_water_ bo; recruitment_ := recruitment_
     bo; space_consumer_ := space_consumer_ bo; expansion_type_ := expansion_type_ bo;
     fighting_type_ := fighting_type_ bo; mountain_conqueror_ := mountain_conqueror_ bo;
     plants_trees_ := plants_trees_ bo; is_hunter_ := is_hunter_ bo; is_fisher_ := is_fisher_ bo;
     prohibited_till_ := prohibited_till_ bo; forced_after_ := forced_after_ bo; production_hint_
     := production_hint_ bo; bo_mines_ := bo_mines_ bo; cnt_built_ := cnt_built_ bo;
     cnt_under_construction_ := cnt_under_construction_ bo; cnt_target_ := cnt_target_ bo;
     stocklevel_ := stocklevel_ bo; stocklevel_time := stocklevel_time bo;
     construction_decision_time_ := construction_decision_time_ bo; current_stats_ :=
     current_stats_ bo; unoccupied_ := v; inputs_ := inputs_ bo; outputs_ := outputs_ bo |}.

Definition set_resource_necessity_water_ (v : Z) (ai : DefaultAI) : DefaultAI :=
  {| type_ := type_ ai; m_buildable_changed := m_buildable_changed ai; m_mineable_changed :=
     m_mineable_changed ai; buildings_ := buildings_ ai; wares := wares ai; buildable_fields :=
     buildable_fields ai; mineable_fields := mineable_fields ai; unusable_fields :=
     unusable_fields ai; blocked_fields := blocked_fields ai; economies := economies ai;
     new_flags := new_flags ai; roads := roads ai; productionsites := productionsites ai; mines_
     := mines_ ai; militarysites := militarysites ai; num_constructionsites_ :=
     num_constructionsites_ ai; num_milit_constructionsites := num_milit_constructionsites ai;
     num_prod_constructionsites := num_prod_constructionsites ai; next_road_due_ :=
     next_road_due_ ai; next_mine_construction_due_ := next_mine_construction_due_ ai;
     next_attack_consideration_due_ := next_attack_consideration_due_ ai; inhibit_road_building_
     := inhibit_road_building_ ai; enemy_last_seen_ := enemy_last_seen_ ai; numof_warehouses_ :=
     numof_warehouses_ ai; new_buildings_stop_ := new_buildings_stop_ ai;
     resource_necessity_territory_ := resource_necessity_territory_ ai; resource_necessity_mines_
     := resource_necessity_mines_ ai; resource_necessity_water_ := v;
     resource_necessity_water_needed_ := resource_necessity_water_needed_ ai;
     unstationed_milit_buildings_ := unstationed_milit_buildings_ ai; military_last_build_ :=
     military_last_build_ ai; spots_ := spots_ ai |}.

Definition set_unstationed_milit_buildings_ (v : Z) (ai : DefaultAI) : DefaultAI :=
  {| type_ := type_ ai; m_buildable_changed := m_buildable_changed ai; m_mineable_changed :=
     m_mineable_changed ai; buildings_ := buildings_ ai; wares := wares ai; buildable_fields :=
     buildable_fields ai; mineable_fields := mineable_fields ai; unusable_fields :=
     unusable_fields ai; blocked_fields := blocked_fields ai; economies := economies ai;
     new_flags := new_flags ai; roads := roads ai; productionsites := productionsites ai; mines_
     := mines_ ai; militarysites := militarysites ai; num_constructionsites_ :=
     num_constructionsites_ ai; num_milit_constructionsites := num_milit_constructionsites ai;
     num_prod_constructionsites := num_prod_constructionsites ai; next_road_due_ :=
     next_road_due_ ai; next_mine_construction_due_ := next_mine_construction_due_ ai;
     next_attack_consideration_due_ := next_attack_consideration_due_ ai; inhibit_road_building_
     := inhibit_road_building_ ai; enemy_last_seen_ := enemy_last_seen_ ai; numof_warehouses_ :=
     numof_warehouses_ ai; new_buildings_stop_ := new_buildings_stop_ ai;
     resource_necessity_territory_ := resource_necessity_territory_ ai; resource_necessity_mines_
     := resource_necessity_mines_ ai; resource_necessity_water_ := resource_necessity_water_ ai;
     resource_necessity_water_needed_ := resource_necessity_water_needed_ ai;
     unstationed_milit_buildings_ := v; military_last_build_ := military_last_build_ ai; spots_
     := spots_ ai |}.



Definition set_no_resources_count (v : Z) (site : ProductionSiteObserver) : ProductionSiteObserver :=
  {| ps_site := ps_site site; ps_bo := ps_bo site; built_time_ := built_time_ site;
     unoccupied_till_ := unoccupied_till_ site; stats_zero_ := stats_zero_ site;
     no_resources_count := v |}.


(** ** [DefaultAI::update_productionsite_stats] *)

(** The loop over [productionsites]: in each of its [rounds] the site at
    the front adds its statistics to its observer and goes to the back.
    [fishers_count] is a [uint16_t].  [None] when the deque is empty, when
    the [bo] pointer of the site refers to no observer, or when
    [assert(bo->cnt_built_ > 0)] fails. *)
Fixpoint productionsites_statistics (s : Sites) (rounds : nat)
    (sites : list ProductionSiteObserver) (obs : list BuildingObserver)
    (fishers_count : Z)
  : option (list ProductionSiteObserver * list BuildingObserver * Z) :=
  match rounds with
  | O => Some (sites, obs, fishers_count)
  | S rounds' =>
      front ← head sites;
      bo ← obs !! ps_bo front;
      if cnt_built_ bo <=? 0 then None
      else
        (* Add statistics value *)
        let bo :=
          set_current_stats_ (current_stats_ bo + get_crude_statistics s (ps_site front))
                             bo in
        (* counting fishers *)
        let fishers_count :=
          if is_fisher_ bo then (fishers_count + 1) mod 65536 else fishers_count in
        (* Check whether this building is completely occupied *)
        let bo :=
          set_unoccupied_ (unoccupied_ bo || negb (can_start_working s (ps_site front)))
                          bo in
        (* Now reorder the buildings *)
        productionsites_statistics s rounds' (rotate sites) (<[ps_bo front := bo]> obs)
                                   fishers_count
  end.

(** The loop over [mines_]. *)
Fixpoint mines_statistics (s : Sites) (rounds : nat)
    (sites : list ProductionSiteObserver) (obs : list BuildingObserver)
  : option (list ProductionSiteObserver * list BuildingObserver) :=
  match rounds with
  | O => Some (sites, obs)
  | S rounds' =>
      front ← head sites;
      bo ← obs !! ps_bo front;
      if cnt_built_ bo <=? 0 then None
      else
        (* Add statistics value *)
        let bo :=
          set_current_stats_ (current_stats_ bo + get_statistics_percent s (ps_site front))
                             bo in
        (* Check whether this building is completely occupied *)
        let bo :=
          set_unoccupied_ (unoccupied_ bo || negb (can_start_working s (ps_site front)))
                          bo in
        (* Now reorder the buildings *)
        mines_statistics s rounds' (rotate sites) (<[ps_bo front := bo]> obs)
  end.

Definition update_productionsite_stats (s : Sites) (up : Upkeep) (gametime : Z)
  : option Upkeep :=
  let ai := engine up in
  (* Updating the stats every 10 seconds should be enough *)
  let up := set_next_stats_update_due_ (gametime + 10000) up in
  (* Reset statistics for all buildings (both branches of the test of
     [cnt_built_] assign 0) *)
  let obs :=
    map (fun bo => set_unoccupied_ false (set_current_stats_ 0 bo)) (buildings_ ai) in
  (* Check all available productionsites *)
  '(sites, obs, fishers_count) ←
    productionsites_statistics s (length (productionsites ai)) (productionsites ai) obs 0;
  let ai := set_productionsites sites ai in
  let ai :=
    if resource_necessity_water_needed_ ai then
      if fishers_count =? 0 then set_resource_necessity_water_ 255 ai
      else if fishers_count =? 1 then set_resource_necessity_water_ 150 ai
      else set_resource_necessity_water_ 18 ai
    else ai in
  (* Check all available mines *)
  '(mines, obs) ← mines_statistics s (length (mines_ ai)) (mines_ ai) obs;
  let ai := set_mines_ mines ai in
  (* Scale statistics down *)
  let obs :=
    map (fun bo =>
           if 0 <? cnt_built_ bo
           then set_current_stats_ (Z.quot (current_stats_ bo) (cnt_built_ bo)) bo
           else bo) obs in
  Some (set_engine (set_buildings_ obs ai) up).

(** ** [DefaultAI::out_of_resources_site] *)

(** we must identify which mine matches the productionsite a note reffers to *)
Fixpoint count_out_of_resources (site : Serial) (mines : list ProductionSiteObserver)
  : list ProductionSiteObserver :=
  match mines with
  | [] => []
  | i :: rest =>
      if Nat.eqb (ps_site i) site
      then set_no_resources_count (no_resources_count i + 1) i :: rest
      else i :: count_out_of_resources site rest
  end.

Definition out_of_resources_site (ai : DefaultAI) (site : Serial) : DefaultAI :=
  set_mines_ (count_out_of_resources site (mines_ ai)) ai.

(** ** [DefaultAI::check_mines_] *)




(** ** [DefaultAI::check_militarysites] *)

Section MilitaryUpkeep.

Variable scale_by_double : Z -> Z -> Z -> Z.

(** [BuildableField bf(f)]: the constructor is in the header outside the
    sources. *)
Variable new_BuildableField : Coords -> BuildableField.

(** The score of a military site in the inner land, from the military
    metrics of its tile.  The comparison of the soldier capacity is one of
    [uint32_t] values. *)
Definition dismantle_score (s : Sites) (ms : Serial) (bf : BuildableField) : Z :=
  let size_penalty := get_size (site_descr s ms) - 1 in
  nb (5 <? military_capacity_ bf)
  + nb (3 <? military_presence_ bf)
  + nb (military_loneliness_ bf <? 180)
  + nb (2 + size_penalty <? military_stationed_ bf)
  - nb (military_capacity_ bf mod 2 ^ 32 <? (soldier_capacity s ms * 2) mod 2 ^ 32)
  + nb (unowned_land_nearby_ bf <? 10).

(** The decision about the site at the front of [militarysites]: the
    commands to send, the engine (the time of the last dismantling and the
    flags to be removed are written) and [changed].  [None] when
    [update_buildable_field] throws. *)
Definition consider_militarysite (g : Game) (s : Sites) (up : Upkeep) (ms : Serial)
  : option (Upkeep * list UpkeepCommand * bool) :=
  let vision := vision_range s ms in
  let f := site_position s ms in
  (* first if there are enemies nearby, check for buildings not land *)
  if find_enemies_building s f (vision + 4) =? 0 then
    (* If no enemy in sight - decrease the number of stationed soldiers
       as long as it is > 1 - BUT take care that there is a warehouse in the
       same economy where the thrown out soldiers can go to. *)
    if negb (warehouses_size s ms =? 0) then
      let j := soldier_capacity s ms in
      if negb (SoldierPreference_eqb kPrefersRookies (get_soldier_preference s ms)) then
        Some (up, [send_player_militarysite_set_soldier_preference ms kPrefersRookies],
              false)
      else if 1 <? j then
        Some (up, [send_player_change_soldier_capacity ms (-1)], false)
      (* if the building is in inner land and other militarysites still
         hold the miliary influence of the field, consider to destruct the
         building to free some building space. *)
      else
        (* treat this field like a buildable and write military info to it;
           the range is a [uint16_t] *)
        '(bf, ai) ←
          update_buildable_field scale_by_double g (engine up) (new_BuildableField f)
                                 (vision mod 65536) true;
        let up := set_engine ai up in
        if 4 <=? dismantle_score s ms bf then
          if can_dismantle s ms then
            Some (set_military_last_dismantle_ (get_gametime g)
                    (set_flags_to_be_removed
                       (flags_to_be_removed up ++ [base_flag_position s ms]) up),
                  [send_player_dismantle ms], false)
          else
            Some (set_military_last_dismantle_ (get_gametime g) up,
                  [send_player_bulldoze_site ms], false)
        else Some (up, [], false)
    else Some (up, [], false)
  else
    (* If an enemy is in sight and the number of stationed soldier is not
       at maximum - set it to maximum. *)
    let j := max_soldier_capacity_of s ms in
    let k := soldier_capacity s ms in
    let raise :=
      if k <? j then [send_player_change_soldier_capacity ms (j - k)] else [] in
    (* and also set preference to Heroes *)
    let heroes :=
      if negb (SoldierPreference_eqb kPrefersHeroes (get_soldier_preference s ms))
      then [send_player_militarysite_set_soldier_preference ms kPrefersHeroes]
      else [] in
    Some (up, raise ++ heroes,
          (k <? j)
          || negb (SoldierPreference_eqb kPrefersHeroes (get_soldier_preference s ms))).

Definition check_militarysites (g : Game) (s : Sites) (up : Upkeep) (gametime : Z)
  : option (Upkeep * list UpkeepCommand * bool) :=
  if gametime <? next_militarysite_check_due_ up then Some (up, [], false)
  else
    (* just to be sure the value is reset *)
    let up := set_next_militarysite_check_due_ (gametime + 5 * 1000) up in
    (* even if there are no finished & attended military sites, probably there
       are ones just in construction *)
    let unstationed :=
      fold_left
        (fun n it => if stationed_soldiers_size s (ms_site it) =? 0 then n + 1 else n)
        (militarysites (engine up)) 0 in
    let up := set_engine (set_unstationed_milit_buildings_ unstationed (engine up)) up in
    (* Only useable, if defaultAI owns at least one militarysite *)
    match militarysites (engine up) with
    | [] => Some (up, [], false)
    | front :: _ =>
        (* Check next militarysite *)
        '(up, cmds, changed) ← consider_militarysite g s up (ms_site front);
        (* reorder *)
        let up :=
          set_engine (set_militarysites (rotate (militarysites (engine up))) (engine up))
                     up in
        let up := set_next_militarysite_check_due_ (gametime + 5 * 1000) up in
        Some (up, cmds, changed)
    end.

End MilitaryUpkeep.

(** ** [DefaultAI::check_productionsites] *)







(** ** [DefaultAI::consider_attack] *)















(** ** Vocabulary of the statements about the sweeps *)

(** Is the tile still ours? *)
Definition still_owned (g : Game) (c : Coords) : bool :=
  get_owned_by g c =? player_number g.

(** Does the tile take a building of some size, or a mine? *)
Definition takes_building (g : Game) (c : Coords) : bool :=
  negb (Z.land (get_buildcaps g c) BUILDCAPS_SIZEMASK =? 0).

Definition takes_mine (g : Game) (c : Coords) : bool :=
  negb (Z.land (get_buildcaps g c) BUILDCAPS_MINE =? 0).

(** A mineable field as the sweep leaves it: evaluated anew and due again
    after the field update interval. *)
Definition refreshed (g : Game) (gametime : Z) (mf : MineableField) : MineableField :=
  set_mf_next_update_due_ (gametime + kFieldUpdateInterval) (update_mineable_field g mf).

(** Where a sweep stops: nothing is left, the budget of updates is used
    up, or the field at the front is not due yet. *)
Definition sweep_stops {A : Type} (due : A -> Z) (gametime : Z) (budget : nat)
    (updated : nat) (untouched : list A) : Prop :=
  untouched = [] \/ updated = budget
  \/ exists front, head untouched = Some front /\ gametime < due front.

(** ** Vocabulary of the statements about the economy observers *)

(** All the flags that the observers list, observer by observer. *)
Definition filed_flags (ecos : list EconomyObserver) : list Serial :=
  concat (map flags ecos).

(** An observer is settled when it lists a flag and every flag it lists is
    in its economy. *)
Definition settled (g : Game) (obs : EconomyObserver) : Prop :=
  flags obs <> [] /\ Forall (fun f => flag_economy g f = economy obs) (flags obs).

(** ** Vocabulary of the statements about the upkeep *)

(** The sites whose [bo] pointer refers to the observer at position [k]. *)
Definition sites_of (k : nat) (sites : list ProductionSiteObserver)
  : list ProductionSiteObserver :=
  List.filter (fun site => Nat.eqb (ps_bo site) k) sites.

(** The sum of a statistic over the sites of the observer at position [k]. *)
Definition site_total (statistic : Serial -> Z) (k : nat)
    (sites : list ProductionSiteObserver) : Z :=
  foldr Z.add 0 (map (fun site => statistic (ps_site site)) (sites_of k sites)).

(** Is one of the sites of the observer at position [k] unable to work? *)
Definition some_site_idle (s : Sites) (k : nat) (sites : list ProductionSiteObserver)
  : bool :=
  existsb (fun site => negb (can_start_working s (ps_site site))) (sites_of k sites).

(** The observer at position [k] as [update_productionsite_stats] leaves
    it: the statistics of its production sites and mines, divided by the
    number of buildings it counts as built. *)
Definition averaged (s : Sites) (ai : DefaultAI) (k : nat) (bo : BuildingObserver)
  : BuildingObserver :=
  let total :=
    site_total (get_crude_statistics s) k (productionsites ai)
    + site_total (get_statistics_percent s) k (mines_ ai) in
  set_unoccupied_
    (some_site_idle s k (productionsites ai) || some_site_idle s k (mines_ ai))
    (set_current_stats_
       (if 0 <? cnt_built_ bo then Z.quot total (cnt_built_ bo) else total) bo).

(** Does the [bo] pointer of the site refer to an observer that counts a
    building as built? *)
Definition observed_as_built (obs : list BuildingObserver)
    (site : ProductionSiteObserver) : Prop :=
  exists bo, obs !! ps_bo site = Some bo /\ 0 < cnt_built_ bo.

(** An observer credited with the statistics of some of its sites, as the
    loops over the sites leave it. *)
Definition credited (s : Sites) (statistic : Serial -> Z) (k : nat)
    (sites : list ProductionSiteObserver) (bo : BuildingObserver) : BuildingObserver :=
  set_unoccupied_ (unoccupied_ bo || some_site_idle s k sites)
    (set_current_stats_ (current_stats_ bo + site_total statistic k sites) bo).

(** Is an enemy building in sight of the military site? *)
Definition enemy_in_sight (s : Sites) (ms : Serial) : bool :=
  negb (find_enemies_building s (site_position s ms) (vision_range s ms + 4) =? 0).

(** What [check_militarysites] may send about the military site [ms]. *)
Definition militarysite_command_allowed (s : Sites) (ms : Serial)
    (cmd : UpkeepCommand) : Prop :=
  match cmd with
  | send_player_dismantle site | send_player_bulldoze_site site =>
      site = ms /\ enemy_in_sight s ms = false /\ warehouses_size s ms <> 0
      /\ get_soldier_preference s ms = kPrefersRookies /\ soldier_capacity s ms <= 1
  | send_player_change_soldier_capacity site delta =>
      site = ms
      /\ ((enemy_in_sight s ms = false /\ warehouses_size s ms <> 0
           /\ get_soldier_preference s ms = kPrefersRookies
           /\ delta = -1 /\ 1 < soldier_capacity s ms)
          \/ (enemy_in_sight s ms = true
              /\ delta = max_soldier_capacity_of s ms - soldier_capacity s ms
              /\ 0 < delta))
  | send_player_militarysite_set_soldier_preference site preference =>
      site = ms
      /\ ((enemy_in_sight s ms = false /\ warehouses_size s ms <> 0
           /\ preference = kPrefersRookies
           /\ get_soldier_preference s ms <> kPrefersRookies)
          \/ (enemy_in_sight s ms = true /\ preference = kPrefersHeroes
              /\ get_soldier_preference s ms <> kPrefersHeroes))
  | _ => False
  end.

(** ** Vocabulary of the statements about the attack planner *)




(** ** Vocabulary of the statements about the choice of a building site *)



(** ** Fixtures for the upkeep functions *)

Definition with_get_owned_by (v : Coords -> PlayerNumber) (g : Game) : Game :=
  {| get_gametime := get_gametime g; player_number := player_number g; is_hostile :=
     is_hostile g; calc_distance := calc_distance g; get_brn := get_brn g; get_immovable :=
     get_immovable g; nodecaps := nodecaps g; get_buildcaps := get_buildcaps g; get_owned_by :=
     v; get_resources := get_resources g; get_resources_amount := get_resources_amount g;
     find_immovables := find_immovables g; find_unowned := find_unowned g;
     find_unowned_mines_pots := find_unowned_mines_pots g; find_water := find_water g; find_fish
     := find_fish g; find_critters := find_critters g; map_region := map_region g;
     warehouses_empty := warehouses_empty g; stock_ware := stock_ware g; needs_ware := needs_ware
     g; flag_economy := flag_economy g; flag_building := flag_building g; flag_is_dead_end :=
     flag_is_dead_end g; flag_current_wares := flag_current_wares g; flag_nr_of_roads :=
     flag_nr_of_roads g; road_coords := road_coords g; get_nrplayers := get_nrplayers g;
     get_player := get_player g; get_general_statistics := get_general_statistics g |}.

Definition with_flag_economy (v : Serial -> Serial) (g : Game) : Game :=
  {| get_gametime := get_gametime g; player_number := player_number g; is_hostile :=
     is_hostile g; calc_distance := calc_distance g; get_brn := get_brn g; get_immovable :=
     get_immovable g; nodecaps := nodecaps g; get_buildcaps := get_buildcaps g; get_owned_by :=
     get_owned_by g; get_resources := get_resources g; get_resources_amount :=
     get_resources_amount g; find_immovables := find_immovables g; find_unowned := find_unowned
     g; find_unowned_mines_pots := find_unowned_mines_pots g; find_water := find_water g;
     find_fish := find_fish g; find_critters := find_critters g; map_region := map_region g;
     warehouses_empty := warehouses_empty g; stock_ware := stock_ware g; needs_ware := needs_ware
     g; flag_economy := v; flag_building := flag_building g; flag_is_dead_end := flag_is_dead_end
     g; flag_current_wares := flag_current_wares g; flag_nr_of_roads := flag_nr_of_roads g;
     road_coords := road_coords g; get_nrplayers := get_nrplayers g; get_player := get_player g;
     get_general_statistics := get_general_statistics g |}.




(** A mineable field with nothing counted yet. *)
Definition plain_mine (c : Coords) : MineableField :=
  {| mf_coords := c; mf_next_update_due_ := 0; mf_preferred_ := false;
     mines_nearby_ := 0 |}.

(** Four tiles in a row: (0, 0) takes a small building, (1, 0) belongs to
    player 2, (2, 0) takes nothing and (3, 0) takes a mine. *)
Definition patchy_game : Game :=
  with_get_owned_by (fun c => if fst c =? 1 then 2 else 1)
    (with_get_buildcaps
       (fun c => if fst c =? 2 then 0
                 else if fst c =? 3 then BUILDCAPS_MINE else BUILDCAPS_SMALL)
       quiet_game).

Definition patchy_row : list Coords := [(0, 0); (1, 0); (2, 0); (3, 0)].

(** Flag 2 has moved to economy 7; all other flags are in economy 0. *)
Definition split_game : Game :=
  with_flag_economy (fun f => if Nat.eqb f 2 then 7%nat else 0%nat) quiet_game.

(** One observer, of economy 0, lists the flags 1 and 2; flag 3 is new. *)
Definition split_ai : DefaultAI :=
  set_new_flags [3%nat]
    (set_economies [{| economy := 0%nat; flags := [1%nat; 2%nat];
                       failed_connection_tries := 0 |}] fresh_ai).

(** The engine that [check_economies] leaves in [split_game]. *)
Definition split_ai_settled : DefaultAI :=
  set_economies [{| economy := 7%nat; flags := [2%nat]; failed_connection_tries := 0 |};
                 {| economy := 0%nat; flags := [1%nat; 3%nat];
                    failed_connection_tries := 0 |}] fresh_ai.

(** The engine with buildable fields on the first three tiles of the row,
    and the engine with the whole row among its unusable fields. *)
Definition patchy_buildable_ai : DefaultAI :=
  set_buildable_fields (map plain_field [(0, 0); (1, 0); (2, 0)]) fresh_ai.

Definition patchy_unusable_ai : DefaultAI :=
  set_unusable_fields patchy_row fresh_ai.

(** Sites at which nothing happens: they work, they have no statistics,
    no enemy is in sight, every military site prefers rookies and holds one
    soldier of two. *)
Definition calm_sites : Sites :=
  {| get_crude_statistics := fun _ => 0;
     get_statistics_percent := fun _ => 0;
     can_start_working := fun _ => true;
     is_stopped := fun _ => false;
     has_workers := fun _ _ => false;
     site_descr := fun _ => hut_descr;
     site_position := fun _ => origin;
     base_flag_position := fun _ => (1, 1);
     can_dismantle := fun _ => true;
     m_workarea_info := fun _ => [3];
     is_building_type_allowed := fun _ => true;
     get_building_descr := fun _ => hut_descr;
     stationed_soldiers_size := fun _ => 1;
     vision_range := fun _ => 6;
     soldier_capacity := fun _ => 1;
     max_soldier_capacity_of := fun _ => 2;
     get_soldier_preference := fun _ => kPrefersRookies;
     warehouses_size := fun _ => 1;
     find_enemies_building := fun _ _ => 0 |}.

Definition with_get_crude_statistics (v : Serial -> Z) (s : Sites) : Sites :=
  {| get_crude_statistics := v; get_statistics_percent := get_statistics_percent s;
     can_start_working := can_start_working s; is_stopped := is_stopped s; has_workers :=
     has_workers s; site_descr := site_descr s; site_position := site_position s;
     base_flag_position := base_flag_position s; can_dismantle := can_dismantle s;
     m_workarea_info := m_workarea_info s; is_building_type_allowed := is_building_type_allowed
     s; get_building_descr := get_building_descr s; stationed_soldiers_size :=
     stationed_soldiers_size s; vision_range := vision_range s; soldier_capacity :=
     soldier_capacity s; max_soldier_capacity_of := max_soldier_capacity_of s;
     get_soldier_preference := get_soldier_preference s; warehouses_size := warehouses_size s;
     find_enemies_building := find_enemies_building s |}.

Definition with_can_start_working (v : Serial -> bool) (s : Sites) : Sites :=
  {| get_crude_statistics := get_crude_statistics s; get_statistics_percent :=
     get_statistics_percent s; can_start_working := v; is_stopped := is_stopped s; has_workers :=
     has_workers s; site_descr := site_descr s; site_position := site_position s;
     base_flag_position := base_flag_position s; can_dismantle := can_dismantle s;
     m_workarea_info := m_workarea_info s; is_building_type_allowed := is_building_type_allowed
     s; get_building_descr := get_building_descr s; stationed_soldiers_size :=
     stationed_soldiers_size s; vision_range := vision_range s; soldier_capacity :=
     soldier_capacity s; max_soldier_capacity_of := max_soldier_capacity_of s;
     get_soldier_preference := get_soldier_preference s; warehouses_size := warehouses_size s;
     find_enemies_building := find_enemies_building s |}.

Definition with_find_enemies_building (v : Coords -> Z -> Z) (s : Sites) : Sites :=
  {| get_crude_statistics := get_crude_statistics s; get_statistics_percent :=
     get_statistics_percent s; can_start_working := can_start_working s; is_stopped := is_stopped
     s; has_workers := has_workers s; site_descr := site_descr s; site_position := site_position
     s; base_flag_position := base_flag_position s; can_dismantle := can_dismantle s;
     m_workarea_info := m_workarea_info s; is_building_type_allowed := is_building_type_allowed
     s; get_building_descr := get_building_descr s; stationed_soldiers_size :=
     stationed_soldiers_size s; vision_range := vision_range s; soldier_capacity :=
     soldier_capacity s; max_soldier_capacity_of := max_soldier_capacity_of s;
     get_soldier_preference := get_soldier_preference s; warehouses_size := warehouses_size s;
     find_enemies_building := v |}.


(** The engine with the upkeep members as the constructor of [DefaultAI]
    sets them, and no dismantling on record. *)
Definition upkeep_of (ai : DefaultAI) : Upkeep :=
  {| engine := ai;
     last_dismantle_time_ := map (fun _ => 0) (buildings_ ai);
     flags_to_be_removed := [];
     next_stats_update_due_ := 30000;
     next_construction_due_ := 1000;
     next_productionsite_check_due_ := 0;
     next_mine_check_due_ := 0;
     next_militarysite_check_due_ := 0;
     next_bf_check_due_ := 1000;
     time_of_last_construction_ := 0;
     military_last_dismantle_ := 0 |}.

(** Two lumberjack's huts, sites 1 and 2, with crude statistics 40 and 70;
    site 2 cannot start working. *)
Definition two_huts_sites : Sites :=
  with_can_start_working (fun site => negb (Nat.eqb site 2))
    (with_get_crude_statistics (fun site => if Nat.eqb site 1 then 40 else 70)
       calm_sites).

Definition two_huts : Upkeep :=
  upkeep_of (set_productionsites [some_site 1; some_site 2]
               (set_buildings_ [lumberjack 2] fresh_ai)).


(** Three mines, sites 1, 2 and 2 again, and a mine, site 4, that has
    reported 13 times that it is out of resources. *)
Definition three_mines : DefaultAI :=
  set_mines_ [some_site 1; some_site 2; some_site 2] fresh_ai.


(** One military site, site 7, and the sites with an enemy building in
    sight of it. *)
Definition one_sentry : Upkeep :=
  upkeep_of (set_militarysites [some_militarysite 7] fresh_ai).

Definition alarmed_sites : Sites :=
  with_find_enemies_building (fun _ _ => 1) calm_sites.







Definition set_inputs_ (v : list WareIndex) (bo : BuildingObserver) : BuildingObserver :=
  {| bo_name := bo_name bo; bo_id := bo_id bo; desc := desc bo; bo_type := bo_type bo;
     buildable := buildable bo; need_trees_ := need_trees_ bo; need_stones_ := need_stones_ bo;
     need_water_ := need_water_ bo; mines_water_ := mines_water_ bo; recruitment_ := recruitment_
     bo; space_consumer_ := space_consumer_ bo; expansion_type_ := expansion_type_ bo;
     fighting_type_ := fighting_type_ bo; mountain_conqueror_ := mountain_conqueror_ bo;
     plants_trees_ := plants_trees_ bo; is_hunter_ := is_hunter_ bo; is_fisher_ := is_fisher_ bo;
     prohibited_till_ := prohibited_till_ bo; forced_after_ := forced_after_ bo; production_hint_
     := production_hint_ bo; bo_mines_ := bo_mines_ bo; cnt_built_ := cnt_built_ bo;
     cnt_under_construction_ := cnt_under_construction_ bo; cnt_target_ := cnt_target_ bo;
     stocklevel_ := stocklevel_ bo; stocklevel_time := stocklevel_time bo;
     construction_decision_time_ := construction_decision_time_ bo; current_stats_ :=
     current_stats_ bo; unoccupied_ := unoccupied_ bo; inputs_ := v; outputs_ := outputs_ bo |}.

Definition set_outputs_ (v : list WareIndex) (bo : BuildingObserver) : BuildingObserver :=
  {| bo_name := bo_name bo; bo_id := bo_id bo; desc := desc bo; bo_type := bo_type bo;
     buildable := buildable bo; need_trees_ := need_trees_ bo; need_stones_ := need_stones_ bo;
     need_water_ := need_water_ bo; mines_water_ := mines_water_ bo; recruitment_ := recruitment_
     bo; space_consumer_ := space_consumer_ bo; expansion_type_ := expansion_type_ bo;
     fighting_type_ := fighting_type_ bo; mountain_conqueror_ := mountain_conqueror_ bo;
     plants_trees_ := plants_trees_ bo; is_hunter_ := is_hunter_ bo; is_fisher_ := is_fisher_ bo;
     prohibited_till_ := prohibited_till_ bo; forced_after_ := forced_after_ bo; production_hint_
     := production_hint_ bo; bo_mines_ := bo_mines_ bo; cnt_built_ := cnt_built_ bo;
     cnt_under_construction_ := cnt_under_construction_ bo; cnt_target_ := cnt_target_ bo;
     stocklevel_ := stocklevel_ bo; stocklevel_time := stocklevel_time bo;
     construction_decision_time_ := construction_decision_time_ bo; current_stats_ :=
     current_stats_ bo; unoccupied_ := unoccupied_ bo; inputs_ := inputs_ bo; outputs_ := v |}.

(** ** Fixtures for the stock of the economies *)

Definition with_warehouses_empty (v : Serial -> bool) (g : Game) : Game :=
  {| get_gametime := get_gametime g; player_number := player_number g; is_hostile :=
     is_hostile g; calc_distance := calc_distance g; get_brn := get_brn g; get_immovable :=
     get_immovable g; nodecaps := nodecaps g; get_buildcaps := get_buildcaps g; get_owned_by :=
     get_owned_by g; get_resources := get_resources g; get_resources_amount :=
     get_resources_amount g; find_immovables := find_immovables g; find_unowned := find_unowned
     g; find_unowned_mines_pots := find_unowned_mines_pots g; find_water := find_water g;
     find_fish := find_fish g; find_critters := find_critters g; map_region := map_region g;
     warehouses_empty := v; stock_ware := stock_ware g; needs_ware := needs_ware g; flag_economy
     := flag_economy g; flag_building := flag_building g; flag_is_dead_end := flag_is_dead_end g;
     flag_current_wares := flag_current_wares g; flag_nr_of_roads := flag_nr_of_roads g;
     road_coords := road_coords g; get_nrplayers := get_nrplayers g; get_player := get_player g;
     get_general_statistics := get_general_statistics g |}.

Definition with_stock_ware (v : Serial -> Z -> Z) (g : Game) : Game :=
  {| get_gametime := get_gametime g; player_number := player_number g; is_hostile :=
     is_hostile g; calc_distance := calc_distance g; get_brn := get_brn g; get_immovable :=
     get_immovable g; nodecaps := nodecaps g; get_buildcaps := get_buildcaps g; get_owned_by :=
     get_owned_by g; get_resources := get_resources g; get_resources_amount :=
     get_resources_amount g; find_immovables := find_immovables g; find_unowned := find_unowned
     g; find_unowned_mines_pots := find_unowned_mines_pots g; find_water := find_water g;
     find_fish := find_fish g; find_critters := find_critters g; map_region := map_region g;
     warehouses_empty := warehouses_empty g; stock_ware := v; needs_ware := needs_ware g;
     flag_economy := flag_economy g; flag_building := flag_building g; flag_is_dead_end :=
     flag_is_dead_end g; flag_current_wares := flag_current_wares g; flag_nr_of_roads :=
     flag_nr_of_roads g; road_coords := road_coords g; get_nrplayers := get_nrplayers g;
     get_player := get_player g; get_general_statistics := get_general_statistics g |}.

Definition with_needs_ware (v : Serial -> Z -> bool) (g : Game) : Game :=
  {| get_gametime := get_gametime g; player_number := player_number g; is_hostile :=
     is_hostile g; calc_distance := calc_distance g; get_brn := get_brn g; get_immovable :=
     get_immovable g; nodecaps := nodecaps g; get_buildcaps := get_buildcaps g; get_owned_by :=
     get_owned_by g; get_resources := get_resources g; get_resources_amount :=
     get_resources_amount g; find_immovables := find_immovables g; find_unowned := find_unowned
     g; find_unowned_mines_pots := find_unowned_mines_pots g; find_water := find_water g;
     find_fish := find_fish g; find_critters := find_critters g; map_region := map_region g;
     warehouses_empty := warehouses_empty g; stock_ware := stock_ware g; needs_ware := v;
     flag_economy := flag_economy g; flag_building := flag_building g; flag_is_dead_end :=
     flag_is_dead_end g; flag_current_wares := flag_current_wares g; flag_nr_of_roads :=
     flag_nr_of_roads g; road_coords := road_coords g; get_nrplayers := get_nrplayers g;
     get_player := get_player g; get_general_statistics := get_general_statistics g |}.

(** Two economies: economy 1 has a warehouse, holds 5 logs and 3 planks
    and needs planks; economy 2 has no warehouse and holds 1 of each. *)
Definition depot_game : Game :=
  with_needs_ware (fun e wt => Nat.eqb e 1 && (wt =? 1))
    (with_stock_ware (fun e wt => if Nat.eqb e 1 then (if wt =? 0 then 5 else 3) else 1)
       (with_warehouses_empty (fun e => negb (Nat.eqb e 1)) quiet_game)).

Definition plank_ware : WareObserver :=
  {| producers_ := 0; consumers_ := 0; preciousness_ := 1 |}.

(** A sawmill-like observer that puts out logs and planks. *)
Definition two_outputs : BuildingObserver := set_outputs_ [0%nat; 1%nat] (lumberjack 1).

Definition depot_ai : DefaultAI :=
  set_economies
    [{| economy := 2%nat; flags := [8%nat]; failed_connection_tries := 0 |};
     {| economy := 1%nat; flags := [5%nat]; failed_connection_tries := 0 |}]
    (set_wares [log_ware; plank_ware] (set_buildings_ [two_outputs] fresh_ai)).

(** ** Vocabulary of the statements about the book-keeping of buildings *)

(** The military sites whose [bo] pointer refers to the observer at
    position [k]. *)
Definition militarysites_of (k : nat) (sites : list MilitarySiteObserver)
  : list MilitarySiteObserver :=
  List.filter (fun site => Nat.eqb (ms_bo site) k) sites.

(** Every site of the three lists points to an observer of its kind. *)
Definition pointers_typed (ai : DefaultAI) : Prop :=
  Forall (fun site => bo_type <$> buildings_ ai !! ps_bo site = Some PRODUCTIONSITE)
         (productionsites ai)
  /\ Forall (fun site => bo_type <$> buildings_ ai !! ps_bo site = Some MINE) (mines_ ai)
  /\ Forall (fun site => bo_type <$> buildings_ ai !! ms_bo site = Some MILITARYSITE)
            (militarysites ai).

(** [cnt_built_] of an observer of production sites, mines or military
    sites is the number of sites of the list that point to it. *)
Definition counts_tally (ai : DefaultAI) : Prop :=
  forall k bo,
    buildings_ ai !! k = Some bo ->
    match bo_type bo with
    | PRODUCTIONSITE => cnt_built_ bo = size (sites_of k (productionsites ai))
    | MINE => cnt_built_ bo = size (sites_of k (mines_ ai))
    | MILITARYSITE => cnt_built_ bo = size (militarysites_of k (militarysites ai))
    | _ => True
    end.

Definition tallied (ai : DefaultAI) : Prop := pointers_typed ai /\ counts_tally ai.

(** Is the building filed where [lose_building] looks for it?  The first
    site of the list of its kind with its serial number points to the
    observer of its name.  (Nothing is asked of a building of another kind.) *)
Definition filed_under (ai : DefaultAI) (b : Building) : Prop :=
  forall i bo,
    get_building_observer ai (descr_name (b_descr b)) = Some (i, bo) ->
    match bo_type bo with
    | PRODUCTIONSITE =>
        ps_bo <$> List.find (fun o => Nat.eqb (ps_site o) (b_serial b)) (productionsites ai)
        = Some i
    | MINE =>
        ps_bo <$> List.find (fun o => Nat.eqb (ps_site o) (b_serial b)) (mines_ ai)
        = Some i
    | MILITARYSITE =>
        ms_bo <$> List.find (fun o => Nat.eqb (ms_site o) (b_serial b)) (militarysites ai)
        = Some i
    | _ => True
    end.

(** Two huts stand and are listed; a third is being gained or lost. *)
Definition third_hut : Building :=
  {| b_serial := 3%nat; b_descr := hut_descr; b_class := ProductionSite;
     b_position := (3, 0) |}.

Definition second_hut : Building :=
  {| b_serial := 2%nat; b_descr := hut_descr; b_class := ProductionSite;
     b_position := (2, 0) |}.

Definition hamlet_ai : DefaultAI :=
  set_productionsites [some_site 1; some_site 2] (woodland_ai 2).

(** ** [DefaultAI::think] *)



Section Think.

Variable scale_by_double : Z -> Z -> Z -> Z.
Variable range : Z.
Variable military : bool.
Variable new_BuildableField : Coords -> BuildableField.
Variable new_MineableField : Coords -> MineableField.
Variable road_search : Game -> DefaultAI -> Serial -> Z -> Z -> list Command * bool.
Variable dispensable_road_test : Game -> Serial -> bool.

(** [DefaultAI::late_initialization] fills the observers from the
    descriptions of the tribe and with the member defaults of the observer
    structs, which are declared outside the sources; it is not embedded.
    [None] when it throws. *)
Variable late_initialization : Game -> Upkeep -> option Upkeep.


End Think.

(** ** Vocabulary of the statements about the main loop *)


(** ** Fixtures for the main loop *)



(** * Properties *)

(** ** Small facts about the data *)




(** ** The mine planner's nearness count *)


(** ** What [construct_building] leaves behind *)

(** The head of the function writes the regime and nothing else. *)
Lemma set_regime_new_buildings_stop (g : Game) (ai : DefaultAI) (gametime : Z) :
  new_buildings_stop_ (fst (set_regime g ai gametime))
  = (stop_constructionsites ai || stop_free_spots ai (free_spots g ai)
     || stop_proportion ai || stop_mines ai)
    && negb (enemy_seen_lately ai gametime).
Proof.
  unfold set_regime, free_spots. cbn [fst]. unfold decide_new_buildings_stop.
  change (new_buildings_stop_ (set_resource_necessity_territory_ ?a
            (set_resource_necessity_mines_ ?b (set_new_buildings_stop_ ?v ?x))))
    with v.
  destruct (stop_constructionsites ai), (stop_free_spots ai _), (stop_proportion ai),
    (stop_mines ai), (enemy_seen_lately ai gametime); reflexivity.
Qed.

Ltac split_ifs :=
  repeat match goal with
         | |- context [if ?c then _ else _] => destruct c
         end.

Lemma update_all_mineable_fields_frame (g : Game) (ai : DefaultAI) (gametime : Z) :
  let ai' := update_all_mineable_fields g ai gametime in
  new_buildings_stop_ ai' = new_buildings_stop_ ai
  /\ blocked_fields ai' = blocked_fields ai
  /\ buildings_ ai' = buildings_ ai
  /\ productionsites ai' = productionsites ai.
Proof.
  unfold update_all_mineable_fields.
  destruct (update_mineable_loop _ _ _ _ _ _) as [mineable unusable].
  repeat split; reflexivity.
Qed.

(** The shape of every result of [construct_building]: the regime stays as
    the head of the function set it; without a winner nothing is sent and
    the blocker list is the pruned one; with a winner one build command is
    sent and the blocks of the site and of its surroundings are appended. *)
Lemma construct_building_outcome (g : Game) (wallclock : Z) (ai : DefaultAI)
    (gametime : Z) (ai' : DefaultAI) (cmds : list Command) (result : bool) :
  construct_building g wallclock ai gametime = Some (ai', cmds, result) ->
  new_buildings_stop_ ai' = new_buildings_stop_ (fst (set_regime g ai gametime))
  /\ ((result = false /\ cmds = []
       /\ blocked_fields ai' = remove_outdated g (blocked_fields ai))
      \/ (exists (c : Coords) (best : BuildingObserver),
            result = true
            /\ cmds = [send_player_build (player_number g) c (bo_id best)]
            /\ blocked_fields ai'
               = remove_outdated g (blocked_fields ai)
                 ++ [{| blocked_coords := c; blocked_until_ := get_gametime g + 120000 |}]
                 ++ nearby_blocks g best c)).
Proof.
  unfold construct_building.
  destruct (set_regime g ai gametime) as [ai0 mode] eqn:Hreg.
  assert (Hb0 : blocked_fields ai0 = blocked_fields ai)
    by (apply (f_equal fst) in Hreg; simpl in Hreg; subst ai0; reflexivity).
  cbn [fst].
  intros H.
  destruct (foldM _ (buildable_fields _) _) as [st|] eqn:Hscan; [|discriminate].
  cbn [mbind option_bind] in H.
  match type of H with
  | context [if ?c then _ else _] => destruct c eqn:Hdue
  end.
  - set (ai1 := set_next_mine_construction_due_ _ (update_all_mineable_fields g _ gametime)) in *.
    assert (Hf : new_buildings_stop_ ai1 = new_buildings_stop_ ai0
                 /\ blocked_fields ai1 = remove_outdated g (blocked_fields ai)).
    { subst ai1.
      destruct (update_all_mineable_fields_frame g
                  (set_blocked_fields (remove_outdated g (blocked_fields ai0)) ai0)
                  gametime) as (E1 & E2 & _).
      split.
      - change (new_buildings_stop_ (update_all_mineable_fields g
                 (set_blocked_fields (remove_outdated g (blocked_fields ai0)) ai0) gametime)
                = new_buildings_stop_ ai0). exact E1.
      - change (blocked_fields (update_all_mineable_fields g
                 (set_blocked_fields (remove_outdated g (blocked_fields ai0)) ai0) gametime)
                = remove_outdated g (blocked_fields ai)).
        rewrite E2. cbn. rewrite Hb0. reflexivity. }
    destruct Hf as [Hs Hb]. clearbody ai1.
    match type of H with
    | context [if ?c then _ else _] => destruct c
    end.
    + destruct (foldM _ (seq _ _) _) as [st'|]; [|discriminate].
      cbn [mbind option_bind] in H.
      destruct (best_building st') as [[k c]|].
      * destruct (_ !! k) as [best|]; [|discriminate].
        cbn [mbind option_bind] in H. injection H as <- <- <-.
        split; [split_ifs; exact Hs|].
        right. exists c, best. repeat split.
        split_ifs; cbn; rewrite Hb, <- app_assoc; reflexivity.
      * injection H as <- <- <-. split; [exact Hs|]. left. auto.
    + cbn [mbind option_bind] in H.
      destruct (best_building st) as [[k c]|].
      * destruct (_ !! k) as [best|]; [|discriminate].
        cbn [mbind option_bind] in H. injection H as <- <- <-.
        split; [split_ifs; exact Hs|].
        right. exists c, best. repeat split.
        split_ifs; cbn; rewrite Hb, <- app_assoc; reflexivity.
      * injection H as <- <- <-. split; [exact Hs|]. left. auto.
  - cbn [mbind option_bind] in H.
    destruct (best_building st) as [[k c]|].
    + destruct (_ !! k) as [best|]; [|discriminate].
      cbn [mbind option_bind] in H. injection H as <- <- <-.
      split; [split_ifs; reflexivity|].
      right. exists c, best. repeat split.
      split_ifs; cbn; rewrite Hb0, <- app_assoc; reflexivity.
    + injection H as <- <- <-. split; [reflexivity|]. left.
      repeat split. cbn. rewrite Hb0. reflexivity.
Qed.

(** ** The rule for [new_buildings_stop_] *)

(** C2. [construct_building] sets [new_buildings_stop_] exactly when one of
    the four reasons holds (too many production construction sites, too few
    free spots, too many production sites for the military sites, fewer than
    three mines) and no enemy has been seen within the last two minutes;
    the flag is still so in the state the function returns.  With 30
    production sites, 6 construction sites do not trigger the first reason
    and 7 do. *)
Theorem new_buildings_stop_rule (g : Game) (wallclock : Z) (ai : DefaultAI)
    (gametime : Z) :
  let reasons :=
    Z.quot (size (productionsites ai)) 7 + 2 < num_prod_constructionsites ai
    \/ Z.quot (free_spots g ai * 3) 2 + 5 < size (productionsites ai)
    \/ (num_milit_constructionsites ai + size (militarysites ai)) * 3
       < num_prod_constructionsites ai + size (productionsites ai)
    \/ size (mines_ ai) < 3 in
  let enemy_lately := gametime < enemy_last_seen_ ai + 2 * 60 * 1000 in
  (new_buildings_stop_ (fst (set_regime g ai gametime)) = true
   <-> reasons /\ ~ enemy_lately)
  /\ (forall ai' cmds result,
        construct_building g wallclock ai gametime = Some (ai', cmds, result) ->
        (new_buildings_stop_ ai' = true <-> reasons /\ ~ enemy_lately))
  /\ (size (productionsites ai) = 30 ->
        (num_prod_constructionsites ai = 6 -> stop_constructionsites ai = false)
        /\ (num_prod_constructionsites ai = 7 -> stop_constructionsites ai = true)).
Proof.
  intros reasons enemy_lately.
  assert (Hhead : new_buildings_stop_ (fst (set_regime g ai gametime)) = true
                  <-> reasons /\ ~ enemy_lately).
  { rewrite set_regime_new_buildings_stop.
    unfold reasons, enemy_lately, stop_constructionsites, stop_free_spots,
      stop_proportion, stop_mines, enemy_seen_lately.
    rewrite andb_true_iff, negb_true_iff, !orb_true_iff, !Z.ltb_lt, Z.ltb_ge.
    split; intros [Hr He]; (split; [tauto | lia]). }
  split; [exact Hhead|]. split.
  - intros ai' cmds result Hrun.
    destruct (construct_building_outcome _ _ _ _ _ _ _ Hrun) as [Hstop _].
    rewrite Hstop. exact Hhead.
  - intros H30. unfold stop_constructionsites. rewrite H30.
    split; intros ->; reflexivity.
Qed.

Lemma new_buildings_stop_rule_witness :
  (exists ai', construct_building small_spots_game 1 (overbuild_ai 6) 1001
               = Some (ai', [], false)
               /\ new_buildings_stop_ ai' = false)
  /\ (exists ai', construct_building small_spots_game 1 (overbuild_ai 7) 1001
                  = Some (ai', [], false)
                  /\ new_buildings_stop_ ai' = true)
  /\ stop_constructionsites (overbuild_ai 6) = false
  /\ stop_constructionsites (overbuild_ai 7) = true.
Proof.
  split; [|split; [|split]].
  - eexists. split; [vm_compute; reflexivity|].
    destruct (new_buildings_stop_rule small_spots_game 1 (overbuild_ai 6) 1001)
      as (_ & Hrun & _).
    destruct (new_buildings_stop_ _) eqn:E; [|reflexivity].
    apply (Hrun _ [] false) in E; [|vm_compute; reflexivity].
    exfalso. destruct E as [E _]. vm_compute in E.
    destruct E as [E|[E|[E|E]]]; discriminate E.
  - eexists. split; [vm_compute; reflexivity|].
    destruct (new_buildings_stop_rule small_spots_game 1 (overbuild_ai 7) 1001)
      as (_ & Hrun & _).
    apply (Hrun _ [] false); [vm_compute; reflexivity|].
    split; [left; vm_compute; reflexivity | vm_compute; discriminate].
  - apply (new_buildings_stop_rule small_spots_game 1 (overbuild_ai 6) 1001);
      reflexivity.
  - apply (new_buildings_stop_rule small_spots_game 1 (overbuild_ai 7) 1001);
      reflexivity.
Defined.

(** ** The blocker list *)





(** ** The wall clock in the candidate scan *)






(** ** Who is attackable *)










(** ** Military loneliness *)

Lemma scale_exact_bounds (x dist radius : Z) :
  0 <= x -> 0 <= dist < radius -> 0 <= scale_exact x dist radius <= x.
Proof.
  intros Hx Hd. unfold scale_exact. rewrite Z.quot_div_nonneg by nia.
  split.
  - apply Z.div_pos; nia.
  - apply Z.div_le_upper_bound; nia.
Qed.

Lemma scale_exact_decreases (x dist radius : Z) :
  0 < x -> 0 <= dist < radius -> scale_exact x dist radius < x.
Proof.
  intros Hx Hd. unfold scale_exact. rewrite Z.quot_div_nonneg by nia.
  apply Z.div_lt_upper_bound; nia.
Qed.

Section Loneliness.

Variable scale_by_double : Z -> Z -> Z -> Z.

(** One round of the second loop keeps the coordinates and touches the
    loneliness only for a crowding site. *)
Lemma military_step_loneliness (g : Game) (field : BuildableField) (imf : ImmovableFound) :
  let field' := military_step scale_by_double g field imf in
  bf_coords field' = bf_coords field
  /\ military_loneliness_ field'
     = if crowds g (bf_coords field) imf
       then scale_by_double (military_loneliness_ field)
              (calc_distance g (bf_coords field) (found_coords imf))
              (default 0 (crowding_radius imf))
       else military_loneliness_ field.
Proof.
  unfold military_step, crowds, crowding_radius.
  destruct (foreign_owner g (object imf)) as [o|].
  { destruct (is_hostile g o); split; reflexivity. }
  destruct (as_building (object imf)) as [building|]; [|split; reflexivity].
  destruct (b_class building) as [target| | |cap stationed| |];
    try (split; reflexivity).
  - destruct (is_MilitarySiteDescr target); [|split; reflexivity].
    cbn zeta.
    replace (0 <? get_conquers target + 4
                  - calc_distance g (bf_coords field) (found_coords imf))
      with (calc_distance g (bf_coords field) (found_coords imf)
            <? get_conquers target + 4)
      by (destruct (Z.ltb_spec (calc_distance g (bf_coords field) (found_coords imf))
                      (get_conquers target + 4));
          symmetry; [apply Z.ltb_lt | apply Z.ltb_ge]; lia).
    destruct (_ <? _); split; reflexivity.
  - cbn zeta.
    replace (0 <? get_conquers (b_descr building) + 4
                  - calc_distance g (bf_coords field) (found_coords imf))
      with (calc_distance g (bf_coords field) (found_coords imf)
            <? get_conquers (b_descr building) + 4)
      by (destruct (Z.ltb_spec (calc_distance g (bf_coords field) (found_coords imf))
                      (get_conquers (b_descr building) + 4));
          symmetry; [apply Z.ltb_lt | apply Z.ltb_ge]; lia).
    destruct (_ <? get_conquers _ + 4); [|split; reflexivity].
    destruct (0 <? calc_distance _ _ _); [|split; reflexivity].
    cbn [andb]. destruct (negb (stationed =? 0)); split; reflexivity.
Qed.

Lemma military_loop_loneliness (g : Game) (l : list ImmovableFound)
    (field : BuildableField) :
  let field' := fold_left (military_step scale_by_double g) l field in
  bf_coords field' = bf_coords field
  /\ military_loneliness_ field'
     = fold_left
         (fun x imf =>
            scale_by_double x (calc_distance g (bf_coords field) (found_coords imf))
                            (default 0 (crowding_radius imf)))
         (List.filter (crowds g (bf_coords field)) l)
         (military_loneliness_ field).
Proof.
  revert field. induction l as [|imf l IH]; intros field; cbn zeta.
  - split; reflexivity.
  - cbn [fold_left List.filter].
    destruct (military_step_loneliness g field imf) as [Hc Hl].
    destruct (IH (military_step scale_by_double g field imf)) as [Hc' Hl'].
    split; [congruence|].
    rewrite Hl', Hc, Hl.
    destruct (crowds g (bf_coords field) imf); reflexivity.
Qed.

End Loneliness.

Lemma crowds_in_radius (g : Game) (c : Coords) (imf : ImmovableFound) :
  (forall a b, 0 <= calc_distance g a b) ->
  crowds g c imf = true ->
  0 <= calc_distance g c (found_coords imf) < default 0 (crowding_radius imf).
Proof.
  intros Hdist. unfold crowds.
  destruct (foreign_owner g (object imf)); [discriminate|].
  destruct (crowding_radius imf) as [radius|]; [|discriminate].
  cbn zeta. rewrite andb_true_iff, Z.ltb_lt. intros [H _].
  split; [apply Hdist | exact H].
Qed.

(** Scaling by sites that are closer than their radius never leaves
    [0, x], and goes below a positive [x] as soon as there is one site. *)
Lemma scaling_loop_bounds (scale : Z -> Z -> Z -> Z) (R : Z) (g : Game) (c : Coords)
    (l : list ImmovableFound) :
  (forall x d r, 0 <= x <= 1000 -> 0 <= d < r -> r <= R -> 0 <= scale x d r <= x) ->
  (forall x d r, 0 < x <= 1000 -> 0 <= d < r -> r <= R -> scale x d r < x) ->
  (forall imf, In imf l ->
     0 <= calc_distance g c (found_coords imf) < default 0 (crowding_radius imf)
     /\ default 0 (crowding_radius imf) <= R) ->
  forall x, 0 <= x <= 1000 ->
    let y := fold_left
               (fun x imf =>
                  scale x (calc_distance g c (found_coords imf))
                        (default 0 (crowding_radius imf))) l x in
    0 <= y <= x /\ (l <> [] -> 0 < x -> y < x).
Proof.
  intros H1 H2. induction l as [|imf l IH]; intros Hl x Hx; cbn zeta.
  - cbn. split; [lia | congruence].
  - cbn [fold_left].
    destruct (Hl imf (or_introl eq_refl)) as [Hd HR].
    destruct (H1 x _ _ Hx Hd HR) as [Hlo Hhi].
    set (x1 := scale x (calc_distance g c (found_coords imf))
                     (default 0 (crowding_radius imf))) in *.
    assert (Hx1 : 0 <= x1 <= 1000) by lia.
    destruct (IH (fun i Hi => Hl i (or_intror Hi)) x1 Hx1) as [Hy _].
    split; [lia|]. intros _ Hpos.
    assert (Hlt : x1 < x) by (apply H2; [lia | exact Hd | exact HR]). lia.
Qed.

Lemma scaling_sound_spec (scale : Z -> Z -> Z -> Z) (R x d r : Z) :
  scaling_sound scale R = true ->
  0 <= x <= 1000 -> 0 <= d < r -> r <= R ->
  0 <= scale x d r <= x /\ (0 < x -> scale x d r < x).
Proof.
  unfold scaling_sound. intros H Hx Hd Hr.
  assert (In x (seqZ 0 1001)) as Ix by (apply list_elem_of_In, elem_of_seqZ; lia).
  assert (In r (seqZ 1 R)) as Ir by (apply list_elem_of_In, elem_of_seqZ; lia).
  assert (In d (seqZ 0 r)) as Id by (apply list_elem_of_In, elem_of_seqZ; lia).
  pose proof (proj1 (forallb_forall _ _) H x Ix) as Hr'.
  pose proof (proj1 (forallb_forall _ _) Hr' r Ir) as Hd'.
  pose proof (proj1 (forallb_forall _ _) Hd' d Id) as Hs.
  clear H Hr' Hd'. rename Hs into H.
  cbn zeta in H. rewrite !andb_true_iff, orb_true_iff in H.
  rewrite Z.leb_le, Z.leb_le, Z.eqb_eq, Z.ltb_lt in H. lia.
Qed.

(** The machine arithmetic passes the check for every radius up to 16, the
    radius of a site that conquers 12. *)
Lemma scale_binary64_sound : scaling_sound scale_binary64 16 = true.
Proof. vm_compute. reflexivity. Qed.

(** It is not the exact quotient: the quotient 3/11 is rounded down, and
    55 times it falls short of 15. *)
Lemma scale_binary64_rounds :
  scale_binary64 55 3 11 = 14 /\ scale_exact 55 3 11 = 15
  /\ scale_binary64 1000 3 6 = 500.
Proof. repeat split; vm_compute; reflexivity. Qed.

Lemma consider_productionsite_influence_frame (g : Game) (field field' : BuildableField)
    (coords : Coords) (bo : BuildingObserver) :
  consider_productionsite_influence g field coords bo = Some field' ->
  bf_coords field' = bf_coords field
  /\ fish_nearby_ field' = fish_nearby_ field
  /\ water_nearby_ field' = water_nearby_ field.
Proof.
  unfold consider_productionsite_influence. intros H.
  destruct (foldM vector_incr (inputs_ bo) _) as [cons|]; [|discriminate].
  cbn [mbind option_bind] in H.
  destruct (foldM vector_incr (outputs_ bo) _) as [prods|]; [|discriminate].
  cbn [mbind option_bind] in H. injection H as <-.
  destruct (_ && _); repeat split; reflexivity.
Qed.

Lemma general_step_frame (g : Game) (field field' : BuildableField) (ai ai' : DefaultAI)
    (imf : ImmovableFound) :
  general_step g (field, ai) imf = Some (field', ai') ->
  bf_coords field' = bf_coords field
  /\ fish_nearby_ field' = fish_nearby_ field
  /\ water_nearby_ field' = water_nearby_ field.
Proof.
  unfold general_step. destruct (foreign_owner g (object imf)) as [o|].
  { intros [= <- <-]. destruct (is_hostile g o); repeat split; reflexivity. }
  destruct (as_building (object imf)) as [building|].
  - destruct (match b_class building with
              | ConstructionSite target_descr => _
              | _ => Some field
              end) as [f1|] eqn:E1; [|discriminate].
    cbn [mbind option_bind].
    assert (F1 : bf_coords f1 = bf_coords field
                 /\ fish_nearby_ f1 = fish_nearby_ field
                 /\ water_nearby_ f1 = water_nearby_ field).
    { destruct (b_class building) as [target| | | | |];
        try (injection E1 as <-; repeat split; reflexivity).
      destruct (is_ProductionSiteDescr target);
        [|injection E1 as <-; repeat split; reflexivity].
      destruct (get_building_observer ai _) as [[i bo]|]; [|discriminate].
      cbn [mbind option_bind] in E1.
      apply consider_productionsite_influence_frame in E1. exact E1. }
    destruct (if is_ProductionSite building then _ else Some f1) as [f2|] eqn:E2;
      [|discriminate].
    assert (F2 : bf_coords f2 = bf_coords f1
                 /\ fish_nearby_ f2 = fish_nearby_ f1
                 /\ water_nearby_ f2 = water_nearby_ f1).
    { destruct (is_ProductionSite building);
        [|injection E2 as <-; repeat split; reflexivity].
      destruct (get_building_observer ai _) as [[i bo]|]; [|discriminate].
      cbn [mbind option_bind] in E2.
      apply consider_productionsite_influence_frame in E2. exact E2. }
    intros [= <- <-].
    destruct F1 as (? & ? & ?), F2 as (? & ? & ?).
    destruct (attr_tree (object imf)); cbn; repeat split; congruence.
  - cbn [mbind option_bind]. intros [= <- <-].
    destruct (attr_tree (object imf)); repeat split; reflexivity.
Qed.

Lemma general_loop_frame (g : Game) (l : list ImmovableFound) :
  forall field ai field' ai',
    foldM (general_step g) l (field, ai) = Some (field', ai') ->
    bf_coords field' = bf_coords field
    /\ fish_nearby_ field' = fish_nearby_ field
    /\ water_nearby_ field' = water_nearby_ field.
Proof.
  induction l as [|imf l IH]; intros field ai field' ai' H.
  - injection H as <- <-. repeat split; reflexivity.
  - cbn [foldM] in H.
    destruct (general_step g (field, ai) imf) as [[f1 a1]|] eqn:E; [|discriminate].
    apply general_step_frame in E. apply IH in H.
    destruct E as (? & ? & ?), H as (? & ? & ?). repeat split; congruence.
Qed.

Lemma reset_general_metrics_frame (ai : DefaultAI) (f : BuildableField) :
  bf_coords (reset_general_metrics ai f) = bf_coords f
  /\ water_nearby_ (reset_general_metrics ai f) = water_nearby_ f
  /\ fish_nearby_ (reset_general_metrics ai f) = fish_nearby_ f.
Proof. repeat split; reflexivity. Qed.

Lemma count_water_spec (g : Game) (ai : DefaultAI) (f : BuildableField) :
  bf_coords (count_water g ai f) = bf_coords f
  /\ water_nearby_ (count_water g ai f)
     = (if water_nearby_ f =? -1 then size (find_water g (bf_coords f) 5)
        else water_nearby_ f)
  /\ fish_nearby_ (count_water g ai f) = fish_nearby_ f.
Proof.
  unfold count_water. destruct (water_nearby_ f =? -1); [|repeat split; reflexivity].
  cbn zeta. destruct (resource_necessity_water_needed_ ai); repeat split; reflexivity.
Qed.

(** The fish are counted whenever there is water nearby, whatever the tick
    and whatever the old count. *)
Lemma count_fish_spec (g : Game) (f : BuildableField) :
  bf_coords (count_fish g f) = bf_coords f
  /\ water_nearby_ (count_fish g f) = water_nearby_ f
  /\ fish_nearby_ (count_fish g f)
     = if 0 <? water_nearby_ f then size (find_fish g (bf_coords f) 6)
       else fish_nearby_ f.
Proof.
  unfold count_fish. destruct (0 <? water_nearby_ f); repeat split; reflexivity.
Qed.

Lemma general_tail_frame (g : Game) (immovables : list ImmovableFound)
    (f : BuildableField) :
  let f' := check_ground_water g (count_stones immovables f) in
  bf_coords f' = bf_coords f
  /\ water_nearby_ f' = water_nearby_ f
  /\ fish_nearby_ f' = fish_nearby_ f.
Proof.
  unfold check_ground_water, count_stones.
  destruct (0 <? stones_nearby_ f); cbn [ground_water_ set_stones_nearby_];
    destruct (0 <? ground_water_ f); repeat split; reflexivity.
Qed.

Lemma general_middle_frame (g : Game) (f : BuildableField) :
  let f' := check_preferred g (count_critters g f) in
  bf_coords f' = bf_coords f
  /\ water_nearby_ f' = water_nearby_ f
  /\ fish_nearby_ f' = fish_nearby_ f.
Proof.
  unfold check_preferred, count_critters.
  destruct (Z.rem (get_gametime g) 10 =? 0); cbn [bf_coords set_critters_nearby_];
    destruct (preferred_at g _); repeat split; reflexivity.
Qed.

(** What the general update does to the water and the fish count. *)
Lemma general_update_fish (g : Game) (ai ai' : DefaultAI) (field field' : BuildableField)
    (immovables : list ImmovableFound) :
  general_update g ai field immovables = Some (field', ai') ->
  let water :=
    if water_nearby_ field =? -1 then size (find_water g (bf_coords field) 5)
    else water_nearby_ field in
  bf_coords field' = bf_coords field
  /\ water_nearby_ field' = water
  /\ fish_nearby_ field'
     = if 0 <? water then size (find_fish g (bf_coords field) 6) else fish_nearby_ field.
Proof.
  unfold general_update. intros H.
  destruct (foldM _ _ _) as [[f1 a1]|] eqn:Hloop; [|discriminate].
  cbn [mbind option_bind] in H. injection H as <- <-.
  apply general_loop_frame in Hloop. destruct Hloop as (Hc & Hf & Hw).
  destruct (general_tail_frame g immovables f1) as (Tc & Tw & Tf).
  cbn zeta in Tc, Tw, Tf. cbn zeta. rewrite Tc, Tw, Tf, Hc, Hw, Hf. clear.
  set (f0 := reset_general_metrics ai field).
  destruct (general_middle_frame g (count_fish g (count_water g ai f0))) as (Mc & Mw & Mf).
  cbn zeta in Mc, Mw, Mf. rewrite Mc, Mw, Mf.
  destruct (count_fish_spec g (count_water g ai f0)) as (Fc & Fw & Ff).
  rewrite Fc, Fw, Ff.
  destruct (count_water_spec g ai f0) as (Wc & Ww & Wf).
  rewrite Wc, Ww, Wf.
  destruct (reset_general_metrics_frame ai field) as (Rc & Rw & Rf).
  subst f0. rewrite Rc, Rw, Rf. auto.
Qed.

Lemma count_unowned_frame (g : Game) (ai : DefaultAI) (f : BuildableField) (range : Z) :
  bf_coords (count_unowned g ai f range) = bf_coords f
  /\ water_nearby_ (count_unowned g ai f range) = water_nearby_ f
  /\ fish_nearby_ (count_unowned g ai f range) = fish_nearby_ f.
Proof.
  unfold count_unowned. cbn zeta. split_ifs; repeat split; reflexivity.
Qed.

Lemma military_step_frame (scale : Z -> Z -> Z -> Z) (g : Game) (f : BuildableField)
    (imf : ImmovableFound) :
  fish_nearby_ (military_step scale g f imf) = fish_nearby_ f
  /\ water_nearby_ (military_step scale g f imf) = water_nearby_ f.
Proof.
  unfold military_step.
  destruct (foreign_owner g (object imf)) as [o|];
    [destruct (is_hostile g o); split; reflexivity|].
  destruct (as_building (object imf)) as [building|]; [|split; reflexivity].
  destruct (b_class building) as [target| | |cap stationed| |];
    try (split; reflexivity).
  - destruct (is_MilitarySiteDescr target); [|split; reflexivity].
    cbn zeta. destruct (0 <? _); split; reflexivity.
  - cbn zeta. destruct (_ && _); [|split; reflexivity].
    destruct (negb _); split; reflexivity.
Qed.

Lemma military_update_frame (scale : Z -> Z -> Z -> Z) (g : Game) (f : BuildableField)
    (range : Z) :
  fish_nearby_ (military_update scale g f range) = fish_nearby_ f
  /\ water_nearby_ (military_update scale g f range) = water_nearby_ f.
Proof.
  unfold military_update. cbn zeta.
  set (f0 := set_military_presence_ 0 _).
  change (fish_nearby_ f) with (fish_nearby_ f0).
  change (water_nearby_ f) with (water_nearby_ f0).
  generalize (find_immovables g (bf_coords f)
                (if range <? 10 then 10 else range)) as l.
  clearbody f0. intros l. revert f0.
  induction l as [|imf l IH]; intros f0; [split; reflexivity|].
  cbn [fold_left]. destruct (IH (military_step scale g f0 imf)) as [H1 H2].
  destruct (military_step_frame scale g f0 imf) as [S1 S2]. split; congruence.
Qed.

(** The value of [military_loneliness_] after the second loop. *)
Lemma military_update_loneliness (scale : Z -> Z -> Z -> Z) (g : Game)
    (f : BuildableField) (range : Z) :
  military_loneliness_ (military_update scale g f range)
  = fold_left
      (fun x imf =>
         scale x (calc_distance g (bf_coords f) (found_coords imf))
               (default 0 (crowding_radius imf)))
      (List.filter (crowds g (bf_coords f)) (scanned g (bf_coords f) range))
      1000.
Proof.
  unfold military_update, scanned. cbn zeta.
  set (f0 := set_military_presence_ 0 _).
  destruct (military_loop_loneliness scale g
              (find_immovables g (bf_coords f) (if range <? 10 then 10 else range)) f0)
    as [_ H].
  exact H.
Qed.

(** ** The fish count *)

(** C5 fails on the code. In a general update of a field with water nearby
    the fish are counted anew at every tick, whatever the old count is. *)
Lemma fish_recount_ignores_schedule (scale : Z -> Z -> Z -> Z) (g : Game)
    (ai ai' : DefaultAI) (field field' : BuildableField) (range : Z) :
  0 < water_nearby_ field ->
  update_buildable_field scale g ai field range false = Some (field', ai') ->
  fish_nearby_ field' = size (find_fish g (bf_coords field) 6).
Proof.
  intros Hwater. unfold update_buildable_field. cbn zeta.
  destruct (general_update g ai _ _) as [[f1 a1]|] eqn:Hgen; [|discriminate].
  cbn [mbind option_bind]. intros [= <- <-].
  destruct (military_update_frame scale g f1 range) as [-> _].
  apply general_update_fish in Hgen. cbn zeta in Hgen.
  destruct Hgen as (_ & _ & ->).
  destruct (count_unowned_frame g ai field range) as (-> & -> & _).
  replace (water_nearby_ field =? -1) with false by (symmetry; apply Z.eqb_neq; lia).
  replace (0 <? water_nearby_ field) with true by (symmetry; apply Z.ltb_lt; lia).
  reflexivity.
Qed.

(** The failing input of C5: tick 1001 is no multiple of 10 and the stored
    count 7 is not -1, yet the update replaces it by the 2 tiles found. *)
Theorem fish_recounted_off_schedule :
  Z.rem (get_gametime fish_game) 10 <> 0
  /\ fish_nearby_ lake_field = 7
  /\ 0 < water_nearby_ lake_field
  /\ exists field' ai',
       update_buildable_field scale_binary64 fish_game fresh_ai lake_field 6 false
       = Some (field', ai')
       /\ fish_nearby_ field' = 2.
Proof.
  split; [vm_compute; discriminate|]. split; [reflexivity|]. split; [reflexivity|].
  eexists. eexists. split; [vm_compute; reflexivity | reflexivity].
Qed.

(** ** The range of the loneliness *)

(** C4 as stated fails: our sentry stands 8 tiles away, within the scanned
    radius of 10, but not within its own radius of 6, and the loneliness of
    the field stays 1000. *)
Lemma distant_sentry_leaves_loneliness :
  In (sentry_at 8) (scanned (sentry_game 8) origin 6)
  /\ calc_distance (sentry_game 8) origin (found_coords (sentry_at 8)) = 8
  /\ exists field' ai',
       update_buildable_field scale_binary64 (sentry_game 8) fresh_ai
                              (plain_field origin) 6 false
       = Some (field', ai')
       /\ military_loneliness_ field' = 1000.
Proof.
  split; [left; reflexivity|]. split; [reflexivity|].
  eexists. eexists. split; [vm_compute; reflexivity | reflexivity].
Qed.

(** C4, amended. After every call of [update_buildable_field] the
    loneliness is 1000 scaled once for every crowding site among the
    immovables of the scanned radius (the larger of 10 and the range), in
    the order found: a site of our own that is a military construction site
    closer than its radius, or a finished military site closer than its
    radius but not at distance 0, the radius being conquers + 4, and the scale
    being distance over radius.  Hence it lies in [0, 1000], and it is 1000
    exactly when there is no crowding site.  This holds for every way of
    computing the double product and converting it to the integer field that
    keeps a value x of [0, 1000] within [0, x] and pushes a positive x down
    when the distance is below the radius, for the radii up to [R] that
    occur. *)
Theorem military_loneliness_range (scale : Z -> Z -> Z -> Z) (R : Z) (g : Game)
    (ai ai' : DefaultAI) (field field' : BuildableField) (range : Z) (military : bool) :
  (forall x d r, 0 <= x <= 1000 -> 0 <= d < r -> r <= R -> 0 <= scale x d r <= x) ->
  (forall x d r, 0 < x <= 1000 -> 0 <= d < r -> r <= R -> scale x d r < x) ->
  (forall a b, 0 <= calc_distance g a b) ->
  (forall imf r, In imf (scanned g (bf_coords field) range) ->
                 crowding_radius imf = Some r -> r <= R) ->
  update_buildable_field scale g ai field range military = Some (field', ai') ->
  let c := bf_coords field in
  let crowding := List.filter (crowds g c) (scanned g c range) in
  military_loneliness_ field'
  = fold_left
      (fun x imf =>
         scale x (calc_distance g c (found_coords imf)) (default 0 (crowding_radius imf)))
      crowding 1000
  /\ 0 <= military_loneliness_ field' <= 1000
  /\ (military_loneliness_ field' = 1000 <-> crowding = []).
Proof.
  intros H1 H2 Hdist Hradii Hrun c crowding.
  assert (Hval : military_loneliness_ field'
                 = fold_left
                     (fun x imf =>
                        scale x (calc_distance g c (found_coords imf))
                              (default 0 (crowding_radius imf)))
                     crowding 1000).
  { revert Hrun. unfold update_buildable_field. cbn zeta.
    destruct (count_unowned_frame g ai field range) as (Hc0 & _ & _).
    destruct military.
    - cbn [mbind option_bind]. intros [= <- <-].
      rewrite military_update_loneliness, Hc0. reflexivity.
    - destruct (general_update g ai _ _) as [[f1 a1]|] eqn:Hgen; [|discriminate].
      cbn [mbind option_bind]. intros [= <- <-].
      apply general_update_fish in Hgen. cbn zeta in Hgen.
      destruct Hgen as (Hc1 & _ & _).
      rewrite military_update_loneliness, Hc1, Hc0. reflexivity. }
  split; [exact Hval|].
  assert (Hin : forall imf, In imf crowding ->
            0 <= calc_distance g c (found_coords imf)
            < default 0 (crowding_radius imf)
            /\ default 0 (crowding_radius imf) <= R).
  { intros imf Hi. apply filter_In in Hi. destruct Hi as [Hs Hi].
    pose proof (crowds_in_radius g c imf Hdist Hi) as Hd. split; [exact Hd|].
    destruct (crowding_radius imf) as [r|] eqn:Er; [|cbn in Hd; lia].
    cbn. apply (Hradii imf r Hs Er). }
  destruct (scaling_loop_bounds scale R g c crowding H1 H2 Hin 1000 ltac:(lia))
    as [Hb Hlt].
  rewrite Hval. split; [exact Hb|]. split.
  - intros Heq. destruct crowding as [|imf l]; [reflexivity|].
    exfalso. assert (imf :: l <> []) as Hne by discriminate.
    specialize (Hlt Hne ltac:(lia)). lia.
  - intros ->. reflexivity.
Qed.

Lemma military_loneliness_range_witness :
  exists field' ai',
    update_buildable_field scale_binary64 (sentry_game 3) fresh_ai (plain_field origin)
                           6 false
    = Some (field', ai')
    /\ military_loneliness_ field' = 500
    /\ 0 <= military_loneliness_ field' <= 1000.
Proof.
  assert (Hrun : exists field' ai',
             update_buildable_field scale_binary64 (sentry_game 3) fresh_ai
                                    (plain_field origin) 6 false
             = Some (field', ai'))
    by (eexists; eexists; vm_compute; reflexivity).
  destruct Hrun as (field' & ai' & Hrun). exists field', ai'.
  split; [exact Hrun|].
  destruct (military_loneliness_range scale_binary64 16 (sentry_game 3) fresh_ai ai'
              (plain_field origin) field' 6 false
              (fun x d r Hx Hd Hr =>
                 proj1 (scaling_sound_spec _ 16 x d r scale_binary64_sound Hx Hd Hr))
              (fun x d r Hx Hd Hr =>
                 proj2 (scaling_sound_spec _ 16 x d r scale_binary64_sound
                          ltac:(lia) Hd Hr) ltac:(lia))
              ltac:(intros a b; cbn; lia)
              ltac:(intros imf r [<-|[]]; vm_compute; intros [= <-]; discriminate)
              Hrun) as (Hval & Hb & _).
  split; [rewrite Hval; vm_compute; reflexivity | exact Hb].
Defined.

(** ** Giving up on a stranded flag *)

Lemma find_economy_spec (e : Serial) (ecos : list EconomyObserver) (k0 k : nat)
    (eco : EconomyObserver) :
  find_economy e ecos k0 = Some (k, eco) ->
  (k0 <= k)%nat /\ ecos !! (k - k0)%nat = Some eco.
Proof.
  revert k0. induction ecos as [|x ecos IH]; intros k0; cbn [find_economy];
    [discriminate|].
  destruct (Nat.eqb (economy x) e).
  - intros [= <- <-]. rewrite Nat.sub_diag. split; [lia | reflexivity].
  - intros H. apply IH in H. destruct H as [Hle Hl]. split; [lia|].
    replace (k - k0)%nat with (S (k - S k0)) by lia. exact Hl.
Qed.

Lemma get_economy_observer_spec (ai ai1 : DefaultAI) (e : Serial) (k : nat)
    (eco : EconomyObserver) :
  get_economy_observer ai e = (k, eco, ai1) ->
  economies ai1 !! k = Some eco /\ blocked_fields ai1 = blocked_fields ai.
Proof.
  unfold get_economy_observer.
  destruct (find_economy e (economies ai) 0) as [[k' eco']|] eqn:E.
  - intros [= <- <- <-]. apply find_economy_spec in E. destruct E as [_ E].
    rewrite Nat.sub_0_r in E. auto.
  - intros [= <- <- <-]. split; reflexivity.
Qed.

(** C6 as stated fails: the counter of the stranded economy exceeds
    3 + 1 * 1, but flag 5 carries no building, so nothing is bulldozed and no
    tile is blocked. *)
Lemma stranded_flag_without_building :
  flag_building quiet_game 5%nat = None
  /\ exists ai',
       create_shortcut_road no_search quiet_game stranded_ai 5%nat 13 20 = (ai', [], true)
       /\ blocked_fields ai' = []
       /\ economies ai'
          = [{| economy := 0%nat; flags := [5%nat]; failed_connection_tries := 5 |}].
Proof.
  split; [reflexivity|]. eexists. split; [vm_compute; reflexivity|].
  split; reflexivity.
Qed.

(** C6, amended. [create_shortcut_road] adds one to
    [failed_connection_tries] of the flag's economy observer when that economy
    has no warehouse (and resets the counter otherwise).  When the counter
    then exceeds 3 plus the square of the number of flags of the observer,
    the call returns true without any road search; if the flag belongs to a
    building, the flag is bulldozed (which takes the building with it), it is
    removed from the observer and the tile of the building is blocked until
    15 minutes later; if the flag has no building, nothing is sent and nothing
    is blocked. *)
Theorem create_shortcut_road_gives_up
    (road_search : Game -> DefaultAI -> Serial -> Z -> Z -> list Command * bool)
    (g : Game) (ai : DefaultAI) (flag : Serial) (checkradius minred : Z) :
  let '(k, eco, _) := get_economy_observer ai (flag_economy g flag) in
  let tries :=
    if warehouses_empty g (flag_economy g flag)
    then failed_connection_tries eco + 1 else 0 in
  let '(ai', cmds, result) :=
    create_shortcut_road road_search g ai flag checkradius minred in
  (exists eco', economies ai' !! k = Some eco' /\ failed_connection_tries eco' = tries)
  /\ (3 + size (flags eco) * size (flags eco) < tries ->
      result = true
      /\ (forall other_search,
            create_shortcut_road other_search g ai flag checkradius minred
            = (ai', cmds, result))
      /\ match flag_building g flag with
         | Some bld =>
             cmds = [send_player_bulldoze (IsFlag flag)]
             /\ blocked_fields ai'
                = blocked_fields ai
                  ++ [block (b_position bld) (get_gametime g + 15 * 60 * 1000)]
             /\ economies ai' !! k
                = Some {| economy := economy eco;
                          flags := List.filter (fun f => negb (Nat.eqb f flag)) (flags eco);
                          failed_connection_tries := tries |}
         | None => cmds = [] /\ blocked_fields ai' = blocked_fields ai
         end).
Proof.
  unfold create_shortcut_road.
  destruct (get_economy_observer ai (flag_economy g flag)) as [[k eco] ai1] eqn:Hobs.
  apply get_economy_observer_spec in Hobs. destruct Hobs as [Hk Hb].
  assert (Hlen : (k < length (economies ai1))%nat) by (eapply lookup_lt_Some; eauto).
  set (tries := if warehouses_empty g (flag_economy g flag)
                then failed_connection_tries eco + 1 else 0).
  set (eco1 := if warehouses_empty g (flag_economy g flag)
               then set_failed_connection_tries (failed_connection_tries eco + 1) eco
               else set_failed_connection_tries 0 eco).
  assert (He1 : flags eco1 = flags eco /\ failed_connection_tries eco1 = tries
                /\ economy eco1 = economy eco)
    by (subst eco1 tries; destruct (warehouses_empty _ _); repeat split; reflexivity).
  destruct He1 as (Hf1 & Ht1 & He1). rewrite Hf1, Ht1.
  destruct (3 + size (flags eco) * size (flags eco) <? tries) eqn:Hgive.
  - apply Z.ltb_lt in Hgive.
    destruct (flag_building g flag) as [bld|].
    + split.
      * eexists. split.
        -- cbn [economies set_economies set_blocked_fields].
           apply list_lookup_insert_eq. rewrite length_insert. exact Hlen.
        -- cbn. exact Ht1.
      * intros _. split; [reflexivity|]. split; [reflexivity|].
        split; [reflexivity|]. split.
        -- cbn. rewrite Hb. reflexivity.
        -- cbn [economies set_economies set_blocked_fields].
           rewrite list_lookup_insert_eq by (rewrite length_insert; exact Hlen).
           unfold set_flags. cbn. rewrite Ht1, He1. reflexivity.
    + split.
      * exists eco1. split; [|exact Ht1].
        cbn. apply list_lookup_insert_eq. exact Hlen.
      * intros _. split; [reflexivity|]. split; [reflexivity|].
        split; [reflexivity|]. cbn. exact Hb.
  - destruct (road_search g _ flag checkradius minred) as [cmds built].
    split.
    + exists eco1. split; [|exact Ht1]. cbn. apply list_lookup_insert_eq. exact Hlen.
    + apply Z.ltb_ge in Hgive. intros Hlt. lia.
Qed.

Lemma create_shortcut_road_gives_up_witness :
  create_shortcut_road no_search hut_game stranded_ai 5%nat 13 20
  = (set_blocked_fields [block (3, 4) 901001]
       (set_economies
          [{| economy := 0%nat; flags := []; failed_connection_tries := 5 |}]
          stranded_ai),
     [send_player_bulldoze (IsFlag 5%nat)], true)
  /\ forall other_search,
       create_shortcut_road other_search hut_game stranded_ai 5%nat 13 20
       = create_shortcut_road no_search hut_game stranded_ai 5%nat 13 20.
Proof.
  split; [vm_compute; reflexivity|].
  pose proof (create_shortcut_road_gives_up no_search hut_game stranded_ai 5%nat 13 20)
    as H.
  cbv beta iota zeta in H.
  change (get_economy_observer stranded_ai (flag_economy hut_game 5%nat))
    with (0%nat, {| economy := 0%nat; flags := [5%nat]; failed_connection_tries := 4 |},
          stranded_ai) in H.
  cbv beta iota zeta in H.
  destruct (create_shortcut_road no_search hut_game stranded_ai 5%nat 13 20)
    as [[ai' cmds] result].
  destruct H as (_ & H). destruct H as (_ & Hsame & _); [vm_compute; reflexivity|].
  exact Hsame.
Defined.

(** ** Splitting a long road *)

(** The split loop returns the first tile, in the inward order, on which a
    flag can be set. *)
Lemma split_walk_find (g : Game) (coords : list Coords) (fuel : nat) :
  forall i j : nat,
    (i < length coords)%nat ->
    split_walk g coords fuel i j
    = List.find (flag_capable g) (omap (fun k => coords !! k) (inward_order fuel i j)).
Proof.
  induction fuel as [|fuel IH]; intros i j Hi; cbn [split_walk inward_order];
    [reflexivity|].
  destruct (i <? j)%nat eqn:Hij; [reflexivity|].
  apply Nat.ltb_ge in Hij.
  destruct (lookup_lt_is_Some_2 coords i Hi) as [c Hc].
  destruct (lookup_lt_is_Some_2 coords j ltac:(lia)) as [c' Hc'].
  cbn [omap list_omap]. rewrite Hc, Hc'. cbn [List.find].
  fold (flag_capable g c). fold (flag_capable g c').
  destruct (flag_capable g c); [reflexivity|].
  destruct (flag_capable g c'); [reflexivity|].
  apply IH. lia.
Qed.

(** With enough fuel the inward order reaches every position between the
    two starting points, and no other. *)
Lemma inward_order_covers (fuel : nat) :
  forall i j k : nat,
    (i < fuel + j)%nat ->
    In k (inward_order fuel i j) <-> (j <= k <= i)%nat.
Proof.
  induction fuel as [|fuel IH]; intros i j k Hf; cbn [inward_order].
  - split; [intros [] | lia].
  - destruct (i <? j)%nat eqn:Hij.
    + apply Nat.ltb_lt in Hij. split; [intros [] | lia].
    + apply Nat.ltb_ge in Hij. cbn [In]. rewrite IH by lia. lia.
Qed.

Lemma tiles_inward_interior (g : Game) (road : Serial) (c : Coords) :
  let cp := road_coords g road in
  In c (tiles_inward g road)
  <-> exists k : nat, (1 <= k <= get_nsteps cp - 1)%nat /\ cp !! k = Some c.
Proof.
  cbn zeta. unfold tiles_inward. rewrite <- list_elem_of_In, list_elem_of_omap.
  split.
  - intros (k & Hk & Hc). exists k. split; [|exact Hc].
    apply list_elem_of_In, inward_order_covers in Hk; lia.
  - intros (k & Hk & Hc). exists k. split; [|exact Hc].
    apply list_elem_of_In, inward_order_covers; lia.
Qed.

(** C7 as stated fails: with exactly 20 free spots the long road is left
    alone, although every tile of it could take a flag; with 21 free spots a
    flag is set on the far end of it. *)
Lemma twenty_spots_do_not_split :
  improve_roads no_search keep_roads no_economy_change flaggable_game (long_road_ai 20) 1001
  = (long_road_ai 20, [], false)
  /\ improve_roads no_search keep_roads no_economy_change flaggable_game
                   (long_road_ai 21) 1001
     = (long_road_ai 21, [send_player_build_flag 1 (4, 0)], true).
Proof. split; vm_compute; reflexivity. Qed.

(** C7, amended. When the front road has more than 3 steps and there are
    more than 20 free spots, [improve_roads] tries the tiles of the road
    between its ends, from both ends inward and the far end first, and sends
    a [build_flag] for the first one that can take a flag, returning at once;
    if none of them can, it sends a bulldoze of that road.  With 20 free spots
    or fewer the road is neither split nor bulldozed for its length. *)
Theorem improve_roads_splits
    (road_search : Game -> DefaultAI -> Serial -> Z -> Z -> list Command * bool)
    (dispensable_road_test : Game -> Serial -> bool)
    (check_economies : Game -> DefaultAI -> DefaultAI * bool)
    (g : Game) (ai : DefaultAI) (gametime : Z) (front : Serial) (others : list Serial) :
  let run := improve_roads road_search dispensable_road_test check_economies g ai gametime in
  roads ai = front :: others ->
  (3 < get_nsteps (road_coords g front))%nat ->
  (20 < spots_ ai ->
   match List.find (flag_capable g) (tiles_inward g front) with
   | Some c => run = (ai, [send_player_build_flag (player_number g) c], true)
   | None =>
       exists ai' cmds result,
         run = (ai', send_player_bulldoze (IsRoad front) :: cmds, result)
   end)
  /\ (forall c,
        In c (tiles_inward g front)
        <-> exists k : nat,
              (1 <= k <= get_nsteps (road_coords g front) - 1)%nat
              /\ road_coords g front !! k = Some c)
  /\ (spots_ ai <= 20 ->
      run = connect_front_flag road_search check_economies g ai gametime).
Proof.
  intros run Hroads Hlong. split; [|split].
  - intros Hspots. subst run. unfold improve_roads. rewrite Hroads.
    replace (20 <? spots_ ai) with true by (symmetry; apply Z.ltb_lt; lia).
    replace (3 <? get_nsteps (road_coords g front))%nat with true
      by (symmetry; apply Nat.ltb_lt; lia).
    rewrite split_walk_find by (unfold get_nsteps in *; lia).
    fold (tiles_inward g front).
    destruct (List.find (flag_capable g) (tiles_inward g front)) as [c|];
      [reflexivity|].
    destruct (if Z.rem gametime 25 =? 0 then _ else None) as [road|].
    + do 3 eexists. cbn [app]. reflexivity.
    + destruct (connect_front_flag _ _ _ _ _) as [[ai' cmds] result].
      do 3 eexists. cbn [app]. reflexivity.
  - intros c. apply tiles_inward_interior.
  - intros Hspots. subst run. unfold improve_roads. rewrite Hroads.
    replace (20 <? spots_ ai) with false by (symmetry; apply Z.ltb_ge; lia).
    destruct (connect_front_flag _ _ _ _ _) as [[ai' cmds] result]. reflexivity.
Qed.

Lemma improve_roads_splits_witness :
  improve_roads no_search keep_roads no_economy_change flaggable_game (long_road_ai 21) 1001
  = (long_road_ai 21, [send_player_build_flag 1 (4, 0)], true)
  /\ improve_roads no_search keep_roads no_economy_change flaggable_game
                   (long_road_ai 20) 1001
     = connect_front_flag no_search no_economy_change flaggable_game (long_road_ai 20) 1001.
Proof.
  destruct (improve_roads_splits no_search keep_roads no_economy_change flaggable_game
              (long_road_ai 21) 1001 1%nat [] eq_refl ltac:(vm_compute; lia))
    as (Hsplit & _ & _).
  destruct (improve_roads_splits no_search keep_roads no_economy_change flaggable_game
              (long_road_ai 20) 1001 1%nat [] eq_refl ltac:(vm_compute; lia))
    as (_ & _ & Hfew).
  split.
  - apply (Hsplit ltac:(vm_compute; reflexivity)).
  - apply Hfew. vm_compute. discriminate.
Defined.

(** ** Gaining and losing an immovable *)

Lemma find_observer_spec (name : string) (obs : list BuildingObserver) (k0 i : nat)
    (bo : BuildingObserver) :
  find_observer name obs k0 = Some (i, bo) ->
  (k0 <= i)%nat /\ obs !! (i - k0)%nat = Some bo.
Proof.
  revert k0. induction obs as [|x obs IH]; intros k0; cbn [find_observer];
    [discriminate|].
  destruct (String.eqb (bo_name x) name).
  - intros [= <- <-]. rewrite Nat.sub_diag. split; [lia | reflexivity].
  - intros H. apply IH in H. destruct H as [Hle Hl]. split; [lia|].
    replace (i - k0)%nat with (S (i - S k0)) by lia. exact Hl.
Qed.

(** Writing to one observer without renaming it does not change which
    observer a name finds. *)
Lemma find_observer_insert (name : string) (obs : list BuildingObserver) (j : nat)
    (x x' : BuildingObserver) (k0 : nat) :
  obs !! j = Some x -> bo_name x' = bo_name x ->
  find_observer name (<[j := x']> obs) k0
  = match find_observer name obs k0 with
    | Some (i, bo) => Some (i, if Nat.eqb i (k0 + j) then x' else bo)
    | None => None
    end.
Proof.
  revert j k0. induction obs as [|y obs IH]; intros j k0 Hj Hn; [discriminate|].
  destruct j as [|j].
  - injection Hj as ->. cbn [insert list_insert find_observer]. rewrite Hn.
    destruct (String.eqb (bo_name x) name).
    + rewrite Nat.add_0_r, Nat.eqb_refl. reflexivity.
    + destruct (find_observer name obs (S k0)) as [[i bo]|] eqn:E; [|reflexivity].
      apply find_observer_spec in E. destruct E as [E _].
      replace (Nat.eqb i (k0 + 0)) with false by (symmetry; apply Nat.eqb_neq; lia).
      reflexivity.
  - cbn [insert list_insert find_observer]. cbn in Hj.
    destruct (String.eqb (bo_name y) name).
    + replace (Nat.eqb k0 (k0 + S j)) with false by (symmetry; apply Nat.eqb_neq; lia).
      reflexivity.
    + change (find_observer name (<[j := x']> obs) (S k0)
              = match find_observer name obs (S k0) with
                | Some (i, bo) => Some (i, if Nat.eqb i (k0 + S j) then x' else bo)
                | None => None
                end).
      rewrite (IH j (S k0) Hj Hn).
      replace (S k0 + j)%nat with (k0 + S j)%nat by lia. reflexivity.
Qed.

Lemma erase_first_fresh {A : Type} (p : A -> bool) (l : list A) (x : A) :
  existsb p l = false -> p x = true -> erase_first p (l ++ [x]) = l.
Proof.
  induction l as [|y l IH]; cbn [existsb erase_first app]; intros Hl Hx.
  - rewrite Hx. reflexivity.
  - apply orb_false_iff in Hl. destruct Hl as [Hy Hl]. rewrite Hy, IH; auto.
Qed.

Lemma filter_fresh (road : Serial) (l : list Serial) :
  existsb (Nat.eqb road) l = false ->
  List.filter (fun r => negb (Nat.eqb r road)) l = l.
Proof.
  induction l as [|y l IH]; cbn [existsb List.filter]; intros Hl; [reflexivity|].
  apply orb_false_iff in Hl. destruct Hl as [Hy Hl].
  rewrite Nat.eqb_sym, Hy. cbn [negb]. rewrite IH; auto.
Qed.

Lemma erase_flag_fresh (flag : Serial) (ecos : list EconomyObserver) :
  existsb (fun eco => existsb (Nat.eqb flag) (flags eco)) ecos = false ->
  erase_flag flag ecos = None.
Proof.
  induction ecos as [|eco ecos IH]; cbn [existsb erase_flag]; intros H; [reflexivity|].
  apply orb_false_iff in H. destruct H as [He H]. rewrite He, IH; auto.
Qed.

(** *** The ware counters *)

Lemma foldM_ware_alter_lookup (f : WareObserver -> WareObserver) (ks : list WareIndex) :
  forall ws ws' : list WareObserver,
    foldM (ware_alter f) ks ws = Some ws' ->
    length ws' = length ws
    /\ (forall k, In k ks -> (k < length ws)%nat)
    /\ forall i : nat, ws' !! i = Nat.iter (count_occ Nat.eq_dec ks i) f <$> ws !! i.
Proof.
  induction ks as [|k ks IH]; intros ws ws' H.
  - injection H as <-. split; [reflexivity|]. split; [intros k []|].
    intros i. cbn. destruct (ws !! i); reflexivity.
  - cbn [foldM] in H. unfold ware_alter in H at 1.
    destruct (ws !! k) as [w|] eqn:Hk; [|discriminate].
    apply IH in H. destruct H as (Hlen & Hin & Hat).
    rewrite length_insert in Hlen, Hin.
    split; [exact Hlen|]. split.
    + intros k' [<-|Hk']; [eapply lookup_lt_Some; eauto | auto].
    + intros i. rewrite Hat. cbn [count_occ].
      destruct (Nat.eq_dec k i) as [<-|Hne].
      * rewrite list_lookup_insert_eq by (eapply lookup_lt_Some; eauto).
        rewrite Hk. cbn [fmap option_fmap option_map].
        rewrite Nat.iter_succ_r. reflexivity.
      * rewrite list_lookup_insert_ne by exact Hne. reflexivity.
Qed.

Lemma foldM_ware_alter_returns (f : WareObserver -> WareObserver) (ks : list WareIndex) :
  forall ws : list WareObserver,
    (forall k, In k ks -> (k < length ws)%nat) ->
    exists ws', foldM (ware_alter f) ks ws = Some ws'.
Proof.
  induction ks as [|k ks IH]; intros ws Hin; [eexists; reflexivity|].
  cbn [foldM]. unfold ware_alter at 1.
  destruct (lookup_lt_is_Some_2 ws k (Hin k (or_introl eq_refl))) as [w ->].
  apply IH. intros k' Hk'. rewrite length_insert. apply Hin. right. exact Hk'.
Qed.

Lemma iter_add_producers (n : nat) (d : Z) (w : WareObserver) :
  Nat.iter n (add_producers d) w = add_producers (Z.of_nat n * d) w.
Proof.
  induction n as [|n IH].
  - destruct w. unfold add_producers. cbn. f_equal. lia.
  - rewrite Nat.iter_succ, IH. destruct w. unfold add_producers. cbn. f_equal. lia.
Qed.

Lemma iter_add_consumers (n : nat) (d : Z) (w : WareObserver) :
  Nat.iter n (add_consumers d) w = add_consumers (Z.of_nat n * d) w.
Proof.
  induction n as [|n IH].
  - destruct w. unfold add_consumers. cbn. f_equal. lia.
  - rewrite Nat.iter_succ, IH. destruct w. unfold add_consumers. cbn. f_equal. lia.
Qed.

(** Bumping the ware observers up and then down again restores them. *)
Lemma bump_wares_undo (outs ins : list WareIndex) (bo bo' : BuildingObserver)
    (ws ws1 : list WareObserver) :
  outputs_ bo = outs -> inputs_ bo = ins -> outputs_ bo' = outs -> inputs_ bo' = ins ->
  bump_wares 1 bo ws = Some ws1 ->
  bump_wares (-1) bo' ws1 = Some ws.
Proof.
  intros Ho Hi Ho' Hi'. unfold bump_wares. rewrite Ho, Hi, Ho', Hi'.
  destruct (foldM (ware_alter (add_producers 1)) outs ws) as [wa|] eqn:Ea;
    [|discriminate].
  cbn [mbind option_bind]. intros Eb.
  destruct (foldM_ware_alter_lookup _ _ _ _ Ea) as (La & Ia & Aa).
  destruct (foldM_ware_alter_lookup _ _ _ _ Eb) as (Lb & Ib & Ab).
  destruct (foldM_ware_alter_returns (add_producers (-1)) outs ws1) as [wc Ec].
  { intros k Hk. rewrite Lb, La. auto. }
  rewrite Ec. cbn [mbind option_bind].
  destruct (foldM_ware_alter_lookup _ _ _ _ Ec) as (Lc & Ic & Ac).
  destruct (foldM_ware_alter_returns (add_consumers (-1)) ins wc) as [wd Ed].
  { intros k Hk. rewrite Lc, Lb. auto. }
  rewrite Ed. f_equal.
  destruct (foldM_ware_alter_lookup _ _ _ _ Ed) as (Ld & Id & Ad).
  apply list_eq. intros i. rewrite Ad, Ac, Ab, Aa.
  destruct (ws !! i) as [w|]; [|reflexivity].
  cbn [fmap option_fmap option_map]. f_equal.
  rewrite !iter_add_producers, !iter_add_consumers.
  destruct w. unfold add_producers, add_consumers. cbn. f_equal; lia.
Qed.

Lemma observer_written_back (obs : list BuildingObserver) (i : nat)
    (bo bo1 bo2 : BuildingObserver) :
  obs !! i = Some bo -> bo2 = bo -> <[i := bo2]> (<[i := bo1]> obs) = obs.
Proof.
  intros Hi ->. rewrite list_insert_insert_eq. apply list_insert_id'. auto.
Qed.

Lemma set_cnt_built_back (bo : BuildingObserver) :
  set_cnt_built_ (cnt_built_ bo + 1 - 1) (set_cnt_built_ (cnt_built_ bo + 1) bo) = bo.
Proof.
  replace (cnt_built_ bo + 1 - 1) with (cnt_built_ bo) by lia. destruct bo. reflexivity.
Qed.

Lemma set_cnt_under_construction_back (bo : BuildingObserver) :
  set_cnt_under_construction_ (cnt_under_construction_ bo + 1 - 1)
    (set_cnt_under_construction_ (cnt_under_construction_ bo + 1) bo) = bo.
Proof.
  replace (cnt_under_construction_ bo + 1 - 1) with (cnt_under_construction_ bo) by lia.
  destruct bo. reflexivity.
Qed.

(** A building that is gained and then lost. *)
Lemma gain_lose_building (g : Game) (ai ai1 : DefaultAI) (b : Building) :
  tracked ai (IsBuilding b) = false ->
  0 <= numof_warehouses_ ai ->
  gain_building g ai b = Some ai1 ->
  exists ai2, lose_building ai1 b = Some ai2 /\ same_observers ai2 ai.
Proof.
  intros Hfresh Hwh. cbn [tracked] in Hfresh.
  apply orb_false_iff in Hfresh. destruct Hfresh as [Hfresh Hms].
  apply orb_false_iff in Hfresh. destruct Hfresh as [Hps Hmi].
  unfold gain_building, lose_building, get_building_observer.
  destruct (find_observer (descr_name (b_descr b)) (buildings_ ai) 0)
    as [[i bo]|] eqn:Ebo; [|discriminate].
  cbn [mbind option_bind].
  destruct (find_observer_spec _ _ _ _ _ Ebo) as [_ Hi]. rewrite Nat.sub_0_r in Hi.
  destruct (bo_type bo) eqn:Ety.
  2:{ (* a construction site *)
    destruct (constructionsite_building b) as [target|]; [|discriminate].
    cbn [mbind option_bind].
    destruct (find_observer (descr_name target) (buildings_ ai) 0)
      as [[j tb]|] eqn:Etb; [|discriminate].
    cbn [mbind option_bind].
    destruct (find_observer_spec _ _ _ _ _ Etb) as [_ Hj]. rewrite Nat.sub_0_r in Hj.
    set (tb1 := set_cnt_under_construction_ (cnt_under_construction_ tb + 1) tb).
    cbn zeta.
    destruct (ObserverType_eqb (bo_type tb) PRODUCTIONSITE) eqn:Ep;
      destruct (ObserverType_eqb (bo_type tb) MILITARYSITE) eqn:Em;
      intros [= <-];
      cbn [buildings_ set_next_road_due_ set_num_milit_constructionsites
           set_num_prod_constructionsites set_num_constructionsites_ set_buildings_];
      rewrite (find_observer_insert (descr_name (b_descr b)) _ j tb tb1 0 Hj eq_refl),
        Ebo;
      cbn [mbind option_bind];
      (assert (Hty : bo_type (if Nat.eqb i (0 + j) then tb1 else bo) = CONSTRUCTIONSITE)
         by (destruct (Nat.eqb_spec i (0 + j)) as [->|]; [|exact Ety];
             cbn in Hi; rewrite Hj in Hi; injection Hi as ->; exact Ety));
      rewrite Hty; cbn [mbind option_bind];
      rewrite (find_observer_insert (descr_name target) _ j tb tb1 0 Hj eq_refl), Etb;
      cbn [Nat.add]; rewrite Nat.eqb_refl; cbn [mbind option_bind];
      change (bo_type tb1) with (bo_type tb); rewrite Ep, Em;
      eexists; (split; [reflexivity|]);
      repeat split; try reflexivity;
      try (cbn; lia);
      (cbn; apply (observer_written_back _ j tb);
       [exact Hj | apply set_cnt_under_construction_back]). }
  all: cbn zeta.
  all: set (bo1 := set_cnt_built_ (cnt_built_ bo + 1) bo).
  all: assert (Hfind : find_observer (descr_name (b_descr b))
                         (<[i := bo1]> (buildings_ ai)) 0 = Some (i, bo1))
         by (rewrite (find_observer_insert _ _ i bo bo1 0 Hi eq_refl), Ebo;
             cbn [Nat.add]; rewrite Nat.eqb_refl; reflexivity).
  all: assert (Hback : <[i := set_cnt_built_ (cnt_built_ bo1 - 1) bo1]>
                         (<[i := bo1]> (buildings_ ai)) = buildings_ ai)
         by (apply (observer_written_back _ i bo); [exact Hi|];
             apply set_cnt_built_back).
  - (* boring *)
    intros [= <-]. cbn [buildings_ set_buildings_]. rewrite Hfind.
    cbn [mbind option_bind]. change (bo_type bo1) with (bo_type bo). rewrite Ety.
    cbn [mbind option_bind]. eexists. split; [reflexivity|].
    repeat split; try reflexivity. cbn. exact Hback.
  - (* production site *)
    destruct (bump_wares 1 bo _) as [ws1|] eqn:Ew; [|discriminate].
    cbn [mbind option_bind]. intros [= <-].
    cbn [buildings_ set_buildings_ set_wares set_productionsites]. rewrite Hfind.
    cbn [mbind option_bind]. change (bo_type bo1) with (bo_type bo). rewrite Ety.
    cbn [wares set_wares set_productionsites set_buildings_].
    cbn [wares set_wares set_productionsites set_buildings_] in Ew.
    rewrite (bump_wares_undo (outputs_ bo) (inputs_ bo) bo bo1 _ _
               eq_refl eq_refl eq_refl eq_refl Ew).
    cbn [mbind option_bind]. eexists. split; [reflexivity|].
    repeat split; try reflexivity; cbn; [exact Hback|].
    apply erase_first_fresh; [exact Hps | cbn; apply Nat.eqb_refl].
  - (* military site *)
    intros [= <-]. cbn [buildings_ set_buildings_ set_militarysites]. rewrite Hfind.
    cbn [mbind option_bind]. change (bo_type bo1) with (bo_type bo). rewrite Ety.
    cbn [mbind option_bind]. eexists. split; [reflexivity|].
    repeat split; try reflexivity; cbn; [exact Hback|].
    apply erase_first_fresh; [exact Hms | cbn; apply Nat.eqb_refl].
  - (* warehouse *)
    intros [= <-]. cbn [buildings_ set_buildings_ set_numof_warehouses_]. rewrite Hfind.
    cbn [mbind option_bind]. change (bo_type bo1) with (bo_type bo). rewrite Ety.
    cbn [numof_warehouses_ set_numof_warehouses_ set_buildings_].
    replace (0 <? numof_warehouses_ ai + 1) with true
      by (symmetry; apply Z.ltb_lt; lia).
    cbn [mbind option_bind]. eexists. split; [reflexivity|].
    repeat split; try reflexivity; cbn; [exact Hback | lia].
  - (* training site *)
    intros [= <-]. cbn [buildings_ set_buildings_]. rewrite Hfind.
    cbn [mbind option_bind]. change (bo_type bo1) with (bo_type bo). rewrite Ety.
    cbn [mbind option_bind]. eexists. split; [reflexivity|].
    repeat split; try reflexivity. cbn. exact Hback.
  - (* mine *)
    destruct (bump_wares 1 bo _) as [ws1|] eqn:Ew; [|discriminate].
    cbn [mbind option_bind]. intros [= <-].
    cbn [buildings_ set_buildings_ set_wares set_mines_]. rewrite Hfind.
    cbn [mbind option_bind]. change (bo_type bo1) with (bo_type bo). rewrite Ety.
    cbn [wares set_wares set_mines_ set_buildings_].
    cbn [wares set_wares set_mines_ set_buildings_] in Ew.
    rewrite (bump_wares_undo (outputs_ bo) (inputs_ bo) bo bo1 _ _
               eq_refl eq_refl eq_refl eq_refl Ew).
    cbn [mbind option_bind]. eexists. split; [reflexivity|].
    repeat split; try reflexivity; cbn; [exact Hback|].
    apply erase_first_fresh; [exact Hmi | cbn; apply Nat.eqb_refl].
Qed.

(** C8. For every immovable that the engine does not list yet, a gain
    followed by a lose of the same immovable returns and restores the
    observer state: the building observers with [cnt_built_] and
    [cnt_under_construction_], the ware observers with [producers_] and
    [consumers_], the lists of production sites, mines, military sites,
    roads and flags, and the counters [num_constructionsites_],
    [num_prod_constructionsites], [num_milit_constructionsites] and
    [numof_warehouses_]. *)
Theorem gain_then_lose_restores (g : Game) (ai ai1 : DefaultAI) (pi : ImmovableKind) :
  tracked ai pi = false ->
  0 <= numof_warehouses_ ai ->
  gain_immovable g ai pi = Some ai1 ->
  exists ai2, lose_immovable ai1 pi = Some ai2 /\ same_observers ai2 ai.
Proof.
  intros Hfresh Hwh. destruct pi as [b|flag|road|]; cbn [gain_immovable lose_immovable].
  - apply gain_lose_building; assumption.
  - intros [= <-]. cbn [tracked] in Hfresh.
    apply orb_false_iff in Hfresh. destruct Hfresh as [Heco Hnew].
    cbn [economies set_new_flags]. rewrite (erase_flag_fresh _ _ Heco).
    eexists. split; [reflexivity|].
    repeat split; try reflexivity. cbn.
    apply erase_first_fresh; [exact Hnew | apply Nat.eqb_refl].
  - intros [= <-]. cbn [tracked] in Hfresh.
    eexists. split; [reflexivity|].
    repeat split; try reflexivity. cbn.
    rewrite Nat.eqb_refl. cbn [negb]. apply filter_fresh. exact Hfresh.
  - intros [= <-]. eexists. split; [reflexivity|]. repeat split; reflexivity.
Qed.

Lemma gain_then_lose_restores_witness :
  exists ai1 ai2,
    gain_immovable quiet_game (woodland_ai 0) (IsBuilding stranded_hut) = Some ai1
    /\ cnt_built_ <$> buildings_ ai1 = [1]
    /\ producers_ <$> wares ai1 = [1]
    /\ lose_immovable ai1 (IsBuilding stranded_hut) = Some ai2
    /\ same_observers ai2 (woodland_ai 0).
Proof.
  assert (Hgain : exists ai1,
             gain_immovable quiet_game (woodland_ai 0) (IsBuilding stranded_hut) = Some ai1
             /\ cnt_built_ <$> buildings_ ai1 = [1]
             /\ producers_ <$> wares ai1 = [1])
    by (eexists; split; [vm_compute; reflexivity | split; reflexivity]).
  destruct Hgain as (ai1 & Hgain & Hb & Hw).
  destruct (gain_then_lose_restores quiet_game (woodland_ai 0) ai1
              (IsBuilding stranded_hut) eq_refl ltac:(cbn; lia) Hgain)
    as (ai2 & Hlose & Hsame).
  exists ai1, ai2. auto.
Defined.

(** The gain itself returns when the observers know the building and the
    ware indices of the observer are those of the tribe. *)
Lemma gain_immovable_returns (g : Game) (ai : DefaultAI) (pi : ImmovableKind) :
  match pi with
  | IsBuilding b =>
      exists i bo,
        get_building_observer ai (descr_name (b_descr b)) = Some (i, bo)
        /\ (bo_type bo = CONSTRUCTIONSITE ->
            exists target j tb,
              constructionsite_building b = Some target
              /\ get_building_observer ai (descr_name target) = Some (j, tb))
        /\ (forall k, In k (outputs_ bo ++ inputs_ bo) -> (k < length (wares ai))%nat)
  | _ => True
  end ->
  exists ai1, gain_immovable g ai pi = Some ai1.
Proof.
  destruct pi as [b|flag|road|]; cbn [gain_immovable]; try (intros _; eexists; reflexivity).
  intros (i & bo & Hbo & Hcs & Hin). unfold gain_building. rewrite Hbo.
  cbn [mbind option_bind].
  assert (Hbump : forall ai0, wares ai0 = wares ai ->
            exists ws, bump_wares 1 bo (wares ai0) = Some ws).
  { intros ai0 ->. unfold bump_wares.
    destruct (foldM_ware_alter_returns (add_producers 1) (outputs_ bo) (wares ai))
      as [wa Ea]; [intros k Hk; apply Hin, in_or_app; auto|].
    rewrite Ea. cbn [mbind option_bind].
    destruct (foldM_ware_alter_lookup _ _ _ _ Ea) as (La & _ & _).
    apply foldM_ware_alter_returns. intros k Hk. rewrite La.
    apply Hin, in_or_app. auto. }
  destruct (bo_type bo); try (eexists; reflexivity).
  - destruct (Hcs eq_refl) as (target & j & tb & Ht & Htb).
    rewrite Ht. cbn [mbind option_bind]. rewrite Htb.
    cbn [mbind option_bind]. eexists. reflexivity.
  - destruct (Hbump (set_productionsites
                       (productionsites
                          (set_buildings_
                             (<[i := set_cnt_built_ (cnt_built_ bo + 1) bo]> (buildings_ ai))
                             ai)
                        ++ [{| ps_site := b_serial b; ps_bo := i;
                               built_time_ := get_gametime g;
                               unoccupied_till_ := get_gametime g;
                               stats_zero_ := 0; no_resources_count := 0 |}])
                       (set_buildings_
                          (<[i := set_cnt_built_ (cnt_built_ bo + 1) bo]> (buildings_ ai))
                          ai)) eq_refl) as [ws Hws].
    cbn zeta. rewrite Hws. eexists. reflexivity.
  - destruct (Hbump (set_mines_
                       (mines_
                          (set_buildings_
                             (<[i := set_cnt_built_ (cnt_built_ bo + 1) bo]> (buildings_ ai))
                             ai)
                        ++ [{| ps_site := b_serial b; ps_bo := i;
                               built_time_ := get_gametime g;
                               unoccupied_till_ := 0;
                               stats_zero_ := 0; no_resources_count := 0 |}])
                       (set_buildings_
                          (<[i := set_cnt_built_ (cnt_built_ bo + 1) bo]> (buildings_ ai))
                          ai)) eq_refl) as [ws Hws].
    cbn zeta. rewrite Hws. eexists. reflexivity.
Qed.

(** ** The sweep over the mineable fields *)

(** The fuel of [update_all_mineable_fields] is never used up: with the
    number of fields plus the 40 checks that are left, more fuel changes
    nothing. *)
Lemma update_mineable_loop_fuel (g : Game) (gametime : Z) (fuel : nat) :
  forall (i : Z) (mineable : list MineableField) (unusable : list Coords) (extra : nat),
    0 <= i <= 40 ->
    (length mineable + Z.to_nat (40 - i) <= fuel)%nat ->
    update_mineable_loop g gametime (fuel + extra) i mineable unusable
    = update_mineable_loop g gametime fuel i mineable unusable.
Proof.
  induction fuel as [|fuel IH]; intros i mineable unusable extra Hi Hfuel.
  - destruct mineable as [|mf rest]; [|cbn in Hfuel; lia].
    destruct extra; reflexivity.
  - cbn [Nat.add update_mineable_loop].
    destruct mineable as [|mf rest]; [reflexivity|].
    destruct (_ && _) eqn:Hcond; [|reflexivity].
    apply andb_true_iff in Hcond. destruct Hcond as [_ Hlt]. apply Z.ltb_lt in Hlt.
    cbn [length] in Hfuel.
    destruct (negb _); [apply IH; [lia | lia]|].
    destruct (_ =? 0); [apply IH; [lia | lia]|].
    apply IH; [lia|]. rewrite length_app. cbn [length]. lia.
Qed.

(** ** The sweeps over the field queues *)

Lemma mineable_loop_closed (g : Game) (gametime : Z) :
  forall (rest done : list MineableField) (fuel : nat) (i : Z) (unusable : list Coords),
    (length rest <= fuel)%nat ->
    0 <= i <= 40 ->
    Forall (fun mf => gametime < mf_next_update_due_ mf) done ->
    exists checked untouched,
      rest = checked ++ untouched
      /\ Forall (fun mf => mf_next_update_due_ mf <= gametime) checked
      /\ let kept :=
           List.filter (fun mf => still_owned g (mf_coords mf)
                                  && takes_mine g (mf_coords mf)) checked in
         update_mineable_loop g gametime fuel i (rest ++ done) unusable
         = (untouched ++ done ++ map (refreshed g gametime) kept,
            unusable
            ++ map mf_coords
                 (List.filter (fun mf => still_owned g (mf_coords mf)
                                         && negb (takes_mine g (mf_coords mf))) checked))
         /\ i + size kept <= 40
         /\ (untouched = [] \/ i + size kept = 40
             \/ exists front, head untouched = Some front
                              /\ gametime < mf_next_update_due_ front).
Proof.
  induction rest as [|mf rest IH]; intros done fuel i unusable Hfuel Hi Hdone.
  - exists [], []. split; [reflexivity|]. split; [constructor|].
    cbn zeta. cbn [List.filter map app]. rewrite !app_nil_r.
    split; [|split; [unfold size; cbn; lia | left; reflexivity]].
    destruct fuel as [|fuel]; [reflexivity|].
    cbn [update_mineable_loop]. destruct done as [|d ds]; [reflexivity|].
    apply Forall_cons in Hdone. destruct Hdone as [Hd _].
    cbn [app].
    destruct (mf_next_update_due_ d <=? gametime) eqn:E;
      [apply Z.leb_le in E; lia | reflexivity].
  - destruct fuel as [|fuel]; [cbn in Hfuel; lia|].
    cbn [length] in Hfuel.
    cbn [update_mineable_loop app].
    destruct ((mf_next_update_due_ mf <=? gametime) && (i <? 40)) eqn:Hcond.
    + apply andb_true_iff in Hcond. destruct Hcond as [Hdue Hlt].
      apply Z.leb_le in Hdue. apply Z.ltb_lt in Hlt.
      unfold still_owned, takes_mine.
      destruct (get_owned_by g (mf_coords mf) =? player_number g) eqn:Hown; cbn [negb].
      * destruct (Z.land (get_buildcaps g (mf_coords mf)) BUILDCAPS_MINE =? 0) eqn:Hcaps.
        -- destruct (IH done fuel i (unusable ++ [mf_coords mf])) as
             (checked & untouched & -> & Hch & Hrun & Hcount & Hstop);
             [lia | lia | exact Hdone |].
           exists (mf :: checked), untouched.
           split; [reflexivity|]. split; [constructor; assumption|].
           cbn [List.filter]. unfold still_owned, takes_mine in *.
           rewrite Hown, Hcaps. cbn [negb andb map].
           split; [|split; assumption].
           rewrite Hrun, <- app_assoc. reflexivity.
        -- destruct (IH (done ++ [refreshed g gametime mf]) fuel (i + 1) unusable) as
             (checked & untouched & -> & Hch & Hrun & Hcount & Hstop).
           { lia. }
           { lia. }
           { apply Forall_app. split; [exact Hdone|]. constructor; [|constructor].
             cbn. unfold kFieldUpdateInterval. lia. }
           exists (mf :: checked), untouched.
           split; [reflexivity|]. split; [constructor; assumption|].
           cbn [List.filter]. unfold still_owned, takes_mine in *.
           rewrite Hown, Hcaps. cbn [negb andb map].
           split; [|split].
           ++ fold (refreshed g gametime mf). rewrite <- app_assoc in Hrun |- *.
              cbn [app] in Hrun. rewrite <- !app_assoc in Hrun.
              rewrite <- app_assoc. exact Hrun.
           ++ unfold size in *. cbn [length]. lia.
           ++ unfold size in *. cbn [length].
              destruct Hstop as [H|[H|H]]; [left; exact H | right; left; lia | right; right; exact H].
      * destruct (IH done fuel i unusable) as
          (checked & untouched & -> & Hch & Hrun & Hcount & Hstop);
          [lia | lia | exact Hdone |].
        exists (mf :: checked), untouched.
        split; [reflexivity|]. split; [constructor; assumption|].
        cbn [List.filter]. unfold still_owned, takes_mine in *.
        rewrite Hown. cbn [andb]. split; [exact Hrun | split; assumption].
    + exists [], (mf :: rest). split; [reflexivity|]. split; [constructor|].
      cbn zeta. cbn [List.filter map app]. rewrite !app_nil_r.
      split; [reflexivity|]. split; [unfold size; cbn; lia|].
      apply andb_false_iff in Hcond. destruct Hcond as [H|H].
      * right. right. exists mf. split; [reflexivity|]. apply Z.leb_gt in H. exact H.
      * right. left. apply Z.ltb_ge in H. unfold size; cbn. lia.
Qed.

(** X1. One call of [update_all_mineable_fields] works through a prefix of
    the queue, all of it due: fields on tiles that are no longer ours are
    dropped, fields on tiles that take no mine any more move to the unusable
    fields, the others (at most 40) are evaluated anew, dated
    [kFieldUpdateInterval] ahead and queued behind the fields not reached,
    which stay as they are and in their order.  The sweep stops only when
    nothing is left, when 40 fields have been updated, or at a field that is
    not due. *)
Theorem update_all_mineable_fields_sweep (g : Game) (ai : DefaultAI) (gametime : Z) :
  let ai' := update_all_mineable_fields g ai gametime in
  exists checked untouched,
    mineable_fields ai = checked ++ untouched
    /\ Forall (fun mf => mf_next_update_due_ mf <= gametime) checked
    /\ let kept :=
         List.filter (fun mf => still_owned g (mf_coords mf)
                                && takes_mine g (mf_coords mf)) checked in
       mineable_fields ai' = untouched ++ map (refreshed g gametime) kept
       /\ unusable_fields ai'
          = unusable_fields ai
            ++ map mf_coords
                 (List.filter (fun mf => still_owned g (mf_coords mf)
                                         && negb (takes_mine g (mf_coords mf))) checked)
       /\ (length kept <= 40)%nat
       /\ sweep_stops mf_next_update_due_ gametime 40 (length kept) untouched.
Proof.
  cbn zeta. unfold update_all_mineable_fields.
  destruct (mineable_loop_closed g gametime (mineable_fields ai) []
              (length (mineable_fields ai) + 40) 0 (unusable_fields ai))
    as (checked & untouched & Hsplit & Hdue & Hrun & Hcount & Hstop);
    [lia | lia | constructor |].
  rewrite app_nil_r in Hrun. rewrite Hrun. cbn [app] in *.
  exists checked, untouched. split; [exact Hsplit|]. split; [exact Hdue|].
  cbn zeta. split; [reflexivity|]. split; [reflexivity|].
  unfold size in *. split; [lia|].
  destruct Hstop as [H|[H|H]];
    [left; exact H | right; left; lia | right; right; exact H].
Qed.

(** What [update_buildable_field] leaves alone: the coordinates and the due
    time of the field, and all of the engine but the time an enemy was last
    seen. *)
Lemma general_step_engine (g : Game) (field field' : BuildableField) (ai ai' : DefaultAI)
    (imf : ImmovableFound) :
  general_step g (field, ai) imf = Some (field', ai') ->
  bf_next_update_due_ field' = bf_next_update_due_ field
  /\ (ai' = ai \/ ai' = set_enemy_last_seen_ (get_gametime g) ai).
Proof.
  assert (Hinfl : forall f f' c bo,
             consider_productionsite_influence g f c bo = Some f' ->
             bf_next_update_due_ f' = bf_next_update_due_ f).
  { intros f f' c bo. unfold consider_productionsite_influence. intros H.
    destruct (foldM vector_incr (inputs_ bo) _) as [cons|]; [|discriminate].
    cbn [mbind option_bind] in H.
    destruct (foldM vector_incr (outputs_ bo) _) as [prods|]; [|discriminate].
    cbn [mbind option_bind] in H. injection H as <-.
    destruct (_ && _); reflexivity. }
  unfold general_step. destruct (foreign_owner g (object imf)) as [o|].
  { intros [= <- <-]. destruct (is_hostile g o); split; auto. }
  destruct (as_building (object imf)) as [building|].
  - destruct (match b_class building with
              | ConstructionSite target_descr => _
              | _ => Some field
              end) as [f1|] eqn:E1; [|discriminate].
    cbn [mbind option_bind].
    assert (F1 : bf_next_update_due_ f1 = bf_next_update_due_ field).
    { destruct (b_class building) as [target| | | | |];
        try (injection E1 as <-; reflexivity).
      destruct (is_ProductionSiteDescr target); [|injection E1 as <-; reflexivity].
      destruct (get_building_observer ai _) as [[i bo]|]; [|discriminate].
      cbn [mbind option_bind] in E1. apply Hinfl in E1. exact E1. }
    destruct (if is_ProductionSite building then _ else Some f1) as [f2|] eqn:E2;
      [|discriminate].
    assert (F2 : bf_next_update_due_ f2 = bf_next_update_due_ f1).
    { destruct (is_ProductionSite building); [|injection E2 as <-; reflexivity].
      destruct (get_building_observer ai _) as [[i bo]|]; [|discriminate].
      cbn [mbind option_bind] in E2. apply Hinfl in E2. exact E2. }
    intros [= <- <-]. split; [|left; reflexivity].
    destruct (attr_tree (object imf)); cbn; congruence.
  - cbn [mbind option_bind]. intros [= <- <-]. split; [|left; reflexivity].
    destruct (attr_tree (object imf)); reflexivity.
Qed.

Lemma general_loop_engine (g : Game) (l : list ImmovableFound) :
  forall field ai field' ai',
    foldM (general_step g) l (field, ai) = Some (field', ai') ->
    bf_next_update_due_ field' = bf_next_update_due_ field
    /\ (ai' = ai \/ ai' = set_enemy_last_seen_ (get_gametime g) ai).
Proof.
  induction l as [|imf l IH]; intros field ai field' ai' H.
  - injection H as <- <-. auto.
  - cbn [foldM] in H.
    destruct (general_step g (field, ai) imf) as [[f1 a1]|] eqn:E; [|discriminate].
    apply general_step_engine in E. apply IH in H.
    destruct E as (E1 & E2), H as (H1 & H2). split; [congruence|].
    destruct E2 as [->| ->]; [exact H2|].
    right. destruct H2 as [->| ->]; reflexivity.
Qed.

Lemma update_buildable_field_frame (scale : Z -> Z -> Z -> Z) (g : Game)
    (ai ai' : DefaultAI) (field field' : BuildableField) (range : Z) (military : bool) :
  update_buildable_field scale g ai field range military = Some (field', ai') ->
  bf_coords field' = bf_coords field
  /\ bf_next_update_due_ field' = bf_next_update_due_ field
  /\ (ai' = ai \/ ai' = set_enemy_last_seen_ (get_gametime g) ai).
Proof.
  assert (Hmil : forall f r,
             bf_coords (military_update scale g f r) = bf_coords f
             /\ bf_next_update_due_ (military_update scale g f r) = bf_next_update_due_ f).
  { intros f r. unfold military_update. cbn zeta.
    set (f0 := set_military_presence_ 0 _).
    change (bf_coords f) with (bf_coords f0).
    change (bf_next_update_due_ f) with (bf_next_update_due_ f0).
    generalize (find_immovables g (bf_coords f0) (if r <? 10 then 10 else r)) as l.
    clearbody f0. intros l. revert f0.
    induction l as [|imf l IH]; intros f0; [split; reflexivity|].
    cbn [fold_left]. destruct (IH (military_step scale g f0 imf)) as [H1 H2].
    rewrite H1, H2. clear. unfold military_step.
    destruct (foreign_owner g (object imf)) as [o|];
      [destruct (is_hostile g o); split; reflexivity|].
    destruct (as_building (object imf)) as [building|]; [|split; reflexivity].
    destruct (b_class building) as [target| | |cap stationed| |];
      try (split; reflexivity).
    - destruct (is_MilitarySiteDescr target); [|split; reflexivity].
      cbn zeta. destruct (0 <? _); split; reflexivity.
    - cbn zeta. destruct (_ && _); [|split; reflexivity].
      destruct (negb _); split; reflexivity. }
  assert (Hun : forall f,
             bf_coords (count_unowned g ai f range) = bf_coords f
             /\ bf_next_update_due_ (count_unowned g ai f range) = bf_next_update_due_ f).
  { intros f. unfold count_unowned. cbn zeta. split_ifs; split; reflexivity. }
  unfold update_buildable_field. cbn zeta. intros H.
  destruct (Hun field) as [Uc Ud].
  destruct military.
  - cbn [mbind option_bind] in H. injection H as <- <-.
    destruct (Hmil (count_unowned g ai field range) range) as [Mc Md].
    rewrite Mc, Md, Uc, Ud. auto.
  - destruct (general_update g ai _ _) as [[f1 a1]|] eqn:Hgen; [|discriminate].
    cbn [mbind option_bind] in H. injection H as <- <-.
    destruct (Hmil f1 range) as [Mc Md]. rewrite Mc, Md.
    pose proof (general_update_fish _ _ _ _ _ _ Hgen) as (Gc & _).
    rewrite Gc, Uc. split; [reflexivity|].
    unfold general_update in Hgen.
    destruct (foldM _ _ _) as [[f2 a2]|] eqn:Hloop; [|discriminate].
    cbn [mbind option_bind] in Hgen. injection Hgen as <- <-.
    apply general_loop_engine in Hloop. destruct Hloop as [Ld La].
    split; [|exact La].
    unfold check_ground_water, count_stones.
    destruct (0 <? stones_nearby_ f2); cbn [ground_water_ set_stones_nearby_];
      destruct (0 <? ground_water_ f2); cbn [bf_next_update_due_ set_ground_water_ set_stones_nearby_];
      rewrite Ld; rewrite <- Ud;
      unfold check_preferred, count_critters, count_fish, count_water, reset_general_metrics;
      split_ifs; reflexivity.
Qed.

Section SweepProperties.

Variable scale : Z -> Z -> Z -> Z.
Variable range : Z.
Variable military : bool.
Variable new_BuildableField : Coords -> BuildableField.
Variable new_MineableField : Coords -> MineableField.

Lemma buildable_loop_closed (g : Game) (gametime : Z) :
  forall (rest done : list BuildableField) (fuel : nat) (i : Z) (ai ai' : DefaultAI),
    buildable_fields ai = rest ++ done ->
    (length rest <= fuel)%nat ->
    0 <= i <= 25 ->
    Forall (fun bf => gametime < bf_next_update_due_ bf) done ->
    update_buildable_loop scale range military g gametime fuel i ai = Some ai' ->
    exists checked untouched fresh,
      rest = checked ++ untouched
      /\ Forall (fun bf => bf_next_update_due_ bf <= gametime) checked
      /\ buildable_fields ai' = untouched ++ done ++ fresh
      /\ map bf_coords fresh
         = List.filter (fun c => still_owned g c && takes_building g c)
                       (map bf_coords checked)
      /\ Forall (fun bf => bf_next_update_due_ bf = gametime + kFieldUpdateInterval) fresh
      /\ unusable_fields ai'
         = unusable_fields ai
           ++ List.filter (fun c => still_owned g c && negb (takes_building g c))
                          (map bf_coords checked)
      /\ mineable_fields ai' = mineable_fields ai
      /\ i + size fresh <= 25
      /\ (untouched = [] \/ i + size fresh = 25
          \/ exists front, head untouched = Some front
                           /\ gametime < bf_next_update_due_ front).
Proof.
  induction rest as [|bf rest IH]; intros done fuel i ai ai' Hq Hfuel Hi Hdone Hrun.
  - exists [], [], []. cbn [app] in Hq.
    assert (ai' = ai) as ->.
    { destruct fuel as [|fuel]; [injection Hrun as <-; reflexivity|].
      cbn [update_buildable_loop] in Hrun. rewrite Hq in Hrun.
      destruct done as [|d ds]; [injection Hrun as <-; reflexivity|].
      apply Forall_cons in Hdone. destruct Hdone as [Hd _].
      destruct (bf_next_update_due_ d <=? gametime) eqn:E;
        [apply Z.leb_le in E; lia|].
      cbn [andb] in Hrun. injection Hrun as <-. reflexivity. }
    cbn [map List.filter app]. rewrite !app_nil_r.
    split; [reflexivity|]. split; [constructor|]. split; [exact Hq|].
    split; [reflexivity|]. split; [constructor|]. split; [reflexivity|].
    split; [reflexivity|]. split; [unfold size; cbn; lia | left; reflexivity].
  - destruct fuel as [|fuel]; [cbn in Hfuel; lia|].
    cbn [length] in Hfuel.
    cbn [update_buildable_loop] in Hrun. rewrite Hq in Hrun. cbn [app] in Hrun.
    destruct ((bf_next_update_due_ bf <=? gametime) && (i <? 25)) eqn:Hcond.
    + apply andb_true_iff in Hcond. destruct Hcond as [Hdue Hlt].
      apply Z.leb_le in Hdue. apply Z.ltb_lt in Hlt.
      destruct (get_owned_by g (bf_coords bf) =? player_number g) eqn:Hown;
        cbn [negb] in Hrun.
      * destruct (Z.land (get_buildcaps g (bf_coords bf)) BUILDCAPS_SIZEMASK =? 0)
          eqn:Hcaps.
        -- apply IH with (done := done) in Hrun; [|reflexivity|lia|lia|exact Hdone].
           destruct Hrun as (checked & untouched & fresh & -> & Hch & Hb & Hc & Hf & Hu
                             & Hm & Hcount & Hstop).
           exists (bf :: checked), untouched, fresh.
           split; [reflexivity|]. split; [constructor; assumption|].
           split; [exact Hb|].
           cbn [map List.filter]. unfold still_owned, takes_building in *.
           rewrite Hown, Hcaps. cbn [negb andb].
           split; [exact Hc|]. split; [exact Hf|].
           split; [rewrite Hu; cbn; rewrite <- app_assoc; reflexivity|].
           split; [exact Hm|]. split; assumption.
        -- destruct (update_buildable_field scale g ai bf range military)
             as [[bf1 ai1]|] eqn:Hupd; [|discriminate].
           cbn [mbind option_bind] in Hrun.
           apply update_buildable_field_frame in Hupd.
           destruct Hupd as (Uc & Ud & Uai).
           set (bf2 := set_bf_next_update_due_ (gametime + kFieldUpdateInterval) bf1) in *.
           apply IH with (done := done ++ [bf2]) in Hrun.
           2:{ cbn. rewrite <- app_assoc. reflexivity. }
           2:{ lia. }
           2:{ lia. }
           2:{ apply Forall_app. split; [exact Hdone|]. constructor; [|constructor].
               cbn. unfold kFieldUpdateInterval. lia. }
           destruct Hrun as (checked & untouched & fresh & -> & Hch & Hb & Hc & Hf & Hu
                             & Hm & Hcount & Hstop).
           exists (bf :: checked), untouched, (bf2 :: fresh).
           split; [reflexivity|]. split; [constructor; assumption|].
           split; [rewrite Hb, <- app_assoc; reflexivity|].
           cbn [map List.filter]. unfold still_owned, takes_building in *.
           rewrite Hown, Hcaps. cbn [negb andb].
           split; [cbn [bf_coords bf2 set_bf_next_update_due_]; rewrite Hc, Uc; reflexivity|].
           split; [constructor; [reflexivity | exact Hf]|].
           split; [rewrite Hu; destruct Uai as [->| ->]; reflexivity|].
           split; [rewrite Hm; destruct Uai as [->| ->]; reflexivity|].
           unfold size in *. cbn [length].
           split; [lia|].
           destruct Hstop as [H|[H|H]];
             [left; exact H | right; left; lia | right; right; exact H].
      * apply IH with (done := done) in Hrun; [|reflexivity|lia|lia|exact Hdone].
        destruct Hrun as (checked & untouched & fresh & -> & Hch & Hb & Hc & Hf & Hu
                          & Hm & Hcount & Hstop).
        exists (bf :: checked), untouched, fresh.
        split; [reflexivity|]. split; [constructor; assumption|].
        split; [exact Hb|].
        cbn [map List.filter]. unfold still_owned, takes_building in *.
        rewrite Hown. cbn [andb].
        split; [exact Hc|]. split; [exact Hf|]. split; [exact Hu|].
        split; [exact Hm|]. split; assumption.
    + injection Hrun as <-.
      exists [], (bf :: rest), []. cbn [map List.filter app]. rewrite !app_nil_r.
      split; [reflexivity|]. split; [constructor|]. split; [exact Hq|].
      split; [reflexivity|]. split; [constructor|]. split; [reflexivity|].
      split; [reflexivity|]. split; [unfold size; cbn; lia|].
      apply andb_false_iff in Hcond. destruct Hcond as [H|H].
      * right. right. exists bf. split; [reflexivity|]. apply Z.leb_gt in H. exact H.
      * right. left. apply Z.ltb_ge in H. unfold size; cbn. lia.
Qed.

(** X2. A call of [update_all_buildable_fields] that returns has worked
    through a prefix of the queue, all of it due: fields on tiles that are
    no longer ours are dropped, the coordinates of fields on tiles that take
    no building any more are appended to the unusable fields, and the
    others, at most 25, are queued behind the fields not reached, with their
    coordinates and dated [kFieldUpdateInterval] ahead.  The fields not
    reached and the mineable fields stay as they are, and the sweep stops
    only when nothing is left, when 25 fields have been updated, or at a
    field that is not due. *)
Theorem update_all_buildable_fields_sweep (g : Game) (ai ai' : DefaultAI)
    (gametime : Z) :
  update_all_buildable_fields scale range military g ai gametime = Some ai' ->
  exists checked untouched fresh,
    buildable_fields ai = checked ++ untouched
    /\ Forall (fun bf => bf_next_update_due_ bf <= gametime) checked
    /\ buildable_fields ai' = untouched ++ fresh
    /\ map bf_coords fresh
       = List.filter (fun c => still_owned g c && takes_building g c)
                     (map bf_coords checked)
    /\ Forall (fun bf => bf_next_update_due_ bf = gametime + kFieldUpdateInterval) fresh
    /\ unusable_fields ai'
       = unusable_fields ai
         ++ List.filter (fun c => still_owned g c && negb (takes_building g c))
                        (map bf_coords checked)
    /\ mineable_fields ai' = mineable_fields ai
    /\ (length fresh <= 25)%nat
    /\ sweep_stops bf_next_update_due_ gametime 25 (length fresh) untouched.
Proof.
  unfold update_all_buildable_fields. intros Hrun.
  apply buildable_loop_closed with (rest := buildable_fields ai) (done := []) in Hrun;
    [|rewrite app_nil_r; reflexivity | lia | lia | constructor].
  destruct Hrun as (checked & untouched & fresh & Hsplit & Hch & Hb & Hc & Hf & Hu
                    & Hm & Hcount & Hstop).
  exists checked, untouched, fresh. cbn [app] in Hb.
  repeat (split; [assumption|]).
  unfold size in *. split; [lia|].
  destruct Hstop as [H|[H|H]];
    [left; exact H | right; left; lia | right; right; exact H].
Qed.

Lemma not_buildable_loop_closed (g : Game) :
  forall (n : nat) (rest done : list Coords) (ai ai' : DefaultAI),
    unusable_fields ai = rest ++ done ->
    (n <= length rest)%nat ->
    not_buildable_loop scale range military new_BuildableField new_MineableField
                       g n ai = Some ai' ->
    let checked := take n rest in
    exists fresh,
      unusable_fields ai'
      = drop n rest ++ done
        ++ List.filter (fun c => still_owned g c && negb (takes_building g c)
                                 && negb (takes_mine g c)) checked
      /\ buildable_fields ai' = buildable_fields ai ++ fresh
      /\ map bf_coords fresh
         = map (fun c => bf_coords (new_BuildableField c))
               (List.filter (fun c => still_owned g c && takes_building g c) checked)
      /\ mineable_fields ai'
         = mineable_fields ai
           ++ map (fun c => update_mineable_field g (new_MineableField c))
                  (List.filter (fun c => still_owned g c && negb (takes_building g c)
                                         && takes_mine g c) checked).
Proof.
  induction n as [|n IH]; intros rest done ai ai' Hq Hn Hrun; cbn zeta.
  - injection Hrun as <-. exists []. rewrite take_0, drop_0. cbn [List.filter map].
    rewrite !app_nil_r. auto.
  - destruct rest as [|front rest]; [cbn in Hn; lia|].
    cbn [length] in Hn. cbn [not_buildable_loop] in Hrun.
    rewrite Hq in Hrun. cbn [app] in Hrun.
    rewrite firstn_cons, skipn_cons. cbn [List.filter].
    unfold still_owned, takes_building, takes_mine in *.
    destruct (get_owned_by g front =? player_number g) eqn:Hown; cbn [negb andb] in *.
    + destruct (Z.land (get_buildcaps g front) BUILDCAPS_SIZEMASK =? 0) eqn:Hsize;
        cbn [negb andb] in *.
      * destruct (Z.land (get_buildcaps g front) BUILDCAPS_MINE =? 0) eqn:Hmine;
          cbn [negb andb] in *.
        -- apply IH with (rest := rest) (done := done ++ [front]) in Hrun;
             [|cbn; rewrite <- app_assoc; reflexivity | lia].
           cbn zeta in Hrun. destruct Hrun as (fresh & Hu & Hb & Hc & Hm).
           exists fresh. split; [rewrite Hu, <- !app_assoc; reflexivity|].
           split; [exact Hb|]. split; [exact Hc | exact Hm].
        -- apply IH with (rest := rest) (done := done) in Hrun; [|reflexivity | lia].
           cbn zeta in Hrun. destruct Hrun as (fresh & Hu & Hb & Hc & Hm).
           exists fresh. split; [exact Hu|]. split; [exact Hb|]. split; [exact Hc|].
           rewrite Hm. cbn. rewrite <- app_assoc. reflexivity.
      * match type of Hrun with
        | context [update_buildable_field ?s ?g ?a ?f ?r ?m] =>
            destruct (update_buildable_field s g a f r m) as [[bf1 ai1]|] eqn:Hupd;
              [|discriminate]
        end.
        cbn [mbind option_bind] in Hrun.
        apply update_buildable_field_frame in Hupd. destruct Hupd as (Uc & _ & Uai).
        apply IH with (rest := rest) (done := done) in Hrun;
          [|destruct Uai as [->| ->]; reflexivity | lia].
        cbn zeta in Hrun. destruct Hrun as (fresh & Hu & Hb & Hc & Hm).
        exists (bf1 :: fresh).
        split; [exact Hu|].
        split.
        { rewrite Hb. cbn [buildable_fields set_buildable_fields].
          assert (E : buildable_fields ai1 = buildable_fields ai ++ [new_BuildableField front])
            by (destruct Uai as [->| ->]; reflexivity).
          rewrite E, removelast_last, <- app_assoc. reflexivity. }
        split; [cbn [map]; rewrite Hc, Uc; reflexivity|].
        rewrite Hm. destruct Uai as [->| ->]; reflexivity.
    + apply IH with (rest := rest) (done := done) in Hrun; [|reflexivity | lia].
      cbn zeta in Hrun. destruct Hrun as (fresh & Hu & Hb & Hc & Hm).
      exists fresh. auto.
Qed.

(** X3. A call of [update_all_not_buildable_fields] that returns has looked
    at the first 50 unusable fields (at all of them when there are fewer),
    once each: a tile that is no longer ours is dropped; a tile that takes a
    building becomes a new buildable field; a tile that takes no building
    but a mine becomes a new mineable field, evaluated at once; every other
    tile goes to the back of the queue.  Nothing else enters or leaves the
    three queues. *)
Theorem update_all_not_buildable_fields_sweep (g : Game) (ai ai' : DefaultAI) :
  update_all_not_buildable_fields scale range military new_BuildableField
                                  new_MineableField g ai = Some ai' ->
  let checked := take 50 (unusable_fields ai) in
  exists fresh,
    unusable_fields ai'
    = drop 50 (unusable_fields ai)
      ++ List.filter (fun c => still_owned g c && negb (takes_building g c)
                               && negb (takes_mine g c)) checked
    /\ buildable_fields ai' = buildable_fields ai ++ fresh
    /\ map bf_coords fresh
       = map (fun c => bf_coords (new_BuildableField c))
             (List.filter (fun c => still_owned g c && takes_building g c) checked)
    /\ mineable_fields ai'
       = mineable_fields ai
         ++ map (fun c => update_mineable_field g (new_MineableField c))
                (List.filter (fun c => still_owned g c && negb (takes_building g c)
                                       && takes_mine g c) checked).
Proof.
  unfold update_all_not_buildable_fields. cbn zeta. intros Hrun.
  set (n := Z.to_nat (if 50 <? size (unusable_fields ai) then 50
                      else size (unusable_fields ai))) in *.
  assert (Hn : (n <= length (unusable_fields ai))%nat).
  { subst n. unfold size.
    destruct (50 <? Z.of_nat (length (unusable_fields ai))) eqn:E.
    - apply Z.ltb_lt in E. change (Z.to_nat 50) with 50%nat. lia.
    - rewrite Nat2Z.id. lia. }
  assert (Htake : take n (unusable_fields ai) = take 50 (unusable_fields ai)
                  /\ drop n (unusable_fields ai) = drop 50 (unusable_fields ai)).
  { subst n. unfold size.
    destruct (50 <? Z.of_nat (length (unusable_fields ai))) eqn:E.
    - change (Z.to_nat 50) with 50%nat. auto.
    - apply Z.ltb_ge in E. rewrite Nat2Z.id.
      rewrite !take_ge, !drop_ge by lia. auto. }
  apply not_buildable_loop_closed with (rest := unusable_fields ai) (done := []) in Hrun;
    [|rewrite app_nil_r; reflexivity | exact Hn].
  cbn zeta in Hrun. destruct Htake as [Ht Hd]. rewrite Ht, Hd in Hrun.
  cbn [app] in Hrun. exact Hrun.
Qed.

End SweepProperties.

Lemma update_all_buildable_fields_sweep_witness :
  exists ai',
    update_all_buildable_fields scale_binary64 6 false patchy_game patchy_buildable_ai 1001
    = Some ai'
    /\ map bf_coords (buildable_fields ai') = [(0, 0)]
    /\ unusable_fields ai' = [(2, 0)]
    /\ exists checked untouched fresh,
         buildable_fields patchy_buildable_ai = checked ++ untouched
         /\ buildable_fields ai' = untouched ++ fresh
         /\ (length fresh <= 25)%nat.
Proof.
  assert (Hrun : exists ai',
             update_all_buildable_fields scale_binary64 6 false patchy_game
                                         patchy_buildable_ai 1001 = Some ai'
             /\ map bf_coords (buildable_fields ai') = [(0, 0)]
             /\ unusable_fields ai' = [(2, 0)])
    by (eexists; split; [vm_compute; reflexivity | split; reflexivity]).
  destruct Hrun as (ai' & Hrun & Hb & Hu). exists ai'.
  split; [exact Hrun|]. split; [exact Hb|]. split; [exact Hu|].
  destruct (update_all_buildable_fields_sweep scale_binary64 6 false patchy_game
              patchy_buildable_ai ai' 1001 Hrun)
    as (checked & untouched & fresh & H1 & _ & H3 & _ & _ & _ & _ & H8 & _).
  exists checked, untouched, fresh. auto.
Defined.

Lemma update_all_not_buildable_fields_sweep_witness :
  exists ai',
    update_all_not_buildable_fields scale_binary64 6 false plain_field plain_mine
                                    patchy_game patchy_unusable_ai
    = Some ai'
    /\ unusable_fields ai' = [(2, 0)]
    /\ map bf_coords (buildable_fields ai') = [(0, 0)]
    /\ map mf_coords (mineable_fields ai') = [(3, 0)].
Proof.
  assert (Hrun : exists ai',
             update_all_not_buildable_fields scale_binary64 6 false plain_field
                                             plain_mine patchy_game patchy_unusable_ai
             = Some ai')
    by (eexists; vm_compute; reflexivity).
  destruct Hrun as (ai' & Hrun). exists ai'. split; [exact Hrun|].
  destruct (update_all_not_buildable_fields_sweep scale_binary64 6 false plain_field
              plain_mine patchy_game patchy_unusable_ai ai' Hrun)
    as (fresh & Hu & Hb & Hc & Hm).
  split; [rewrite Hu; reflexivity|].
  split; [rewrite Hb, map_app, Hc; reflexivity|].
  rewrite Hm. reflexivity.
Defined.
(** ** The economy observers *)

Lemma find_economy_sound (e : Serial) (ecos : list EconomyObserver) (k0 k : nat)
    (eco : EconomyObserver) :
  find_economy e ecos k0 = Some (k, eco) ->
  economy eco = e /\ (k0 <= k)%nat /\ ecos !! (k - k0)%nat = Some eco.
Proof.
  revert k0. induction ecos as [|x ecos IH]; intros k0; cbn [find_economy];
    [discriminate|].
  destruct (Nat.eqb (economy x) e) eqn:E.
  - intros [= <- <-]. apply Nat.eqb_eq in E. rewrite Nat.sub_diag.
    split; [exact E|]. split; [lia | reflexivity].
  - intros H. apply IH in H. destruct H as (He & Hle & Hl).
    split; [exact He|]. split; [lia|].
    replace (k - k0)%nat with (S (k - S k0)) by lia. exact Hl.
Qed.

Lemma find_economy_none (e : Serial) (ecos : list EconomyObserver) (k0 : nat) :
  find_economy e ecos k0 = None ->
  Forall (fun obs => economy obs <> e) ecos.
Proof.
  revert k0. induction ecos as [|x ecos IH]; intros k0; cbn [find_economy];
    [constructor|].
  destruct (Nat.eqb (economy x) e) eqn:E; [discriminate|].
  intros H. constructor; [apply Nat.eqb_neq; exact E | eapply IH; exact H].
Qed.

Lemma filed_flags_middle (l1 l2 : list EconomyObserver) (x : EconomyObserver) :
  filed_flags (l1 ++ x :: l2) ≡ₚ flags x ++ filed_flags (l1 ++ l2).
Proof.
  unfold filed_flags. rewrite !map_app, !concat_app. cbn [map concat].
  rewrite !(assoc app). apply Permutation_app_tail, Permutation_app_comm.
Qed.

Lemma filed_flags_lookup (ecos : list EconomyObserver) (i : nat) (obs : EconomyObserver) :
  ecos !! i = Some obs ->
  filed_flags ecos ≡ₚ flags obs ++ filed_flags (delete i ecos).
Proof.
  intros Hi. rewrite delete_take_drop.
  rewrite <- (take_drop_middle ecos i obs Hi) at 1.
  apply filed_flags_middle.
Qed.

Lemma filed_flags_insert (ecos : list EconomyObserver) (i : nat) (new : EconomyObserver) :
  (i < length ecos)%nat ->
  filed_flags (<[i := new]> ecos) ≡ₚ flags new ++ filed_flags (delete i ecos).
Proof.
  intros Hi. rewrite delete_take_drop, insert_take_drop by exact Hi.
  apply filed_flags_middle.
Qed.

(** What [file_flag] does to the list of observers: either the first
    observer of the flag's economy gets the flag at the back of its flags,
    or a fresh observer with just that flag goes to the front. *)
Lemma file_flag_spec (g : Game) (ai : DefaultAI) (j : Serial) :
  let e := flag_economy g j in
  new_flags (file_flag g ai j) = new_flags ai
  /\ ((observer_known ai e = true
       /\ exists i obs,
            economies ai !! i = Some obs /\ economy obs = e
            /\ economies (file_flag g ai j)
               = <[i := set_flags (flags obs ++ [j]) obs]> (economies ai))
      \/ (observer_known ai e = false
          /\ Forall (fun obs => economy obs <> e) (economies ai)
          /\ economies (file_flag g ai j)
             = {| economy := e; flags := [j]; failed_connection_tries := 0 |}
               :: economies ai)).
Proof.
  cbn zeta. unfold file_flag, get_economy_observer, observer_known.
  destruct (find_economy (flag_economy g j) (economies ai) 0) as [[i obs]|] eqn:E.
  - split; [reflexivity|]. left. split; [reflexivity|].
    apply find_economy_sound in E. destruct E as (He & _ & Hi).
    rewrite Nat.sub_0_r in Hi. exists i, obs. auto.
  - split; [reflexivity|]. right. split; [reflexivity|].
    split; [eapply find_economy_none; exact E | reflexivity].
Qed.

Lemma file_flag_filed (g : Game) (ai : DefaultAI) (j : Serial) :
  filed_flags (economies (file_flag g ai j)) ≡ₚ j :: filed_flags (economies ai).
Proof.
  destruct (file_flag_spec g ai j) as (_ & [(_ & i & obs & Hi & _ & ->)|(_ & _ & ->)]).
  - rewrite filed_flags_insert by (eapply lookup_lt_Some; exact Hi).
    rewrite (filed_flags_lookup (economies ai) i obs Hi).
    cbn [flags set_flags]. rewrite <- (assoc app).
    rewrite (Permutation_app_comm [j]). rewrite (assoc app).
    symmetry. apply Permutation_cons_append.
  - reflexivity.
Qed.

Lemma alter_as_insert {A : Type} (f : A -> A) (l : list A) (i : nat) (x : A) :
  l !! i = Some x -> alter f i l = <[i := f x]> l.
Proof.
  intros Hi. rewrite list_insert_alter. apply list_alter_ext; [|reflexivity].
  intros y Hy. congruence.
Qed.

Lemma file_flag_settled (g : Game) (ai : DefaultAI) (j : Serial) (n : nat) :
  Forall (settled g) (take n (economies ai)) ->
  Forall (settled g)
         (take (if observer_known ai (flag_economy g j) then n else S n)
               (economies (file_flag g ai j))).
Proof.
  intros Hs.
  destruct (file_flag_spec g ai j) as (_ & [(-> & i & obs & Hi & He & ->)|(-> & _ & ->)]).
  - destruct (decide (i < n)%nat) as [Hlt|Hge].
    + rewrite take_insert_lt by exact Hlt. apply Forall_insert; [exact Hs|].
      assert (Hobs : settled g obs).
      { eapply Forall_lookup_1; [exact Hs|]. rewrite lookup_take_lt by exact Hlt. exact Hi. }
      destruct Hobs as [_ Hall]. split.
      * cbn. destruct (flags obs); discriminate.
      * cbn. apply Forall_app. split; [exact Hall|]. constructor; [|constructor].
        symmetry. exact He.
    + rewrite take_insert_ge by lia. exact Hs.
  - cbn [take]. constructor; [|exact Hs]. split; [discriminate|].
    cbn. constructor; [reflexivity | constructor].
Qed.

(** The inner loop: the observer under the iterator keeps exactly the flags
    of its own economy, no flag is lost or doubled, and the observers before
    the iterator stay settled. *)
Lemma refile_flags_spec (g : Game) :
  forall (fl kept : list Serial) (k : nat) (ai : DefaultAI) (obs : EconomyObserver),
    economies ai !! k = Some obs ->
    flags obs = kept ++ fl ->
    exists k' ai' obs',
      refile_flags g fl kept k ai = (k', ai')
      /\ economies ai' !! k' = Some obs'
      /\ economy obs' = economy obs
      /\ flags obs'
         = kept ++ List.filter (fun j => Nat.eqb (economy obs) (flag_economy g j)) fl
      /\ filed_flags (economies ai') ≡ₚ filed_flags (economies ai)
      /\ new_flags ai' = new_flags ai
      /\ (k <= k')%nat
      /\ (length (economies ai') - k' = length (economies ai) - k)%nat
      /\ (Forall (settled g) (take k (economies ai)) ->
          Forall (settled g) (take k' (economies ai')))
      /\ (Forall (fun j => flag_economy g j = economy obs) fl -> ai' = ai /\ k' = k).
Proof.
  induction fl as [|j fl IH]; intros kept k ai obs Hk Hfl.
  - exists k, ai, obs. cbn [refile_flags List.filter].
    repeat split; auto.
  - cbn [refile_flags]. rewrite Hk.
    destruct (Nat.eqb (economy obs) (flag_economy g j)) eqn:Heq; cbn [negb].
    + destruct (IH (kept ++ [j]) k ai obs Hk) as
        (k' & ai' & obs' & Hrun & Hk' & He & Hf & Hp & Hn & Hle & Hlen & Hs & Hid).
      { rewrite Hfl, <- app_assoc. reflexivity. }
      exists k', ai', obs'. cbn [List.filter]. rewrite Heq.
      split; [exact Hrun|]. split; [exact Hk'|]. split; [exact He|].
      split; [rewrite Hf, <- app_assoc; reflexivity|].
      split; [exact Hp|]. split; [exact Hn|]. split; [exact Hle|].
      split; [exact Hlen|]. split; [exact Hs|].
      intros Hall. apply Forall_cons in Hall. apply Hid, Hall.
    + set (k1 := if observer_known ai (flag_economy g j) then k else S k).
      set (ai1 := file_flag g ai j).
      assert (Hneq : economy obs <> flag_economy g j) by (apply Nat.eqb_neq; exact Heq).
      assert (Hk1 : economies ai1 !! k1 = Some obs
                    /\ (length (economies ai1) - k1 = length (economies ai) - k)%nat
                    /\ (k <= k1)%nat).
      { unfold k1, ai1.
        destruct (file_flag_spec g ai j) as
          (_ & [(-> & i & o & Hi & Hoe & ->)|(-> & _ & ->)]).
        - split; [|rewrite length_insert; lia].
          rewrite list_lookup_insert_ne; [exact Hk|].
          intros ->. rewrite Hk in Hi. injection Hi as <-. congruence.
        - split; [exact Hk|]. pose proof (lookup_lt_Some _ _ _ Hk). cbn [length]. lia. }
      destruct Hk1 as (Hk1 & Hlen1 & Hle1).
      set (ai2 := set_economies (alter (set_flags (kept ++ fl)) k1 (economies ai1)) ai1).
      assert (Hecos2 : economies ai2
                       = <[k1 := set_flags (kept ++ fl) obs]> (economies ai1)).
      { unfold ai2. cbn [economies set_economies]. apply alter_as_insert. exact Hk1. }
      assert (Hlt1 : (k1 < length (economies ai1))%nat)
        by (eapply lookup_lt_Some; exact Hk1).
      destruct (IH kept k1 ai2 (set_flags (kept ++ fl) obs)) as
        (k' & ai' & obs' & Hrun & Hk' & He & Hf & Hp & Hn & Hle & Hlen & Hs & Hid).
      { rewrite Hecos2. apply list_lookup_insert_eq. exact Hlt1. }
      { reflexivity. }
      exists k', ai', obs'. cbn [List.filter]. rewrite Heq.
      split; [exact Hrun|]. split; [exact Hk'|]. split; [exact He|].
      split; [exact Hf|].
      split.
      { rewrite Hp, Hecos2. rewrite filed_flags_insert by exact Hlt1.
        rewrite (filed_flags_lookup (economies ai) k obs Hk), Hfl.
        cbn [flags set_flags].
        assert (Hdel : filed_flags (delete k1 (economies ai1))
                       ≡ₚ j :: filed_flags (delete k (economies ai))).
        { apply (Permutation_app_inv_l (flags obs)).
          rewrite <- (filed_flags_lookup _ _ _ Hk1).
          unfold ai1. rewrite file_flag_filed.
          rewrite (filed_flags_lookup (economies ai) k obs Hk).
          apply Permutation_middle. }
        rewrite Hdel. rewrite <- !(assoc app). apply Permutation_app_head.
        symmetry. apply Permutation_middle. }
      split.
      { rewrite Hn. unfold ai2, ai1. cbn [new_flags set_economies].
        apply (file_flag_spec g ai j). }
      split; [lia|].
      split.
      { rewrite Hlen, Hecos2, length_insert. exact Hlen1. }
      split.
      { intros Hset. apply Hs. rewrite Hecos2, take_insert_ge by lia.
        unfold k1, ai1. apply file_flag_settled. exact Hset. }
      intros Hall. apply Forall_cons in Hall. destruct Hall as [Hj _]. congruence.
Qed.

Lemma file_new_flags_spec (g : Game) :
  forall (pending : list Serial) (ai : DefaultAI),
    new_flags (file_new_flags g pending ai) = []
    /\ filed_flags (economies (file_new_flags g pending ai))
       ≡ₚ filed_flags (economies ai) ++ pending.
Proof.
  induction pending as [|flag rest IH]; intros ai; cbn [file_new_flags].
  - split; [reflexivity|]. rewrite app_nil_r. reflexivity.
  - destruct (IH (file_flag g (set_new_flags rest ai) flag)) as [Hn Hp].
    split; [exact Hn|]. rewrite Hp, file_flag_filed.
    cbn [economies set_new_flags app]. apply Permutation_middle.
Qed.

(** The outer loop, started with [n] observers from position [k] on and
    settled observers before it. *)
Lemma sweep_economies_spec (g : Game) :
  forall (n k : nat) (ai ai' : DefaultAI) (changed : bool),
    (k + n = length (economies ai))%nat ->
    Forall (settled g) (take k (economies ai)) ->
    sweep_economies g n k ai = (ai', changed) ->
    filed_flags (economies ai') ≡ₚ filed_flags (economies ai)
    /\ new_flags ai' = new_flags ai
    /\ (changed = false -> Forall (settled g) (economies ai')).
Proof.
  induction n as [|n IH]; intros k ai ai' changed Hlen Hset Hrun.
  - cbn [sweep_economies] in Hrun. injection Hrun as <- <-.
    split; [reflexivity|]. split; [reflexivity|]. intros _.
    rewrite take_ge in Hset by lia. exact Hset.
  - cbn [sweep_economies] in Hrun.
    destruct (economies ai !! k) as [obs|] eqn:Hk.
    2:{ apply lookup_ge_None in Hk. lia. }
    destruct (refile_flags_spec g (flags obs) [] k ai obs Hk eq_refl) as
      (k1 & ai1 & obs1 & Hre & Hk1 & He & Hf & Hp & Hn & Hle & Hl & Hs & _).
    rewrite Hre, Hk1 in Hrun. cbn [app] in Hf.
    destruct (flags obs1) as [|f1 fs1] eqn:Hfl1.
    + injection Hrun as <- <-. cbn [economies set_economies new_flags].
      split.
      * rewrite <- Hp. rewrite (filed_flags_lookup (economies ai1) k1 obs1 Hk1), Hfl1.
        reflexivity.
      * split; [exact Hn | discriminate].
    + pose proof (lookup_lt_Some _ _ _ Hk1) as Hlt1.
      apply IH in Hrun.
      * destruct Hrun as (Hp' & Hn' & Hs').
        split; [rewrite Hp', Hp; reflexivity|]. split; [congruence | exact Hs'].
      * lia.
      * rewrite (take_S_r _ _ _ Hk1). apply Forall_app. split; [apply Hs, Hset|].
        constructor; [|constructor]. split; [rewrite Hfl1; discriminate|].
        rewrite Hfl1, Hf, He. clear.
        induction (flags obs) as [|x l IHl]; cbn [List.filter]; [constructor|].
        destruct (Nat.eqb (economy obs) (flag_economy g x)) eqn:E; [|exact IHl].
        constructor; [symmetry; apply Nat.eqb_eq; exact E | exact IHl].
Qed.

Lemma sweep_economies_settled (g : Game) :
  forall (n k : nat) (ai : DefaultAI),
    Forall (settled g) (economies ai) ->
    sweep_economies g n k ai = (ai, false).
Proof.
  induction n as [|n IH]; intros k ai Hset; cbn [sweep_economies]; [reflexivity|].
  destruct (economies ai !! k) as [obs|] eqn:Hk; [|reflexivity].
  destruct (refile_flags_spec g (flags obs) [] k ai obs Hk eq_refl) as
    (k1 & ai1 & obs1 & Hre & Hk1 & _ & _ & _ & _ & _ & _ & _ & Hid).
  pose proof (Forall_lookup_1 _ _ _ _ Hset Hk) as [Hne Hall].
  destruct (Hid Hall) as [-> ->]. rewrite Hre, Hk.
  destruct (flags obs); [contradiction|]. apply IH, Hset.
Qed.

Lemma check_economies_spec (g : Game) (ai ai' : DefaultAI) (changed : bool) :
  check_economies g ai = (ai', changed) ->
  new_flags ai' = []
  /\ filed_flags (economies ai') ≡ₚ filed_flags (economies ai) ++ new_flags ai
  /\ (changed = false -> Forall (settled g) (economies ai')).
Proof.
  unfold check_economies. intros Hrun.
  destruct (file_new_flags_spec g (new_flags ai) ai) as [Hn Hp].
  set (ai0 := file_new_flags g (new_flags ai) ai) in *.
  apply sweep_economies_spec in Hrun; [|reflexivity | rewrite take_0; constructor].
  destruct Hrun as (Hp' & Hn' & Hs).
  split; [congruence|]. split; [rewrite Hp', Hp; reflexivity | exact Hs].
Qed.

(** X4. [check_economies] loses no flag and doubles none: afterwards
    [new_flags] is empty, and the flags that the observers list are the
    flags they listed before together with the new flags. *)
Theorem check_economies_keeps_flags (g : Game) (ai : DefaultAI) :
  let ai' := fst (check_economies g ai) in
  new_flags ai' = []
  /\ filed_flags (economies ai') ≡ₚ filed_flags (economies ai) ++ new_flags ai.
Proof.
  cbn zeta. destruct (check_economies g ai) as [ai' changed] eqn:Hrun.
  apply check_economies_spec in Hrun. destruct Hrun as (Hn & Hp & _). auto.
Qed.

(** X5. When [check_economies] returns false, every economy observer is
    settled: it lists at least one flag, and every flag it lists is in its
    economy. *)
Theorem check_economies_settles (g : Game) (ai ai' : DefaultAI) :
  check_economies g ai = (ai', false) ->
  Forall (settled g) (economies ai').
Proof.
  intros Hrun. apply check_economies_spec in Hrun.
  destruct Hrun as (_ & _ & Hs). apply Hs. reflexivity.
Qed.

Lemma check_economies_settles_witness :
  check_economies split_game split_ai = (split_ai_settled, false)
  /\ Forall (settled split_game) (economies split_ai_settled).
Proof.
  assert (Hrun : check_economies split_game split_ai = (split_ai_settled, false))
    by (vm_compute; reflexivity).
  split; [exact Hrun|].
  exact (check_economies_settles split_game split_ai split_ai_settled Hrun).
Defined.

(** X6. On an engine without new flags whose economy observers are all
    settled, [check_economies] changes nothing and returns false. *)
Theorem check_economies_at_rest (g : Game) (ai : DefaultAI) :
  new_flags ai = [] ->
  Forall (settled g) (economies ai) ->
  check_economies g ai = (ai, false).
Proof.
  intros Hn Hset. unfold check_economies. rewrite Hn. cbn [file_new_flags].
  assert (Hsame : set_new_flags [] ai = ai).
  { destruct ai. cbn in Hn. subst. reflexivity. }
  rewrite Hsame. apply sweep_economies_settled, Hset.
Qed.

Lemma check_economies_at_rest_witness :
  check_economies split_game split_ai_settled = (split_ai_settled, false).
Proof.
  apply (check_economies_at_rest split_game split_ai_settled).
  - reflexivity.
  - repeat constructor; discriminate.
Defined.

(** X7. A flag that the engine gains is listed by an economy observer after
    the next [check_economies], and when that call returns false, by an
    observer of the economy the flag is in. *)
Theorem gained_flag_is_filed (g : Game) (ai ai1 ai2 : DefaultAI) (flag : Serial)
    (changed : bool) :
  gain_immovable g ai (IsFlag flag) = Some ai1 ->
  check_economies g ai1 = (ai2, changed) ->
  exists obs,
    In obs (economies ai2) /\ In flag (flags obs)
    /\ (changed = false -> economy obs = flag_economy g flag).
Proof.
  intros Hgain Hrun. cbn [gain_immovable] in Hgain. injection Hgain as <-.
  apply check_economies_spec in Hrun. destruct Hrun as (_ & Hp & Hs).
  cbn [new_flags set_new_flags economies] in Hp.
  assert (Hin : In flag (filed_flags (economies ai2))).
  { apply list_elem_of_In. rewrite Hp. apply list_elem_of_In.
    apply in_or_app. right. apply in_or_app. right. left. reflexivity. }
  unfold filed_flags in Hin. apply in_concat in Hin.
  destruct Hin as (fl & Hfl & Hflag). apply in_map_iff in Hfl.
  destruct Hfl as (obs & <- & Hobs).
  exists obs. split; [exact Hobs|]. split; [exact Hflag|].
  intros ->. specialize (Hs eq_refl).
  rewrite Forall_forall in Hs. apply list_elem_of_In in Hobs.
  destruct (Hs obs Hobs) as [_ Hall].
  rewrite Forall_forall in Hall. symmetry. apply Hall. apply list_elem_of_In. exact Hflag.
Qed.

Lemma gained_flag_is_filed_witness :
  exists obs,
    In obs (economies split_ai_settled) /\ In 3%nat (flags obs)
    /\ (false = false -> economy obs = flag_economy split_game 3%nat).
Proof.
  apply (gained_flag_is_filed split_game
           (set_new_flags [] split_ai) split_ai split_ai_settled 3%nat false).
  - vm_compute. reflexivity.
  - vm_compute. reflexivity.
Defined.
(** ** The statistics of the production sites *)

Lemma credited_nil (s : Sites) (statistic : Serial -> Z) (k : nat) (bo : BuildingObserver) :
  credited s statistic k [] bo = bo.
Proof.
  unfold credited, some_site_idle, site_total. cbn.
  rewrite orb_false_r, Z.add_0_r. destruct bo. reflexivity.
Qed.

Lemma credited_cons (s : Sites) (statistic : Serial -> Z) (k : nat)
    (front : ProductionSiteObserver) (sites : list ProductionSiteObserver)
    (bo : BuildingObserver) :
  credited s statistic k (front :: sites) bo
  = credited s statistic k sites
      (if Nat.eqb (ps_bo front) k then
         set_unoccupied_ (unoccupied_ bo || negb (can_start_working s (ps_site front)))
           (set_current_stats_ (current_stats_ bo + statistic (ps_site front)) bo)
       else bo).
Proof.
  unfold credited, some_site_idle, site_total, sites_of. cbn [List.filter].
  destruct (Nat.eqb (ps_bo front) k); [|reflexivity].
  cbn [map foldr existsb]. destruct bo. cbn.
  rewrite orb_assoc, Z.add_assoc. reflexivity.
Qed.

Lemma credited_cnt_built (s : Sites) (statistic : Serial -> Z) (k : nat)
    (sites : list ProductionSiteObserver) (bo : BuildingObserver) :
  cnt_built_ (credited s statistic k sites bo) = cnt_built_ bo.
Proof. reflexivity. Qed.

Lemma observed_as_built_insert (obs : list BuildingObserver) (k : nat)
    (bo bo' : BuildingObserver) (sites : list ProductionSiteObserver) :
  obs !! k = Some bo ->
  cnt_built_ bo' = cnt_built_ bo ->
  Forall (observed_as_built obs) sites ->
  Forall (observed_as_built (<[k := bo']> obs)) sites.
Proof.
  intros Hk Hcnt Hall. eapply Forall_impl; [exact Hall|]. intros site (b & Hb & Hpos).
  unfold observed_as_built.
  destruct (decide (k = ps_bo site)) as [->|Hne].
  - exists bo'. rewrite list_lookup_insert_eq by (eapply lookup_lt_Some; exact Hk).
    split; [reflexivity|]. rewrite Hk in Hb. injection Hb as <-. lia.
  - exists b. rewrite list_lookup_insert_ne by exact Hne. auto.
Qed.

Lemma credited_step (s : Sites) (statistic : Serial -> Z)
    (front : ProductionSiteObserver) (todo : list ProductionSiteObserver)
    (obs obs' : list BuildingObserver) (bo : BuildingObserver) :
  obs !! ps_bo front = Some bo ->
  (forall k,
     obs' !! k
     = credited s statistic k todo
       <$> <[ps_bo front :=
               set_unoccupied_
                 (unoccupied_ bo || negb (can_start_working s (ps_site front)))
                 (set_current_stats_ (current_stats_ bo + statistic (ps_site front)) bo)]>
             obs !! k) ->
  forall k, obs' !! k = credited s statistic k (front :: todo) <$> obs !! k.
Proof.
  intros Hbo Hobs k. rewrite Hobs.
  destruct (decide (ps_bo front = k)) as [<-|Hne].
  - rewrite list_lookup_insert_eq by (eapply lookup_lt_Some; exact Hbo).
    rewrite Hbo. cbn [fmap option_fmap option_map].
    rewrite credited_cons, Nat.eqb_refl. reflexivity.
  - rewrite list_lookup_insert_ne by exact Hne.
    destruct (obs !! k) as [b|]; [|reflexivity]. cbn [fmap option_fmap option_map].
    rewrite credited_cons. apply Nat.eqb_neq in Hne. rewrite Hne. reflexivity.
Qed.

Lemma productionsites_statistics_spec (s : Sites) :
  forall (todo done : list ProductionSiteObserver) (obs : list BuildingObserver)
         (fishers_count : Z),
    Forall (observed_as_built obs) todo ->
    exists obs' fishers_count',
      productionsites_statistics s (length todo) (todo ++ done) obs fishers_count
      = Some (done ++ todo, obs', fishers_count')
      /\ length obs' = length obs
      /\ forall k, obs' !! k = credited s (get_crude_statistics s) k todo <$> obs !! k.
Proof.
  induction todo as [|front todo IH]; intros done obs fishers_count Hall.
  - exists obs, fishers_count. cbn. rewrite app_nil_r.
    split; [reflexivity|]. split; [reflexivity|].
    intros k. destruct (obs !! k) as [bo|]; cbn; [|reflexivity].
    rewrite credited_nil. reflexivity.
  - apply Forall_cons in Hall. destruct Hall as [(bo & Hbo & Hpos) Hall].
    cbn [length productionsites_statistics app head mbind option_bind].
    rewrite Hbo. cbn [mbind option_bind].
    destruct (cnt_built_ bo <=? 0) eqn:Hle; [apply Z.leb_le in Hle; lia|].
    cbn [rotate]. rewrite <- app_assoc.
    match goal with
    | |- context [productionsites_statistics s _ _ (<[_ := ?b]> obs) ?fc] =>
        destruct (IH (done ++ [front]) (<[ps_bo front := b]> obs) fc)
          as (obs' & fc' & Hrun & Hlen & Hobs)
    end.
    { eapply observed_as_built_insert; [exact Hbo | reflexivity | exact Hall]. }
    exists obs', fc'. rewrite Hrun, <- app_assoc. split; [reflexivity|].
    split; [rewrite Hlen, length_insert; reflexivity|].
    eapply credited_step; [exact Hbo|]. exact Hobs.
Qed.

Lemma mines_statistics_spec (s : Sites) :
  forall (todo done : list ProductionSiteObserver) (obs : list BuildingObserver),
    Forall (observed_as_built obs) todo ->
    exists obs',
      mines_statistics s (length todo) (todo ++ done) obs
      = Some (done ++ todo, obs')
      /\ length obs' = length obs
      /\ forall k, obs' !! k = credited s (get_statistics_percent s) k todo <$> obs !! k.
Proof.
  induction todo as [|front todo IH]; intros done obs Hall.
  - exists obs. cbn. rewrite app_nil_r.
    split; [reflexivity|]. split; [reflexivity|].
    intros k. destruct (obs !! k) as [bo|]; cbn; [|reflexivity].
    rewrite credited_nil. reflexivity.
  - apply Forall_cons in Hall. destruct Hall as [(bo & Hbo & Hpos) Hall].
    cbn [length mines_statistics app head mbind option_bind].
    rewrite Hbo. cbn [mbind option_bind].
    destruct (cnt_built_ bo <=? 0) eqn:Hle; [apply Z.leb_le in Hle; lia|].
    cbn [rotate]. rewrite <- app_assoc.
    match goal with
    | |- context [mines_statistics s _ _ (<[_ := ?b]> obs)] =>
        destruct (IH (done ++ [front]) (<[ps_bo front := b]> obs))
          as (obs' & Hrun & Hlen & Hobs)
    end.
    { eapply observed_as_built_insert; [exact Hbo | reflexivity | exact Hall]. }
    exists obs'. rewrite Hrun, <- app_assoc. split; [reflexivity|].
    split; [rewrite Hlen, length_insert; reflexivity|].
    eapply credited_step; [exact Hbo|]. exact Hobs.
Qed.

Lemma observed_as_built_pointwise (obs obs' : list BuildingObserver)
    (f : nat -> BuildingObserver -> BuildingObserver)
    (sites : list ProductionSiteObserver) :
  (forall k, obs' !! k = f k <$> obs !! k) ->
  (forall k bo, cnt_built_ (f k bo) = cnt_built_ bo) ->
  Forall (observed_as_built obs) sites ->
  Forall (observed_as_built obs') sites.
Proof.
  intros Hobs Hcnt Hall. eapply Forall_impl; [exact Hall|].
  intros site (bo & Hbo & Hpos). exists (f (ps_bo site) bo).
  rewrite Hobs, Hbo, Hcnt. auto.
Qed.

(** What [update_productionsite_stats] does when no assertion fails. *)
Lemma update_productionsite_stats_spec (s : Sites) (up : Upkeep) (gametime : Z) :
  Forall (observed_as_built (buildings_ (engine up)))
         (productionsites (engine up) ++ mines_ (engine up)) ->
  exists up',
    update_productionsite_stats s up gametime = Some up'
    /\ next_stats_update_due_ up' = gametime + 10000
    /\ productionsites (engine up') = productionsites (engine up)
    /\ mines_ (engine up') = mines_ (engine up)
    /\ buildings_ (engine up') = imap (averaged s (engine up)) (buildings_ (engine up))
    /\ militarysites (engine up') = militarysites (engine up).
Proof.
  intros Hall. apply Forall_app in Hall. destruct Hall as [Hprod Hmines].
  unfold update_productionsite_stats. cbn zeta.
  set (ai := engine up) in *.
  set (reset := fun bo => set_unoccupied_ false (set_current_stats_ 0 bo)).
  assert (Hreset : forall k, map reset (buildings_ ai) !! k
                             = (fun _ => reset) k <$> buildings_ ai !! k)
    by (intros k; apply list_lookup_fmap).
  destruct (productionsites_statistics_spec s (productionsites ai) []
              (map reset (buildings_ ai)) 0)
    as (obs1 & fc & Hrun1 & Hlen1 & Hobs1).
  { eapply observed_as_built_pointwise; [exact Hreset | reflexivity | exact Hprod]. }
  rewrite app_nil_r in Hrun1. cbn [app] in Hrun1.
  cbn [engine set_next_stats_update_due_]. fold ai. rewrite Hrun1.
  cbn [mbind option_bind].
  set (ai1 := if resource_necessity_water_needed_ (set_productionsites _ ai) then _ else _).
  assert (Hai1 : mines_ ai1 = mines_ ai /\ productionsites ai1 = productionsites ai
                 /\ militarysites ai1 = militarysites ai).
  { unfold ai1. destruct (resource_necessity_water_needed_ _); [|repeat split; reflexivity].
    destruct (fc =? 0); [repeat split; reflexivity|].
    destruct (fc =? 1); repeat split; reflexivity. }
  destruct Hai1 as (Hm1 & Hp1 & Hs1). rewrite Hm1.
  destruct (mines_statistics_spec s (mines_ ai) [] obs1) as (obs2 & Hrun2 & Hlen2 & Hobs2).
  { eapply observed_as_built_pointwise; [exact Hobs1 | reflexivity|].
    eapply observed_as_built_pointwise; [exact Hreset | reflexivity | exact Hmines]. }
  rewrite app_nil_r in Hrun2. cbn [app] in Hrun2. rewrite Hrun2.
  cbn [mbind option_bind]. eexists. split; [reflexivity|].
  cbn [engine set_engine next_stats_update_due_ buildings_ set_buildings_ productionsites
       mines_ set_mines_ militarysites].
  split; [reflexivity|]. split; [exact Hp1|]. split; [reflexivity|].
  split; [|exact Hs1].
  apply list_eq. intros k.
  rewrite list_lookup_fmap, Hobs2, Hobs1, Hreset, list_lookup_imap.
  destruct (buildings_ ai !! k) as [bo|]; [|reflexivity].
  cbn [fmap option_fmap option_map]. f_equal.
  unfold credited, averaged, reset. destruct bo as [? ? ? ? ? ? ? ? ? ? ? ? ? ? ? ? ? ? ? ? ?
    built ? ? ? ? ? ? ? ? ?]. cbn.
  destruct (0 <? built); cbn; rewrite ?Z.add_0_l; reflexivity.
Qed.

(** X8. When the [bo] pointer of every production site and mine refers to
    an observer that counts a building as built,
    [update_productionsite_stats] returns.  It leaves both deques in their
    order, makes the next update due 10 s later, and writes to every
    observer the sum of the crude statistics of its production sites and of
    the percent statistics of its mines, divided by [cnt_built_], and
    whether one of its sites cannot start working. *)
Theorem update_productionsite_stats_averages (s : Sites) (up : Upkeep) (gametime : Z) :
  Forall (observed_as_built (buildings_ (engine up)))
         (productionsites (engine up) ++ mines_ (engine up)) ->
  exists up',
    update_productionsite_stats s up gametime = Some up'
    /\ next_stats_update_due_ up' = gametime + 10000
    /\ productionsites (engine up') = productionsites (engine up)
    /\ mines_ (engine up') = mines_ (engine up)
    /\ buildings_ (engine up') = imap (averaged s (engine up)) (buildings_ (engine up)).
Proof.
  intros Hall.
  destruct (update_productionsite_stats_spec s up gametime Hall)
    as (up' & Hrun & Hdue & Hps & Hmines & Hobs & _).
  exists up'. auto.
Qed.


Lemma update_productionsite_stats_averages_witness :
  exists up',
    update_productionsite_stats two_huts_sites two_huts 5000 = Some up'
    /\ next_stats_update_due_ up' = 15000
    /\ productionsites (engine up') = [some_site 1; some_site 2]
    /\ buildings_ (engine up')
       = [set_unoccupied_ true (set_current_stats_ 55 (lumberjack 2))].
Proof.
  destruct (update_productionsite_stats_averages two_huts_sites two_huts 5000)
    as (up' & Hrun & Hdue & Hps & _ & Hobs).
  - apply Forall_app. split; [|constructor].
    repeat (constructor; [exists (lumberjack 2); split; [reflexivity | cbn; lia]|]).
    constructor.
  - exists up'. split; [exact Hrun|]. split; [exact Hdue|]. split; [exact Hps|].
    rewrite Hobs. vm_compute. reflexivity.
Defined.
(** ** The mines *)

(** X9. [out_of_resources_site] raises the count of the first mine observer
    of the reported site by one and touches nothing else; a report of a site
    that is not among the mines changes nothing. *)
Theorem out_of_resources_site_counts (ai : DefaultAI) (site : Serial) :
  (Forall (fun m => ps_site m <> site) (mines_ ai) -> out_of_resources_site ai site = ai)
  /\ (forall before m after,
        mines_ ai = before ++ m :: after ->
        Forall (fun m => ps_site m <> site) before ->
        ps_site m = site ->
        out_of_resources_site ai site
        = set_mines_
            (before ++ set_no_resources_count (no_resources_count m + 1) m :: after) ai).
Proof.
  unfold out_of_resources_site. split.
  - intros Hall.
    assert (E : count_out_of_resources site (mines_ ai) = mines_ ai).
    { induction (mines_ ai) as [|m l IH]; [reflexivity|].
      apply Forall_cons in Hall. destruct Hall as [Hm Hl].
      cbn [count_out_of_resources]. apply Nat.eqb_neq in Hm. rewrite Hm, (IH Hl).
      reflexivity. }
    rewrite E. destruct ai. reflexivity.
  - intros before m after -> Hbefore Hm. f_equal.
    induction before as [|b before IH]; cbn [app count_out_of_resources].
    + apply Nat.eqb_eq in Hm. rewrite Hm. reflexivity.
    + apply Forall_cons in Hbefore. destruct Hbefore as [Hb Hbefore].
      apply Nat.eqb_neq in Hb. rewrite Hb, (IH Hbefore). reflexivity.
Qed.

Ltac case_if H :=
  match type of H with
  | context [if ?c then _ else _] =>
      let E := fresh "Hif" in destruct c eqn:E
  end.


Lemma out_of_resources_site_counts_witness :
  out_of_resources_site three_mines 5%nat = three_mines
  /\ out_of_resources_site three_mines 2%nat
     = set_mines_ [some_site 1; set_no_resources_count 1 (some_site 2); some_site 2]
                  three_mines.
Proof.
  destruct (out_of_resources_site_counts three_mines 5%nat) as [Hmiss _].
  destruct (out_of_resources_site_counts three_mines 2%nat) as [_ Hhit].
  split.
  - apply Hmiss. repeat constructor; cbn; lia.
  - apply (Hhit [some_site 1] (some_site 2) [some_site 2]).
    + reflexivity.
    + repeat constructor; cbn; lia.
    + reflexivity.
Defined.

(** ** The military sites *)

Lemma SoldierPreference_eqb_eq (a b : SoldierPreference) :
  SoldierPreference_eqb a b = true <-> a = b.
Proof. destruct a, b; cbn; split; congruence. Qed.

Section MilitaryUpkeepProperties.

Variable scale : Z -> Z -> Z -> Z.

Lemma consider_militarysite_envelope (new_BuildableField : Coords -> BuildableField)
    (g : Game) (s : Sites) (up up' : Upkeep) (ms : Serial)
    (cmds : list UpkeepCommand) (changed : bool) :
  consider_militarysite scale new_BuildableField g s up ms = Some (up', cmds, changed) ->
  Forall (militarysite_command_allowed s ms) cmds
  /\ (changed = true <-> enemy_in_sight s ms = true /\ cmds <> [])
  /\ (enemy_in_sight s ms = false -> (length cmds <= 1)%nat)
  /\ militarysites (engine up') = militarysites (engine up).
Proof.
  unfold consider_militarysite, enemy_in_sight. cbn zeta. intros H.
  destruct (find_enemies_building s (site_position s ms) (vision_range s ms + 4) =? 0)
    eqn:Henemy; cbn [negb].
  - assert (Hno : forall (u : Upkeep) (c : list UpkeepCommand),
               Forall (militarysite_command_allowed s ms) c ->
               (length c <= 1)%nat ->
               militarysites (engine u) = militarysites (engine up) ->
               Forall (militarysite_command_allowed s ms) c
               /\ (false = true <-> false = true /\ c <> [])
               /\ (false = false -> (length c <= 1)%nat)
               /\ militarysites (engine u) = militarysites (engine up)).
    { intros u c Hc Hl Hm. split; [exact Hc|]. split; [|auto].
      split; [discriminate | intros [? _]; discriminate]. }
    destruct (warehouses_size s ms =? 0) eqn:Hwh; cbn [negb] in H;
      [injection H as <- <- <-; apply Hno; [constructor | cbn; lia | reflexivity]|].
    apply Z.eqb_neq in Hwh.
    destruct (SoldierPreference_eqb kPrefersRookies (get_soldier_preference s ms))
      eqn:Hpref; cbn [negb] in H.
    + apply SoldierPreference_eqb_eq in Hpref. symmetry in Hpref.
      destruct (1 <? soldier_capacity s ms) eqn:Hcap.
      * apply Z.ltb_lt in Hcap. injection H as <- <- <-.
        apply Hno; [|cbn; lia | reflexivity].
        constructor; [|constructor]. unfold militarysite_command_allowed, enemy_in_sight. rewrite Henemy. cbn [negb].
        split; [reflexivity|]. left. auto.
      * apply Z.ltb_ge in Hcap.
        match type of H with
        | context [update_buildable_field ?sc ?gg ?a ?f ?r ?m] =>
            destruct (update_buildable_field sc gg a f r m) as [[bf ai]|] eqn:Hupd;
              [|discriminate]
        end.
        cbn [mbind option_bind] in H.
        apply update_buildable_field_frame in Hupd. destruct Hupd as (_ & _ & Hai).
        assert (Hms : militarysites ai = militarysites (engine up))
          by (destruct Hai as [->| ->]; reflexivity).
        assert (Hok : forall site, site = ms ->
                   militarysite_command_allowed s ms (send_player_dismantle site)
                   /\ militarysite_command_allowed s ms (send_player_bulldoze_site site)).
        { intros site ->. unfold militarysite_command_allowed, enemy_in_sight. rewrite Henemy. cbn [negb]. auto 10. }
        destruct (4 <=? dismantle_score s ms bf).
        -- destruct (can_dismantle s ms); injection H as <- <- <-;
             (apply Hno; [|cbn; lia | exact Hms]);
             constructor; try constructor; apply (Hok ms eq_refl).
        -- injection H as <- <- <-. apply Hno; [constructor | cbn; lia | exact Hms].
    + injection H as <- <- <-. apply Hno; [|cbn; lia | reflexivity].
      constructor; [|constructor]. unfold militarysite_command_allowed, enemy_in_sight. rewrite Henemy. cbn [negb].
      split; [reflexivity|]. left. repeat split; auto.
      intros E. rewrite E in Hpref. discriminate.
  - injection H as <- <- <-.
    assert (Hraise : soldier_capacity s ms < max_soldier_capacity_of s ms ->
              militarysite_command_allowed s ms
                (send_player_change_soldier_capacity ms
                   (max_soldier_capacity_of s ms - soldier_capacity s ms))).
    { intros Hcap. unfold militarysite_command_allowed, enemy_in_sight.
      rewrite Henemy. cbn [negb]. split; [reflexivity|]. right.
      split; [reflexivity|]. split; [reflexivity | lia]. }
    assert (Hheroes : get_soldier_preference s ms <> kPrefersHeroes ->
              militarysite_command_allowed s ms
                (send_player_militarysite_set_soldier_preference ms kPrefersHeroes)).
    { intros Hp. unfold militarysite_command_allowed, enemy_in_sight.
      rewrite Henemy. cbn [negb]. split; [reflexivity|]. right. auto. }
    split.
    { apply Forall_app. split.
      - destruct (soldier_capacity s ms <? max_soldier_capacity_of s ms) eqn:Hcap;
          [|constructor].
        apply Z.ltb_lt in Hcap. constructor; [apply Hraise; exact Hcap | constructor].
      - destruct (get_soldier_preference s ms) eqn:Hp; cbn [SoldierPreference_eqb negb];
          try constructor; try constructor; apply Hheroes; discriminate. }
    split; [|split; [discriminate | reflexivity]].
    destruct (soldier_capacity s ms <? max_soldier_capacity_of s ms);
      destruct (get_soldier_preference s ms); cbn [SoldierPreference_eqb negb app orb];
      (split; [intros E; split; [reflexivity | try discriminate; try congruence]
              | intros [_ E]; try reflexivity; try contradiction]).
Qed.

(** X11. What [check_militarysites] sends concerns the military site at
    the front of the deque only.  With an enemy building in sight it may
    raise the soldier capacity to the maximum and ask for heroes, and it
    returns true exactly when it does one of the two.  Without one it sends
    at most one command and returns false: it asks for rookies, or lowers
    the capacity by one, or dismantles or bulldozes the site, and any of
    these only when the economy of the site has a warehouse, the last two
    only for a site that prefers rookies, and the removal only when the
    capacity is at most 1. *)
Theorem check_militarysites_envelope (new_BuildableField : Coords -> BuildableField)
    (g : Game) (s : Sites) (up up' : Upkeep) (gametime : Z)
    (cmds : list UpkeepCommand) (changed : bool) :
  check_militarysites scale new_BuildableField g s up gametime
  = Some (up', cmds, changed) ->
  (cmds = [] /\ changed = false)
  \/ exists front,
       head (militarysites (engine up)) = Some front
       /\ militarysites (engine up') = rotate (militarysites (engine up))
       /\ Forall (militarysite_command_allowed s (ms_site front)) cmds
       /\ (changed = true <-> enemy_in_sight s (ms_site front) = true /\ cmds <> [])
       /\ (enemy_in_sight s (ms_site front) = false -> (length cmds <= 1)%nat).
Proof.
  unfold check_militarysites. intros H.
  case_if H; [injection H as <- <- <-; left; auto|]. clear Hif.
  cbn [engine set_engine set_next_militarysite_check_due_ militarysites
       set_unstationed_milit_buildings_] in H.
  destruct (militarysites (engine up)) as [|front rest] eqn:Hsites;
    [injection H as <- <- <-; left; auto|].
  match type of H with
  | context [consider_militarysite ?sc ?n ?gg ?ss ?u ?m] =>
      destruct (consider_militarysite sc n gg ss u m) as [[[up1 cmds1] changed1]|] eqn:Hc;
        [|discriminate]
  end.
  cbn [mbind option_bind] in H. injection H as <- <- <-.
  apply consider_militarysite_envelope in Hc.
  destruct Hc as (Hall & Hch & Hone & Hms).
  cbn [engine set_engine militarysites set_unstationed_milit_buildings_
       set_next_militarysite_check_due_] in Hms.
  right. exists front. split; [reflexivity|].
  cbn [engine set_engine set_next_militarysite_check_due_ militarysites set_militarysites].
  rewrite Hms, Hsites. auto.
Qed.

(** The members of a buildable field that the military part of
    [update_buildable_field] reads or that the score of a military site
    looks at. *)
Lemma military_step_view (g : Game) (f1 f2 : BuildableField) (imf : ImmovableFound) :
  bf_coords f1 = bf_coords f2 ->
  military_capacity_ f1 = military_capacity_ f2 ->
  military_loneliness_ f1 = military_loneliness_ f2 ->
  military_in_constr_nearby_ f1 = military_in_constr_nearby_ f2 ->
  military_presence_ f1 = military_presence_ f2 ->
  military_stationed_ f1 = military_stationed_ f2 ->
  unowned_land_nearby_ f1 = unowned_land_nearby_ f2 ->
  let f1' := military_step scale g f1 imf in
  let f2' := military_step scale g f2 imf in
  bf_coords f1' = bf_coords f2'
  /\ military_capacity_ f1' = military_capacity_ f2'
  /\ military_loneliness_ f1' = military_loneliness_ f2'
  /\ military_in_constr_nearby_ f1' = military_in_constr_nearby_ f2'
  /\ military_presence_ f1' = military_presence_ f2'
  /\ military_stationed_ f1' = military_stationed_ f2'
  /\ unowned_land_nearby_ f1' = unowned_land_nearby_ f2'.
Proof.
  intros Hc Hcap Hl Hi Hp Hs Hu. cbn zeta. unfold military_step. rewrite Hc.
  destruct (foreign_owner g (object imf)) as [o|];
    [destruct (is_hostile g o); cbn; repeat split; congruence|].
  destruct (as_building (object imf)) as [building|]; [|cbn; repeat split; congruence].
  destruct (b_class building) as [target| | |cap stationed| |];
    try (cbn; repeat split; congruence).
  - destruct (is_MilitarySiteDescr target); [|cbn; repeat split; congruence].
    cbn zeta. rewrite ?Hc.
    destruct (0 <? _); cbn; rewrite ?Hcap, ?Hl, ?Hi; repeat split; congruence.
  - cbn zeta. rewrite ?Hc. destruct (_ && _); [|cbn; repeat split; congruence].
    destruct (negb _); cbn; rewrite ?Hcap, ?Hl, ?Hi, ?Hp, ?Hs; repeat split; congruence.
Qed.

Lemma dismantle_score_ignores_constructor (g : Game) (s : Sites) (ai : DefaultAI)
    (ms : Serial) (f1 f2 : BuildableField) (range : Z) :
  bf_coords f1 = bf_coords f2 ->
  exists bf1 bf2,
    update_buildable_field scale g ai f1 range true = Some (bf1, ai)
    /\ update_buildable_field scale g ai f2 range true = Some (bf2, ai)
    /\ dismantle_score s ms bf1 = dismantle_score s ms bf2.
Proof.
  intros Hc. unfold update_buildable_field. cbn zeta. cbn [mbind option_bind].
  eexists. eexists. split; [reflexivity|]. split; [reflexivity|].
  assert (Hun : bf_coords (count_unowned g ai f1 range)
                = bf_coords (count_unowned g ai f2 range)
                /\ unowned_land_nearby_ (count_unowned g ai f1 range)
                   = unowned_land_nearby_ (count_unowned g ai f2 range)).
  { unfold count_unowned. cbn zeta. rewrite Hc.
    cbn [unowned_land_nearby_ set_unowned_land_nearby_ set_near_border_].
    split_ifs; split; cbn; congruence. }
  destruct Hun as [Uc Uu].
  generalize dependent (count_unowned g ai f2 range).
  generalize (count_unowned g ai f1 range). clear Hc f1 f2.
  intros f1 f2 Uc Uu.
  unfold military_update. cbn zeta. rewrite Uc.
  set (g1 := set_military_presence_ 0 _).
  set (g2 := set_military_presence_ 0 _).
  assert (Hview : bf_coords g1 = bf_coords g2
                  /\ military_capacity_ g1 = military_capacity_ g2
                  /\ military_loneliness_ g1 = military_loneliness_ g2
                  /\ military_in_constr_nearby_ g1 = military_in_constr_nearby_ g2
                  /\ military_presence_ g1 = military_presence_ g2
                  /\ military_stationed_ g1 = military_stationed_ g2
                  /\ unowned_land_nearby_ g1 = unowned_land_nearby_ g2)
    by (unfold g1, g2; cbn; repeat split; congruence).
  clearbody g1 g2.
  generalize (find_immovables g (bf_coords f2) (if range <? 10 then 10 else range)) as l.
  intros l. revert g1 g2 Hview.
  induction l as [|imf l IH]; intros g1 g2 (Hc & Hcap & Hl & Hi & Hp & Hs & Hu).
  - cbn [fold_left]. unfold dismantle_score. rewrite Hcap, Hl, Hp, Hs, Hu. reflexivity.
  - cbn [fold_left]. apply IH.
    apply (military_step_view g g1 g2 imf Hc Hcap Hl Hi Hp Hs Hu).
Qed.

(** X12. The verdict of [check_militarysites] does not depend on what the
    constructor of the temporary buildable field puts into it, as long as it
    is the field of the tile of the site: all that the score reads is
    written by [update_buildable_field] first. *)
Theorem check_militarysites_ignores_constructor
    (new1 new2 : Coords -> BuildableField) (g : Game) (s : Sites) (up : Upkeep)
    (gametime : Z) :
  (forall c, bf_coords (new1 c) = bf_coords (new2 c)) ->
  check_militarysites scale new1 g s up gametime
  = check_militarysites scale new2 g s up gametime.
Proof.
  intros Hnew. unfold check_militarysites.
  destruct (gametime <? next_militarysite_check_due_ up); [reflexivity|].
  cbn zeta.
  match goal with
  | |- context [militarysites (engine ?u)] =>
      destruct (militarysites (engine u)) as [|front rest]; [reflexivity|]
  end.
  match goal with
  | |- (mbind _ ?a) = (mbind _ ?b) => assert (E : a = b); [|rewrite E; reflexivity]
  end.
  unfold consider_militarysite. cbn zeta.
  destruct (_ =? 0); [|reflexivity].
  destruct (negb (warehouses_size s (ms_site front) =? 0)); [|reflexivity].
  destruct (negb (SoldierPreference_eqb _ _)); [reflexivity|].
  destruct (1 <? _); [reflexivity|].
  match goal with
  | |- context [update_buildable_field scale g ?a (new1 ?c) ?r true] =>
      destruct (dismantle_score_ignores_constructor g s a (ms_site front)
                  (new1 c) (new2 c) r (Hnew c)) as (bf1 & bf2 & H1 & H2 & Hscore)
  end.
  rewrite H1, H2. cbn [mbind option_bind]. rewrite Hscore. reflexivity.
Qed.

End MilitaryUpkeepProperties.

Lemma check_militarysites_envelope_witness :
  exists up',
    check_militarysites scale_binary64 plain_field quiet_game alarmed_sites one_sentry 1001
    = Some (up',
            [send_player_change_soldier_capacity 7%nat 1;
             send_player_militarysite_set_soldier_preference 7%nat kPrefersHeroes],
            true)
    /\ enemy_in_sight alarmed_sites 7%nat = true.
Proof.
  assert (Hrun : exists up',
             check_militarysites scale_binary64 plain_field quiet_game alarmed_sites
                                 one_sentry 1001
             = Some (up',
                     [send_player_change_soldier_capacity 7%nat 1;
                      send_player_militarysite_set_soldier_preference 7%nat
                                                                      kPrefersHeroes],
                     true))
    by (eexists; vm_compute; reflexivity).
  destruct Hrun as (up' & Hrun). exists up'. split; [exact Hrun|].
  destruct (check_militarysites_envelope scale_binary64 plain_field quiet_game
              alarmed_sites one_sentry up' 1001 _ _ Hrun)
    as [(Hno & _)|(front & Hfront & _ & _ & Hchanged & _)].
  - discriminate Hno.
  - injection Hfront as <-. exact (proj1 (proj1 Hchanged eq_refl)).
Defined.

Lemma check_militarysites_ignores_constructor_witness :
  check_militarysites scale_binary64 plain_field quiet_game calm_sites one_sentry 1001
  = check_militarysites scale_binary64
      (fun c => set_military_loneliness_ 5 (set_unowned_land_nearby_ 40 (plain_field c)))
      quiet_game calm_sites one_sentry 1001.
Proof.
  apply (check_militarysites_ignores_constructor scale_binary64 plain_field
           (fun c => set_military_loneliness_ 5 (set_unowned_land_nearby_ 40 (plain_field c)))
           quiet_game calm_sites one_sentry 1001).
  intros c. reflexivity.
Defined.
(** ** The production sites *)










(** ** The attack planner *)











(** ** Where [construct_building] builds *)

Section WinnerOfTheScans.

Variables (g : Game) (wallclock : Z) (ai : DefaultAI) (gametime : Z) (mode : Z).





End WinnerOfTheScans.




(** ** The stock and the need of the outputs *)

Lemma lowest_stock_of_outputs (g : Game) (e : Serial) (outs : list WareIndex) :
  forall count,
    let level :=
      fold_left
        (fun count wt =>
           if stock_ware g e (Z.of_nat wt) <? count
           then stock_ware g e (Z.of_nat wt) else count)
        outs count in
    level <= count
    /\ (forall wt, In wt outs -> level <= stock_ware g e (Z.of_nat wt))
    /\ (level = count \/ exists wt, In wt outs /\ level = stock_ware g e (Z.of_nat wt)).
Proof.
  induction outs as [|wt outs IH]; intros count; cbn [fold_left].
  - split; [lia|]. split; [intros wt []|left; reflexivity].
  - cbv zeta in *.
    destruct (stock_ware g e (Z.of_nat wt) <? count) eqn:Hlt;
      [apply Z.ltb_lt in Hlt | apply Z.ltb_ge in Hlt].
    + destruct (IH (stock_ware g e (Z.of_nat wt))) as (Hle & Hall & Hatt).
      split; [lia|]. split.
      * intros x [<-|Hx]; [exact Hle | apply Hall; exact Hx].
      * right. destruct Hatt as [->|(x & Hx & ->)]; [exists wt | exists x]; cbn; auto.
    + destruct (IH count) as (Hle & Hall & Hatt).
      split; [exact Hle|]. split.
      * intros x [<-|Hx]; [lia | apply Hall; exact Hx].
      * destruct Hatt as [->|(x & Hx & ->)]; [left; reflexivity|].
        right. exists x. cbn. auto.
Qed.

(** X18. [get_stocklevel] is the lowest stock of an output of the building
    over the economies that have a warehouse: it is at most the stock of
    every output in every such economy, and it is the stock of one of them
    unless it is the largest 32-bit number, which it is when there is no
    output or no economy with a warehouse. *)
Theorem get_stocklevel_is_lowest (g : Game) (ai : DefaultAI) (bo : BuildingObserver) :
  let level := get_stocklevel g ai bo in
  let counted observer wt :=
    In observer (economies ai) /\ warehouses_empty g (economy observer) = false
    /\ In wt (outputs_ bo) in
  level <= 4294967295
  /\ (forall observer wt,
        counted observer wt -> level <= stock_ware g (economy observer) (Z.of_nat wt))
  /\ (level = 4294967295
      \/ exists observer wt,
           counted observer wt /\ level = stock_ware g (economy observer) (Z.of_nat wt))
  /\ ((forall observer wt, ~ counted observer wt) -> level = 4294967295).
Proof.
  cbv zeta. unfold get_stocklevel.
  generalize 4294967295 as count.
  induction (economies ai) as [|observer ecos IH]; intros count; cbn [fold_left].
  - split; [lia|]. split; [intros o wt ([] & _)|]. split; [left; reflexivity | intros _; reflexivity].
  - set (step := fun count wt =>
                   if stock_ware g (economy observer) (Z.of_nat wt) <? count
                   then stock_ware g (economy observer) (Z.of_nat wt) else count).
    destruct (warehouses_empty g (economy observer)) eqn:Hw.
    + destruct (IH count) as (Hle & Hall & Hatt & Hnone).
      split; [exact Hle|]. split; [|split].
      * intros o wt ([<-|Ho] & Hwo & Hwt); [congruence|]. apply Hall. auto.
      * destruct Hatt as [E|(o & wt & (Ho & Hwo & Hwt) & E)]; [left; exact E|].
        right. exists o, wt. cbn. auto.
      * intros Hno. apply Hnone. intros o wt (Ho & Hwo & Hwt).
        apply (Hno o wt). cbn. auto.
    + destruct (lowest_stock_of_outputs g (economy observer) (outputs_ bo) count)
        as (Hle1 & Hall1 & Hatt1).
      cbv zeta in Hle1, Hall1, Hatt1. fold step in Hle1, Hall1, Hatt1.
      destruct (IH (fold_left step (outputs_ bo) count)) as (Hle & Hall & Hatt & Hnone).
      split; [lia|]. split; [|split].
      * intros o wt ([<-|Ho] & Hwo & Hwt).
        -- specialize (Hall1 wt Hwt). lia.
        -- apply Hall. auto.
      * destruct Hatt as [E|(o & wt & (Ho & Hwo & Hwt) & E)].
        -- destruct Hatt1 as [E1|(wt & Hwt & E1)]; [left; congruence|].
           right. exists observer, wt. cbn. split; [auto|congruence].
        -- right. exists o, wt. cbn. auto.
      * intros Hno. destruct (outputs_ bo) as [|wt outs] eqn:Houts.
        -- cbn [fold_left] in *. apply Hnone. intros o wt (Ho & Hwo & []).
        -- exfalso. apply (Hno observer wt). cbn. auto.
Qed.

Lemma necessity_of_outputs (g : Game) (ai : DefaultAI) (e : Serial)
    (outs : list WareIndex) :
  forall needed maxp maxneeded needed' maxp' maxneeded',
    foldM
      (fun '(output_is_needed, max_preciousness, max_needed_preciousness) wt =>
         w ← wares ai !! wt;
         let '(output_is_needed, max_needed_preciousness) :=
           if needs_ware g e (Z.of_nat wt) then
             (true,
              if max_needed_preciousness <? preciousness_ w
              then preciousness_ w else max_needed_preciousness)
           else (output_is_needed, max_needed_preciousness) in
         let max_preciousness :=
           if max_preciousness <? preciousness_ w
           then preciousness_ w else max_preciousness in
         Some (output_is_needed, max_preciousness, max_needed_preciousness))
      outs (needed, maxp, maxneeded)
    = Some (needed', maxp', maxneeded') ->
    (needed' = true
     <-> needed = true \/ exists wt, In wt outs /\ needs_ware g e (Z.of_nat wt) = true)
    /\ maxp <= maxp' /\ maxneeded <= maxneeded'
    /\ (maxneeded <= maxp -> maxneeded' <= maxp')
    /\ ((needed = false -> maxneeded = 0) -> needed' = false -> maxneeded' = 0)
    /\ (forall wt w, In wt outs -> wares ai !! wt = Some w ->
                     preciousness_ w <= maxp'
                     /\ (needs_ware g e (Z.of_nat wt) = true ->
                         preciousness_ w <= maxneeded')).
Proof.
  induction outs as [|wt outs IH]; intros needed maxp maxneeded needed' maxp' maxneeded' H.
  - injection H as <- <- <-. split; [|split; [lia|split; [lia|]]].
    + split; [auto|]. intros [E|(wt & [] & _)]. exact E.
    + split; [auto|]. split; [auto|]. intros wt w [].
  - cbn [foldM] in H.
    destruct (wares ai !! wt) as [w|] eqn:Hw; [|discriminate].
    cbn [mbind option_bind] in H.
    destruct (needs_ware g e (Z.of_nat wt)) eqn:Hneed;
      cbn [mbind option_bind] in H; apply IH in H;
      destruct H as (Hiff & Hp & Hn & Hle & Hzero & Hbound).
    + split; [|split; [|split; [|split; [|split]]]].
      * rewrite Hiff. split; [intros _; right; exists wt; cbn; auto|auto].
      * destruct (maxp <? preciousness_ w) eqn:E;
          [apply Z.ltb_lt in E | apply Z.ltb_ge in E]; lia.
      * destruct (maxneeded <? preciousness_ w) eqn:E;
          [apply Z.ltb_lt in E | apply Z.ltb_ge in E]; lia.
      * intros Hmm. apply Hle.
        destruct (maxp <? preciousness_ w) eqn:E1;
          [apply Z.ltb_lt in E1 | apply Z.ltb_ge in E1];
          (destruct (maxneeded <? preciousness_ w) eqn:E2;
           [apply Z.ltb_lt in E2 | apply Z.ltb_ge in E2]); lia.
      * intros _ Hf. exfalso. destruct Hiff as [_ Hiff].
        rewrite Hiff in Hf; [discriminate Hf | left; reflexivity].
      * intros x wx [<-|Hx] Hwx.
        -- rewrite Hw in Hwx. injection Hwx as <-.
           destruct (maxp <? preciousness_ w) eqn:E1;
             [apply Z.ltb_lt in E1 | apply Z.ltb_ge in E1];
             (destruct (maxneeded <? preciousness_ w) eqn:E2;
              [apply Z.ltb_lt in E2 | apply Z.ltb_ge in E2]);
             (split; [lia | intros _; lia]).
        -- apply Hbound; assumption.
    + split; [|split; [|split; [|split; [|split]]]].
      * rewrite Hiff. split.
        -- intros [E|(x & Hx & Hnx)]; [left; exact E|]. right. exists x. cbn. auto.
        -- intros [E|(x & [<-|Hx] & Hnx)]; [left; exact E | congruence |].
           right. exists x. auto.
      * destruct (maxp <? preciousness_ w) eqn:E;
          [apply Z.ltb_lt in E | apply Z.ltb_ge in E]; lia.
      * exact Hn.
      * intros Hmm. apply Hle.
        destruct (maxp <? preciousness_ w) eqn:E1;
          [apply Z.ltb_lt in E1 | apply Z.ltb_ge in E1]; lia.
      * exact Hzero.
      * intros x wx [<-|Hx] Hwx.
        -- rewrite Hw in Hwx. injection Hwx as <-.
           destruct (maxp <? preciousness_ w) eqn:E1;
             [apply Z.ltb_lt in E1 | apply Z.ltb_ge in E1];
             (split; [lia | intros E; congruence]).
        -- apply Hbound; assumption.
Qed.

(** X19. When [check_ware_necessity] returns, [output_is_needed] tells
    whether some economy with a warehouse needs some output of the building;
    [max_preciousness] is at least the preciousness of every output and
    [max_needed_preciousness] that of every needed one, provided an economy
    with a warehouse exists; and [0 <= max_needed_preciousness <=
    max_preciousness], with [max_needed_preciousness = 0] when no output is
    needed. *)
Theorem check_ware_necessity_summary (g : Game) (ai : DefaultAI) (bo : BuildingObserver)
    (needed : bool) (maxp maxneeded : Z) :
  check_ware_necessity g ai bo = Some (needed, maxp, maxneeded) ->
  let counted observer wt :=
    In observer (economies ai) /\ warehouses_empty g (economy observer) = false
    /\ In wt (outputs_ bo) in
  (needed = true
   <-> exists observer wt,
         counted observer wt /\ needs_ware g (economy observer) (Z.of_nat wt) = true)
  /\ 0 <= maxneeded <= maxp
  /\ (needed = false -> maxneeded = 0)
  /\ (forall observer wt w,
        counted observer wt -> wares ai !! wt = Some w ->
        preciousness_ w <= maxp
        /\ (needs_ware g (economy observer) (Z.of_nat wt) = true ->
            preciousness_ w <= maxneeded)).
Proof.
  unfold check_ware_necessity. cbv zeta.
  assert (Hgen : forall ecos needed0 maxp0 maxneeded0,
             foldM
               (fun acc observer =>
                  if warehouses_empty g (economy observer) then Some acc
                  else
                    foldM
                      (fun '(output_is_needed, max_preciousness, max_needed_preciousness)
                           wt =>
                         w ← wares ai !! wt;
                         let '(output_is_needed, max_needed_preciousness) :=
                           if needs_ware g (economy observer) (Z.of_nat wt) then
                             (true,
                              if max_needed_preciousness <? preciousness_ w
                              then preciousness_ w else max_needed_preciousness)
                           else (output_is_needed, max_needed_preciousness) in
                         let max_preciousness :=
                           if max_preciousness <? preciousness_ w
                           then preciousness_ w else max_preciousness in
                         Some (output_is_needed, max_preciousness, max_needed_preciousness))
                      (outputs_ bo) acc)
               ecos (needed0, maxp0, maxneeded0)
             = Some (needed, maxp, maxneeded) ->
             (needed = true
              <-> needed0 = true
                  \/ exists observer wt,
                       (In observer ecos /\ warehouses_empty g (economy observer) = false
                        /\ In wt (outputs_ bo))
                       /\ needs_ware g (economy observer) (Z.of_nat wt) = true)
             /\ maxp0 <= maxp /\ maxneeded0 <= maxneeded
             /\ (maxneeded0 <= maxp0 -> maxneeded <= maxp)
             /\ ((needed0 = false -> maxneeded0 = 0) -> needed = false -> maxneeded = 0)
             /\ (forall observer wt w,
                   In observer ecos /\ warehouses_empty g (economy observer) = false
                   /\ In wt (outputs_ bo) ->
                   wares ai !! wt = Some w ->
                   preciousness_ w <= maxp
                   /\ (needs_ware g (economy observer) (Z.of_nat wt) = true ->
                       preciousness_ w <= maxneeded))).
  { induction ecos as [|observer ecos IH]; intros needed0 maxp0 maxneeded0 H.
    - injection H as <- <- <-. split; [|split; [lia|split; [lia|]]].
      + split; [auto|]. intros [E|(o & wt & ([] & _) & _)]. exact E.
      + split; [auto|]. split; [auto|]. intros o wt w ([] & _).
    - cbn [foldM] in H.
      destruct (warehouses_empty g (economy observer)) eqn:Hw.
      + cbn [mbind option_bind] in H. apply IH in H.
        destruct H as (Hiff & Hp & Hn & Hle & Hzero & Hbound).
        split; [|split; [exact Hp|split; [exact Hn|split; [exact Hle|split; [exact Hzero|]]]]].
        * rewrite Hiff. split.
          -- intros [E|(o & wt & (Ho & Hwo & Hwt) & Hneed)]; [left; exact E|].
             right. exists o, wt. cbn. auto.
          -- intros [E|(o & wt & ([<-|Ho] & Hwo & Hwt) & Hneed)];
               [left; exact E | congruence |].
             right. exists o, wt. auto.
        * intros o wt w ([<-|Ho] & Hwo & Hwt) Hlook; [congruence|].
          apply (Hbound o wt w); auto.
      + match type of H with
        | context [foldM ?f (outputs_ bo) ?acc] =>
            destruct (foldM f (outputs_ bo) acc) as [[[needed1 maxp1] maxneeded1]|] eqn:Hin;
              [|discriminate]
        end.
        cbn [mbind option_bind] in H.
        apply necessity_of_outputs in Hin.
        destruct Hin as (Hiff1 & Hp1 & Hn1 & Hle1 & Hzero1 & Hbound1).
        apply IH in H. destruct H as (Hiff & Hp & Hn & Hle & Hzero & Hbound).
        split; [|split; [lia|split; [lia|split; [auto|split; [auto|]]]]].
        * rewrite Hiff, Hiff1. split.
          -- intros [[E|(wt & Hwt & Hneed)]|(o & wt & (Ho & Hwo & Hwt) & Hneed)].
             ++ left. exact E.
             ++ right. exists observer, wt. cbn. auto.
             ++ right. exists o, wt. cbn. auto.
          -- intros [E|(o & wt & ([<-|Ho] & Hwo & Hwt) & Hneed)].
             ++ left. left. exact E.
             ++ left. right. exists wt. auto.
             ++ right. exists o, wt. auto.
        * intros o wt w ([<-|Ho] & Hwo & Hwt) Hlook.
          -- destruct (Hbound1 wt w Hwt Hlook) as [Hb1 Hb2].
             split; [lia|]. intros Hneed. specialize (Hb2 Hneed). lia.
          -- apply (Hbound o wt w); auto. }
  intros H. apply Hgen in H.
  destruct H as (Hiff & Hp & Hn & Hle & Hzero & Hbound).
  split; [|split; [|split]].
  - rewrite Hiff. split; [intros [E|E]; [discriminate E | exact E] | auto].
  - split; [lia | apply Hle; lia].
  - apply Hzero. reflexivity.
  - exact Hbound.
Qed.

Lemma check_ware_necessity_summary_witness :
  check_ware_necessity depot_game depot_ai two_outputs = Some (true, 2, 1)
  /\ needs_ware depot_game 1%nat 1 = true.
Proof.
  assert (Hrun : check_ware_necessity depot_game depot_ai two_outputs = Some (true, 2, 1))
    by (vm_compute; reflexivity).
  split; [exact Hrun|].
  destruct (check_ware_necessity_summary depot_game depot_ai two_outputs true 2 1 Hrun)
    as ((Hneeded & _) & _).
  destruct (Hneeded eq_refl) as (observer & wt & (Hin & _ & Hwt) & Hneed).
  destruct Hin as [<-|[<-|[]]]; [discriminate Hneed|].
  destruct Hwt as [<-|[<-|[]]]; [discriminate Hneed | exact Hneed].
Defined.

(** ** The border range *)

(** X20. [recalc_with_border_range] never raises a priority, and what it
    takes off for unowned land is the excess over 15 tiles; the division for
    an enemy nearby (by 3 plus the type of the computer player, which is not
    negative) leaves a positive priority non-negative and never touches one
    that is not positive. *)
Theorem recalc_with_border_range_lowers (ai : DefaultAI) (bf : BuildableField) (prio : Z) :
  0 <= type_ ai ->
  let inland := prio - Z.max 0 (unowned_land_nearby_ bf - 15) in
  recalc_with_border_range ai bf prio <= inland <= prio
  /\ (0 < inland -> 0 <= recalc_with_border_range ai bf prio)
  /\ (inland <= 0 \/ enemy_nearby_ bf = false ->
      recalc_with_border_range ai bf prio = inland).
Proof.
  intros Htype. cbv zeta. unfold recalc_with_border_range.
  set (inland := prio - Z.max 0 (unowned_land_nearby_ bf - 15)).
  assert (E : (if 15 <? unowned_land_nearby_ bf
               then prio - (unowned_land_nearby_ bf - 15) else prio) = inland).
  { unfold inland.
    destruct (15 <? unowned_land_nearby_ bf) eqn:H;
      [apply Z.ltb_lt in H | apply Z.ltb_ge in H]; lia. }
  rewrite E.
  assert (Hin : inland <= prio) by (unfold inland; lia).
  destruct (enemy_nearby_ bf); cbn [andb];
    [destruct (0 <? inland) eqn:Hpos; [apply Z.ltb_lt in Hpos | apply Z.ltb_ge in Hpos]|].
  - assert (Hq : 0 <= Z.quot inland (3 + type_ ai) <= inland).
    { split; [apply Z.quot_pos; lia|].
      rewrite Z.quot_div_nonneg by lia.
      apply Z.div_le_upper_bound; [lia|]. nia. }
    split; [lia|]. split; [lia|]. intros [H|H]; [lia | discriminate H].
  - split; [lia|]. split; [lia|]. reflexivity.
  - split; [lia|]. split; [lia|]. reflexivity.
Qed.

Lemma recalc_with_border_range_lowers_witness :
  let bf := set_enemy_nearby_ true (set_unowned_land_nearby_ 20 (plain_field origin)) in
  0 <= type_ fresh_ai
  /\ 0 <= recalc_with_border_range fresh_ai bf 30 <= 25.
Proof.
  cbv zeta. split; [vm_compute; discriminate|].
  destruct (recalc_with_border_range_lowers fresh_ai
              (set_enemy_nearby_ true (set_unowned_land_nearby_ 20 (plain_field origin))) 30)
    as ([Hle _] & Hpos & _); [vm_compute; discriminate|].
  split; [apply Hpos; vm_compute; reflexivity | exact Hle].
Defined.
(** ** Losing a flag *)

Lemma erase_first_present (flag : Serial) (l : list Serial) :
  In flag l -> l ≡ₚ flag :: erase_first (Nat.eqb flag) l.
Proof.
  induction l as [|x l IH]; intros Hin; [destruct Hin|].
  cbn [erase_first]. destruct (Nat.eqb flag x) eqn:E.
  - apply Nat.eqb_eq in E. subst x. reflexivity.
  - apply Nat.eqb_neq in E. destruct Hin as [->|Hin]; [congruence|].
    rewrite (IH Hin) at 1. apply Permutation_swap.
Qed.

Lemma erase_first_absent (flag : Serial) (l : list Serial) :
  ~ In flag l -> erase_first (Nat.eqb flag) l = l.
Proof.
  induction l as [|x l IH]; intros Hin; [reflexivity|].
  cbn [erase_first]. destruct (Nat.eqb flag x) eqn:E.
  - apply Nat.eqb_eq in E. subst x. exfalso. apply Hin. left. reflexivity.
  - rewrite IH; [reflexivity|]. intros H. apply Hin. right. exact H.
Qed.

Lemma existsb_eqb_In (flag : Serial) (l : list Serial) :
  existsb (Nat.eqb flag) l = true <-> In flag l.
Proof.
  rewrite existsb_exists. split.
  - intros (x & Hx & E). apply Nat.eqb_eq in E. subst x. exact Hx.
  - intros H. exists flag. split; [exact H | apply Nat.eqb_refl].
Qed.

Lemma erase_flag_spec (flag : Serial) (ecos : list EconomyObserver) :
  match erase_flag flag ecos with
  | Some ecos' =>
      filed_flags ecos ≡ₚ flag :: filed_flags ecos'
      /\ map economy ecos' = map economy ecos
  | None => ~ In flag (filed_flags ecos)
  end.
Proof.
  induction ecos as [|eco ecos IH]; cbn [erase_flag]; [intros []|].
  unfold filed_flags in *. cbn [map concat].
  destruct (existsb (Nat.eqb flag) (flags eco)) eqn:E.
  - apply existsb_eqb_In in E. cbn [map concat flags set_flags economy]. split; [|reflexivity].
    rewrite (erase_first_present flag (flags eco) E) at 1. reflexivity.
  - assert (Hno : ~ In flag (flags eco)).
    { intros H. apply existsb_eqb_In in H. congruence. }
    destruct (erase_flag flag ecos) as [ecos'|]; cbn [option_map].
    + destruct IH as [Hperm Heco]. cbn [map concat]. split; [|congruence].
      rewrite Hperm. symmetry. apply Permutation_middle.
    + intros H. apply in_app_or in H. destruct H as [H|H]; auto.
Qed.

(** X21. [lose_immovable] of a flag always returns and removes exactly one
    record of the flag: from the economy observers if one of them lists the
    flag, else from the new flags.  All other records, and the observers
    themselves (also one left without a flag), stay; when the flag has no
    record, nothing changes. *)
Theorem lose_immovable_forgets_one_flag (ai : DefaultAI) (flag : Serial) :
  exists ai',
    lose_immovable ai (IsFlag flag) = Some ai'
    /\ map economy (economies ai') = map economy (economies ai)
    /\ (In flag (filed_flags (economies ai)) ->
        filed_flags (economies ai) ≡ₚ flag :: filed_flags (economies ai')
        /\ new_flags ai' = new_flags ai)
    /\ (~ In flag (filed_flags (economies ai)) ->
        economies ai' = economies ai
        /\ (In flag (new_flags ai) -> new_flags ai ≡ₚ flag :: new_flags ai')
        /\ (~ In flag (new_flags ai) -> ai' = ai)).
Proof.
  cbn [lose_immovable].
  pose proof (erase_flag_spec flag (economies ai)) as Hspec.
  destruct (erase_flag flag (economies ai)) as [ecos'|].
  - destruct Hspec as [Hperm Heco].
    eexists. split; [reflexivity|]. cbn [economies new_flags set_economies].
    split; [exact Heco|]. split; [auto|].
    intros Hno. exfalso. apply Hno. rewrite Hperm. left. reflexivity.
  - eexists. split; [reflexivity|]. cbn [economies new_flags set_new_flags].
    split; [reflexivity|]. split; [intros H; contradiction|].
    intros _. split; [reflexivity|]. split.
    + apply erase_first_present.
    + intros Hno. rewrite (erase_first_absent _ _ Hno). destruct ai. reflexivity.
Qed.
(** ** The book-keeping of the buildings *)

Lemma types_kept (obs : list BuildingObserver) (i k : nat) (bo bo' : BuildingObserver) :
  obs !! i = Some bo -> bo_type bo' = bo_type bo ->
  bo_type <$> <[i := bo']> obs !! k = bo_type <$> obs !! k.
Proof.
  intros Hi Hty. destruct (Nat.eq_dec i k) as [<-|Hne].
  - rewrite list_lookup_insert_eq by (eapply lookup_lt_Some; exact Hi).
    rewrite Hi. cbn. congruence.
  - rewrite list_lookup_insert_ne by exact Hne. reflexivity.
Qed.

(** One observer is rewritten without a change of its kind, and the site
    lists change so that the counts agree again. *)
Lemma tallied_transfer (ai ai' : DefaultAI) (i : nat) (bo bo' : BuildingObserver) :
  tallied ai ->
  buildings_ ai !! i = Some bo ->
  bo_type bo' = bo_type bo ->
  buildings_ ai' = <[i := bo']> (buildings_ ai) ->
  (forall x, In x (productionsites ai') ->
             In x (productionsites ai) \/ (ps_bo x = i /\ bo_type bo = PRODUCTIONSITE)) ->
  (forall x, In x (mines_ ai') ->
             In x (mines_ ai) \/ (ps_bo x = i /\ bo_type bo = MINE)) ->
  (forall x, In x (militarysites ai') ->
             In x (militarysites ai) \/ (ms_bo x = i /\ bo_type bo = MILITARYSITE)) ->
  (forall k, k <> i ->
             size (sites_of k (productionsites ai')) = size (sites_of k (productionsites ai))
             /\ size (sites_of k (mines_ ai')) = size (sites_of k (mines_ ai))
             /\ size (militarysites_of k (militarysites ai'))
                = size (militarysites_of k (militarysites ai))) ->
  match bo_type bo with
  | PRODUCTIONSITE =>
      cnt_built_ bo' - cnt_built_ bo
      = size (sites_of i (productionsites ai')) - size (sites_of i (productionsites ai))
  | MINE =>
      cnt_built_ bo' - cnt_built_ bo
      = size (sites_of i (mines_ ai')) - size (sites_of i (mines_ ai))
  | MILITARYSITE =>
      cnt_built_ bo' - cnt_built_ bo
      = size (militarysites_of i (militarysites ai'))
        - size (militarysites_of i (militarysites ai))
  | _ => True
  end ->
  tallied ai'.
Proof.
  intros [(Hp & Hm & Hs) Hcount] Hi Hty Hobs Hinp Hinm Hins Hother Hat.
  assert (Hlook : bo_type <$> buildings_ ai' !! i = Some (bo_type bo)).
  { rewrite Hobs, (types_kept _ i i bo bo' Hi Hty), Hi. reflexivity. }
  split; [split; [|split]|].
  - apply Forall_forall. intros x Hx. apply list_elem_of_In in Hx.
    destruct (Hinp x Hx) as [Hold|[-> <-]]; [|exact Hlook].
    rewrite Hobs, (types_kept _ i _ bo bo' Hi Hty).
    rewrite Forall_forall in Hp. apply Hp. apply list_elem_of_In. exact Hold.
  - apply Forall_forall. intros x Hx. apply list_elem_of_In in Hx.
    destruct (Hinm x Hx) as [Hold|[-> <-]]; [|exact Hlook].
    rewrite Hobs, (types_kept _ i _ bo bo' Hi Hty).
    rewrite Forall_forall in Hm. apply Hm. apply list_elem_of_In. exact Hold.
  - apply Forall_forall. intros x Hx. apply list_elem_of_In in Hx.
    destruct (Hins x Hx) as [Hold|[-> <-]]; [|exact Hlook].
    rewrite Hobs, (types_kept _ i _ bo bo' Hi Hty).
    rewrite Forall_forall in Hs. apply Hs. apply list_elem_of_In. exact Hold.
  - intros k x Hk. rewrite Hobs in Hk.
    destruct (Nat.eq_dec i k) as [<-|Hne].
    + rewrite list_lookup_insert_eq in Hk by (eapply lookup_lt_Some; exact Hi).
      injection Hk as <-. rewrite Hty. specialize (Hcount i bo Hi).
      destruct (bo_type bo); try exact I; lia.
    + rewrite list_lookup_insert_ne in Hk by exact Hne.
      specialize (Hcount k x Hk).
      destruct (Hother k ltac:(congruence)) as (E1 & E2 & E3).
      destruct (bo_type x); try exact I; congruence.
Qed.

Lemma filter_appended {A : Type} (q : A -> bool) (l : list A) (x : A) :
  size (List.filter q (l ++ [x])) = size (List.filter q l) + (if q x then 1 else 0).
Proof.
  unfold size. rewrite List.filter_app, length_app. cbn [List.filter].
  destruct (q x); cbn [length]; lia.
Qed.

Lemma filter_erased {A : Type} (p q : A -> bool) (l : list A) (x : A) :
  List.find p l = Some x ->
  size (List.filter q (erase_first p l)) = size (List.filter q l) - (if q x then 1 else 0).
Proof.
  induction l as [|y l IH]; [discriminate|].
  cbn [List.find erase_first]. destruct (p y) eqn:Hp.
  - intros [= ->]. cbn [List.filter]. unfold size.
    destruct (q x); cbn [length]; lia.
  - intros H. specialize (IH H). cbn [List.filter]. unfold size in *.
    destruct (q y); cbn [length]; lia.
Qed.

Lemma filter_not_found {A : Type} (p : A -> bool) (l : list A) :
  List.find p l = None -> erase_first p l = l.
Proof.
  induction l as [|y l IH]; [reflexivity|].
  cbn [List.find erase_first]. destruct (p y); [discriminate|].
  intros H. rewrite (IH H). reflexivity.
Qed.

Lemma erase_first_In {A : Type} (p : A -> bool) (l : list A) (x : A) :
  In x (erase_first p l) -> In x l.
Proof.
  induction l as [|y l IH]; [intros []|].
  cbn [erase_first]. destruct (p y); [intros H; right; exact H|].
  intros [->|H]; [left; reflexivity | right; apply IH; exact H].
Qed.

Lemma get_building_observer_lookup (ai : DefaultAI) (name : string) (i : nat)
    (bo : BuildingObserver) :
  get_building_observer ai name = Some (i, bo) -> buildings_ ai !! i = Some bo.
Proof.
  unfold get_building_observer. intros H. apply find_observer_spec in H.
  destruct H as [_ H]. rewrite Nat.sub_0_r in H. exact H.
Qed.

Ltac read_books :=
  cbn [cnt_built_ set_cnt_under_construction_ set_cnt_built_ buildings_ productionsites
       mines_ militarysites set_buildings_ set_num_constructionsites_
       set_num_prod_constructionsites set_num_milit_constructionsites set_next_road_due_
       set_productionsites set_mines_ set_militarysites set_wares set_numof_warehouses_
       set_m_buildable_changed set_m_mineable_changed].

(** X22. [gain_building] keeps the books: if every site points to an
    observer of its kind and [cnt_built_] of every observer of production
    sites, mines or military sites is the number of sites that point to it,
    the same holds after a building is gained. *)
Theorem gain_building_keeps_tally (g : Game) (ai ai' : DefaultAI) (b : Building) :
  tallied ai -> gain_building g ai b = Some ai' -> tallied ai'.
Proof.
  intros Htally. unfold gain_building.
  destruct (get_building_observer ai (descr_name (b_descr b))) as [[i bo]|] eqn:Ebo;
    [|discriminate].
  cbn [mbind option_bind].
  pose proof (get_building_observer_lookup _ _ _ _ Ebo) as Hi.
  assert (Hsame : forall k : nat,
             size (sites_of k (productionsites ai)) = size (sites_of k (productionsites ai))
             /\ size (sites_of k (mines_ ai)) = size (sites_of k (mines_ ai))
             /\ size (militarysites_of k (militarysites ai))
                = size (militarysites_of k (militarysites ai))) by auto.
  destruct (bo_type bo) eqn:Ety.
  2:{ (* a construction site *)
    destruct (constructionsite_building b) as [target|]; [|discriminate].
    cbn [mbind option_bind].
    destruct (get_building_observer ai (descr_name target)) as [[j tb]|] eqn:Etb;
      [|discriminate].
    cbn [mbind option_bind].
    pose proof (get_building_observer_lookup _ _ _ _ Etb) as Hj.
    cbn zeta.
    destruct (ObserverType_eqb (bo_type tb) PRODUCTIONSITE);
      destruct (ObserverType_eqb (bo_type tb) MILITARYSITE);
      intros [= <-];
      (eapply (tallied_transfer ai _ j tb); [exact Htally | exact Hj | | reflexivity | ..];
       [reflexivity | read_books; auto | read_books; auto | read_books; auto | intros k _; apply Hsame |];
       read_books; destruct (bo_type tb); try exact I; lia). }
  all: cbn zeta.
  - (* boring *)
    intros [= <-].
    eapply (tallied_transfer ai _ i bo); [exact Htally | exact Hi | | reflexivity | ..];
      [reflexivity | read_books; auto | read_books; auto | read_books; auto | intros k _; apply Hsame |].
    rewrite Ety. exact I.
  - (* production site *)
    destruct (bump_wares 1 bo _) as [ws|]; [|discriminate].
    cbn [mbind option_bind]. intros [= <-].
    eapply (tallied_transfer ai _ i bo); [exact Htally | exact Hi | | reflexivity | ..];
      [reflexivity | | read_books; auto | read_books; auto | |].
    + read_books. intros x Hx. apply in_app_or in Hx. destruct Hx as [Hx|[<-|[]]]; auto.
    + intros k Hk. read_books. unfold sites_of. rewrite filter_appended. cbn [ps_bo].
      replace (Nat.eqb i k) with false by (symmetry; apply Nat.eqb_neq; congruence).
      split; [lia | auto].
    + rewrite Ety. read_books. unfold sites_of. rewrite filter_appended. cbn [ps_bo].
      rewrite Nat.eqb_refl. lia.
  - (* military site *)
    intros [= <-].
    eapply (tallied_transfer ai _ i bo); [exact Htally | exact Hi | | reflexivity | ..];
      [reflexivity | read_books; auto | read_books; auto | | |].
    + read_books. intros x Hx. apply in_app_or in Hx. destruct Hx as [Hx|[<-|[]]]; auto.
    + intros k Hk. read_books. unfold militarysites_of. rewrite filter_appended. cbn [ms_bo].
      replace (Nat.eqb i k) with false by (symmetry; apply Nat.eqb_neq; congruence).
      split; [auto|]. split; [auto | lia].
    + rewrite Ety. read_books. unfold militarysites_of. rewrite filter_appended. cbn [ms_bo].
      rewrite Nat.eqb_refl. lia.
  - (* warehouse *)
    intros [= <-].
    eapply (tallied_transfer ai _ i bo); [exact Htally | exact Hi | | reflexivity | ..];
      [reflexivity | read_books; auto | read_books; auto | read_books; auto | intros k _; apply Hsame |].
    rewrite Ety. exact I.
  - (* training site *)
    intros [= <-].
    eapply (tallied_transfer ai _ i bo); [exact Htally | exact Hi | | reflexivity | ..];
      [reflexivity | read_books; auto | read_books; auto | read_books; auto | intros k _; apply Hsame |].
    rewrite Ety. exact I.
  - (* mine *)
    destruct (bump_wares 1 bo _) as [ws|]; [|discriminate].
    cbn [mbind option_bind]. intros [= <-].
    eapply (tallied_transfer ai _ i bo); [exact Htally | exact Hi | | reflexivity | ..];
      [reflexivity | read_books; auto | | read_books; auto | |].
    + read_books. intros x Hx. apply in_app_or in Hx. destruct Hx as [Hx|[<-|[]]]; auto.
    + intros k Hk. read_books. unfold sites_of. rewrite filter_appended. cbn [ps_bo].
      replace (Nat.eqb i k) with false by (symmetry; apply Nat.eqb_neq; congruence).
      split; [auto|]. split; [lia | auto].
    + rewrite Ety. read_books. unfold sites_of. rewrite filter_appended. cbn [ps_bo].
      rewrite Nat.eqb_refl. lia.
Qed.

(** X23. [lose_building] keeps the books when the building is filed where
    the function looks for it: the first site with its serial number in the
    list of its kind points to the observer of its name.  (For a warehouse,
    a training site or a construction site nothing is asked.) *)
Theorem lose_building_keeps_tally (ai ai' : DefaultAI) (b : Building) :
  tallied ai -> filed_under ai b -> lose_building ai b = Some ai' -> tallied ai'.
Proof.
  intros Htally Hfiled. unfold lose_building.
  destruct (get_building_observer ai (descr_name (b_descr b))) as [[i bo]|] eqn:Ebo;
    [|discriminate].
  cbn [mbind option_bind].
  pose proof (get_building_observer_lookup _ _ _ _ Ebo) as Hi.
  specialize (Hfiled i bo Ebo).
  assert (Hsame : forall k : nat,
             size (sites_of k (productionsites ai)) = size (sites_of k (productionsites ai))
             /\ size (sites_of k (mines_ ai)) = size (sites_of k (mines_ ai))
             /\ size (militarysites_of k (militarysites ai))
                = size (militarysites_of k (militarysites ai))) by auto.
  destruct (bo_type bo) eqn:Ety.
  2:{ (* a construction site *)
    destruct (constructionsite_building b) as [target|]; [|discriminate].
    cbn [mbind option_bind].
    destruct (get_building_observer ai (descr_name target)) as [[j tb]|] eqn:Etb;
      [|discriminate].
    cbn [mbind option_bind].
    pose proof (get_building_observer_lookup _ _ _ _ Etb) as Hj.
    cbn zeta.
    destruct (ObserverType_eqb (bo_type tb) PRODUCTIONSITE);
      destruct (ObserverType_eqb (bo_type tb) MILITARYSITE);
      intros [= <-];
      (eapply (tallied_transfer ai _ j tb); [exact Htally | exact Hj | | reflexivity | ..];
       [reflexivity | read_books; auto | read_books; auto | read_books; auto
        | intros k _; apply Hsame |];
       read_books; destruct (bo_type tb); try exact I; lia). }
  all: cbn zeta.
  - (* boring *)
    intros [= <-].
    eapply (tallied_transfer ai _ i bo); [exact Htally | exact Hi | | reflexivity | ..];
      [reflexivity | read_books; auto | read_books; auto | read_books; auto
       | intros k _; apply Hsame |].
    rewrite Ety. exact I.
  - (* production site *)
    destruct (bump_wares (-1) bo _) as [ws|]; [|discriminate].
    cbn [mbind option_bind]. intros [= <-].
    destruct (List.find _ (productionsites ai)) as [site|] eqn:Hfind; [|discriminate].
    injection Hfiled as Hsite.
    eapply (tallied_transfer ai _ i bo); [exact Htally | exact Hi | | reflexivity | ..];
      [reflexivity | | read_books; auto | read_books; auto | |].
    + read_books. intros x Hx. left. apply erase_first_In in Hx. exact Hx.
    + intros k Hk. read_books. unfold sites_of.
      rewrite (filter_erased _ _ _ _ Hfind), Hsite.
      replace (Nat.eqb i k) with false by (symmetry; apply Nat.eqb_neq; congruence).
      split; [lia | auto].
    + rewrite Ety. read_books. unfold sites_of.
      rewrite (filter_erased _ _ _ _ Hfind), Hsite, Nat.eqb_refl. lia.
  - (* military site *)
    intros [= <-].
    destruct (List.find _ (militarysites ai)) as [site|] eqn:Hfind; [|discriminate].
    injection Hfiled as Hsite.
    eapply (tallied_transfer ai _ i bo); [exact Htally | exact Hi | | reflexivity | ..];
      [reflexivity | read_books; auto | read_books; auto | | |].
    + read_books. intros x Hx. left. apply erase_first_In in Hx. exact Hx.
    + intros k Hk. read_books. unfold militarysites_of.
      rewrite (filter_erased _ _ _ _ Hfind), Hsite.
      replace (Nat.eqb i k) with false by (symmetry; apply Nat.eqb_neq; congruence).
      split; [auto|]. split; [auto | lia].
    + rewrite Ety. read_books. unfold militarysites_of.
      rewrite (filter_erased _ _ _ _ Hfind), Hsite, Nat.eqb_refl. lia.
  - (* warehouse *)
    destruct (0 <? numof_warehouses_ _); [|discriminate].
    cbn [mbind option_bind]. intros [= <-].
    eapply (tallied_transfer ai _ i bo); [exact Htally | exact Hi | | reflexivity | ..];
      [reflexivity | read_books; auto | read_books; auto | read_books; auto
       | intros k _; apply Hsame |].
    rewrite Ety. exact I.
  - (* training site *)
    intros [= <-].
    eapply (tallied_transfer ai _ i bo); [exact Htally | exact Hi | | reflexivity | ..];
      [reflexivity | read_books; auto | read_books; auto | read_books; auto
       | intros k _; apply Hsame |].
    rewrite Ety. exact I.
  - (* mine *)
    destruct (bump_wares (-1) bo _) as [ws|]; [|discriminate].
    cbn [mbind option_bind]. intros [= <-].
    destruct (List.find _ (mines_ ai)) as [site|] eqn:Hfind; [|discriminate].
    injection Hfiled as Hsite.
    eapply (tallied_transfer ai _ i bo); [exact Htally | exact Hi | | reflexivity | ..];
      [reflexivity | read_books; auto | | read_books; auto | |].
    + read_books. intros x Hx. left. apply erase_first_In in Hx. exact Hx.
    + intros k Hk. read_books. unfold sites_of.
      rewrite (filter_erased _ _ _ _ Hfind), Hsite.
      replace (Nat.eqb i k) with false by (symmetry; apply Nat.eqb_neq; congruence).
      split; [auto|]. split; [lia | auto].
    + rewrite Ety. read_books. unfold sites_of.
      rewrite (filter_erased _ _ _ _ Hfind), Hsite, Nat.eqb_refl. lia.
Qed.

Lemma listed_site_counts (k : nat) (site : ProductionSiteObserver)
    (sites : list ProductionSiteObserver) :
  In site sites -> ps_bo site = k -> 0 < size (sites_of k sites).
Proof.
  intros Hin Hk. unfold size, sites_of.
  assert (H : In site (List.filter (fun x => Nat.eqb (ps_bo x) k) sites))
    by (apply filter_In; split; [exact Hin | apply Nat.eqb_eq; exact Hk]).
  destruct (List.filter _ sites); [destruct H | cbn [length]; lia].
Qed.

(** X24. On an engine whose books are kept, [update_productionsite_stats]
    returns, that is, [assert(cnt_built_ > 0)] holds for every production
    site and mine, and the books are still kept afterwards. *)
Theorem update_productionsite_stats_on_tallied (s : Sites) (up : Upkeep) (gametime : Z) :
  tallied (engine up) ->
  exists up',
    update_productionsite_stats s up gametime = Some up' /\ tallied (engine up').
Proof.
  intros [(Hp & Hm & Hs) Hcount].
  assert (Hbuilt : Forall (observed_as_built (buildings_ (engine up)))
                          (productionsites (engine up) ++ mines_ (engine up))).
  { apply Forall_app. split; apply Forall_forall; intros site Hin.
    - rewrite Forall_forall in Hp. specialize (Hp site Hin).
      destruct (buildings_ (engine up) !! ps_bo site) as [bo|] eqn:Hbo; [|discriminate].
      injection Hp as Hty. exists bo. split; [exact Hbo|].
      specialize (Hcount _ _ Hbo). rewrite Hty in Hcount. rewrite Hcount.
      apply (listed_site_counts _ site); [apply list_elem_of_In; exact Hin | reflexivity].
    - rewrite Forall_forall in Hm. specialize (Hm site Hin).
      destruct (buildings_ (engine up) !! ps_bo site) as [bo|] eqn:Hbo; [|discriminate].
      injection Hm as Hty. exists bo. split; [exact Hbo|].
      specialize (Hcount _ _ Hbo). rewrite Hty in Hcount. rewrite Hcount.
      apply (listed_site_counts _ site); [apply list_elem_of_In; exact Hin | reflexivity]. }
  destruct (update_productionsite_stats_spec s up gametime Hbuilt)
    as (up' & Hrun & _ & Hps & Hmines & Hobs & Hmil).
  exists up'. split; [exact Hrun|].
  assert (Hty : forall k, bo_type <$> buildings_ (engine up') !! k
                          = bo_type <$> buildings_ (engine up) !! k).
  { intros k. rewrite Hobs, list_lookup_imap.
    destruct (buildings_ (engine up) !! k); reflexivity. }
  split; [split; [|split]|].
  - rewrite Hps. eapply Forall_impl; [exact Hp|]. intros site H. rewrite Hty. exact H.
  - rewrite Hmines. eapply Forall_impl; [exact Hm|]. intros site H. rewrite Hty. exact H.
  - rewrite Hmil. eapply Forall_impl; [exact Hs|]. intros site H. rewrite Hty. exact H.
  - intros k bo' Hk. rewrite Hobs, list_lookup_imap in Hk.
    destruct (buildings_ (engine up) !! k) as [bo|] eqn:Hbo; [|discriminate].
    injection Hk as <-. specialize (Hcount k bo Hbo).
    rewrite Hps, Hmines, Hmil.
    change (bo_type (averaged s (engine up) k bo)) with (bo_type bo).
    change (cnt_built_ (averaged s (engine up) k bo)) with (cnt_built_ bo).
    exact Hcount.
Qed.

Lemma hamlet_tallied : tallied hamlet_ai.
Proof.
  split; [split; [|split]|].
  - repeat constructor.
  - constructor.
  - constructor.
  - intros [|k] bo Hk; [|discriminate]. injection Hk as <-. reflexivity.
Qed.

Lemma gain_building_keeps_tally_witness :
  exists ai',
    gain_building quiet_game hamlet_ai third_hut = Some ai'
    /\ cnt_built_ <$> buildings_ ai' = [3]
    /\ tallied ai'.
Proof.
  assert (Hrun : exists ai',
             gain_building quiet_game hamlet_ai third_hut = Some ai'
             /\ cnt_built_ <$> buildings_ ai' = [3])
    by (eexists; split; [vm_compute; reflexivity | reflexivity]).
  destruct Hrun as (ai' & Hrun & Hcnt). exists ai'. split; [exact Hrun|].
  split; [exact Hcnt|].
  exact (gain_building_keeps_tally quiet_game hamlet_ai ai' third_hut hamlet_tallied Hrun).
Defined.

Lemma lose_building_keeps_tally_witness :
  exists ai',
    lose_building hamlet_ai second_hut = Some ai'
    /\ cnt_built_ <$> buildings_ ai' = [1]
    /\ productionsites ai' = [some_site 1]
    /\ tallied ai'.
Proof.
  assert (Hrun : exists ai',
             lose_building hamlet_ai second_hut = Some ai'
             /\ cnt_built_ <$> buildings_ ai' = [1]
             /\ productionsites ai' = [some_site 1])
    by (eexists; split; [vm_compute; reflexivity | split; reflexivity]).
  destruct Hrun as (ai' & Hrun & Hcnt & Hps). exists ai'. split; [exact Hrun|].
  split; [exact Hcnt|]. split; [exact Hps|].
  apply (lose_building_keeps_tally hamlet_ai ai' second_hut hamlet_tallied); [|exact Hrun].
  intros i bo Hbo. vm_compute in Hbo. injection Hbo as <- <-. reflexivity.
Defined.

Lemma update_productionsite_stats_on_tallied_witness :
  exists up',
    update_productionsite_stats two_huts_sites (upkeep_of hamlet_ai) 5000 = Some up'
    /\ tallied (engine up').
Proof.
  exact (update_productionsite_stats_on_tallied two_huts_sites (upkeep_of hamlet_ai) 5000
           hamlet_tallied).
Defined.
(** ** The main loop *)

(** *** Who writes [next_road_due_]: of all that [think] calls, nobody *)





















Section ThinkProperties.

Variable scale : Z -> Z -> Z -> Z.
Variable range : Z.
Variable military : bool.
Variable new_BuildableField : Coords -> BuildableField.
Variable new_MineableField : Coords -> MineableField.
Variable road_search : Game -> DefaultAI -> Serial -> Z -> Z -> list Command * bool.
Variable dispensable_road_test : Game -> Serial -> bool.
Variable late_initialization : Game -> Upkeep -> option Upkeep.



End ThinkProperties.

(** ** The influence of a production site on a field *)

Lemma vector_incr_all (ks : list nat) :
  forall v : list Z,
    match foldM vector_incr ks v with
    | Some v' =>
        Forall (fun k => (k < length v)%nat) ks
        /\ length v' = length v
        /\ forall w, v' !! w
                     = (fun n => n + Z.of_nat (count_occ Nat.eq_dec ks w)) <$> v !! w
    | None => Exists (fun k => (length v <= k)%nat) ks
    end.
Proof.
  induction ks as [|k ks IH]; intros v; cbn [foldM].
  - split; [constructor|]. split; [reflexivity|]. intros w. cbn [count_occ].
    destruct (v !! w); cbn; [rewrite Z.add_0_r|]; reflexivity.
  - unfold vector_incr at 1. destruct (v !! k) as [x|] eqn:Hk.
    + specialize (IH (<[k := x + 1]> v)).
      destruct (foldM vector_incr ks (<[k := x + 1]> v)) as [v'|].
      * destruct IH as (Hall & Hlen & Hlook). rewrite length_insert in Hlen, Hall.
        split; [constructor; [eapply lookup_lt_Some; exact Hk | exact Hall]|].
        split; [exact Hlen|].
        intros w. rewrite Hlook. cbn [count_occ].
        destruct (Nat.eq_dec k w) as [->|Hne].
        -- rewrite list_lookup_insert_eq by (eapply lookup_lt_Some; exact Hk).
           rewrite Hk. cbn. f_equal. lia.
        -- rewrite list_lookup_insert_ne by exact Hne. reflexivity.
      * rewrite length_insert in IH. apply Exists_cons_tl. exact IH.
    + apply Exists_cons_hd. apply lookup_ge_None. exact Hk.
Qed.

(** X26. [consider_productionsite_influence] throws exactly when an input
    or an output of the building is no index of the field's vector of
    consumers or producers.  Otherwise the count of nearby consumers of each
    ware rises by the number of times the ware is among the inputs, that of
    nearby producers by the number of times it is among the outputs, and the
    count of space consumers by one exactly for a space consumer that plants
    no trees and is less than 8 away. *)
Theorem consider_productionsite_influence_counts (g : Game) (field : BuildableField)
    (coords : Coords) (bo : BuildingObserver) :
  match consider_productionsite_influence g field coords bo with
  | None =>
      Exists (fun w => (length (consumers_nearby_ field) <= w)%nat) (inputs_ bo)
      \/ Exists (fun w => (length (producers_nearby_ field) <= w)%nat) (outputs_ bo)
  | Some field' =>
      Forall (fun w => (w < length (consumers_nearby_ field))%nat) (inputs_ bo)
      /\ Forall (fun w => (w < length (producers_nearby_ field))%nat) (outputs_ bo)
      /\ (forall w,
            consumers_nearby_ field' !! w
            = (fun n => n + Z.of_nat (count_occ Nat.eq_dec (inputs_ bo) w))
              <$> consumers_nearby_ field !! w)
      /\ (forall w,
            producers_nearby_ field' !! w
            = (fun n => n + Z.of_nat (count_occ Nat.eq_dec (outputs_ bo) w))
              <$> producers_nearby_ field !! w)
      /\ space_consumers_nearby_ field'
         = space_consumers_nearby_ field
           + (if space_consumer_ bo && negb (plants_trees_ bo)
                 && (calc_distance g coords (bf_coords field) <? 8)
              then 1 else 0)
  end.
Proof.
  unfold consider_productionsite_influence. cbn zeta.
  set (near := space_consumer_ bo && negb (plants_trees_ bo)
               && (calc_distance g coords (bf_coords field) <? 8)).
  set (field1 := if near then _ else field).
  assert (H1 : consumers_nearby_ field1 = consumers_nearby_ field
               /\ producers_nearby_ field1 = producers_nearby_ field
               /\ space_consumers_nearby_ field1
                  = space_consumers_nearby_ field + (if near then 1 else 0)).
  { unfold field1. destruct near; cbn; repeat split; lia. }
  destruct H1 as (Hc & Hp & Hs). clearbody field1.
  pose proof (vector_incr_all (inputs_ bo) (consumers_nearby_ field1)) as Hin.
  destruct (foldM vector_incr (inputs_ bo) (consumers_nearby_ field1)) as [cons|];
    cbn [mbind option_bind].
  2:{ left. rewrite <- Hc. exact Hin. }
  cbn [producers_nearby_ set_consumers_nearby_].
  pose proof (vector_incr_all (outputs_ bo) (producers_nearby_ field1)) as Hout.
  destruct (foldM vector_incr (outputs_ bo) (producers_nearby_ field1)) as [prods|];
    cbn [mbind option_bind].
  2:{ right. rewrite <- Hp. exact Hout. }
  destruct Hin as (Hin1 & _ & Hin2), Hout as (Hout1 & _ & Hout2).
  rewrite <- Hc, <- Hp.
  split; [exact Hin1|]. split; [exact Hout1|].
  split; [exact Hin2|]. split; [exact Hout2|]. exact Hs.
Qed.
